(** * skforecast: recursive autoregressive forecasting

    A shallow embedding of [skforecast/ForecasterAutoreg.py] and of the fold
    splitter, the metrics, cross-validation and backtesting of
    [skforecast/model_selection.py], with the properties of the
    specification stated and settled against it.

    Conventions of the embedding.
    - Python integers are [Z]; floor division and modulo are [Z.div] and
      [Z.modulo], which round like Python's [//] and [%].
    - A float is a value of an abstract type [V] with a [nan], the test
      [isnull] behind [Series.isnull], and the two arithmetic operations the
      code uses.  The bootstrap section instantiates [V] with exact rationals
      extended by NaN.
    - Exceptions are results: a function that can raise returns [result];
      methods that assign attributes, allocate arrays or draw random numbers
      run in the monad [Py] over a [World] (attributes of [self], the numpy
      buffers the forecaster owns or allocates, the random source).  A raise
      keeps the world as it is at that point, like a Python exception does.
    - The wrapped regressor is the interface [Regressor]: a model state, [fit]
      and a row-wise [predict]. *)

From Stdlib Require Import ZArith QArith Qcanon Qround String.
From stdpp Require Import prelude strings sorting.
Local Open Scope Z_scope.

(* ================================================================= *)
(** ** Python values and exceptions *)

Inductive exn : Type :=
  | Exception (msg : string)        (* raise Exception(msg) in the source *)
  | ValueError (msg : string)       (* raised by numpy / pandas *)
  | IndexError
  | TypeError (msg : string)
  | AttributeError
  | UnboundLocalError
  | ZeroDivisionError
  | DanglingReference.              (* never raised by Python: a buffer address
                                       that no allocation returned *)

Inductive result (A : Type) : Type :=
  | Ok (a : A)
  | Raise (e : exn).
Arguments Ok {A} a.
Arguments Raise {A} e.

Definition rbind {A B} (r : result A) (k : A -> result B) : result B :=
  match r with
  | Ok a => k a
  | Raise e => Raise e
  end.

Declare Scope result_scope.
Notation "x <- c1 ;; c2" := (rbind c1 (fun x => c2))
  (at level 100, c1 at next level, right associativity) : result_scope.
Delimit Scope result_scope with result.
Local Open Scope result_scope.

Definition is_ok {A} (r : result A) : bool :=
  match r with Ok _ => true | Raise _ => false end.

(** [l[j]] with Python's negative positions; [None] is an IndexError. *)
Definition py_index {A} (l : list A) (j : Z) : option A :=
  let n := Z.of_nat (length l) in
  if 0 <=? j then l !! Z.to_nat j
  else if 0 <=? n + j then l !! Z.to_nat (n + j)
  else None.

(** [l[k:]] with Python's clipping of the start. *)
Definition py_slice_from {A} (l : list A) (k : Z) : list A :=
  let n := Z.of_nat (length l) in
  drop (Z.to_nat (if k <? 0 then Z.max 0 (n + k) else k)) l.

(** [arr[idx]] for an integer array [idx] (numpy fancy indexing, also
    [iloc] with a list of positions): a fresh array, IndexError when a
    position is out of bounds. *)
Fixpoint py_take {A} (l : list A) (idx : list Z) : result (list A) :=
  match idx with
  | [] => Ok []
  | j :: idx' =>
      match py_index l j with
      | None => Raise IndexError
      | Some x => xs <- py_take l idx' ;; Ok (x :: xs)
      end
  end.

(** Python's [range(start, stop)] object (step 1). *)
Record range : Type := Range { start : Z; stop : Z }.

Definition range_to (n : Z) : range := Range 0 n.

Definition range_list (r : range) : list Z :=
  map (fun k => start r + Z.of_nat k) (seq 0 (Z.to_nat (stop r - start r))).

Definition range_len (r : range) : Z := Z.of_nat (length (range_list r)).

(** [max(l)] of a Python sequence of integers; [None] is the ValueError of
    an empty sequence. *)
Definition py_max (l : list Z) : option Z :=
  match l with
  | [] => None
  | x :: l' => Some (fold_left Z.max l' x)
  end.

Definition py_min (l : list Z) : option Z :=
  match l with
  | [] => None
  | x :: l' => Some (fold_left Z.min l' x)
  end.

(* ================================================================= *)
(** ** Floats and the regressor interface *)

Class Float (V : Type) : Type := {
  nan : V;
  isnull : V -> bool;
  fadd : V -> V -> V;
  fsub : V -> V -> V
}.

(** The scikit-learn contract the forecaster relies on: [fit(X, y)] trains
    the model in place, [predict(X)] returns one value per row of [X]. *)
Class Regressor (V M : Type) : Type := {
  reg_fit : M -> list (list V) -> list V -> M;
  reg_predict : M -> list V -> V
}.

(* ================================================================= *)
(** ** pandas objects *)

Inductive label : Type :=
  | IntLabel (z : Z)
  | Timestamp (t : Z).

Inductive Index : Type :=
  | RangeIndex (first last1 : Z)                    (* RangeIndex(first, last1), step 1 *)
  | DatetimeIndex (freq : option Z) (stamps : list Z)
  | OtherIndex (labels : list label).           (* any other pd.Index *)

Global Instance label_eq_dec : EqDecision label.
Proof. solve_decision. Defined.

Inductive index_type : Type := RangeIndexT | DatetimeIndexT | OtherIndexT.

Definition type_of_index (ix : Index) : index_type :=
  match ix with
  | RangeIndex _ _ => RangeIndexT
  | DatetimeIndex _ _ => DatetimeIndexT
  | OtherIndex _ => OtherIndexT
  end.

Definition index_labels (ix : Index) : list label :=
  match ix with
  | RangeIndex a b => map IntLabel (range_list (Range a b))
  | DatetimeIndex _ ts => map Timestamp ts
  | OtherIndex ls => ls
  end.

(** Where [l[k:]] starts in a sequence of [n] elements. *)
Definition slice_start (n k : Z) : Z :=
  if k <? 0 then Z.max 0 (n + k) else Z.min k n.

(** [index[k:]]. *)
Definition index_slice_from (ix : Index) (k : Z) : Index :=
  match ix with
  | RangeIndex a b =>
      let n := Z.max 0 (b - a) in
      RangeIndex (a + slice_start n k) (a + n)
  | DatetimeIndex f ts => DatetimeIndex f (py_slice_from ts k)
  | OtherIndex ls => OtherIndex (py_slice_from ls k)
  end.

Inductive colname : Type :=
  | lag_ (i : Z)                (* f"lag_{i}" *)
  | col (name : string)
  | series_col.                 (* the column a joined Series becomes *)

Global Instance colname_eq_dec : EqDecision colname.
Proof. solve_decision. Defined.

(** [index[[0, -1]]]: first and last label. *)
Definition index_first_last (ix : Index) : result (label * label) :=
  let ls := index_labels ix in
  match py_index ls 0, py_index ls (-1) with
  | Some a, Some b => Ok (a, b)
  | _, _ => Raise IndexError
  end.

(** [y.index.freqstr] or [y.index.step], as [fit] records it. *)
Inductive freq_info : Type :=
  | FreqStr (f : option Z)      (* DatetimeIndex.freqstr *)
  | Step (z : Z).               (* RangeIndex.step *)

Inductive exog_type_t : Type := SeriesT | DataFrameT.

Global Instance exog_type_t_eq_dec : EqDecision exog_type_t.
Proof. solve_decision. Defined.

(** The [lags] argument of the constructor and of [set_lags]. *)
Inductive lags_arg : Type :=
  | LagsInt (n : Z)
  | LagsList (l : list Z)        (* list or range *)
  | LagsArray (l : list Z)       (* 1-D np.ndarray *)
  | LagsOther.

(** np.ndarray values kept as residuals: 1-D data, or only the shape of an
    array of another dimension (its data is never read). *)
Inductive ndarray (V : Type) : Type :=
  | Arr1 (data : list V)
  | ArrND (shape : list nat).
Arguments Arr1 {V} data.
Arguments ArrND {V} shape.

(** [len(a)]; a 0-d array has no length. *)
Definition nd_len {V} (a : ndarray V) : result Z :=
  match a with
  | Arr1 d => Ok (Z.of_nat (length d))
  | ArrND (n :: _) => Ok (Z.of_nat n)
  | ArrND [] => Raise (TypeError "len() of unsized object")
  end.

Section Model.
Context {V M : Type} `{Float V} `{Regressor V M}.

Record Series : Type := mkSeries { s_index : Index; s_values : list V }.

Record DataFrame : Type := mkDataFrame {
  df_index : Index;
  df_columns : list colname;
  df_rows : list (list V)
}.

(** What a caller can pass where the source expects data. *)
Inductive pyobj : Type :=
  | PySeries (s : Series)
  | PyDataFrame (d : DataFrame)
  | PyNdarray (a : list V)               (* 1-D np.ndarray *)
  | PyNdarrayND (shape : list nat)       (* np.ndarray with ndim <> 1 *)
  | PyOther (len : option nat).          (* anything else: a list, a str, an
                                            int (no [len]), ... *)

(** [len(o)]; an object without [__len__] raises TypeError. *)
Definition py_len (o : pyobj) : result Z :=
  match o with
  | PySeries s => Ok (Z.of_nat (length (s_values s)))
  | PyDataFrame d => Ok (Z.of_nat (length (df_rows d)))
  | PyNdarray a => Ok (Z.of_nat (length a))
  | PyNdarrayND sh => nd_len (@ArrND V sh)
  | PyOther (Some n) => Ok (Z.of_nat n)
  | PyOther None => Raise (TypeError "object has no len()")
  end.

Definition is_series_or_1d (o : pyobj) : bool :=
  match o with
  | PySeries _ | PyNdarray _ => true
  | _ => false
  end.

(* ================================================================= *)
(** ** model_selection.time_series_spliter *)

Definition split : Type := (range * range)%type.

(** The body of [for i in range(folds)], one [yield] per element of the
    result; [break] ends the list. *)
Fixpoint spliter_loop (leny initial_train_size steps folds remainder : Z)
    (allow_incomplete_fold : bool) (idxs : list Z) : list split :=
  match idxs with
  | [] => []
  | i :: idxs' =>
      if i <? folds - 1 then
        let train_end := initial_train_size + i * steps in
        (range_to train_end, Range train_end (train_end + steps))
          :: spliter_loop leny initial_train_size steps folds remainder
               allow_incomplete_fold idxs'
      else if negb (remainder =? 0) && allow_incomplete_fold then
        let train_end := initial_train_size + i * steps in
        (range_to train_end, Range train_end leny)
          :: spliter_loop leny initial_train_size steps folds remainder
               allow_incomplete_fold idxs'
      else []
  end.

(** The generator, as the list of the pairs it yields.  [verbose] only
    prints and is left out. *)
Definition time_series_spliter (y : pyobj) (initial_train_size steps : Z)
    (allow_incomplete_fold : bool) : result (list split) :=
  match y with
  | PySeries _ | PyNdarray _ =>
      leny <- py_len y ;;
      if leny <? initial_train_size then
        Raise (Exception "`initial_train_size` must be smaller than lenght of `y`.")
      else if steps =? 0 then Raise ZeroDivisionError
      else
        let folds := (leny - initial_train_size) / steps + 1 in
        let remainder := (leny - initial_train_size) mod steps in
        if folds =? 1 then Ok []
        else Ok (spliter_loop leny initial_train_size steps folds remainder
                   allow_incomplete_fold
                   (range_list (range_to folds)))
  | PyNdarrayND _ =>
      Raise (Exception "`y` must be `1D np.ndarray` o `pd.Series`, got `np.ndarray` with other dimensions.")
  | _ => Raise (Exception "`y` must be `1D np.ndarray` o `pd.Series`.")
  end.

(** A test range with fewer than [steps] positions. *)
Definition short_fold (steps : Z) (f : split) : Prop :=
  stop (snd f) - start (snd f) < steps.

(* ================================================================= *)
(** ** ForecasterAutoreg: attributes *)

(** The attributes of a forecaster.  The stored [last_window] is a Series
    whose values live in a buffer of the heap (see [World]): [predict] reads
    that very buffer through [to_numpy()]. *)
Record Forecaster : Type := mkForecaster {
  regressor : M;
  y_index_type : option index_type;
  y_index_freq : option freq_info;
  training_range : option (label * label);
  last_window : option (Index * nat);
  included_exog : bool;
  exog_type : option exog_type_t;
  exog_col_names : option (list colname);
  in_sample_residuals : option (list V);
  out_sample_residuals : option (ndarray V);
  fitted : bool;
  lags : list Z;
  max_lag : Z;
  window_size : Z
}.

(** Attribute assignments [self.x = v]. *)
Definition with_regressor (v : M) (s : Forecaster) : Forecaster :=
  mkForecaster v (y_index_type s) (y_index_freq s) (training_range s)
    (last_window s) (included_exog s) (exog_type s) (exog_col_names s)
    (in_sample_residuals s) (out_sample_residuals s) (fitted s) (lags s)
    (max_lag s) (window_size s).
Definition with_y_index_type (v : option index_type) (s : Forecaster) : Forecaster :=
  mkForecaster (regressor s) v (y_index_freq s) (training_range s)
    (last_window s) (included_exog s) (exog_type s) (exog_col_names s)
    (in_sample_residuals s) (out_sample_residuals s) (fitted s) (lags s)
    (max_lag s) (window_size s).
Definition with_y_index_freq (v : option freq_info) (s : Forecaster) : Forecaster :=
  mkForecaster (regressor s) (y_index_type s) v (training_range s)
    (last_window s) (included_exog s) (exog_type s) (exog_col_names s)
    (in_sample_residuals s) (out_sample_residuals s) (fitted s) (lags s)
    (max_lag s) (window_size s).
Definition with_training_range (v : option (label * label)) (s : Forecaster) : Forecaster :=
  mkForecaster (regressor s) (y_index_type s) (y_index_freq s) v
    (last_window s) (included_exog s) (exog_type s) (exog_col_names s)
    (in_sample_residuals s) (out_sample_residuals s) (fitted s) (lags s)
    (max_lag s) (window_size s).
Definition with_last_window (v : option (Index * nat)) (s : Forecaster) : Forecaster :=
  mkForecaster (regressor s) (y_index_type s) (y_index_freq s) (training_range s)
    v (included_exog s) (exog_type s) (exog_col_names s)
    (in_sample_residuals s) (out_sample_residuals s) (fitted s) (lags s)
    (max_lag s) (window_size s).
Definition with_included_exog (v : bool) (s : Forecaster) : Forecaster :=
  mkForecaster (regressor s) (y_index_type s) (y_index_freq s) (training_range s)
    (last_window s) v (exog_type s) (exog_col_names s)
    (in_sample_residuals s) (out_sample_residuals s) (fitted s) (lags s)
    (max_lag s) (window_size s).
Definition with_exog_type (v : option exog_type_t) (s : Forecaster) : Forecaster :=
  mkForecaster (regressor s) (y_index_type s) (y_index_freq s) (training_range s)
    (last_window s) (included_exog s) v (exog_col_names s)
    (in_sample_residuals s) (out_sample_residuals s) (fitted s) (lags s)
    (max_lag s) (window_size s).
Definition with_exog_col_names (v : option (list colname)) (s : Forecaster) : Forecaster :=
  mkForecaster (regressor s) (y_index_type s) (y_index_freq s) (training_range s)
    (last_window s) (included_exog s) (exog_type s) v
    (in_sample_residuals s) (out_sample_residuals s) (fitted s) (lags s)
    (max_lag s) (window_size s).
Definition with_in_sample_residuals (v : option (list V)) (s : Forecaster) : Forecaster :=
  mkForecaster (regressor s) (y_index_type s) (y_index_freq s) (training_range s)
    (last_window s) (included_exog s) (exog_type s) (exog_col_names s)
    v (out_sample_residuals s) (fitted s) (lags s)
    (max_lag s) (window_size s).
Definition with_out_sample_residuals (v : option (ndarray V)) (s : Forecaster) : Forecaster :=
  mkForecaster (regressor s) (y_index_type s) (y_index_freq s) (training_range s)
    (last_window s) (included_exog s) (exog_type s) (exog_col_names s)
    (in_sample_residuals s) v (fitted s) (lags s)
    (max_lag s) (window_size s).
Definition with_fitted (v : bool) (s : Forecaster) : Forecaster :=
  mkForecaster (regressor s) (y_index_type s) (y_index_freq s) (training_range s)
    (last_window s) (included_exog s) (exog_type s) (exog_col_names s)
    (in_sample_residuals s) (out_sample_residuals s) v (lags s)
    (max_lag s) (window_size s).
Definition with_lags (v : list Z) (s : Forecaster) : Forecaster :=
  mkForecaster (regressor s) (y_index_type s) (y_index_freq s) (training_range s)
    (last_window s) (included_exog s) (exog_type s) (exog_col_names s)
    (in_sample_residuals s) (out_sample_residuals s) (fitted s) v
    (max_lag s) (window_size s).
Definition with_max_lag (v : Z) (s : Forecaster) : Forecaster :=
  mkForecaster (regressor s) (y_index_type s) (y_index_freq s) (training_range s)
    (last_window s) (included_exog s) (exog_type s) (exog_col_names s)
    (in_sample_residuals s) (out_sample_residuals s) (fitted s) (lags s)
    v (window_size s).
Definition with_window_size (v : Z) (s : Forecaster) : Forecaster :=
  mkForecaster (regressor s) (y_index_type s) (y_index_freq s) (training_range s)
    (last_window s) (included_exog s) (exog_type s) (exog_col_names s)
    (in_sample_residuals s) (out_sample_residuals s) (fitted s) (lags s)
    (max_lag s) v.

(** The attributes [self.lags] and [self.last_window], for the methods
    whose parameter has the same name. *)
Abbreviation self_lags := lags (only parsing).
Abbreviation self_last_window := last_window (only parsing).

(* ================================================================= *)
(** ** ForecasterAutoreg: constructor and read-only helpers *)

(** The block shared by [__init__] and [set_lags]: the two guards on the
    smallest lag, then the conversion to an array. *)
Definition lags_of_arg (lags : lags_arg) : result (list Z) :=
  match lags with
  | LagsInt n =>
      if n <? 1 then Raise (Exception "min value of lags allowed is 1")
      else Ok (map (fun k => k + 1) (range_list (range_to n)))   (* np.arange(lags) + 1 *)
  | LagsList l | LagsArray l =>
      match py_min l with
      | None => Raise (ValueError "min() arg is an empty sequence")
      | Some m =>
          if m <? 1 then Raise (Exception "min value of lags allowed is 1")
          else Ok l
      end
  | LagsOther =>
      Raise (Exception "`lags` argument must be `int`, `1D np.ndarray`, `range` or `list`.")
  end.

Definition py_max_lags (l : list Z) : result Z :=
  match py_max l with
  | Some m => Ok m
  | None => Raise (ValueError "max() arg is an empty sequence")
  end.

(** [ForecasterAutoreg(regressor, lags)]. *)
Definition __init__ (regressor : M) (lags : lags_arg) : result Forecaster :=
  l <- lags_of_arg lags ;;
  m <- py_max_lags l ;;
  Ok (mkForecaster regressor None None None None false None None None None
        false l m m).

Definition has_null (vs : list V) : bool := existsb isnull vs.

(** [_check_y]: the Series behind [y] when the checks pass (the warning
    about a DatetimeIndex without frequency is not an effect we track). *)
Definition _check_y (y : pyobj) : result Series :=
  match y with
  | PySeries s =>
      if has_null (s_values s) then Raise (Exception "`y` has missing values.")
      else Ok s
  | _ => Raise (Exception "`y` must be a pandas Series.")
  end.

Definition _check_last_window (last_window : pyobj) : result Series :=
  match last_window with
  | PySeries s =>
      if has_null (s_values s)
      then Raise (Exception "`last_window` has missing values.")
      else Ok s
  | _ => Raise (Exception "`last_window` must be a pandas Series.")
  end.

Definition has_freq (ix : Index) : bool :=
  match ix with
  | DatetimeIndex (Some _) _ => true
  | _ => false
  end.

(** [_preproces_y]: the Series itself when it has a DatetimeIndex with a
    frequency, else a copy indexed by [RangeIndex(0, len(y))]. *)
Definition _preproces_y (y : Series) : Series :=
  if has_freq (s_index y) then y
  else mkSeries (RangeIndex 0 (Z.of_nat (length (s_values y)))) (s_values y).

(** An exogenous argument that passed [_check_exog]. *)
Inductive Exog : Type :=
  | ExogSeries (s : Series)
  | ExogDataFrame (d : DataFrame).

Definition type_of_exog (e : Exog) : exog_type_t :=
  match e with ExogSeries _ => SeriesT | ExogDataFrame _ => DataFrameT end.

Definition exog_index (e : Exog) : Index :=
  match e with ExogSeries s => s_index s | ExogDataFrame d => df_index d end.

Definition exog_len (e : Exog) : nat :=
  match e with
  | ExogSeries s => length (s_values s)
  | ExogDataFrame d => length (df_rows d)
  end.

(** The rows of [exog], a Series being one column. *)
Definition exog_rows (e : Exog) : list (list V) :=
  match e with
  | ExogSeries s => map (fun v => [v]) (s_values s)
  | ExogDataFrame d => df_rows d
  end.

Definition exog_columns (e : Exog) : list colname :=
  match e with
  | ExogSeries _ => [series_col]
  | ExogDataFrame d => df_columns d
  end.

(** [_check_exog(exog, ref_type, ref_col_names)]. *)
Definition _check_exog (exog : pyobj) (ref_type : option exog_type_t)
    (ref_col_names : option (list colname)) : result Exog :=
  e <- match exog with
       | PySeries s => Ok (ExogSeries s)
       | PyDataFrame d => Ok (ExogDataFrame d)
       | _ => Raise (Exception "`exog` must be `pd.Series` or `pd.DataFrame`.")
       end ;;
  _ <- match ref_type with
       | Some t =>
           if bool_decide (type_of_exog e = t) then Ok tt
           else Raise (Exception "Expected type of `exog` differs.")
       | None => Ok tt
       end ;;
  match ref_col_names, e with
  | Some names, ExogDataFrame d =>
      if forallb (fun c => bool_decide (c ∈ names)) (df_columns d) then Ok e
      else Raise (Exception "Missing columns in `exog`.")
  | _, _ => Ok e
  end.

Definition _preproces_exog (exog : Exog) : Exog :=
  if has_freq (exog_index exog) then exog
  else
    let ix := RangeIndex 0 (Z.of_nat (exog_len exog)) in
    match exog with
    | ExogSeries s => ExogSeries (mkSeries ix (s_values s))
    | ExogDataFrame d => ExogDataFrame (mkDataFrame ix (df_columns d) (df_rows d))
    end.

(** [_check_aligment_y_exog]: [(exog.index[:len(y)] == y.index).all()]; the
    comparison of two indexes of different lengths is pandas' ValueError. *)
Definition _check_aligment_y_exog (y : Series) (exog : option Exog) : result unit :=
  match exog with
  | None => Ok tt
  | Some e =>
      let le := take (length (s_values y)) (index_labels (exog_index e)) in
      let ly := index_labels (s_index y) in
      if negb (length le =? length ly)%nat then Raise (ValueError "Lengths must match to compare")
      else if bool_decide (le = ly) then Ok tt
      else Raise (Exception "`y` and `exog` must have same index.")
  end.

(** [_expand_index(index, steps)] for the index of a Series.  The
    arguments of [pd.date_range] are evaluated first: [index[-1]], then
    [index[-1] + index.freq].  [pd.date_range] refuses a negative number
    of periods (pandas' message names the start and the periods); a
    [RangeIndex] whose stop is before its start is the empty one.  The
    new RangeIndex has the step 1, like every RangeIndex here. *)
Definition _expand_index (index : Index) (steps : Z) : result Index :=
  match index with
  | DatetimeIndex f ts =>
      match py_index ts (-1), f with
      | None, _ => Raise IndexError
      | Some _, None => Raise (TypeError "unsupported operand: Timestamp + None")
      | Some t, Some f =>
          if steps <? 0
          then Raise (ValueError "Cannot generate range with start and periods")
          else
            Ok (DatetimeIndex (Some f)
                  (map (fun k => t + f + k * f) (range_list (range_to steps))))
      end
  | RangeIndex a b =>
      match py_index (range_list (Range a b)) (-1) with
      | None => Raise IndexError
      | Some t => Ok (RangeIndex (t + 1) (t + 1 + steps))
      end
  | OtherIndex _ => Raise UnboundLocalError
  end.

(* ================================================================= *)
(** ** ForecasterAutoreg._create_lags and _create_train_X_y *)

(** [np.full(shape, np.nan)]; a negative dimension is numpy's ValueError. *)
Definition np_full1 (n : Z) : result (list V) :=
  if n <? 0 then Raise (ValueError "negative dimensions are not allowed")
  else Ok (repeat nan (Z.to_nat n)).

Definition np_full2 (nrows ncols : Z) : result (list (list V)) :=
  if (nrows <? 0) || (ncols <? 0)
  then Raise (ValueError "negative dimensions are not allowed")
  else Ok (repeat (repeat nan (Z.to_nat ncols)) (Z.to_nat nrows)).

(** [obj.iloc[i] = x]: positional assignment, never enlarging. *)
Definition iloc_set {A} (l : list A) (i : Z) (x : A) : result (list A) :=
  let n := Z.of_nat (length l) in
  if (0 <=? i) && (i <? n) then Ok (<[Z.to_nat i := x]> l)
  else if (i <? 0) && (0 <=? n + i) then Ok (<[Z.to_nat (n + i) := x]> l)
  else Raise IndexError.

Fixpoint result_mapM {A B} (f : A -> result B) (l : list A) : result (list B) :=
  match l with
  | [] => Ok []
  | a :: l' => b <- f a ;; bs <- result_mapM f l' ;; Ok (b :: bs)
  end.

(** The body of [for i in range(n_splits)]: row [i] of [X_data] receives
    [y.iloc[i : max_lag + i]] and [y_data.iloc[i]] receives
    [y.iloc[max_lag + i]].  Both assignments are positional; the row
    assigned must have the width of the table. *)
Fixpoint create_lags_loop (max_lag : Z) (y : list V) (idxs : list Z)
    (X_data : list (list V)) (y_data : list V)
    : result (list (list V) * list V) :=
  match idxs with
  | [] => Ok (X_data, y_data)
  | i :: idxs' =>
      let X_index := range_list (Range i (max_lag + i)) in
      let y_index := [max_lag + i] in
      row <- py_take y X_index ;;
      _ <- (if bool_decide (Z.of_nat (length row) = max_lag) then Ok tt
            else Raise (ValueError "cannot set a row with mismatched columns")) ;;
      X_data' <- iloc_set X_data i row ;;
      tgt <- py_take y y_index ;;
      y_data' <- match tgt with
                 | [v] => iloc_set y_data i v
                 | _ => Raise (ValueError "setting an array element with a sequence")
                 end ;;
      create_lags_loop max_lag y idxs' X_data' y_data'
  end.

(** [_create_lags(self, y)].  [pd.DataFrame(data, columns, index)] refuses
    data whose width differs from the number of column names: the data has
    [max_lag] columns, the names are one per lag. *)
Definition _create_lags (self : Forecaster) (y : Series)
    : result (DataFrame * Series) :=
  let n_splits := Z.of_nat (length (s_values y)) - max_lag self in
  data <- np_full2 n_splits (max_lag self) ;;
  let columns := map lag_ (reverse (lags self)) in
  let index := index_slice_from (s_index y) (max_lag self) in
  _ <- (if bool_decide (Z.of_nat (length columns) = max_lag self) then Ok tt
        else Raise (ValueError "Shape of passed values differs from the shape the indices imply")) ;;
  y_data <- np_full1 n_splits ;;
  filled <- create_lags_loop (max_lag self) (s_values y)
              (range_list (range_to n_splits)) data y_data ;;
  let neg_lags := map Z.opp (lags self) in
  cols <- py_take columns neg_lags ;;                     (* X_data.iloc[:, -self.lags] *)
  rows <- result_mapM (fun r => py_take r neg_lags) (fst filled) ;;
  Ok (mkDataFrame index cols rows, mkSeries index (snd filled)).

(** The full [max_lag]-wide table [_create_lags] fills before it selects
    the columns of the configured lags. *)
Definition lag_window_table (self : Forecaster) (y : Series)
    : result (list (list V)) :=
  let n_splits := Z.of_nat (length (s_values y)) - max_lag self in
  data <- np_full2 n_splits (max_lag self) ;;
  y_data <- np_full1 n_splits ;;
  filled <- create_lags_loop (max_lag self) (s_values y)
              (range_list (range_to n_splits)) data y_data ;;
  Ok (fst filled).

Definition exog_iloc_from (e : Exog) (k : Z) : DataFrame :=
  mkDataFrame (index_slice_from (exog_index e) k) (exog_columns e)
    (py_slice_from (exog_rows e) k).

Definition lookup_row (E : DataFrame) (l : label) : option (list V) :=
  match list_find (fun x => x = l) (index_labels (df_index E)) with
  | Some (i, _) => df_rows E !! i
  | None => None
  end.

(** [pd.concat([X, E], axis=1, join='inner')] for tables whose labels are
    unique (here both indexes are a RangeIndex or a DatetimeIndex with a
    frequency): the rows of [X] whose label [E] has, widened by [E]'s row. *)
Definition pd_concat_inner (X E : DataFrame) : DataFrame :=
  let joined :=
    omap (fun lr : label * list V =>
            match lookup_row E (fst lr) with
            | Some er => Some (fst lr, snd lr ++ er)
            | None => None
            end)
         (zip (index_labels (df_index X)) (df_rows X)) in
  mkDataFrame (OtherIndex (map fst joined)) (df_columns X ++ df_columns E)
    (map snd joined).

Definition _create_train_X_y (self : Forecaster) (y : Series)
    (exog : option Exog) : result (DataFrame * Series) :=
  Xy <- _create_lags self y ;;
  match exog with
  | None => Ok Xy
  | Some e =>
      (* the first [max_lag] positions of exog are not in X_train *)
      Ok (pd_concat_inner (fst Xy) (exog_iloc_from e (max_lag self)), snd Xy)
  end.

(* ================================================================= *)
(** ** The world of a forecaster and the monad of its methods *)

(** [heap]: the numpy buffers of Series values, addressed by position; an
    allocation appends.  [entropy] is numpy's global random generator, as
    the sequence of its raw draws; [drawn] counts the draws consumed. *)
Record World : Type := mkWorld {
  self_ : Forecaster;
  heap : list (list V);
  entropy : nat -> nat;
  drawn : nat
}.

Definition Py (A : Type) : Type := World -> World * result A.

Definition ret {A} (a : A) : Py A := fun w => (w, Ok a).

Definition raise {A} (e : exn) : Py A := fun w => (w, Raise e).

Definition bind {A B} (c : Py A) (k : A -> Py B) : Py B :=
  fun w =>
    match c w with
    | (w', Ok a) => k a w'
    | (w', Raise e) => (w', Raise e)
    end.

Definition lift {A} (r : result A) : Py A := fun w => (w, r).

Definition get_self : Py Forecaster := fun w => (w, Ok (self_ w)).

(** [self.x = v], with [f] the matching [with_x v]. *)
Definition assign (f : Forecaster -> Forecaster) : Py unit :=
  fun w => (mkWorld (f (self_ w)) (heap w) (entropy w) (drawn w), Ok tt).

(** A new array holding [vs]; its address is returned. *)
Definition alloc (vs : list V) : Py nat :=
  fun w => (mkWorld (self_ w) (heap w ++ [vs]) (entropy w) (drawn w),
            Ok (length (heap w))).

(** The values of the array at [a]. *)
Definition load (a : nat) : Py (list V) :=
  fun w => (w, match heap w !! a with
               | Some vs => Ok vs
               | None => Raise DanglingReference
               end).

(** [arr[i] = v] in place ([0 <= i]); IndexError out of bounds. *)
Definition store (a : nat) (i : Z) (v : V) : Py unit :=
  fun w =>
    match heap w !! a with
    | None => (w, Raise DanglingReference)
    | Some vs =>
        if (0 <=? i) && (i <? Z.of_nat (length vs)) then
          (mkWorld (self_ w) (<[a := <[Z.to_nat i := v]> vs]> (heap w))
             (entropy w) (drawn w), Ok tt)
        else (w, Raise IndexError)
    end.

(** One raw draw of the random generator. *)
Definition draw : Py nat :=
  fun w => (mkWorld (self_ w) (heap w) (entropy w) (S (drawn w)),
            Ok (entropy w (drawn w))).

Declare Scope py_scope.
Notation "x <- c1 ;; c2" := (bind c1 (fun x => c2))
  (at level 100, c1 at next level, right associativity) : py_scope.
Local Open Scope py_scope.

(** [np.random.choice(a, size, replace=True)]: [size] independent draws. *)
Fixpoint choice_with_replacement (a : list V) (size : nat) : Py (list V) :=
  match size with
  | O => ret []
  | S k =>
      j <- draw ;;
      match a !! (j mod length a)%nat with
      | None => raise (ValueError "'a' cannot be empty unless no samples are taken")
      | Some v => rest <- choice_with_replacement a k ;; ret (v :: rest)
      end
  end.

(** [np.random.choice(a, size, replace=False)]: each draw takes one value
    out of the pool. *)
Fixpoint choice_without_replacement (pool : list V) (size : nat) : Py (list V) :=
  match size with
  | O => ret []
  | S k =>
      j <- draw ;;
      let i := (j mod length pool)%nat in
      match pool !! i with
      | None => raise (ValueError "Cannot take a larger sample than population when 'replace=False'")
      | Some v => rest <- choice_without_replacement (delete i pool) k ;; ret (v :: rest)
      end
  end.

Definition np_random_choice (a : list V) (size : Z) (replace : bool) : Py (list V) :=
  if size <? 0 then raise (ValueError "negative dimensions are not allowed")
  else if replace then choice_with_replacement a (Z.to_nat size)
  else choice_without_replacement a (Z.to_nat size).

(* ================================================================= *)
(** ** ForecasterAutoreg.fit *)

Definition index_freq_info (ix : Index) : result freq_info :=
  match ix with
  | DatetimeIndex f _ => Ok (FreqStr f)          (* y.index.freqstr *)
  | RangeIndex _ _ => Ok (Step 1)                (* y.index.step *)
  | OtherIndex _ => Raise AttributeError
  end.

(** [y_train - predictions]: a Series minus an array of the same length. *)
Definition series_sub (y : list V) (p : list V) : result (list V) :=
  if bool_decide (length y = length p) then Ok (zip_with fsub y p)
  else Raise (ValueError "operands could not be broadcast together").

(** The [if exog is not None:] block of [fit]. *)
Definition fit_exog (leny : Z) (exog : option pyobj) : Py (option Exog) :=
  match exog with
  | None => ret None
  | Some e =>
      le <- lift (py_len e) ;;
      if negb (le =? leny) then
        raise (Exception "`exog` must have same number of samples as `y`.")
      else
        e <- lift (_check_exog e None None) ;;
        let e := _preproces_exog e in
        _ <- assign (with_exog_type (Some (type_of_exog e))) ;;
        _ <- assign (with_included_exog true) ;;
        _ <- match e with
             | ExogDataFrame d => assign (with_exog_col_names (Some (df_columns d)))
             | ExogSeries _ => ret tt
             end ;;
        ret (Some e)
  end.

Definition fit (y : pyobj) (exog : option pyobj) : Py unit :=
  (* Reset values in case the forecaster has already been fitted. *)
  _ <- assign (with_y_index_type None) ;;
  _ <- assign (with_y_index_freq None) ;;
  _ <- assign (with_last_window None) ;;
  _ <- assign (with_included_exog false) ;;
  _ <- assign (with_exog_type None) ;;
  _ <- assign (with_exog_col_names None) ;;
  _ <- assign (with_in_sample_residuals None) ;;
  _ <- assign (with_out_sample_residuals None) ;;
  _ <- assign (with_fitted false) ;;
  _ <- assign (with_training_range None) ;;
  y <- lift (_check_y y) ;;
  let y := _preproces_y y in
  _ <- assign (with_y_index_type (Some (type_of_index (s_index y)))) ;;
  tr <- lift (index_first_last (s_index y)) ;;
  _ <- assign (with_training_range (Some tr)) ;;
  fr <- lift (index_freq_info (s_index y)) ;;
  _ <- assign (with_y_index_freq (Some fr)) ;;
  exog <- fit_exog (Z.of_nat (length (s_values y))) exog ;;
  _ <- lift (_check_aligment_y_exog y exog) ;;
  s <- get_self ;;
  Xy <- lift (_create_train_X_y s y exog) ;;
  let X_train := fst Xy in
  let y_train := snd Xy in
  _ <- assign (fun s => with_regressor
                 (reg_fit (regressor s) (df_rows X_train) (s_values y_train)) s) ;;
  _ <- assign (with_fitted true) ;;
  s <- get_self ;;
  residuals <- lift (series_sub (s_values y_train)
                       (map (reg_predict (regressor s)) (df_rows X_train))) ;;
  residuals <- (if 1000 <? Z.of_nat (length residuals)
                then np_random_choice residuals 1000 false
                     (* Only up to 1000 residuals are stored *)
                else ret residuals) ;;
  _ <- assign (with_in_sample_residuals (Some residuals)) ;;
  s <- get_self ;;
  (* y_train.iloc[-self.max_lag:].copy() *)
  a <- alloc (py_slice_from (s_values y_train) (- max_lag s)) ;;
  assign (with_last_window
            (Some (index_slice_from (s_index y_train) (- max_lag s), a))).

(* ================================================================= *)
(** ** ForecasterAutoreg.predict *)

(** The body of [for i in range(steps)].  [last_window_values] and
    [predictions] are addresses: the first is at the start the buffer of the
    window itself ([to_numpy()] does not copy), and is rebound to the fresh
    array [np.append] returns; the second is written in place.  [exog] is
    [None] whenever the loop is reached (see [predict]). *)
Fixpoint predict_loop (idxs : list Z) (last_window_values predictions : nat)
    : Py unit :=
  match idxs with
  | [] => ret tt
  | i :: idxs' =>
      s <- get_self ;;
      vals <- load last_window_values ;;
      X <- lift (py_take vals (map Z.opp (lags s))) ;;   (* last_window_values[-self.lags] *)
      let prediction := reg_predict (regressor s) X in
      _ <- store predictions i prediction ;;
      (* the first position is discarded, the prediction added at the end *)
      last_window_values' <- alloc (py_slice_from vals 1 ++ [prediction]) ;;
      predict_loop idxs' last_window_values' predictions
  end.

(** The [if exog is not None:] block of [predict].  [_check_exog] is called
    with the keyword [ref_shape], which it does not have: after the length
    guard the call raises TypeError. *)
Definition predict_exog (steps : Z) (exog : option pyobj) : Py unit :=
  match exog with
  | None => ret tt
  | Some e =>
      le <- lift (py_len e) ;;
      if le <? steps then
        raise (Exception "`exog` must have at least as many values as `steps` predicted.")
      else raise (TypeError "_check_exog() got an unexpected keyword argument 'ref_shape'")
  end.

(** The [if last_window is not None: ... else: ...] block of [predict]: the
    index of the window and the address of its values.  A supplied window
    is the caller's Series or the copy [_preproces_y] makes of it; its
    buffer enters the heap at a new address. *)
Definition predict_window (last_window : option pyobj) : Py (Index * nat) :=
  s <- get_self ;;
  match last_window with
  | Some o =>
      n <- lift (py_len o) ;;
      if n <? max_lag s then
        raise (Exception "`last_window` must have as many values as as needed to calculate the maximum lag.")
      else
        w <- lift (_check_last_window o) ;;
        let w := _preproces_y w in
        a <- alloc (s_values w) ;;
        ret (s_index w, a)
  | None =>
      match self_last_window s with
      | Some lw => ret lw
      | None => raise AttributeError
      end
  end.

Definition predict (steps : Z) (last_window : option pyobj)
    (exog : option pyobj) : Py Series :=
  s <- get_self ;;
  if negb (fitted s) then
    raise (Exception "This Forecaster instance is not fitted yet. Call `fit` with appropriate arguments before using this it.")
  else if steps <? 1 then
    raise (Exception "`steps` must be integer greater than 0.")
  else if bool_decide (exog = None :> option pyobj) && included_exog s then
    raise (Exception "Forecaster trained with exogenous variable/s. Same variable/s must be provided in `predict()`.")
  else if negb (bool_decide (exog = None :> option pyobj)) && negb (included_exog s) then
    raise (Exception "Forecaster trained without exogenous variable/s. `exog` must be `None` in `predict()`.")
  else
    _ <- predict_exog steps exog ;;
    lw <- predict_window last_window ;;
    index <- lift (_expand_index (fst lw) steps) ;;
    data <- lift (np_full1 steps) ;;
    predictions <- alloc data ;;
    _ <- predict_loop (range_list (range_to steps)) (snd lw) predictions ;;
    vals <- load predictions ;;
    ret (mkSeries index vals).

(* ================================================================= *)
(** ** ForecasterAutoreg.set_lags and set_out_sample_residuals *)

Definition set_lags (lags : lags_arg) : Py unit :=
  l <- lift (lags_of_arg lags) ;;
  _ <- assign (with_lags l) ;;
  s <- get_self ;;
  m <- lift (py_max_lags (self_lags s)) ;;
  _ <- assign (with_max_lag m) ;;
  s <- get_self ;;
  m <- lift (py_max_lags (self_lags s)) ;;
  assign (with_window_size m).

(** [np.hstack((a, b))]: 1-D arrays are joined end to end; arrays of two or
    more dimensions are joined along their second axis and must agree on
    the others; mixed dimensions are numpy's ValueError. *)
Definition np_hstack (a b : ndarray V) : result (ndarray V) :=
  match a, b with
  | Arr1 x, Arr1 y => Ok (Arr1 (x ++ y))
  | ArrND (r1 :: c1 :: rest1), ArrND (r2 :: c2 :: rest2) =>
      if bool_decide (r1 = r2 /\ rest1 = rest2)
      then Ok (ArrND (r1 :: (c1 + c2)%nat :: rest1))
      else Raise (ValueError "all the input array dimensions except for the concatenation axis must match exactly")
  | _, _ => Raise (ValueError "all the input arrays must have same number of dimensions")
  end.

(** [a[:k]] for [0 <= k]. *)
Definition nd_slice_to (a : ndarray V) (k : Z) : ndarray V :=
  match a with
  | Arr1 d => Arr1 (take (Z.to_nat k) d)
  | ArrND (n :: rest) => ArrND (Nat.min n (Z.to_nat k) :: rest)
  | ArrND [] => ArrND []
  end.

Definition set_out_sample_residuals (residuals : pyobj) (append : bool)
    : Py unit :=
  r <- match residuals with
       | PyNdarray d => ret (Arr1 d)
       | PyNdarrayND sh => ret (ArrND sh)
       | _ => raise (Exception "`residuals` argument must be `1D np.ndarray`.")
       end ;;
  n <- lift (nd_len r) ;;
  r <- (if 1000 <? n then
          match r with
          | Arr1 d => d' <- np_random_choice d 1000 false ;; ret (Arr1 d')
          | ArrND _ => raise (ValueError "a must be 1-dimensional")
          end
        else ret r) ;;
  s <- get_self ;;
  match out_sample_residuals s with
  | Some old =>
      if negb append then assign (with_out_sample_residuals (Some r))
      else
        lo <- lift (nd_len old) ;;
        let free_space := Z.max 0 (1000 - lo) in
        lr <- lift (nd_len r) ;;
        if lr <? free_space then
          h <- lift (np_hstack old r) ;;
          assign (with_out_sample_residuals (Some h))
        else
          h <- lift (np_hstack old (nd_slice_to r free_space)) ;;
          assign (with_out_sample_residuals (Some h))
  | None => assign (with_out_sample_residuals (Some r))
  end.

End Model.

Arguments Series : clear implicits.
Arguments DataFrame : clear implicits.
Arguments pyobj : clear implicits.
Arguments Exog : clear implicits.
Arguments Forecaster : clear implicits.
Arguments World : clear implicits.
Arguments Py : clear implicits.

Abbreviation self_lags := lags (only parsing).
Abbreviation self_last_window := last_window (only parsing).

(* The setters compute on a forecaster given by its attributes. *)
Arguments with_regressor {V M} v !s /.
Arguments with_y_index_type {V M} v !s /.
Arguments with_y_index_freq {V M} v !s /.
Arguments with_training_range {V M} v !s /.
Arguments with_last_window {V M} v !s /.
Arguments with_included_exog {V M} v !s /.
Arguments with_exog_type {V M} v !s /.
Arguments with_exog_col_names {V M} v !s /.
Arguments with_in_sample_residuals {V M} v !s /.
Arguments with_out_sample_residuals {V M} v !s /.
Arguments with_fitted {V M} v !s /.
Arguments with_lags {V M} v !s /.
Arguments with_max_lag {V M} v !s /.
Arguments with_window_size {V M} v !s /.

(* ================================================================= *)
(** ** Vocabulary of the properties *)

(** The [i]-th complete fold and the final incomplete one. *)
Definition complete_fold (its steps : Z) (i : Z) : split :=
  (range_to (its + i * steps), Range (its + i * steps) (its + i * steps + steps)).

Definition last_fold (leny its steps : Z) (i : Z) : list split :=
  [(range_to (its + i * steps), Range (its + i * steps) leny)].

(** The lag set an argument denotes, and the arguments the two guards of
    the constructor and of [set_lags] accept. *)
Definition lags_value (a : lags_arg) : list Z :=
  match a with
  | LagsInt n => map (fun k => k + 1) (range_list (range_to n))
  | LagsList l | LagsArray l => l
  | LagsOther => []
  end.

Definition valid_lags (a : lags_arg) : Prop :=
  match a with
  | LagsInt n => 1 <= n
  | LagsList l | LagsArray l => l <> [] /\ Forall (fun k => 1 <= k) l
  | LagsOther => False
  end.

(** The attributes after the reset block at the top of [fit]. *)
Definition reset_attrs {V M} (s : Forecaster V M) : Forecaster V M :=
  mkForecaster (regressor s) None None None None false None None None None
    false (lags s) (max_lag s) (window_size s).
Arguments reset_attrs {V M} !s /.

(** pandas keeps one label per value. *)
Definition series_ok {V} (s : Series V) : Prop :=
  length (index_labels (s_index s)) = length (s_values s).

(** The inputs the specification calls validation failures of [fit], with
    the exception each raises. *)
Inductive validation_failure {V} `{Float V} (y : pyobj V) (exog : option (pyobj V))
    : exn -> Prop :=
  | vf_not_series :
      (forall s, y <> PySeries s) ->
      validation_failure y exog (Exception "`y` must be a pandas Series.")
  | vf_missing_values s :
      y = PySeries s -> has_null (s_values s) = true ->
      validation_failure y exog (Exception "`y` has missing values.")
  | vf_length_mismatch s xo n :
      y = PySeries s -> series_ok s ->
      has_null (s_values s) = false -> s_values s <> [] ->
      exog = Some xo -> py_len xo = Ok n ->
      n <> Z.of_nat (length (s_values s)) ->
      validation_failure y exog
        (Exception "`exog` must have same number of samples as `y`.").

(** [y] itself is rejected (the first two kinds of failure). *)
Definition y_rejected {V} `{Float V} (y : pyobj V) : Prop :=
  forall s, y = PySeries s -> has_null (s_values s) = true.

(* ================================================================= *)
(** ** Instances for the examples *)

(** Floats that are integers or NaN. *)
Definition lift2 {A} (f : A -> A -> A) (x y : option A) : option A :=
  match x, y with
  | Some a, Some b => Some (f a b)
  | _, _ => None
  end.

Definition is_none {A} (x : option A) : bool :=
  match x with None => true | Some _ => false end.

Global Instance float_optZ : Float (option Z) :=
  {| nan := None; isnull := is_none; fadd := lift2 Z.add; fsub := lift2 Z.sub |}.

(** A regressor that was trained elsewhere: [fit] keeps the model, [predict]
    returns the sum of the features (NaN as soon as one is NaN). *)
Global Instance sum_regressor : Regressor (option Z) unit :=
  {| reg_fit := fun m _ _ => m;
     reg_predict := fun _ row => fold_left (lift2 Z.add) row (Some 0) |}.

(** A regressor that predicts NaN. *)
Global Instance nan_regressor : Regressor (option Z) bool :=
  {| reg_fit := fun m _ _ => m;
     reg_predict := fun _ _ => None |}.

(** A forecaster with [lags=2] around [sum_regressor], the series
    1, 2, 3, 5, 8, 13 and the world after [fit] on it. *)
Definition example_forecaster : Forecaster (option Z) unit :=
  mkForecaster tt None None None None false None None None None false
    [1; 2] 2 2.

Definition example_world : World (option Z) unit :=
  mkWorld example_forecaster [] (fun _ => O) O.

Definition example_y : Series (option Z) :=
  mkSeries (RangeIndex 0 6) [Some 1; Some 2; Some 3; Some 5; Some 8; Some 13].

Definition fitted_world : World (option Z) unit :=
  fst (fit (PySeries example_y) None example_world).

(** The index of a Series of [n] values, once [_preproces_y] has seen it:
    one label per value, and a RangeIndex or a DatetimeIndex with a
    frequency. *)
Definition index_ok (ix : Index) (n : nat) : Prop :=
  length (index_labels ix) = n
  /\ match ix with
     | RangeIndex _ _ | DatetimeIndex (Some _) _ => True
     | _ => False
     end.

(** What Python and pandas guarantee of the stored last window: it refers
    to a buffer of the heap (a referenced object stays alive) and its index
    has one label per value. *)
Definition world_ok {V M} (w : World V M) : Prop :=
  forall ix a, last_window (self_ w) = Some (ix, a) ->
    exists vs, heap w !! a = Some vs /\ index_ok ix (length vs).

(** The lag configuration the constructor and [set_lags] establish: all
    lags at least 1 and [max_lag] the largest of them. *)
Definition lags_ok {V M} (s : Forecaster V M) : Prop :=
  py_max (lags s) = Some (max_lag s) /\ Forall (fun k => 1 <= k) (lags s).

(** The window a call of [predict] can start from: a supplied Series
    without missing values and with at least [max_lag] values, or else the
    stored window when it has at least [max_lag] values. *)
Definition window_usable {V M} `{Float V} (w : World V M)
    (last_window : option (pyobj V)) : Prop :=
  match last_window with
  | Some o =>
      exists ser, o = PySeries ser /\ has_null (s_values ser) = false
        /\ max_lag (self_ w) <= Z.of_nat (length (s_values ser))
  | None =>
      exists ix a vs, self_last_window (self_ w) = Some (ix, a)
        /\ heap w !! a = Some vs
        /\ max_lag (self_ w) <= Z.of_nat (length vs)
  end.

(** Both stored residual collections have at most 1000 values. *)
Definition residuals_capped {V M} (s : Forecaster V M) : Prop :=
  (forall r, in_sample_residuals s = Some r -> (length r <= 1000)%nat)
  /\ (forall r, out_sample_residuals s = Some r ->
        exists n, nd_len r = Ok n /\ n <= 1000).

(** A sequence of calls [set_out_sample_residuals(residuals, append)]; a
    call that raises is caught and the sequence goes on. *)
Fixpoint set_out_sample_residuals_calls {V M}
    (calls : list (pyobj V * bool)) (w : World V M) : World V M :=
  match calls with
  | [] => w
  | (residuals, append) :: calls' =>
      set_out_sample_residuals_calls calls'
        (fst (set_out_sample_residuals residuals append w))
  end.

(** A forecaster with a gap in its lag set: [ForecasterAutoreg(_, lags=[1, 3])]. *)
Definition gap_forecaster : Forecaster (option Z) unit :=
  mkForecaster tt None None None None false None None None None false
    [1; 3] 3 3.

(* ================================================================= *)
(** ** What [predict] computes, without the heap *)

Section PredictResult.
Context {V M : Type} `{Float V} `{Regressor V M}.

(** The values the loop of [predict] produces from the values of a window:
    each step reads the lags from the end of the window, predicts, and
    slides the window over the prediction. *)
Fixpoint recursive_forecast (m : M) (lags : list Z) (window : list V)
    (steps : nat) : result (list V) :=
  match steps with
  | O => Ok []
  | S k =>
      X <- py_take window (map Z.opp lags) ;;
      let prediction := reg_predict m X in
      rest <- recursive_forecast m lags (py_slice_from window 1 ++ [prediction]) k ;;
      Ok (prediction :: rest)
  end.

(** The window [predict] starts from: its index, and its values, given
    with the call or still to be read at an address of the heap. *)
Definition predict_window_result (s : Forecaster V M)
    (last_window : option (pyobj V)) : result (Index * (list V + nat)) :=
  match last_window with
  | Some o =>
      n <- py_len o ;;
      if n <? max_lag s then
        Raise (Exception "`last_window` must have as many values as as needed to calculate the maximum lag.")
      else
        w <- _check_last_window o ;;
        Ok (s_index (_preproces_y w), inl (s_values (_preproces_y w)))
  | None =>
      match self_last_window s with
      | Some lw => Ok (fst lw, inr (snd lw))
      | None => Raise AttributeError
      end
  end.

(** The result of [predict(steps, last_window, exog)] for a forecaster with
    attributes [s] in a heap [h]. *)
Definition predict_result (s : Forecaster V M) (h : list (list V)) (steps : Z)
    (last_window exog : option (pyobj V)) : result (Series V) :=
  if negb (fitted s) then
    Raise (Exception "This Forecaster instance is not fitted yet. Call `fit` with appropriate arguments before using this it.")
  else if steps <? 1 then
    Raise (Exception "`steps` must be integer greater than 0.")
  else if bool_decide (exog = None) && included_exog s then
    Raise (Exception "Forecaster trained with exogenous variable/s. Same variable/s must be provided in `predict()`.")
  else if negb (bool_decide (exog = None)) && negb (included_exog s) then
    Raise (Exception "Forecaster trained without exogenous variable/s. `exog` must be `None` in `predict()`.")
  else
    _ <- match exog with
         | None => Ok tt
         | Some e =>
             le <- py_len e ;;
             if le <? steps then
               Raise (Exception "`exog` must have at least as many values as `steps` predicted.")
             else Raise (TypeError "_check_exog() got an unexpected keyword argument 'ref_shape'")
         end ;;
    lw <- predict_window_result s last_window ;;
    index <- _expand_index (fst lw) steps ;;
    window <- match snd lw with
              | inl vs => Ok vs
              | inr a =>
                  match h !! a with
                  | Some vs => Ok vs
                  | None => Raise DanglingReference
                  end
              end ;;
    vals <- recursive_forecast (regressor s) (self_lags s) window (Z.to_nat steps) ;;
    Ok (mkSeries index vals).

End PredictResult.

(** The values of a returned Series. *)
Definition result_values {V} (r : result (Series V)) : result (list V) :=
  match r with
  | Ok ser => Ok (s_values ser)
  | Raise e => Raise e
  end.

(** The caller of the sequential-equivalence property: [k] calls
    [predict(steps=1, last_window=window)], the window of each call being
    the previous one without its oldest value and with the predicted value
    appended; the predicted values are collected.  [mk] is how the caller
    builds a Series from values (any index will do). *)
Fixpoint predict_one_at_a_time {V M} `{Float V} `{Regressor V M}
    (mk : list V -> Series V) (k : nat) (window : list V)
    : Py V M (list V) :=
  match k with
  | O => ret []
  | S k' =>
      bind (predict 1 (Some (PySeries (mk window))) None) (fun pred =>
      bind (predict_one_at_a_time mk k'
              (py_slice_from window 1 ++ s_values pred)) (fun rest =>
      ret (s_values pred ++ rest)))
  end.

(** A Series with a RangeIndex. *)
Definition range_series {V} (vs : list V) : Series V :=
  mkSeries (RangeIndex 0 (Z.of_nat (length vs))) vs.

(** A forecaster with [lags=1] around [nan_regressor], after [fit]. *)
Definition nan_world : World (option Z) bool :=
  fst (fit (PySeries (range_series [Some 1; Some 2; Some 3])) None
         (mkWorld (mkForecaster true None None None None false None None None
                     None false [1] 1 1) [] (fun _ => O) O)).

(* ================================================================= *)
(** ** Prediction intervals: real-valued floats, percentiles, bootstrap *)

(** Floats for the interval estimator: exact rationals, or NaN. *)
Definition fl : Type := option Qc.

Global Instance float_fl : Float fl :=
  {| nan := None; isnull := is_none;
     fadd := lift2 Qcplus; fsub := lift2 Qcminus |}.

(** The numbers of an array, when none of its values is NaN. *)
Fixpoint all_numbers (data : list fl) : option (list Qc) :=
  match data with
  | [] => Some []
  | None :: _ => None
  | Some x :: data' =>
      match all_numbers data' with
      | Some xs => Some (x :: xs)
      | None => None
      end
  end.

Definition Qc_of_Z (z : Z) : Qc := Q2Qc (inject_Z z).

Definition lerp (a b t : Qc) : Qc := (a + (b - a) * t)%Qc.

(** The position of the [q]-th percentile among [n] sorted values. *)
Definition virtual_index (n : nat) (q : Qc) : Qc :=
  (q * Qc_of_Z (Z.of_nat n - 1) / Qc_of_Z 100)%Qc.

(** The percentile of sorted data, by linear interpolation between the two
    nearest ranks (numpy's default). *)
Definition percentile_sorted (a : list Qc) (q : Qc) : option Qc :=
  let n := length a in
  let vi := virtual_index n q in
  let lo := Qfloor (this vi) in
  let hi := Z.min (lo + 1) (Z.of_nat n - 1) in
  match a !! Z.to_nat lo, a !! Z.to_nat hi with
  | Some x, Some y => Some (lerp x y (vi - Qc_of_Z lo)%Qc)
  | _, _ => None
  end.

(** [np.percentile] of the values of one row: NaN when the row holds a
    NaN (a row without values does not get here, see below). *)
Definition np_percentile1 (data : list fl) (q : Qc) : fl :=
  match all_numbers data with
  | Some (x :: xs) => percentile_sorted (merge_sort Qcle (x :: xs)) q
  | _ => None
  end.

Definition valid_percentile (q : Qc) : bool :=
  bool_decide (Qc_of_Z 0 <= q)%Qc && bool_decide (q <= Qc_of_Z 100)%Qc.

(** [np.percentile(a, q=interval, axis=1).transpose()] for an array of
    [ncols] columns: one row per row of [a], one column per percentile.
    The percentiles are checked first; rows without values make numpy
    index the last of no values. *)
Definition np_percentile_rows (ncols : nat) (a : list (list fl))
    (interval : list Qc) : result (list (list fl)) :=
  if negb (forallb valid_percentile interval)
  then Raise (ValueError "Percentiles must be in the range [0, 100]")
  else if bool_decide (ncols = O) then Raise IndexError
  else Ok (map (fun data => map (np_percentile1 data) interval) a).

(** The mean and the (population) variance of numbers. *)
Definition Qc_sum (l : list Qc) : Qc := fold_right Qcplus (Qc_of_Z 0) l.

Definition mean (l : list Qc) : Qc :=
  (Qc_sum l / Qc_of_Z (Z.of_nat (length l)))%Qc.

Definition variance (l : list Qc) : Qc :=
  mean (map (fun x => (x - mean l) * (x - mean l))%Qc l).

(** [np.var(data)]: NaN for no data and for data with a NaN. *)
Definition np_var (data : list fl) : fl :=
  match all_numbers data with
  | Some (x :: xs) => Some (variance (x :: xs))
  | _ => None
  end.

(** The index of [pd.concat([a, b])] (empty parts are left out):
    consecutive RangeIndexes give a RangeIndex, DatetimeIndexes of one
    frequency that continue each other keep it, anything else is a plain
    index of the labels. *)
Definition index_concat (a b : Index) : Index :=
  match a, b with
  | RangeIndex a1 a2, RangeIndex b1 b2 =>
      if bool_decide (a2 <= a1) then
        if bool_decide (b2 <= b1) then RangeIndex 0 0 else RangeIndex b1 b2
      else if bool_decide (b2 <= b1) then RangeIndex a1 a2
      else if bool_decide (a2 = b1) then RangeIndex a1 b2
      else OtherIndex (index_labels a ++ index_labels b)
  | DatetimeIndex fa ta, DatetimeIndex fb tb =>
      match fa, py_index ta (-1), py_index tb 0 with
      | _, None, _ => DatetimeIndex fb tb
      | _, _, None => DatetimeIndex fa ta
      | Some f, Some t, Some t' =>
          if bool_decide (fb = Some f /\ t + f = t')
          then DatetimeIndex (Some f) (ta ++ tb)
          else DatetimeIndex None (ta ++ tb)
      | None, Some _, Some _ => DatetimeIndex None (ta ++ tb)
      end
  | _, _ => OtherIndex (index_labels a ++ index_labels b)
  end.

(** The order pandas sorts the labels of a joined index in. *)
Definition label_key (l : label) : Z :=
  match l with IntLabel z => z | Timestamp t => t end.

Definition label_le (a b : label) : Prop := label_key a <= label_key b.

Global Instance label_le_dec : RelDecision label_le.
Proof. intros a b. unfold label_le. apply _. Defined.

(** The position of a label in an index. *)
Fixpoint label_position (l : label) (ls : list label) : option nat :=
  match ls with
  | [] => None
  | x :: ls' =>
      if bool_decide (x = l) then Some O
      else option_map S (label_position l ls')
  end.

(** [obj.reindex(...)] at one label: the row of the label, or the fill
    value when the index does not have it. *)
Definition reindex_at {A} (labels : list label) (rows : list A) (fill : A)
    (l : label) : A :=
  match label_position l labels with
  | Some k => default fill (rows !! k)
  | None => fill
  end.

(** The index of a join with labels [ls]: two RangeIndexes that overlap or
    touch join into a RangeIndex; any other join is kept as its labels. *)
Definition joined_index (a b : Index) (ls : list label) : Index :=
  match a, b with
  | RangeIndex a1 a2, RangeIndex b1 b2 =>
      if bool_decide (a1 < a2 /\ b1 < b2 /\ b1 <= a2 /\ a1 <= b2)
      then RangeIndex (Z.min a1 b1) (Z.max a2 b2)
      else OtherIndex ls
  | _, _ => OtherIndex ls
  end.

(** [pd.concat((predictions, bands), axis=1)]: the Series becomes the
    first column.  Equal indexes pair the rows as they are; otherwise the
    rows are joined on the sorted union of the labels, with NaN where an
    operand does not have a label (an index with a repeated label cannot
    be joined). *)
Definition concat_axis1 (predictions : Series fl) (bands : DataFrame fl)
    : result (DataFrame fl) :=
  let lp := index_labels (s_index predictions) in
  let lb := index_labels (df_index bands) in
  let columns := col "pred" :: df_columns bands in
  if bool_decide (lp = lb) then
    Ok (mkDataFrame (s_index predictions) columns
          (zip_with (fun p band => p :: band) (s_values predictions)
             (df_rows bands)))
  else if bool_decide (NoDup lp /\ NoDup lb) then
    let ls := merge_sort label_le (lp ++ filter (fun l => l ∉ lp) lb) in
    Ok (mkDataFrame (joined_index (s_index predictions) (df_index bands) ls)
          columns
          (map (fun l =>
                  reindex_at lp (s_values predictions) None l
                  :: reindex_at lb (df_rows bands)
                       (repeat None (length (df_columns bands))) l)
             ls))
  else Raise (Exception "Reindexing only valid with uniquely valued Index objects").

Declare Scope py_scope.
Notation "x <- c1 ;; c2" := (bind c1 (fun x => c2))
  (at level 100, c1 at next level, right associativity) : py_scope.

Section Bootstrap.
Context {M : Type} `{Regressor fl M}.
Local Open Scope py_scope.

(** [series.iloc[1:]]. *)
Definition series_tail (s : Series fl) : Series fl :=
  mkSeries (index_slice_from (s_index s) 1) (py_slice_from (s_values s) 1).

Definition series_concat (a b : Series fl) : Series fl :=
  mkSeries (index_concat (s_index a) (s_index b)) (s_values a ++ s_values b).

(** [arr[step, i] = value] for a Series [value]: numpy converts a Series of
    one element to its value. *)
Definition set_cell (a : list (list fl)) (step i : Z) (value : Series fl)
    : result (list (list fl)) :=
  match s_values value with
  | [v] =>
      match py_index a step with
      | None => Raise IndexError
      | Some row => row' <- iloc_set row i v ;; iloc_set a step row'
      end%result
  | _ => Raise (TypeError "only size-1 arrays can be converted to Python scalars")
  end.

Definition exog_tail (e : Exog fl) : Exog fl :=
  match e with
  | ExogSeries s => ExogSeries (series_tail s)
  | ExogDataFrame d =>
      ExogDataFrame (mkDataFrame (index_slice_from (df_index d) 1)
                       (df_columns d) (py_slice_from (df_rows d) 1))
  end.

Definition exog_obj (e : Exog fl) : pyobj fl :=
  match e with
  | ExogSeries s => PySeries s
  | ExogDataFrame d => PyDataFrame d
  end.

(** The body of [for step in range(steps)] in [_estimate_boot_interval]. *)
Fixpoint boot_steps (idxs : list Z) (i : Z) (sample_residuals : list fl)
    (last_window_boot : Series fl) (exog_boot : option (Exog fl))
    (boot_predictions : list (list fl)) : Py fl M (list (list fl)) :=
  match idxs with
  | [] => ret boot_predictions
  | step :: idxs' =>
      prediction <- predict 1 (Some (PySeries last_window_boot))
                      (option_map exog_obj exog_boot) ;;
      r <- lift (match py_index sample_residuals step with
                 | Some r => Ok r
                 | None => Raise IndexError
                 end) ;;
      let prediction_with_residual :=
        mkSeries (s_index prediction) (map (fun p => fadd p r) (s_values prediction)) in
      boot_predictions' <- lift (set_cell boot_predictions step i
                                   prediction_with_residual) ;;
      let last_window_boot' :=
        series_concat (series_tail last_window_boot) prediction_with_residual in
      boot_steps idxs' i sample_residuals last_window_boot'
        (option_map exog_tail exog_boot) boot_predictions'
  end.

(** The residuals the bootstrap draws from. *)
Definition selected_residuals (s : Forecaster fl M) (in_sample : bool)
    : result (list fl) :=
  if in_sample then
    match in_sample_residuals s with
    | Some rs => Ok rs
    | None => Raise (ValueError "a must be 1-dimensional or an integer")
    end
  else
    match out_sample_residuals s with
    | Some (Arr1 rs) => Ok rs
    | _ => Raise (ValueError "a must be 1-dimensional or an integer")
    end.

(** The body of [for i in range(n_boot)]. *)
Fixpoint boot_loop (idxs : list Z) (steps : Z) (last_window : Series fl)
    (exog : option (Exog fl)) (in_sample : bool)
    (boot_predictions : list (list fl)) : Py fl M (list (list fl)) :=
  match idxs with
  | [] => ret boot_predictions
  | i :: idxs' =>
      (* the initial last_window and exog are restored *)
      let last_window_boot := last_window in
      let exog_boot := exog in
      s <- get_self ;;
      residuals <- lift (selected_residuals s in_sample) ;;
      sample_residuals <- np_random_choice residuals steps true ;;
      boot_predictions' <- boot_steps (range_list (range_to steps)) i
                             sample_residuals last_window_boot exog_boot
                             boot_predictions ;;
      boot_loop idxs' steps last_window exog in_sample boot_predictions'
  end.

(** [_estimate_boot_interval]: one row [lower_bound, upper_bound] per
    step.  The index is built before the DataFrame constructor is called,
    which needs exactly two percentiles for its two column names. *)
Definition _estimate_boot_interval (steps : Z) (last_window : Series fl)
    (exog : option (Exog fl)) (interval : list Qc) (n_boot : Z)
    (in_sample : bool) : Py fl M (DataFrame fl) :=
  data <- lift (np_full2 steps n_boot) ;;
  boot_predictions <- boot_loop (range_list (range_to n_boot)) steps
                        last_window exog in_sample data ;;
  prediction_interval <- lift (np_percentile_rows (Z.to_nat n_boot)
                                 boot_predictions interval) ;;
  index <- lift (_expand_index (s_index last_window) steps) ;;
  _ <- lift (if bool_decide (length interval = 2%nat) then Ok tt
             else Raise (ValueError "Shape of passed values differs from the shape the indices imply")) ;;
  ret (mkDataFrame index [col "lower_bound"; col "upper_bound"]
         prediction_interval).

(** The window [predict_interval] works on: the supplied one after the
    checks of [predict], or a copy of the stored one. *)
Definition interval_window (last_window : option (pyobj fl))
    : Py fl M (Series fl) :=
  s <- get_self ;;
  match last_window with
  | Some o =>
      n <- lift (py_len o) ;;
      if n <? max_lag s then
        raise (Exception "`last_window` must have as many values as as needed to calculate the maximum lag.")
      else
        w <- lift (_check_last_window o) ;;
        ret (_preproces_y w)
  | None =>
      match self_last_window s with
      | Some lw => vs <- load (snd lw) ;; ret (mkSeries (fst lw) vs)
      | None => raise AttributeError
      end
  end.

(** [predict_interval]: the columns [pred, lower_bound, upper_bound].
    With [exog] given, the argument [self.exog_shape] of the call of
    [_check_exog] is an attribute the class does not have.  The window
    goes to [predict] as its [last_window] argument, so the point
    predictions are indexed from the window [_preproces_y] makes of it,
    while the bands are indexed from the window itself. *)
Definition predict_interval (steps : Z) (last_window exog : option (pyobj fl))
    (interval : list Qc) (n_boot : Z) (in_sample_residuals : bool)
    : Py fl M (DataFrame fl) :=
  s <- get_self ;;
  if steps <? 1 then
    raise (Exception "`steps` must be integer greater than 0.")
  else if negb in_sample_residuals
          && bool_decide (out_sample_residuals s = None) then
    raise (Exception "out_sample_residuals is empty.")
  else if bool_decide (exog = None) && included_exog s then
    raise (Exception "Forecaster trained with exogenous variable/s. Same variable/s must be provided in `predict()`.")
  else if negb (bool_decide (exog = None)) && negb (included_exog s) then
    raise (Exception "Forecaster trained without exogenous variable/s. `exog` must be `None` in `predict()`.")
  else
    _ <- match exog with
         | Some _ => raise AttributeError
         | None => ret tt
         end ;;
    last_window <- interval_window last_window ;;
    let last_window_original := last_window in
    predictions <- predict steps (Some (PySeries last_window)) None ;;
    predictions_interval <- _estimate_boot_interval steps last_window_original
                              None interval n_boot in_sample_residuals ;;
    lift (concat_axis1 predictions predictions_interval).

End Bootstrap.

(** A band whose lower bound is at most its upper bound, or whose bounds
    are both NaN. *)
Definition band_ordered (lower upper : fl) : Prop :=
  match lower, upper with
  | Some l, Some u => (l <= u)%Qc
  | None, None => True
  | _, _ => False
  end.

(** The values one bootstrap iteration writes, step by step, from the
    values of its window: the prediction from the lags plus the residual
    of the step, which then enters the window. *)
Fixpoint boot_trajectory {M} `{Regressor fl M} (m : M) (lags : list Z)
    (sample_residuals : list fl) (window : list fl) (idxs : list Z)
    : result (list fl) :=
  match idxs with
  | [] => Ok []
  | step :: idxs' =>
      X <- py_take window (map Z.opp lags) ;;
      match py_index sample_residuals step with
      | None => Raise IndexError
      | Some r =>
          let v := fadd (reg_predict m X) r in
          rest <- boot_trajectory m lags sample_residuals
                    (py_slice_from window 1 ++ [v]) idxs' ;;
          Ok (v :: rest)
      end
  end.

(** [DummyRegressor(strategy="constant", constant=c)]: the model is its
    constant, [fit] learns nothing, [predict] returns the constant. *)
Global Instance dummy_regressor : Regressor fl Qc :=
  {| reg_fit := fun c _ _ => c;
     reg_predict := fun c _ => Some c |}.

Definition Qc_series (zs : list Z) : Series fl :=
  range_series (map (fun z => Some (Qc_of_Z z)) zs).

(** [ForecasterAutoreg(DummyRegressor(strategy="constant", constant=c),
    lags=1)] after [fit] on a series of integers, with a random generator
    whose [k]-th draw is [k]. *)
Definition dummy_world (c : Z) (zs : list Z) : World fl Qc :=
  fst (fit (PySeries (Qc_series zs)) None
         (mkWorld (mkForecaster (Qc_of_Z c) None None None None false None
                     None None None false [1] 1 1) [] (fun k => k) O)).

(** ** Regular indexes *)

(** The distance between consecutive labels of an index that has one. *)
Definition index_step (ix : Index) : Z :=
  match ix with
  | RangeIndex _ _ => 1
  | DatetimeIndex (Some f) _ => f
  | _ => 0
  end.

Definition label_shift (l : label) (d : Z) : label :=
  match l with
  | IntLabel z => IntLabel (z + d)
  | Timestamp t => Timestamp (t + d)
  end.

(** A RangeIndex or a DatetimeIndex with a frequency. *)
Definition regular_index (ix : Index) : Prop :=
  match ix with
  | RangeIndex _ _ | DatetimeIndex (Some _) _ => True
  | _ => False
  end.

(* ================================================================= *)
(** ** model_selection: metrics and backtesting *)

(** The three functions of [sklearn.metrics] the module imports:
    [metric(y_true, y_pred)] is a float or a raise (scikit-learn refuses
    samples of different lengths, empty samples and NaN). *)
Class Metrics (V : Type) : Type := {
  mean_squared_error : list V -> list V -> result V;
  mean_absolute_error : list V -> list V -> result V;
  mean_absolute_percentage_error : list V -> list V -> result V
}.

(** [get_metric(metric)]: the guard on the name and the lookup in the
    dictionary of the three functions. *)
Definition get_metric {V} `{Metrics V} (metric : string)
    : result (list V -> list V -> result V) :=
  if String.eqb metric "mean_squared_error" then Ok mean_squared_error
  else if String.eqb metric "mean_absolute_error" then Ok mean_absolute_error
  else if String.eqb metric "mean_absolute_percentage_error"
  then Ok mean_absolute_percentage_error
  else Raise (Exception
                ("Allowed metrics are: 'mean_squared_error', 'mean_absolute_error' and 'mean_absolute_percentage_error'. Got "
                 ++ metric ++ "."))%string.

(** [l[a:b]] with Python's clipping of both ends. *)
Definition py_slice {A} (l : list A) (a b : Z) : list A :=
  let n := Z.of_nat (length l) in
  let i := slice_start n a in
  let j := slice_start n b in
  take (Z.to_nat (j - i)) (drop (Z.to_nat i) l).

(** [index[a:b]]; a RangeIndex is sliced as the range it wraps, a
    DatetimeIndex keeps its frequency. *)
Definition index_slice (ix : Index) (a b : Z) : Index :=
  match ix with
  | RangeIndex f l =>
      let n := Z.max 0 (l - f) in
      RangeIndex (f + slice_start n a) (f + slice_start n b)
  | DatetimeIndex fr ts => DatetimeIndex fr (py_slice ts a b)
  | OtherIndex ls => OtherIndex (py_slice ls a b)
  end.

(** [np.concatenate(arrays)] of 1-D arrays. *)
Definition np_concatenate {A} (arrays : list (list A)) : result (list A) :=
  match arrays with
  | [] => Raise (ValueError "need at least one array to concatenate")
  | _ => Ok (concat arrays)
  end.

Section Backtesting.
Context {V M : Type} `{Float V} `{Regressor V M} `{Metrics V}.
Local Open Scope py_scope.

(** [y[a:b]] for a Series and integer bounds: a positional slice. *)
Definition series_slice (y : Series V) (a b : Z) : Series V :=
  mkSeries (index_slice (s_index y) a b) (py_slice (s_values y) a b).

(** [exog[a:b]]: the rows at the positions of the slice. *)
Definition exog_slice (e : Exog V) (a b : Z) : pyobj V :=
  match e with
  | ExogSeries s => PySeries (series_slice s a b)
  | ExogDataFrame d =>
      PyDataFrame (mkDataFrame (index_slice (df_index d) a b) (df_columns d)
                     (py_slice (df_rows d) a b))
  end.

(** [series - array]: the values are subtracted position by position, an
    array of one value being broadcast by numpy; the result keeps the
    index of the Series, which refuses another number of values. *)
Definition series_sub_array (y : Series V) (p : list V) : result (Series V) :=
  if bool_decide (length p = length (s_values y))
  then Ok (mkSeries (s_index y) (zip_with fsub (s_values y) p))
  else
    match p, s_values y with
    | [v], vs => Ok (mkSeries (s_index y) (map (fun x => fsub x v) vs))
    | _, [_] => Raise (ValueError "Length of values does not match length of index")
    | _, _ => Raise (ValueError "operands could not be broadcast together")
    end.

(** The body of [for i in range(folds)] of [backtesting_forecaster].  The
    window of fold [i] is made of the [window_size] observed values before
    position [initial_train_size + i * steps]; the last fold predicts the
    [remainder] positions left, if any.  [steps] is a variable of the loop:
    the last fold assigns it. *)
Fixpoint backtesting_loop (idxs : list Z) (y : Series V) (exog : option (Exog V))
    (initial_train_size window_size folds remainder steps : Z)
    (backtest_predictions : list (Series V)) : Py V M (list (Series V)) :=
  match idxs with
  | [] => ret backtest_predictions
  | i :: idxs' =>
      let last_window_end := initial_train_size + i * steps in
      let last_window_start := initial_train_size + i * steps - window_size in
      let last_window_y := series_slice y last_window_start last_window_end in
      let next_window_exog :=
        option_map (fun e => exog_slice e last_window_end (last_window_end + steps))
          exog in
      if i <? folds - 1 then
        pred <- predict steps (Some (PySeries last_window_y)) next_window_exog ;;
        backtesting_loop idxs' y exog initial_train_size window_size folds
          remainder steps (backtest_predictions ++ [pred])
      else if negb (remainder =? 0) then
        let steps := remainder in
        pred <- predict steps (Some (PySeries last_window_y)) next_window_exog ;;
        backtesting_loop idxs' y exog initial_train_size window_size folds
          remainder steps (backtest_predictions ++ [pred])
      else
        backtesting_loop idxs' y exog initial_train_size window_size folds
          remainder steps backtest_predictions
  end.

(** [backtesting_forecaster(forecaster, y, steps, metric,
    initial_train_size, exog, set_out_sample_residuals)] for a
    [ForecasterAutoreg]; [store_residuals] is the argument
    [set_out_sample_residuals], [verbose] only prints.  The result is the
    pair of the one-value array of the metric and the array of the
    predictions. *)
Definition backtesting_forecaster (y : pyobj V) (steps : Z) (metric : string)
    (initial_train_size : option Z) (exog : option (pyobj V))
    (store_residuals : bool) : Py V M (list V * list V) :=
  y <- lift (_check_y y) ;;
  let y := _preproces_y y in
  exog <- lift (match exog with
                | None => Ok None
                | Some e =>
                    e <- _check_exog e None None ;; Ok (Some (_preproces_exog e))
                end)%result ;;
  let leny := Z.of_nat (length (s_values y)) in
  s <- get_self ;;
  if match initial_train_size with Some its => leny <? its | None => false end
  then raise (Exception "If used, `initial_train_size` must be smaller than lenght of `y`.")
  else if match initial_train_size with
          | Some its => its <? window_size s
          | None => false
          end
  then (* the message goes on with the window size *)
       raise (Exception "`initial_train_size` must be greater than forecaster's window_size.")
  else if match initial_train_size with
          | Some _ => false
          | None => negb (fitted s)
          end
  then raise (Exception "`forecaster` must be already trained if no `initial_train_size` is provided.")
  else
    (* the warning reads len(forecaster.last_window) *)
    _ <- match initial_train_size, self_last_window s with
         | None, None => raise (TypeError "object of type 'NoneType' has no len()")
         | _, _ => ret tt
         end ;;
    metric <- lift (get_metric metric) ;;
    initial_train_size <-
      match initial_train_size with
      | Some its =>
          _ <- fit (PySeries (series_slice y 0 its))
                 (option_map (fun e => exog_slice e 0 its) exog) ;;
          ret its
      | None => s <- get_self ;; ret (window_size s)
      end ;;
    s <- get_self ;;
    let window_size := window_size s in
    if steps =? 0 then raise ZeroDivisionError
    else
      let folds := (leny - initial_train_size) / steps + 1 in
      let remainder := (leny - initial_train_size) mod steps in
      preds <- backtesting_loop (range_list (range_to folds)) y exog
                 initial_train_size window_size folds remainder steps [] ;;
      backtest_predictions <- lift (np_concatenate (map s_values preds)) ;;
      let y_true :=
        series_slice y initial_train_size
          (initial_train_size + Z.of_nat (length backtest_predictions)) in
      metric_value <- lift (metric (s_values y_true) backtest_predictions) ;;
      _ <- (if store_residuals then
              residuals <- lift (series_sub_array y_true backtest_predictions) ;;
              set_out_sample_residuals (PySeries residuals) true
            else ret tt) ;;
      ret ([metric_value], backtest_predictions).

End Backtesting.

(** ** Instances for the examples of backtesting *)

Definition Qc_abs (x : Qc) : Qc :=
  if Qclt_le_dec x (Qc_of_Z 0) then (- x)%Qc else x.

Definition Qc_max (x y : Qc) : Qc := if Qclt_le_dec x y then y else x.

(** The common part of scikit-learn's regression metrics, on exact
    numbers: the two samples must have the same length, at least one value
    and no NaN; the value is the mean of the losses. *)
Definition mean_loss (loss : Qc -> Qc -> Qc) (y_true y_pred : list fl)
    : result fl :=
  if negb (length y_true =? length y_pred)%nat
  then Raise (ValueError "Found input variables with inconsistent numbers of samples")
  else
    match all_numbers y_true, all_numbers y_pred with
    | Some t, Some p =>
        if (length t =? 0)%nat
        then Raise (ValueError "Found array with 0 sample(s) while a minimum of 1 is required")
        else Ok (Some (mean (zip_with loss t p)))
    | _, _ => Raise (ValueError "Input contains NaN")
    end.

(** [np.finfo(np.float64).eps]. *)
Definition float_eps : Qc := Q2Qc (1 # 4503599627370496).

Global Instance exact_metrics : Metrics fl :=
  {| mean_squared_error := mean_loss (fun t p => (t - p) * (t - p))%Qc;
     mean_absolute_error := mean_loss (fun t p => Qc_abs (t - p));
     mean_absolute_percentage_error :=
       mean_loss (fun t p => Qc_abs (p - t) / Qc_max (Qc_abs t) float_eps)%Qc |}.

(** [ForecasterAutoreg(DummyRegressor(strategy="constant", constant=c),
    lags=2)], not fitted. *)
Definition dummy_unfitted (c : Z) : World fl Qc :=
  mkWorld (mkForecaster (Qc_of_Z c) None None None None false None None None
             None false [1; 2] 2 2) [] (fun k => k) O.

(* ================================================================= *)
(** ** model_selection: cross-validation *)

(** What pandas does with [a - b] for two Series: the operands are aligned
    on their labels and subtracted; the result is a Series.  The callers
    here only pass it on, so the operation is kept abstract. *)
Class SeriesArith (V : Type) : Type := {
  series_minus : list label * list V -> list label * list V
                 -> result (list label * list V)
}.

Section CrossValidation.
Context {V M : Type} `{Float V} `{Regressor V M} `{Metrics V} `{SeriesArith V}.
(** The exception pandas raises for a label an index does not have; it is
    not among the exceptions [exn] names. *)
Variable KeyError : exn.
Local Open Scope py_scope.

(** Whether an index that is neither a RangeIndex nor a DatetimeIndex
    holds integers. *)
Definition holds_integer (ls : list label) : bool :=
  existsb (fun l => match l with IntLabel _ => true | Timestamp _ => false end) ls.

(** The positions of the label [k] in the labels that start at position
    [i], in order. *)
Fixpoint positions_of_label (i : Z) (ls : list label) (k : Z) : list Z :=
  match ls with
  | [] => []
  | l :: ls' =>
      (if bool_decide (l = IntLabel k) then [i] else [])
      ++ positions_of_label (i + 1) ls' k
  end.

(** [y.loc[key]] for a list of integers: every label must be present; the
    result has one value per occurrence, under a plain index of the labels
    found. *)
Definition series_loc_list (ls : list label) (vals : list V) (key : list Z)
    : result (Series V) :=
  (positions <- result_mapM
                  (fun k => match positions_of_label 0 ls k with
                            | [] => Raise KeyError
                            | ps => Ok ps
                            end) key ;;
   vals' <- py_take vals (concat positions) ;;
   labels <- py_take ls (concat positions) ;;
   Ok (mkSeries (OtherIndex labels) vals'))%result.

(** [y[r]] for a Series and a [range] object [r], which pandas reads as
    the list of its integers.  On an index that holds integers they are
    labels ([y.loc]); on another index they are positions ([y.iloc]), and
    a DatetimeIndex then keeps its frequency unless a position is
    negative.  An empty list selects nothing. *)
Definition series_getitem_range (y : Series V) (r : range) : result (Series V) :=
  let key := range_list r in
  match s_index y with
  | RangeIndex a b => series_loc_list (index_labels (s_index y)) (s_values y) key
  | DatetimeIndex f ts =>
      match key with
      | [] => Ok (mkSeries (DatetimeIndex None []) [])
      | _ =>
          (stamps <- py_take ts key ;;
           vals <- py_take (s_values y) key ;;
           Ok (mkSeries (DatetimeIndex (if 0 <=? start r then f else None) stamps)
                 vals))%result
      end
  | OtherIndex ls =>
      if holds_integer ls || bool_decide (key = [])
      then series_loc_list ls (s_values y) key
      else
        (labels <- py_take ls key ;;
         vals <- py_take (s_values y) key ;;
         Ok (mkSeries (OtherIndex labels) vals))%result
  end.

(** [exog[r]]: a Series is read like [y]; for a DataFrame the integers are
    column labels, which no table of this development has, so that only
    the empty list selects something: all rows, no column. *)
Definition exog_getitem_range (e : Exog V) (r : range) : result (pyobj V) :=
  match e with
  | ExogSeries s => s' <- series_getitem_range s r ;; Ok (PySeries s')
  | ExogDataFrame d =>
      match range_list r with
      | [] => Ok (PyDataFrame (mkDataFrame (df_index d) [] (map (fun _ => []) (df_rows d))))
      | _ => Raise KeyError
      end
  end%result.

(** [y[test_index] - pred]. *)
Definition series_sub_series (a b : Series V) : result (Series V) :=
  (r <- series_minus (index_labels (s_index a), s_values a)
         (index_labels (s_index b), s_values b) ;;
   Ok (mkSeries (OtherIndex (fst r)) (snd r)))%result.

(** The body of [for train_index, test_index in splits]. *)
Fixpoint cv_loop (splits : list split) (y : Series V) (exog : option (Exog V))
    (metric : list V -> list V -> result V) (store_residuals : bool)
    (cv_predictions : list (Series V)) (cv_metrics : list V)
    : Py V M (list (Series V) * list V) :=
  match splits with
  | [] => ret (cv_predictions, cv_metrics)
  | (train_index, test_index) :: splits' =>
      pred <- match exog with
              | None =>
                  y_train <- lift (series_getitem_range y train_index) ;;
                  _ <- fit (PySeries y_train) None ;;
                  predict (range_len test_index) None None
              | Some e =>
                  y_train <- lift (series_getitem_range y train_index) ;;
                  e_train <- lift (exog_getitem_range e train_index) ;;
                  _ <- fit (PySeries y_train) (Some e_train) ;;
                  e_test <- lift (exog_getitem_range e test_index) ;;
                  predict (range_len test_index) None (Some e_test)
              end ;;
      y_test <- lift (series_getitem_range y test_index) ;;
      metric_value <- lift (metric (s_values y_test) (s_values pred)) ;;
      let cv_predictions := cv_predictions ++ [pred] in
      let cv_metrics := cv_metrics ++ [metric_value] in
      _ <- (if store_residuals then
              y_test <- lift (series_getitem_range y test_index) ;;
              residuals <- lift (series_sub_series y_test pred) ;;
              set_out_sample_residuals (PySeries residuals) true
            else ret tt) ;;
      cv_loop splits' y exog metric store_residuals cv_predictions cv_metrics
  end.

(** [cv_forecaster(forecaster, y, initial_train_size, steps, metric, exog,
    allow_incomplete_fold, set_out_sample_residuals)] for a
    [ForecasterAutoreg]; [store_residuals] is the argument
    [set_out_sample_residuals], [verbose] only prints.  The generator of
    the splits starts to run when the loop asks for the first pair.  The
    result is the pair of the array of the metrics and the array of the
    predictions. *)
Definition cv_forecaster (y : pyobj V) (initial_train_size steps : Z)
    (metric : string) (exog : option (pyobj V)) (allow_incomplete_fold : bool)
    (store_residuals : bool) : Py V M (list V * list V) :=
  y <- lift (_check_y y) ;;
  let y := _preproces_y y in
  exog <- lift (match exog with
                | None => Ok None
                | Some e =>
                    e <- _check_exog e None None ;; Ok (Some (_preproces_exog e))
                end)%result ;;
  s <- get_self ;;
  if Z.of_nat (length (s_values y)) <? initial_train_size
  then raise (Exception "`initial_train_size` must be smaller than lenght of `y`.")
  else if initial_train_size <? window_size s
  then (* the message goes on with the window size *)
       raise (Exception "`initial_train_size` must be greater than forecaster's window_size.")
  else
    metric <- lift (get_metric metric) ;;
    splits <- lift (time_series_spliter (PySeries y) initial_train_size steps
                      allow_incomplete_fold) ;;
    out <- cv_loop splits y exog metric store_residuals [] [] ;;
    let cv_predictions := fst out in
    let cv_metrics := snd out in
    match cv_predictions, cv_metrics with
    | _ :: _, _ :: _ =>
        cv_predictions <- lift (np_concatenate (map s_values cv_predictions)) ;;
        ret (cv_metrics, cv_predictions)
    | _, _ => ret ([], [])
    end.

End CrossValidation.

(** The shape of a fold of a series of [n] values: the train range is the
    positions before the test range, which is not empty and lies in the
    series. *)
Definition fold_shape (its n : Z) (f : split) : Prop :=
  fst f = range_to (stop (fst f)) /\ start (snd f) = stop (fst f)
  /\ its <= stop (fst f) /\ start (snd f) < stop (snd f) <= n.

(** ** Instance for the examples of cross-validation *)

(** Subtraction of two labelled arrays: on equal labels position by
    position, else on the sorted union of the labels, with NaN where an
    operand does not have a label.  Labels repeated within an operand do
    not occur in the examples and are refused. *)
Global Instance aligned_minus : SeriesArith fl :=
  {| series_minus := fun a b =>
       let la := fst a in
       let lb := fst b in
       if bool_decide (la = lb) then Ok (la, zip_with fsub (snd a) (snd b))
       else if bool_decide (NoDup la /\ NoDup lb) then
         let ls := merge_sort label_le (la ++ filter (fun l => l ∉ la) lb) in
         Ok (ls, map (fun l => fsub (reindex_at la (snd a) None l)
                                 (reindex_at lb (snd b) None l)) ls)
       else Raise (ValueError "cannot reindex on an axis with duplicate labels") |}.

(* ================================================================= *)
(** ** model_selection: backtesting with prediction intervals *)

(** [np.concatenate(frames)] of DataFrames, as the number of columns and
    the rows of the 2-D array: the frames must agree on their number of
    columns. *)
Definition np_concatenate_frames {V} (frames : list (DataFrame V))
    : result (nat * list (list V)) :=
  match frames with
  | [] => Raise (ValueError "need at least one array to concatenate")
  | f :: frames' =>
      let ncols := length (df_columns f) in
      if forallb (fun g => (length (df_columns g) =? ncols)%nat) frames'
      then Ok (ncols, concat (map df_rows frames))
      else Raise (ValueError "all the input array dimensions except for the concatenation axis must match exactly")
  end.

(** [a[:, 0]] of a 2-D array. *)
Definition column_0 {V} `{Float V} (a : nat * list (list V)) : result (list V) :=
  match fst a with
  | O => Raise IndexError
  | S _ => Ok (map (fun row => default nan (head row)) (snd a))
  end.

Section BacktestingIntervals.
Context {M : Type} `{Regressor fl M} `{Metrics fl}.
Local Open Scope py_scope.

(** The body of [for i in range(folds)] of
    [backtesting_forecaster_intervals]. *)
Fixpoint backtesting_intervals_loop (idxs : list Z) (y : Series fl)
    (exog : option (Exog fl))
    (initial_train_size window_size folds remainder steps : Z)
    (interval : list Qc) (n_boot : Z) (in_sample_residuals : bool)
    (backtest_predictions : list (DataFrame fl))
    : Py fl M (list (DataFrame fl)) :=
  match idxs with
  | [] => ret backtest_predictions
  | i :: idxs' =>
      let last_window_end := initial_train_size + i * steps in
      let last_window_start := initial_train_size + i * steps - window_size in
      let last_window_y := series_slice y last_window_start last_window_end in
      let next_window_exog :=
        option_map (fun e => exog_slice e last_window_end (last_window_end + steps))
          exog in
      if i <? folds - 1 then
        pred <- predict_interval steps (Some (PySeries last_window_y))
                  next_window_exog interval n_boot in_sample_residuals ;;
        backtesting_intervals_loop idxs' y exog initial_train_size window_size
          folds remainder steps interval n_boot in_sample_residuals
          (backtest_predictions ++ [pred])
      else if negb (remainder =? 0) then
        let steps := remainder in
        pred <- predict_interval steps (Some (PySeries last_window_y))
                  next_window_exog interval n_boot in_sample_residuals ;;
        backtesting_intervals_loop idxs' y exog initial_train_size window_size
          folds remainder steps interval n_boot in_sample_residuals
          (backtest_predictions ++ [pred])
      else
        backtesting_intervals_loop idxs' y exog initial_train_size window_size
          folds remainder steps interval n_boot in_sample_residuals
          backtest_predictions
  end.

(** [backtesting_forecaster_intervals(forecaster, y, steps, metric,
    initial_train_size, exog, interval, n_boot, in_sample_residuals,
    set_out_sample_residuals)]; [store_residuals] is the argument
    [set_out_sample_residuals], [verbose] only prints.  The result is the
    pair of the one-value array of the metric and the rows of the 2-D array
    of the predictions and their bounds. *)
Definition backtesting_forecaster_intervals (y : pyobj fl) (steps : Z)
    (metric : string) (initial_train_size : option Z)
    (exog : option (pyobj fl)) (interval : list Qc) (n_boot : Z)
    (in_sample_residuals store_residuals : bool)
    : Py fl M (list fl * list (list fl)) :=
  y <- lift (_check_y y) ;;
  let y := _preproces_y y in
  exog <- lift (match exog with
                | None => Ok None
                | Some e =>
                    e <- _check_exog e None None ;; Ok (Some (_preproces_exog e))
                end)%result ;;
  let leny := Z.of_nat (length (s_values y)) in
  s <- get_self ;;
  if match initial_train_size with Some its => leny <? its | None => false end
  then raise (Exception "If used, `initial_train_size` must be smaller than lenght of `y`.")
  else if match initial_train_size with
          | Some its => its <? window_size s
          | None => false
          end
  then (* the message goes on with the window size *)
       raise (Exception "`initial_train_size` must be greater than forecaster's window_size.")
  else if match initial_train_size with
          | Some _ => false
          | None => negb (fitted s)
          end
  then raise (Exception "`forecaster` must be already trained if no `initial_train_size` is provided.")
  else
    (* the warning reads len(forecaster.last_window) *)
    _ <- match initial_train_size, self_last_window s with
         | None, None => raise (TypeError "object of type 'NoneType' has no len()")
         | _, _ => ret tt
         end ;;
    metric <- lift (get_metric metric) ;;
    initial_train_size <-
      match initial_train_size with
      | Some its =>
          _ <- fit (PySeries (series_slice y 0 its))
                 (option_map (fun e => exog_slice e 0 its) exog) ;;
          ret its
      | None => s <- get_self ;; ret (window_size s)
      end ;;
    s <- get_self ;;
    let window_size := window_size s in
    if steps =? 0 then raise ZeroDivisionError
    else
      let folds := (leny - initial_train_size) / steps + 1 in
      let remainder := (leny - initial_train_size) mod steps in
      frames <- backtesting_intervals_loop (range_list (range_to folds)) y exog
                  initial_train_size window_size folds remainder steps
                  interval n_boot in_sample_residuals [] ;;
      backtest_predictions <- lift (np_concatenate_frames frames) ;;
      y_pred <- lift (column_0 backtest_predictions) ;;
      metric_value <-
        lift (metric (s_values (series_slice y initial_train_size leny)) y_pred) ;;
      _ <- (if store_residuals then
              let y_true :=
                series_slice y initial_train_size
                  (initial_train_size
                   + Z.of_nat (length (snd backtest_predictions))) in
              y_pred <- lift (column_0 backtest_predictions) ;;
              residuals <- lift (series_sub_array y_true y_pred) ;;
              set_out_sample_residuals (PySeries residuals) true
            else ret tt) ;;
      ret ([metric_value], snd backtest_predictions).

End BacktestingIntervals.

(* ================================================================= *)
(** * Properties *)

Section SpliterFacts.
Context {V : Type}.
Implicit Types (y : @pyobj V).

Lemma spliter_loop_closed leny its steps folds rem allow n s :
  Z.of_nat (s + n) = folds ->
  spliter_loop leny its steps folds rem allow
      (map (fun k => 0 + Z.of_nat k) (seq s n))
  = map (complete_fold its steps) (map Z.of_nat (seq s (n - 1)))
    ++ (if (n =? 0)%nat then []
        else if negb (rem =? 0) && allow then last_fold leny its steps (folds - 1)
        else []).
Proof.
  revert s. induction n as [|n IH]; intros s Hs; [reflexivity|].
  cbn [seq map spliter_loop]. rewrite Z.add_0_l.
  destruct (Z.ltb_spec (Z.of_nat s) (folds - 1)) as [Hlt|Hge].
  - destruct n as [|n]; [lia|].
    rewrite (IH (S s)) by lia. cbn [Nat.eqb].
    replace (S (S n) - 1)%nat with (S n) by lia.
    replace (S n - 1)%nat with n by lia. reflexivity.
  - assert (n = 0%nat) as -> by lia. cbn.
    replace (folds - 1) with (Z.of_nat s) by lia.
    destruct (negb (rem =? 0) && allow); reflexivity.
Qed.

Lemma spliter_closed y its steps allow leny :
  is_series_or_1d y = true -> py_len y = Ok leny ->
  its <= leny -> 1 <= steps ->
  time_series_spliter y its steps allow
  = Ok (if leny - its <? steps then []
        else map (complete_fold its steps)
               (map Z.of_nat (seq 0 (Z.to_nat ((leny - its) / steps))))
             ++ (if negb ((leny - its) mod steps =? 0) && allow
                 then last_fold leny its steps ((leny - its) / steps)
                 else [])).
Proof.
  intros Hy Hlen Hits Hsteps.
  assert (Hq : 0 <= (leny - its) / steps) by (apply Z.div_pos; lia).
  assert (Hq1 : leny - its < steps <-> (leny - its) / steps = 0).
  { split; intros Hd.
    - apply Z.div_small; lia.
    - apply Z.div_small_iff in Hd; lia. }
  unfold time_series_spliter.
  destruct y; try discriminate Hy; rewrite Hlen; cbn [rbind];
    (destruct (Z.ltb_spec leny its); [lia|]);
    (destruct (Z.eqb_spec steps 0); [lia|]);
    (destruct (Z.eqb_spec ((leny - its) / steps + 1) 1) as [He|He];
     destruct (Z.ltb_spec (leny - its) steps) as [Hs|Hs]; try lia; try reflexivity);
    unfold range_list, range_to; cbn [start stop];
    rewrite (spliter_loop_closed _ _ _ _ _ _ _ 0) by lia;
    rewrite Z.sub_0_r;
    replace (Z.to_nat ((leny - its) / steps + 1) - 1)%nat
      with (Z.to_nat ((leny - its) / steps)) by lia;
    replace ((leny - its) / steps + 1 - 1) with ((leny - its) / steps) by lia;
    (destruct (Nat.eqb_spec (Z.to_nat ((leny - its) / steps + 1)) 0); [lia|]);
    reflexivity.
Qed.

(** C5, as the code has it.  For a series (or 1-D array) of [leny] values,
    [initial_train_size <= leny] and [steps >= 1], [time_series_spliter]
    yields its pairs in time order: the [i]-th train range is
    [range(initial_train_size + i * steps)], so it starts at 0 and grows by
    [steps] per fold; the test range starts where the train range stops, is
    not empty, stays inside the series and has at most [steps] positions; a
    test range shorter than [steps] can only be the last one and then runs to
    the end of the series.  Such a short final range is yielded iff the
    policy allows incomplete folds, the remainder is not zero AND at least
    one complete fold exists ([steps <= leny - initial_train_size]): with
    fewer than [steps] observations after the initial train set the
    generator yields nothing at all.  For a series of 10 values,
    [initial_train_size = 5], [steps = 2] and [allow_incomplete_fold = True]
    the folds are (range(5), range(5,7)), (range(7), range(7,9)),
    (range(9), range(9,10)). *)
Theorem time_series_spliter_folds y its steps allow leny :
  is_series_or_1d y = true -> py_len y = Ok leny ->
  its <= leny -> 1 <= steps ->
  exists folds : list split,
    time_series_spliter y its steps allow = Ok folds
    /\ (forall (i : nat) tr te, folds !! i = Some (tr, te) ->
          tr = range_to (its + Z.of_nat i * steps)
          /\ start te = stop tr
          /\ start te < stop te <= leny
          /\ stop te - start te <= steps
          /\ (stop te - start te < steps ->
               stop te = leny /\ S i = length folds))
    /\ ((exists f, In f folds /\ short_fold steps f)
         <-> (allow = true /\ (leny - its) mod steps <> 0
              /\ steps <= leny - its))
    /\ (leny = 10 -> its = 5 -> steps = 2 -> allow = true ->
         folds = [ (range_to 5, Range 5 7); (range_to 7, Range 7 9);
                   (range_to 9, Range 9 10) ]).
Proof.
  intros Hy Hlen Hits Hsteps.
  rewrite (spliter_closed _ _ _ _ _ Hy Hlen Hits Hsteps).
  eexists; split; [reflexivity|].
  pose proof (Z.div_mod (leny - its) steps ltac:(lia)) as Hdm.
  pose proof (Z.mod_pos_bound (leny - its) steps ltac:(lia)) as Hmod.
  assert (Hq : 0 <= (leny - its) / steps) by (apply Z.div_pos; lia).
  set (q := (leny - its) / steps) in *.
  set (r := (leny - its) mod steps) in *.
  destruct (Z.ltb_spec (leny - its) steps) as [Hs|Hs].
  { split; [|split; [split|]].
    - intros i tr te Hi. rewrite lookup_nil in Hi. discriminate.
    - intros (f & Hf & _). destruct Hf.
    - intros (_ & _ & Hge). lia.
    - intros -> -> -> _. lia. }
  assert (Hq1 : 1 <= q) by nia.
  split; [|split].
  - intros i tr te Hi.
    destruct (decide (i < Z.to_nat q)%nat) as [Hlt|Hge].
    + rewrite lookup_app_l in Hi
        by (rewrite !length_map, length_seq; exact Hlt).
      rewrite !list_lookup_fmap, lookup_seq_lt in Hi by exact Hlt.
      cbn in Hi. injection Hi as <- <-. cbn [start stop range_to].
      repeat split; nia.
    + rewrite lookup_app_r in Hi by (rewrite !length_map, length_seq; lia).
      rewrite !length_map, length_seq in Hi.
      destruct (negb (r =? 0) && allow) eqn:Hc; [|rewrite lookup_nil in Hi; discriminate].
      apply andb_true_iff in Hc as [Hr ->].
      apply negb_true_iff, Z.eqb_neq in Hr.
      unfold last_fold in Hi.
      destruct (i - Z.to_nat q)%nat as [|k] eqn:Hk; [|destruct k; discriminate Hi].
      cbn in Hi. injection Hi as <- <-. cbn [start stop range_to].
      assert (Z.of_nat i = q) as -> by lia.
      repeat split; try nia.
      rewrite length_app, !length_map, length_seq. cbn. lia.
  - split.
    + intros (f & Hf & Hshort). apply in_app_iff in Hf as [Hf|Hf].
      * apply in_map_iff in Hf as (i & <- & _).
        unfold short_fold, complete_fold in Hshort. cbn in Hshort. lia.
      * destruct (negb (r =? 0) && allow) eqn:Hc; [|destruct Hf].
        apply andb_true_iff in Hc as [Hr ->].
        apply negb_true_iff, Z.eqb_neq in Hr. auto.
    + intros (-> & Hr & _). exists (range_to (its + q * steps), Range (its + q * steps) leny).
      split.
      * apply in_app_iff. right. apply Z.eqb_neq in Hr. rewrite Hr. cbn. auto.
      * unfold short_fold. cbn. nia.
  - intros -> -> -> ->. reflexivity.
Qed.

End SpliterFacts.

(** Witness of [time_series_spliter_folds]: a 10-value array. *)
Lemma time_series_spliter_folds_witness :
  exists folds : list split,
    time_series_spliter (PyNdarray (repeat 0%nat 10)) 5 2 true = Ok folds
    /\ (forall (i : nat) tr te, folds !! i = Some (tr, te) ->
          tr = range_to (5 + Z.of_nat i * 2)
          /\ start te = stop tr
          /\ start te < stop te <= 10
          /\ stop te - start te <= 2
          /\ (stop te - start te < 2 ->
               stop te = 10 /\ S i = length folds))
    /\ ((exists f, In f folds /\ short_fold 2 f)
         <-> (true = true /\ (10 - 5) mod 2 <> 0 /\ 2 <= 10 - 5))
    /\ (10 = 10 -> 5 = 5 -> 2 = 2 -> true = true ->
         folds = [ (range_to 5, Range 5 7); (range_to 7, Range 7 9);
                   (range_to 9, Range 9 10) ]).
Proof.
  apply (time_series_spliter_folds (PyNdarray (repeat 0%nat 10)) 5 2 true 10);
    [reflexivity | reflexivity | lia | lia].
Defined.

(** C5 as the specification words it fails: with 10 values,
    [initial_train_size = 9], [steps = 2] and incomplete folds allowed the
    remainder is 1, yet no (short) fold is yielded, because the generator
    returns early when not even one complete fold fits. *)
Lemma time_series_spliter_short_fold_counterexample :
  ~ (forall folds : list split,
       time_series_spliter (PyNdarray (repeat 0%nat 10)) 9 2 true = Ok folds ->
       ((exists f, In f folds /\ short_fold 2 f)
        <-> (true = true /\ (10 - 9) mod 2 <> 0))).
Proof.
  intros Hclaim.
  destruct (Hclaim [] eq_refl) as [_ Hback].
  destruct Hback as (f & Hf & _); [split; [reflexivity | discriminate] | destruct Hf].
Qed.

(* ================================================================= *)
(** ** Lags: the constructor and [set_lags] *)

Lemma fold_left_max_spec (l : list Z) (x : Z) :
  (fold_left Z.max l x = x \/ In (fold_left Z.max l x) l)
  /\ x <= fold_left Z.max l x
  /\ Forall (fun k => k <= fold_left Z.max l x) l.
Proof.
  revert x. induction l as [|a l IH]; intros x; cbn [fold_left].
  - split; [left; reflexivity | split; [lia | constructor]].
  - destruct (IH (Z.max x a)) as (Hin & Hle & Hall). split; [|split].
    + destruct Hin as [Heq|Hin]; [|right; right; exact Hin].
      rewrite Heq. destruct (Z.max_spec x a) as [[_ ->]|[_ ->]];
        [right; left; reflexivity | left; reflexivity].
    + lia.
    + constructor; [lia | exact Hall].
Qed.

Lemma fold_left_min_spec (l : list Z) (x : Z) :
  (fold_left Z.min l x = x \/ In (fold_left Z.min l x) l)
  /\ fold_left Z.min l x <= x
  /\ Forall (fun k => fold_left Z.min l x <= k) l.
Proof.
  revert x. induction l as [|a l IH]; intros x; cbn [fold_left].
  - split; [left; reflexivity | split; [lia | constructor]].
  - destruct (IH (Z.min x a)) as (Hin & Hle & Hall). split; [|split].
    + destruct Hin as [Heq|Hin]; [|right; right; exact Hin].
      rewrite Heq. destruct (Z.min_spec x a) as [[_ ->]|[_ ->]];
        [left; reflexivity | right; left; reflexivity].
    + lia.
    + constructor; [lia | exact Hall].
Qed.

Lemma py_max_spec (l : list Z) (m : Z) :
  py_max l = Some m -> In m l /\ Forall (fun k => k <= m) l.
Proof.
  destruct l as [|x l]; [discriminate|]. cbn. intros [= <-].
  destruct (fold_left_max_spec l x) as ([Heq|Hin] & Hle & Hall).
  - split; [left; symmetry; exact Heq | constructor; [exact Hle | exact Hall]].
  - split; [right; exact Hin | constructor; [exact Hle | exact Hall]].
Qed.

Lemma py_min_spec (l : list Z) (m : Z) :
  py_min l = Some m -> In m l /\ Forall (fun k => m <= k) l.
Proof.
  destruct l as [|x l]; [discriminate|]. cbn. intros [= <-].
  destruct (fold_left_min_spec l x) as ([Heq|Hin] & Hle & Hall).
  - split; [left; symmetry; exact Heq | constructor; [exact Hle | exact Hall]].
  - split; [right; exact Hin | constructor; [exact Hle | exact Hall]].
Qed.

Lemma range_list_lookup (a b : Z) (i : nat) :
  range_list (Range a b) !! i
  = if decide (Z.of_nat i < b - a) then Some (a + Z.of_nat i) else None.
Proof.
  unfold range_list. cbn [start stop]. rewrite list_lookup_fmap.
  destruct (decide (Z.of_nat i < b - a)) as [Hlt|Hge].
  - rewrite lookup_seq_lt by lia. reflexivity.
  - rewrite lookup_seq_ge by lia. reflexivity.
Qed.

Lemma range_list_length (a b : Z) :
  length (range_list (Range a b)) = Z.to_nat (b - a).
Proof. unfold range_list. rewrite length_map, length_seq. reflexivity. Qed.

Lemma range_list_In (a b k : Z) :
  In k (range_list (Range a b)) <-> a <= k < b.
Proof.
  unfold range_list. cbn [start stop]. rewrite in_map_iff. split.
  - intros (i & <- & Hi). apply in_seq in Hi. lia.
  - intros Hk. exists (Z.to_nat (k - a)). split; [lia|]. apply in_seq. lia.
Qed.

Lemma lags_of_arg_valid (a : lags_arg) :
  valid_lags a -> lags_of_arg a = Ok (lags_value a).
Proof.
  destruct a as [n|l|l|]; cbn.
  - intros Hn. destruct (Z.ltb_spec n 1); [lia | reflexivity].
  - intros [Hne Hall]. destruct (py_min l) as [m|] eqn:Hm.
    + apply py_min_spec in Hm as [Hin _]. rewrite List.Forall_forall in Hall.
      destruct (Z.ltb_spec m 1) as [Hlt|]; [|reflexivity].
      specialize (Hall m Hin). lia.
    + destruct l; [congruence | discriminate].
  - intros [Hne Hall]. destruct (py_min l) as [m|] eqn:Hm.
    + apply py_min_spec in Hm as [Hin _]. rewrite List.Forall_forall in Hall.
      destruct (Z.ltb_spec m 1) as [Hlt|]; [|reflexivity].
      specialize (Hall m Hin). lia.
    + destruct l; [congruence | discriminate].
  - intros [].
Qed.

Lemma lags_of_arg_inv (a : lags_arg) (l : list Z) :
  lags_of_arg a = Ok l ->
  l = lags_value a /\ l <> [] /\ Forall (fun k => 1 <= k) l.
Proof.
  destruct a as [n|l0|l0|]; cbn.
  - destruct (Z.ltb_spec n 1); [discriminate|]. intros [= <-].
    split; [reflexivity|]. split.
    + intros Hnil. apply (f_equal (@length Z)) in Hnil.
      unfold range_to in Hnil.
      rewrite length_map, range_list_length in Hnil. cbn in Hnil. lia.
    + apply List.Forall_forall. intros k Hk. apply in_map_iff in Hk as (j & <- & Hj).
      unfold range_to in Hj. apply range_list_In in Hj. lia.
  - destruct (py_min l0) as [m|] eqn:Hm; [|discriminate].
    destruct (Z.ltb_spec m 1); [discriminate|]. intros [= <-].
    apply py_min_spec in Hm as [Hin Hall].
    split; [reflexivity|]. split; [intros ->; destruct Hin|].
    eapply Forall_impl; [exact Hall|]. cbn. intros; lia.
  - destruct (py_min l0) as [m|] eqn:Hm; [|discriminate].
    destruct (Z.ltb_spec m 1); [discriminate|]. intros [= <-].
    apply py_min_spec in Hm as [Hin Hall].
    split; [reflexivity|]. split; [intros ->; destruct Hin|].
    eapply Forall_impl; [exact Hall|]. cbn. intros; lia.
  - discriminate.
Qed.

Lemma valid_lags_max (a : lags_arg) :
  valid_lags a -> exists m, py_max (lags_value a) = Some m.
Proof.
  intros Hv. pose proof (lags_of_arg_valid a Hv) as Hok.
  apply lags_of_arg_inv in Hok as (_ & Hne & _).
  destruct (lags_value a) as [|x l]; [congruence|]. eexists; reflexivity.
Qed.

(* ================================================================= *)
(** ** Running the monad, one statement at a time *)

Section MonadFacts.
Context {V M : Type}.
Implicit Types (w : World V M) (s : Forecaster V M) (h : list (list V)).

Lemma bind_ret {A B} (a : A) (k : A -> Py V M B) w :
  bind (ret a) k w = k a w.
Proof. reflexivity. Qed.

Lemma bind_raise {A B} (e : exn) (k : A -> Py V M B) w :
  bind (raise e) k w = (w, Raise e).
Proof. reflexivity. Qed.

Lemma bind_lift {A B} (r : result A) (k : A -> Py V M B) w :
  bind (lift r) k w = match r with Ok a => k a w | Raise e => (w, Raise e) end.
Proof. destruct r; reflexivity. Qed.

Lemma bind_lift_Ok {A B} (a : A) (k : A -> Py V M B) w :
  bind (lift (Ok a)) k w = k a w.
Proof. reflexivity. Qed.

Lemma bind_lift_Raise {A B} (e : exn) (k : A -> Py V M B) w :
  bind (lift (@Raise A e)) k w = (w, Raise e).
Proof. reflexivity. Qed.

Lemma bind_get_self {B} (k : Forecaster V M -> Py V M B) w :
  bind get_self k w = k (self_ w) w.
Proof. reflexivity. Qed.

Lemma bind_assign {B} (f : Forecaster V M -> Forecaster V M)
    (k : unit -> Py V M B) s h e d :
  bind (assign f) k (mkWorld s h e d) = k tt (mkWorld (f s) h e d).
Proof. reflexivity. Qed.

Lemma bind_alloc {B} (vs : list V) (k : nat -> Py V M B) s h e d :
  bind (alloc vs) k (mkWorld s h e d) = k (length h) (mkWorld s (h ++ [vs]) e d).
Proof. reflexivity. Qed.

Lemma bind_load {B} (a : nat) (k : list V -> Py V M B) w :
  bind (load a) k w
  = match heap w !! a with
    | Some vs => k vs w
    | None => (w, Raise DanglingReference)
    end.
Proof. unfold bind, load. destruct (heap w !! a); reflexivity. Qed.

Lemma bind_draw {B} (k : nat -> Py V M B) s h e d :
  bind draw k (mkWorld s h e d) = k (e d) (mkWorld s h e (S d)).
Proof. reflexivity. Qed.

Lemma bind_assoc {A B C} (c : Py V M A) (k1 : A -> Py V M B)
    (k2 : B -> Py V M C) w :
  bind (bind c k1) k2 w = bind c (fun a => bind (k1 a) k2) w.
Proof. unfold bind. destruct (c w) as [w' [a|e]]; reflexivity. Qed.

(** What a run of [c] is, in terms of the run of its first statement. *)
Lemma bind_run {A B} (c : Py V M A) (k : A -> Py V M B) w :
  bind c k w
  = match snd (c w) with
    | Ok a => k a (fst (c w))
    | Raise e => (fst (c w), Raise e)
    end.
Proof. unfold bind. destruct (c w) as [w' [a|e]]; reflexivity. Qed.

End MonadFacts.

Ltac py_step :=
  first
    [ rewrite bind_assign | rewrite bind_get_self | rewrite bind_ret
    | rewrite bind_raise | rewrite bind_lift_Ok | rewrite bind_lift_Raise
    | rewrite bind_alloc | rewrite bind_draw ];
  cbv beta; cbn [self_ heap entropy drawn fst snd].

Ltac py_steps := repeat py_step.

Ltac attr_simp :=
  cbn [regressor y_index_type y_index_freq training_range last_window
       included_exog exog_type exog_col_names in_sample_residuals
       out_sample_residuals fitted lags max_lag window_size
       with_regressor with_y_index_type with_y_index_freq with_training_range
       with_last_window with_included_exog with_exog_type with_exog_col_names
       with_in_sample_residuals with_out_sample_residuals with_fitted
       with_lags with_max_lag with_window_size reset_attrs
       self_ heap entropy drawn fst snd].

Ltac py_simp := repeat (py_step; attr_simp).

(** Name the attributes and the parts of a world. *)
Ltac destruct_world w :=
  destruct w as [[?r ?yt ?yf ?tr ?lw ?ie ?et ?ec ?isr ?osr ?f ?l ?m ?ws] ?h ?e ?d].

Section LagsFacts.
Context {V M : Type}.
Implicit Types (w : World V M).

Lemma set_lags_run w a l m :
  lags_of_arg a = Ok l -> py_max l = Some m ->
  set_lags a w
  = (mkWorld (with_window_size m (with_max_lag m (with_lags l (self_ w))))
       (heap w) (entropy w) (drawn w), Ok tt).
Proof.
  intros Ha Hm. destruct_world w. unfold set_lags, py_max_lags.
  rewrite Ha. py_simp. rewrite Hm. py_simp. rewrite Hm. py_simp.
  reflexivity.
Qed.

(** C9.  For a forecaster in any state (fitted or not) and every lags
    argument the guards accept (an int [>= 1], or a non-empty list, range or
    array of values [>= 1]), [set_lags] returns normally and assigns exactly
    [lags], [max_lag] and [window_size], with [window_size = max_lag] the
    maximum of the new lag set; every other attribute keeps its value: the
    fitted flag, the regressor, the stored last window (attribute and
    buffer) and both residual collections among them. *)
Theorem set_lags_frame w a :
  valid_lags a ->
  let w' := fst (set_lags a w) in
  snd (set_lags a w) = Ok tt
  /\ lags (self_ w') = lags_value a
  /\ py_max (lags_value a) = Some (max_lag (self_ w'))
  /\ window_size (self_ w') = max_lag (self_ w')
  /\ fitted (self_ w') = fitted (self_ w)
  /\ regressor (self_ w') = regressor (self_ w)
  /\ last_window (self_ w') = last_window (self_ w)
  /\ heap w' = heap w
  /\ in_sample_residuals (self_ w') = in_sample_residuals (self_ w)
  /\ out_sample_residuals (self_ w') = out_sample_residuals (self_ w)
  /\ y_index_type (self_ w') = y_index_type (self_ w)
  /\ y_index_freq (self_ w') = y_index_freq (self_ w)
  /\ training_range (self_ w') = training_range (self_ w)
  /\ included_exog (self_ w') = included_exog (self_ w)
  /\ exog_type (self_ w') = exog_type (self_ w)
  /\ exog_col_names (self_ w') = exog_col_names (self_ w)
  /\ entropy w' = entropy w /\ drawn w' = drawn w.
Proof.
  intros Hv. destruct (valid_lags_max a Hv) as [m Hm].
  rewrite (set_lags_run w a _ m (lags_of_arg_valid a Hv) Hm).
  destruct_world w. attr_simp. rewrite Hm. repeat split; reflexivity.
Qed.

(** An argument the guards refuse leaves every attribute as it was. *)
Lemma set_lags_invalid w a e :
  lags_of_arg a = Raise e -> set_lags a w = (w, Raise e).
Proof.
  intros Ha. unfold set_lags. rewrite Ha. apply bind_lift_Raise.
Qed.

(** The constructor establishes [max_lag = window_size = max(lags)] with
    all lags at least 1. *)
Lemma init_lags (r : M) a (s : Forecaster V M) :
  __init__ r a = Ok s ->
  lags s <> [] /\ Forall (fun k => 1 <= k) (lags s)
  /\ py_max (lags s) = Some (max_lag s) /\ window_size s = max_lag s
  /\ fitted s = false.
Proof.
  unfold __init__, py_max_lags. destruct (lags_of_arg a) as [l|] eqn:Ha; [|discriminate].
  cbn [rbind]. destruct (py_max l) as [m|] eqn:Hm; [|discriminate]. cbn [rbind].
  intros [= <-]. attr_simp. apply lags_of_arg_inv in Ha as (_ & Hne & Hall).
  repeat split; assumption.
Qed.

End LagsFacts.

(** Witness of [set_lags_frame]: [set_lags(5)] on a forecaster built with
    [lags=3]. *)
Lemma set_lags_frame_witness :
  let w := mkWorld (mkForecaster tt None None None None false None None None
                      None false [1; 2; 3] 3 3)
             ([] : list (list (option Z))) (fun _ => O) O in
  valid_lags (LagsInt 5)
  /\ snd (set_lags (LagsInt 5) w) = Ok tt
  /\ lags (self_ (fst (set_lags (LagsInt 5) w))) = lags_value (LagsInt 5)
  /\ py_max (lags_value (LagsInt 5))
     = Some (max_lag (self_ (fst (set_lags (LagsInt 5) w)))).
Proof.
  intros w.
  assert (Hv : valid_lags (LagsInt 5)) by (cbn; lia).
  pose proof (set_lags_frame w (LagsInt 5) Hv) as Hf.
  split; [exact Hv|].
  split; [exact (proj1 Hf)|].
  split; [exact (proj1 (proj2 Hf)) | exact (proj1 (proj2 (proj2 Hf)))].
Defined.

(* ================================================================= *)
(** ** [fit]: the reset block runs before the validation *)

Section FitFacts.
Context {V M : Type} `{Float V} `{Regressor V M}.
Implicit Types (w : World V M) (y : pyobj V).

Lemma fit_y_rejected w y exog e :
  _check_y y = Raise e ->
  fit y exog w
  = (mkWorld (reset_attrs (self_ w)) (heap w) (entropy w) (drawn w), Raise e).
Proof.
  intros Hy. destruct_world w. unfold fit. py_simp. rewrite Hy. py_simp.
  reflexivity.
Qed.

Lemma py_index_first {A} (l : list A) : py_index l 0 = l !! 0%nat.
Proof. reflexivity. Qed.

Lemma py_index_neg {A} (l : list A) (k : Z) :
  1 <= k <= Z.of_nat (length l) ->
  py_index l (- k) = l !! (length l - Z.to_nat k)%nat.
Proof.
  intros Hk. unfold py_index.
  destruct (Z.leb_spec 0 (- k)); [lia|].
  destruct (Z.leb_spec 0 (Z.of_nat (length l) + - k)); [|lia].
  f_equal. lia.
Qed.

Lemma py_index_neg_out {A} (l : list A) (k : Z) :
  Z.of_nat (length l) < k -> py_index l (- k) = None.
Proof.
  intros Hk. unfold py_index.
  destruct (Z.leb_spec 0 (- k)); [lia|].
  destruct (Z.leb_spec 0 (Z.of_nat (length l) + - k)); [lia|]. reflexivity.
Qed.

Lemma index_first_last_nonempty (ix : Index) :
  index_labels ix <> [] -> exists tr, index_first_last ix = Ok tr.
Proof.
  intros Hne. unfold index_first_last.
  destruct (index_labels ix) as [|a ls] eqn:Hl; [congruence|].
  rewrite py_index_first. cbn [lookup list_lookup].
  change (-1) with (- (1)). rewrite py_index_neg by (cbn [length]; lia).
  destruct (lookup_lt_is_Some_2 (a :: ls) (length (a :: ls) - Z.to_nat 1)%nat)
    as [b Hb]; [cbn [length]; lia|].
  rewrite Hb. eexists; reflexivity.
Qed.

Lemma preproces_y_values (s : Series V) :
  s_values (_preproces_y s) = s_values s.
Proof. unfold _preproces_y. destruct (has_freq (s_index s)); reflexivity. Qed.

Lemma preproces_y_series_ok (s : Series V) :
  series_ok s -> series_ok (_preproces_y s).
Proof.
  unfold series_ok, _preproces_y. intros Hok.
  destruct (has_freq (s_index s)); [exact Hok|]. cbn.
  rewrite length_map, range_list_length. lia.
Qed.

Lemma preproces_y_index (s : Series V) :
  (exists f ts, s_index (_preproces_y s) = DatetimeIndex (Some f) ts)
  \/ s_index (_preproces_y s) = RangeIndex 0 (Z.of_nat (length (s_values s))).
Proof.
  unfold _preproces_y. destruct (s_index s) as [a b|[f|] ts|ls] eqn:Hix; cbn;
    rewrite ?Hix; eauto.
Qed.

Lemma preproces_y_freq_info (s : Series V) :
  exists fr, index_freq_info (s_index (_preproces_y s)) = Ok fr.
Proof.
  destruct (preproces_y_index s) as [(f & ts & ->)| ->]; eexists; reflexivity.
Qed.

Lemma fit_length_mismatch w s xo n :
  series_ok s -> has_null (s_values s) = false -> s_values s <> [] ->
  py_len xo = Ok n -> n <> Z.of_nat (length (s_values s)) ->
  exists tr fr,
    fit (PySeries s) (Some xo) w
    = (mkWorld (with_y_index_freq (Some fr)
                  (with_training_range (Some tr)
                     (with_y_index_type
                        (Some (type_of_index (s_index (_preproces_y s))))
                        (reset_attrs (self_ w)))))
         (heap w) (entropy w) (drawn w),
       Raise (Exception "`exog` must have same number of samples as `y`.")).
Proof.
  intros Hok Hnull Hne Hlen Hn.
  destruct (index_first_last_nonempty (s_index (_preproces_y s))) as [tr Htr].
  { apply preproces_y_series_ok in Hok. unfold series_ok in Hok.
    rewrite preproces_y_values in Hok. intros Hnil. rewrite Hnil in Hok.
    destruct (s_values s); [congruence | discriminate]. }
  destruct (preproces_y_freq_info s) as [fr Hfr].
  exists tr, fr.
  destruct_world w. unfold fit. py_simp.
  unfold _check_y. rewrite Hnull. py_simp. rewrite Htr. py_simp.
  rewrite Hfr. py_simp. cbv beta iota delta [fit_exog].
  rewrite bind_assoc, Hlen. py_simp.
  rewrite preproces_y_values.
  destruct (Z.eqb_spec n (Z.of_nat (length (s_values s)))); [contradiction|].
  cbn [negb]. py_simp. reflexivity.
Qed.

(** C3, as the code has it.  [fit] first resets the fitted state and only
    then validates.  On each validation failure the specification names
    (y not a Series, y with missing values, exog of another length than y)
    the exception is raised and the forecaster is left unfitted: the fitted
    flag is False, the last window, both residual collections and the
    exogenous metadata are None, whatever they were before the call; the
    training metadata is None when [y] itself is rejected (at a length
    mismatch it already describes the rejected [y]).  What the call leaves
    as it was: the regressor, the lag configuration, and the buffers and
    random source of the world. *)
Theorem fit_validation_failure_resets w y exog e :
  validation_failure y exog e ->
  let w' := fst (fit y exog w) in
  snd (fit y exog w) = Raise e
  /\ fitted (self_ w') = false
  /\ last_window (self_ w') = None
  /\ in_sample_residuals (self_ w') = None
  /\ out_sample_residuals (self_ w') = None
  /\ included_exog (self_ w') = false
  /\ exog_type (self_ w') = None
  /\ exog_col_names (self_ w') = None
  /\ (y_rejected y ->
      y_index_type (self_ w') = None /\ y_index_freq (self_ w') = None
      /\ training_range (self_ w') = None)
  /\ regressor (self_ w') = regressor (self_ w)
  /\ lags (self_ w') = lags (self_ w)
  /\ max_lag (self_ w') = max_lag (self_ w)
  /\ window_size (self_ w') = window_size (self_ w)
  /\ heap w' = heap w /\ entropy w' = entropy w /\ drawn w' = drawn w.
Proof.
  intros Hvf. destruct Hvf as [Hns|s -> Hnull|s xo n -> Hok Hnull Hne -> Hlen Hn].
  - rewrite (fit_y_rejected w y exog (Exception "`y` must be a pandas Series.")).
    + destruct_world w. attr_simp. repeat split; reflexivity.
    + destruct y; try reflexivity. exfalso. eapply Hns. reflexivity.
  - rewrite (fit_y_rejected w _ exog (Exception "`y` has missing values.")).
    + destruct_world w. attr_simp. repeat split; reflexivity.
    + unfold _check_y. rewrite Hnull. reflexivity.
  - destruct (fit_length_mismatch w s xo n Hok Hnull Hne Hlen Hn) as (tr & fr & ->).
    destruct_world w. attr_simp. repeat split; try reflexivity.
    all: exfalso;
      match goal with
      | Hrej : y_rejected _ |- _ => specialize (Hrej s eq_refl); congruence
      end.
Qed.

End FitFacts.

Example example_forecaster_init :
  __init__ tt (LagsInt 2) = Ok example_forecaster.
Proof. reflexivity. Qed.

Example fitted_world_attrs :
  snd (fit (PySeries example_y) None example_world) = Ok tt
  /\ fitted (self_ fitted_world) = true
  /\ last_window (self_ fitted_world) = Some (RangeIndex 4 6, O)
  /\ heap fitted_world = [[Some 8; Some 13]]
  /\ in_sample_residuals (self_ fitted_world)
     = Some [Some 0; Some 0; Some 0; Some 0]
  /\ out_sample_residuals (self_ fitted_world) = None
  /\ training_range (self_ fitted_world) = Some (IntLabel 0, IntLabel 5).
Proof. vm_compute. repeat split. Qed.

(** Witness of [fit_validation_failure_resets]: a fitted forecaster, [fit]
    called again with something that is not a Series. *)
Lemma fit_validation_failure_resets_witness :
  validation_failure (PyOther (V:=option Z) None) None
    (Exception "`y` must be a pandas Series.")
  /\ snd (fit (PyOther None) None fitted_world)
     = Raise (Exception "`y` must be a pandas Series.")
  /\ fitted (self_ (fst (fit (PyOther None) None fitted_world))) = false
  /\ last_window (self_ (fst (fit (PyOther None) None fitted_world))) = None.
Proof.
  assert (Hv : validation_failure (PyOther (V:=option Z) None) None
                 (Exception "`y` must be a pandas Series."))
    by (constructor; intros s; discriminate).
  pose proof (fit_validation_failure_resets fitted_world _ _ _ Hv) as Hf.
  split; [exact Hv|].
  split; [exact (proj1 Hf)|].
  split; [exact (proj1 (proj2 Hf)) | exact (proj1 (proj2 (proj2 Hf)))].
Defined.

(** C3 as the specification words it fails: [fit] on a fitted forecaster
    with an argument that is not a Series raises, and the attributes are
    not what they were before the call (the fitted flag went from True to
    False, the last window and the residuals are gone). *)
Lemma fit_failure_mutates_counterexample :
  ~ (forall e,
       validation_failure (PyOther (V:=option Z) None) None e ->
       snd (fit (PyOther None) None fitted_world) = Raise e
       /\ self_ (fst (fit (PyOther None) None fitted_world)) = self_ fitted_world).
Proof.
  intros Hclaim.
  destruct (Hclaim (Exception "`y` must be a pandas Series.")) as [_ Heq].
  - constructor; intros s; discriminate.
  - assert (Hbefore : fitted (self_ fitted_world) = true)
      by (vm_compute; reflexivity).
    assert (Hafter : fitted (self_ (fst (fit (PyOther None) None fitted_world)))
                     = false) by (vm_compute; reflexivity).
    rewrite Heq in Hafter. congruence.
Qed.

(* ================================================================= *)
(** ** The residual cap *)

Section ResidualFacts.
Context {V M : Type} `{Float V} `{Regressor V M}.
Implicit Types (w : World V M) (y : pyobj V) (s : Forecaster V M).

(** Sampling without replacement advances the random source and nothing
    else; it returns [size] values of the pool, and does return when the
    pool is large enough. *)
Lemma choice_without_replacement_run (pool : list V) (size : nat) s h e d :
  exists d' r,
    choice_without_replacement pool size (mkWorld s h e d)
    = (mkWorld s h e d', r)
    /\ (forall l, r = Ok l ->
          length l = size /\ (forall v, In v l -> In v pool))
    /\ ((size <= length pool)%nat -> exists l, r = Ok l).
Proof.
  revert pool d. induction size as [|k IH]; intros pool d.
  - exists d, (Ok []). split; [reflexivity|]. split.
    + intros l [= <-]. split; [reflexivity | intros v []].
    + intros _. eexists; reflexivity.
  - cbn [choice_without_replacement]. py_simp.
    destruct (pool !! (e d mod length pool)%nat) as [v|] eqn:Hv.
    + destruct (IH (delete (e d mod length pool)%nat pool) (S d))
        as (d' & r & Hrun & Hl & Hok).
      rewrite bind_run, Hrun. cbn [fst snd].
      destruct r as [l'|err].
      * exists d', (Ok (v :: l')). split; [reflexivity|]. split.
        -- intros l [= <-]. destruct (Hl l' eq_refl) as [Hlen Hin].
           split; [cbn [length]; lia|].
           intros x [<-|Hx].
           ++ apply list_elem_of_In. eapply list_elem_of_lookup_2. exact Hv.
           ++ apply list_elem_of_In. eapply list_elem_of_delete_inv.
              apply list_elem_of_In. apply Hin. exact Hx.
        -- intros _. eexists; reflexivity.
      * exists d', (Raise err). split; [reflexivity|]. split; [discriminate|].
        intros Hk. destruct Hok as [l Hl']; [|discriminate].
        rewrite length_delete by (eexists; exact Hv). lia.
    + exists (S d), (Raise (ValueError "Cannot take a larger sample than population when 'replace=False'")).
      split; [reflexivity|]. split; [discriminate|].
      intros Hk. exfalso.
      destruct (lookup_lt_is_Some_2 pool (e d mod length pool)%nat) as [v Hv'];
        [apply Nat.mod_upper_bound; lia | congruence].
Qed.

Lemma np_random_choice_no_replace_run (a : list V) (size : Z) s h e d :
  exists d' r,
    np_random_choice a size false (mkWorld s h e d) = (mkWorld s h e d', r)
    /\ (forall l, r = Ok l ->
          Z.of_nat (length l) = size /\ (forall v, In v l -> In v a))
    /\ (0 <= size <= Z.of_nat (length a) -> exists l, r = Ok l).
Proof.
  unfold np_random_choice. destruct (Z.ltb_spec size 0).
  - exists d, (Raise (ValueError "negative dimensions are not allowed")).
    split; [reflexivity|]. split; [discriminate | lia].
  - destruct (choice_without_replacement_run a (Z.to_nat size) s h e d)
      as (d' & r & Hrun & Hl & Hok).
    exists d', r. split; [exact Hrun|]. split.
    + intros l Hr. destruct (Hl l Hr) as [Hlen Hin]. split; [lia | exact Hin].
    + intros Hs. apply Hok. lia.
Qed.

(** The exogenous block of [fit] assigns only the exogenous metadata. *)
Lemma fit_exog_run (leny : Z) (exog : option (pyobj V))
    (r : M) yt yf tr lw ie et ec (isr : option (list V))
    (osr : option (ndarray V)) f l m ws (h : list (list V)) e d :
  exists ie' et' ec' res,
    fit_exog leny exog
      (mkWorld (mkForecaster r yt yf tr lw ie et ec isr osr f l m ws) h e d)
    = (mkWorld (mkForecaster r yt yf tr lw ie' et' ec' isr osr f l m ws) h e d,
       res).
Proof.
  unfold fit_exog. destruct exog as [xo|]; [|repeat eexists].
  rewrite bind_lift. destruct (py_len xo) as [le|]; [|repeat eexists].
  destruct (negb (le =? leny)); [repeat eexists|].
  rewrite bind_lift. destruct (_check_exog xo None None) as [xo'|]; [|repeat eexists].
  py_simp. destruct (_preproces_exog xo'); py_simp; repeat eexists.
Qed.

(** After a successful [fit] at most 1000 in-sample residuals are stored
    and there are no out-of-sample residuals. *)
Lemma fit_residuals_capped w y exog :
  snd (fit y exog w) = Ok tt -> residuals_capped (self_ (fst (fit y exog w))).
Proof.
  destruct_world w. unfold fit. py_simp.
  rewrite bind_lift. destruct (_check_y y) as [ys|]; [|discriminate].
  py_simp. rewrite bind_lift.
  destruct (index_first_last _) as [tr'|]; [|discriminate].
  py_simp. rewrite bind_lift.
  destruct (index_freq_info _) as [fr|]; [|discriminate].
  py_simp. rewrite bind_run.
  match goal with |- context [fit_exog ?n ?x (mkWorld (mkForecaster ?a1 ?a2 ?a3 ?a4 ?a5 ?a6 ?a7 ?a8 ?a9 ?a10 ?a11 ?a12 ?a13 ?a14) ?hh ?ee ?dd)] =>
    destruct (fit_exog_run n x a1 a2 a3 a4 a5 a6 a7 a8 a9 a10 a11 a12 a13 a14 hh ee dd)
      as (ie' & et' & ec' & res & ->)
  end.
  cbn [fst snd]. destruct res as [xo|]; [|discriminate].
  rewrite bind_lift.
  destruct (_check_aligment_y_exog _ xo) as [[]|]; [|discriminate].
  py_simp. rewrite bind_lift.
  destruct (_create_train_X_y _ _ xo) as [[X_train y_train]|]; [|discriminate].
  py_simp. rewrite bind_lift.
  destruct (series_sub _ _) as [residuals|]; [|discriminate].
  destruct (Z.ltb_spec 1000 (Z.of_nat (length residuals))) as [Hbig|Hsmall].
  - rewrite bind_run.
    match goal with |- context [np_random_choice ?a ?n false (mkWorld ?ss ?hh ?ee ?dd)] =>
      destruct (np_random_choice_no_replace_run a n ss hh ee dd)
        as (d' & res & -> & Hl & _)
    end.
    cbn [fst snd]. destruct res as [sample|]; [|discriminate].
    destruct (Hl sample eq_refl) as [Hlen _].
    py_simp. intros _. split; attr_simp.
    + intros r0 [= <-]. lia.
    + discriminate.
  - py_simp. intros _. split; attr_simp.
    + intros r0 [= <-]. lia.
    + discriminate.
Qed.

Lemma np_hstack_len (a b c : ndarray V) (la lb : Z) :
  np_hstack a b = Ok c -> nd_len a = Ok la -> nd_len b = Ok lb ->
  exists lc, nd_len c = Ok lc
    /\ match a with Arr1 _ => lc = la + lb | ArrND _ => lc = la end.
Proof.
  destruct a as [x|[|r1 [|c1 rest1]]], b as [z|[|r2 [|c2 rest2]]]; cbn;
    try discriminate.
  - intros [= <-] [= <-] [= <-]. eexists. split; [reflexivity|].
    rewrite length_app. lia.
  - destruct (bool_decide _); [|discriminate].
    intros [= <-] [= <-] _. eexists. split; reflexivity.
Qed.

Lemma nd_slice_to_len (a : ndarray V) (k la : Z) :
  0 <= k -> nd_len a = Ok la ->
  nd_len (nd_slice_to a k) = Ok (Z.min la k).
Proof.
  intros Hk. destruct a as [d|[|n rest]]; cbn; try discriminate.
  - intros [= <-]. rewrite length_take. f_equal. lia.
  - intros [= <-]. f_equal. lia.
Qed.

(** The tail of [set_out_sample_residuals], once the array [r] to store is
    known: it keeps the cap. *)
Lemma store_out_sample_capped (r : ndarray V) (n : Z) (append : bool) s h e d :
  nd_len r = Ok n -> n <= 1000 ->
  residuals_capped s ->
  residuals_capped
    (self_ (fst
      (match out_sample_residuals s with
       | Some old =>
           if negb append then assign (with_out_sample_residuals (Some r))
           else
             bind (lift (nd_len old)) (fun lo =>
               let free_space := Z.max 0 (1000 - lo) in
               bind (lift (nd_len r)) (fun lr =>
                 if lr <? free_space then
                   bind (lift (np_hstack old r)) (fun hh =>
                     assign (with_out_sample_residuals (Some hh)))
                 else
                   bind (lift (np_hstack old (nd_slice_to r free_space)))
                     (fun hh => assign (with_out_sample_residuals (Some hh)))))
       | None => assign (with_out_sample_residuals (Some r))
       end (mkWorld s h e d)))).
Proof.
  intros Hn Hcap [Hin Hout].
  assert (Hsame : residuals_capped s) by (split; assumption).
  assert (Hset : forall r' n', nd_len r' = Ok n' -> n' <= 1000 ->
            residuals_capped
              (self_ (fst (assign (with_out_sample_residuals (Some r'))
                             (mkWorld s h e d))))).
  { intros r' n' Hr' Hn'. destruct s. cbn. split; attr_simp.
    - exact Hin.
    - intros r0 [= <-]. exists n'. split; assumption. }
  destruct (out_sample_residuals s) as [old|] eqn:Hold; [|eapply Hset; eassumption].
  destruct append; cbn [negb]; [|eapply Hset; eassumption].
  destruct (Hout old eq_refl) as (lo & Hlo & Hlocap).
  rewrite Hlo, bind_lift_Ok. cbv zeta. rewrite Hn, bind_lift_Ok.
  destruct (Z.ltb_spec n (Z.max 0 (1000 - lo))).
  - rewrite bind_lift. destruct (np_hstack old r) as [hh|] eqn:Hh; [|exact Hsame].
    destruct (np_hstack_len _ _ _ lo n Hh Hlo Hn) as (lc & Hlc & Hcase).
    eapply Hset; [exact Hlc|]. destruct old; lia.
  - rewrite bind_lift.
    destruct (np_hstack old (nd_slice_to r (Z.max 0 (1000 - lo)))) as [hh|] eqn:Hh;
      [|exact Hsame].
    destruct (np_hstack_len _ _ _ lo _ Hh Hlo
                (nd_slice_to_len r (Z.max 0 (1000 - lo)) n ltac:(lia) Hn))
      as (lc & Hlc & Hcase).
    eapply Hset; [exact Hlc|]. destruct old; lia.
Qed.

(** [set_out_sample_residuals] never touches the in-sample residuals and
    keeps the cap, whether it returns or raises. *)
Lemma set_out_sample_residuals_capped w residuals append :
  residuals_capped (self_ w) ->
  residuals_capped (self_ (fst (set_out_sample_residuals residuals append w))).
Proof.
  destruct w as [s h e d]. cbn [self_]. intros Hcap.
  unfold set_out_sample_residuals.
  destruct residuals as [sr|df|a|sh|o]; py_simp; try exact Hcap.
  - (* 1-D array *)
    cbn [nd_len]. py_simp.
    destruct (Z.ltb_spec 1000 (Z.of_nat (length a))) as [Hbig|Hsmall].
    + rewrite bind_assoc, bind_run.
      destruct (np_random_choice_no_replace_run a 1000 s h e d)
        as (d' & res & -> & Hl & _).
      cbn [fst snd]. destruct res as [sample|]; [|exact Hcap].
      destruct (Hl sample eq_refl) as [Hlen _]. py_simp.
      apply (store_out_sample_capped (Arr1 sample) 1000);
        [cbn; f_equal; lia | lia | exact Hcap].
    + py_simp.
      apply (store_out_sample_capped (Arr1 a) (Z.of_nat (length a)));
        [reflexivity | lia | exact Hcap].
  - (* an array of another dimension *)
    rewrite bind_lift. destruct (nd_len (ArrND sh)) as [n|] eqn:Hn; [|exact Hcap].
    destruct (Z.ltb_spec 1000 n) as [Hbig|Hsmall]; py_simp; [exact Hcap|].
    apply (store_out_sample_capped (ArrND sh) n); [exact Hn | lia | exact Hcap].
Qed.

Lemma set_out_sample_residuals_calls_capped calls w :
  residuals_capped (self_ w) ->
  residuals_capped (self_ (set_out_sample_residuals_calls calls w)).
Proof.
  revert w. induction calls as [|[r a] calls IH]; intros w Hw; cbn; [exact Hw|].
  apply IH. apply set_out_sample_residuals_capped. exact Hw.
Qed.

(** Appending past the cap keeps the stored values and just enough of the
    new ones to reach 1000. *)
Lemma set_out_sample_residuals_overflow w (old d : list V) :
  out_sample_residuals (self_ w) = Some (Arr1 old) ->
  (length old <= 1000)%nat -> (1000 < length old + length d)%nat ->
  exists kept,
    snd (set_out_sample_residuals (PyNdarray d) true w) = Ok tt
    /\ out_sample_residuals
         (self_ (fst (set_out_sample_residuals (PyNdarray d) true w)))
       = Some (Arr1 (old ++ kept))
    /\ length (old ++ kept) = 1000%nat
    /\ (forall v, In v kept -> In v d)
    /\ ((length d <= 1000)%nat -> kept = take (1000 - length old) d).
Proof.
  intros Hold Hcap Hover. destruct_world w. cbn [out_sample_residuals self_] in Hold. subst osr.
  unfold set_out_sample_residuals. py_simp. cbn [nd_len]. py_simp.
  destruct (Z.ltb_spec 1000 (Z.of_nat (length d))) as [Hbig|Hsmall].
  - rewrite bind_assoc, bind_run.
    match goal with |- context [np_random_choice ?a ?n false (mkWorld ?ss ?hh ?ee ?dd)] =>
      destruct (np_random_choice_no_replace_run a n ss hh ee dd)
        as (d' & res & -> & Hl & Hok)
    end.
    destruct Hok as [sample ->]; [lia|].
    destruct (Hl sample eq_refl) as [Hlen Hin].
    cbn [fst snd]. py_simp. cbn [negb nd_len]. py_simp. cbv zeta.
    destruct (Z.ltb_spec (Z.of_nat (length sample))
                (Z.max 0 (1000 - Z.of_nat (length old)))); [lia|].
    cbn [np_hstack nd_slice_to]. py_simp.
    exists (take (Z.to_nat (Z.max 0 (1000 - Z.of_nat (length old)))) sample).
    split; [reflexivity|]. split; [reflexivity|]. split; [|split].
    + rewrite length_app, length_take. lia.
    + intros v Hv. apply Hin. apply list_elem_of_In.
      eapply elem_of_sublist; [apply list_elem_of_In; exact Hv|].
      apply sublist_take.
    + lia.
  - py_simp. cbn [negb nd_len]. py_simp. cbv zeta.
    destruct (Z.ltb_spec (Z.of_nat (length d))
                (Z.max 0 (1000 - Z.of_nat (length old)))); [lia|].
    cbn [np_hstack nd_slice_to]. py_simp.
    exists (take (Z.to_nat (Z.max 0 (1000 - Z.of_nat (length old)))) d).
    split; [reflexivity|]. split; [reflexivity|]. split; [|split].
    + rewrite length_app, length_take. lia.
    + intros v Hv. apply list_elem_of_In.
      eapply elem_of_sublist; [apply list_elem_of_In; exact Hv|].
      apply sublist_take.
    + intros _. f_equal. lia.
Qed.

(** A 1-D array of at most 1000 values passed with [append=False] is
    stored as it is, whatever was stored. *)
Lemma set_out_sample_residuals_replace w (d : list V) :
  (length d <= 1000)%nat ->
  snd (set_out_sample_residuals (PyNdarray d) false w) = Ok tt
  /\ out_sample_residuals
       (self_ (fst (set_out_sample_residuals (PyNdarray d) false w)))
     = Some (Arr1 d).
Proof.
  intros Hd. destruct_world w.
  unfold set_out_sample_residuals. py_simp. cbn [nd_len]. py_simp.
  destruct (Z.ltb_spec 1000 (Z.of_nat (length d))); [lia|]. py_simp.
  destruct osr as [old|]; cbn [negb]; py_simp; split; reflexivity.
Qed.

(** C4.  After a successful [fit] and any finite sequence of
    [set_out_sample_residuals] calls (any argument, [append] True or False,
    arrays of any length), both stored residual collections hold at most
    1000 values.  From there a 1-D array [old] of at most 1000 values
    passed with [append=False] is stored as it is; and when appending a
    1-D array to stored out-of-sample residuals [old] (stored by that call
    or by the sequence) would pass the cap, the call returns normally and
    stores the old values followed by just enough of the new ones to reach
    1000: the first [1000 - len(old)] values of the argument (of its
    random 1000-subsample when it has more than 1000 values). *)
Theorem residual_cap w y exog calls :
  snd (fit y exog w) = Ok tt ->
  let w1 := set_out_sample_residuals_calls calls (fst (fit y exog w)) in
  residuals_capped (self_ w1)
  /\ (forall old, (length old <= 1000)%nat ->
        let w2 := fst (set_out_sample_residuals (PyNdarray old) false w1) in
        snd (set_out_sample_residuals (PyNdarray old) false w1) = Ok tt
        /\ out_sample_residuals (self_ w2) = Some (Arr1 old)
        /\ forall d, (1000 < length old + length d)%nat ->
             exists kept,
               snd (set_out_sample_residuals (PyNdarray d) true w2) = Ok tt
               /\ out_sample_residuals
                    (self_ (fst (set_out_sample_residuals (PyNdarray d) true w2)))
                  = Some (Arr1 (old ++ kept))
               /\ length (old ++ kept) = 1000%nat
               /\ (forall v, In v kept -> In v d)
               /\ ((length d <= 1000)%nat -> kept = take (1000 - length old) d))
  /\ forall old d,
       out_sample_residuals (self_ w1) = Some (Arr1 old) ->
       (1000 < length old + length d)%nat ->
       exists kept,
         snd (set_out_sample_residuals (PyNdarray d) true w1) = Ok tt
         /\ out_sample_residuals
              (self_ (fst (set_out_sample_residuals (PyNdarray d) true w1)))
            = Some (Arr1 (old ++ kept))
         /\ length (old ++ kept) = 1000%nat
         /\ (forall v, In v kept -> In v d)
         /\ ((length d <= 1000)%nat -> kept = take (1000 - length old) d).
Proof.
  intros Hfit w1.
  assert (Hcap : residuals_capped (self_ w1)).
  { apply set_out_sample_residuals_calls_capped, fit_residuals_capped, Hfit. }
  split; [exact Hcap|]. split.
  - intros old Hlen w2.
    destruct (set_out_sample_residuals_replace w1 old Hlen) as [Hok Hst].
    split; [exact Hok|]. split; [exact Hst|].
    intros d Hover.
    apply set_out_sample_residuals_overflow; [exact Hst | exact Hlen | exact Hover].
  - intros old d Hold Hover.
    apply set_out_sample_residuals_overflow; [exact Hold| |exact Hover].
    destruct Hcap as [_ Hout]. destruct (Hout _ Hold) as (n & Hn & Hle).
    cbn in Hn. injection Hn as <-. lia.
Qed.

End ResidualFacts.

(** Witness of [residual_cap]: after [fit] on the example series and a
    first call, 600 residuals are stored and 600 more appended; the 600 and
    the first 400 of the new ones remain. *)
Lemma residual_cap_witness :
  let calls := [(PyNdarray [Some 7], true)] in
  let old := repeat (Some 1) 600 in
  let d := repeat (Some 2) 600 in
  let w1 := set_out_sample_residuals_calls calls
              (fst (fit (PySeries example_y) None example_world)) in
  let w2 := fst (set_out_sample_residuals (PyNdarray old) false w1) in
  (snd (fit (PySeries example_y) None example_world) = Ok tt
   /\ (length old <= 1000)%nat /\ (1000 < length old + length d)%nat
   /\ (length d <= 1000)%nat)
  /\ residuals_capped (self_ w1)
  /\ out_sample_residuals (self_ w2) = Some (Arr1 old)
  /\ snd (set_out_sample_residuals (PyNdarray d) true w2) = Ok tt
  /\ out_sample_residuals
       (self_ (fst (set_out_sample_residuals (PyNdarray d) true w2)))
     = Some (Arr1 (old ++ take (1000 - length old) d)).
Proof.
  intros calls old d w1 w2.
  assert (Hfit : snd (fit (PySeries example_y) None example_world) = Ok tt)
    by reflexivity.
  assert (Hold : (length old <= 1000)%nat)
    by (unfold old; rewrite repeat_length; lia).
  assert (Hover : (1000 < length old + length d)%nat)
    by (unfold old, d; rewrite !repeat_length; lia).
  assert (Hd : (length d <= 1000)%nat)
    by (unfold d; rewrite repeat_length; lia).
  split; [exact (conj Hfit (conj Hold (conj Hover Hd)))|].
  destruct (residual_cap example_world (PySeries example_y) None calls Hfit)
    as (Hcap & Hstore & _).
  destruct (Hstore old Hold) as (_ & Hst & Happend).
  destruct (Happend d Hover) as (kept & Hok & Hkept & _ & _ & Htake).
  split; [exact Hcap|]. split; [exact Hst|]. split; [exact Hok|].
  rewrite <- (Htake Hd). exact Hkept.
Defined.

Example residual_cap_example :
  out_sample_residuals
    (self_ (set_out_sample_residuals_calls
              [ (PyNdarray (repeat (Some 1) 600), false);
                (PyNdarray (repeat (Some 2) 600), true) ]
              fitted_world))
  = Some (Arr1 (repeat (Some 1) 600 ++ repeat (Some 2) 400)).
Proof. vm_compute. reflexivity. Qed.

(* ================================================================= *)
(** ** [_create_lags] *)

Section CreateLagsFacts.
Context {V M : Type} `{Float V}.
Implicit Types (self : Forecaster V M) (y : Series V) (l row : list V).

Lemma py_index_nonneg {A} (l : list A) (j : nat) :
  py_index l (Z.of_nat j) = l !! j.
Proof.
  unfold py_index. destruct (Z.leb_spec 0 (Z.of_nat j)); [|lia].
  rewrite Nat2Z.id. reflexivity.
Qed.

(** [l[i : i + c]] read through an array of positions. *)
Lemma py_take_range {A} (l : list A) (i : Z) (a c : nat) :
  0 <= i -> (Z.to_nat i + a + c <= length l)%nat ->
  py_take l (map (fun k => i + Z.of_nat k) (seq a c))
  = Ok (take c (drop (Z.to_nat i + a) l)).
Proof.
  intros Hi. revert a. induction c as [|c IH]; intros a Hlen; [reflexivity|].
  cbn [seq map py_take].
  replace (i + Z.of_nat a) with (Z.of_nat (Z.to_nat i + a)) by lia.
  rewrite py_index_nonneg.
  destruct (lookup_lt_is_Some_2 l (Z.to_nat i + a)) as [x Hx]; [lia|].
  rewrite Hx, IH by lia. cbn [rbind].
  rewrite (drop_S l x (Z.to_nat i + a) Hx). cbn [take].
  replace (S (Z.to_nat i + a)) with (Z.to_nat i + S a)%nat by lia. reflexivity.
Qed.

(** [row[-lags]] when every lag is between 1 and the width of the row. *)
Lemma py_take_neg {A} (l : list A) (ks : list Z) :
  Forall (fun k => 1 <= k <= Z.of_nat (length l)) ks ->
  exists out,
    py_take l (map Z.opp ks) = Ok out
    /\ length out = length ks
    /\ forall (j : nat) k, ks !! j = Some k ->
         out !! j = l !! (length l - Z.to_nat k)%nat.
Proof.
  induction ks as [|k ks IH]; intros Hall.
  - exists []. repeat split. intros j k Hj. rewrite lookup_nil in Hj. discriminate.
  - apply Forall_cons in Hall as [Hk Hall]. destruct (IH Hall) as (out & Hout & Hlen & Hnth).
    cbn [map py_take]. rewrite py_index_neg by exact Hk.
    destruct (lookup_lt_is_Some_2 l (length l - Z.to_nat k)) as [x Hx]; [lia|].
    rewrite Hx, Hout. cbn [rbind]. exists (x :: out).
    split; [reflexivity|]. split; [cbn [length]; lia|].
    intros [|j] k' Hj; cbn in Hj |- *.
    + injection Hj as <-. symmetry. exact Hx.
    + apply Hnth. exact Hj.
Qed.

Lemma iloc_set_in_range {A} (l : list A) (i : nat) (x : A) :
  (i < length l)%nat -> iloc_set l (Z.of_nat i) x = Ok (<[i := x]> l).
Proof.
  intros Hi. unfold iloc_set.
  destruct (Z.leb_spec 0 (Z.of_nat i)); [|lia].
  destruct (Z.ltb_spec (Z.of_nat i) (Z.of_nat (length l))); [|lia].
  cbn [andb]. rewrite Nat2Z.id. reflexivity.
Qed.

(** The loop fills rows [s], [s+1], ... with the windows that start there,
    and the targets with the value that follows each window. *)
Lemma create_lags_loop_spec (m : nat) (vals : list V) (c s : nat)
    (X : list (list V)) (Y : list V) :
  (s + c <= length X)%nat -> (s + c <= length Y)%nat ->
  (s + c + m <= length vals)%nat ->
  exists X' Y',
    create_lags_loop (Z.of_nat m) vals
      (map (fun k => 0 + Z.of_nat k) (seq s c)) X Y = Ok (X', Y')
    /\ length X' = length X /\ length Y' = length Y
    /\ (forall i, (s <= i < s + c)%nat ->
          X' !! i = Some (take m (drop i vals))
          /\ Y' !! i = vals !! (m + i)%nat)
    /\ (forall i, (i < s \/ s + c <= i)%nat ->
          X' !! i = X !! i /\ Y' !! i = Y !! i).
Proof.
  revert s X Y. induction c as [|c IH]; intros s X Y HX HY Hv.
  - exists X, Y. split; [reflexivity|]. repeat split; intros; lia.
  - cbn [seq map create_lags_loop]. rewrite Z.add_0_l.
    unfold range_list. cbn [start stop].
    replace (Z.to_nat (Z.of_nat m + Z.of_nat s - Z.of_nat s)) with m by lia.
    rewrite (py_take_range vals (Z.of_nat s) 0 m) by lia.
    cbn [rbind]. rewrite Nat2Z.id, Nat.add_0_r.
    rewrite bool_decide_eq_true_2
      by (rewrite length_take, length_drop; lia).
    cbn [rbind]. rewrite iloc_set_in_range by lia. cbn [rbind py_take].
    replace (Z.of_nat m + Z.of_nat s) with (Z.of_nat (m + s)) by lia.
    rewrite py_index_nonneg.
    destruct (lookup_lt_is_Some_2 vals (m + s)) as [t Ht]; [lia|].
    rewrite Ht. cbn [rbind]. rewrite iloc_set_in_range by lia. cbn [rbind].
    destruct (IH (S s) (<[s := take m (drop s vals)]> X) (<[s := t]> Y))
      as (X' & Y' & Hrun & HlX & HlY & Hin & Hout).
    { rewrite length_insert. lia. }
    { rewrite length_insert. lia. }
    { lia. }
    exists X', Y'. split; [exact Hrun|].
    rewrite length_insert in HlX. rewrite length_insert in HlY.
    split; [exact HlX|]. split; [exact HlY|]. split.
    + intros i Hi. destruct (decide (i = s)) as [->|Hne].
      * destruct (Hout s ltac:(lia)) as [HXs HYs].
        rewrite HXs, HYs, !list_lookup_insert_eq by lia.
        split; [reflexivity | symmetry; exact Ht].
      * apply Hin. lia.
    + intros i Hi. destruct (Hout i ltac:(lia)) as [HXi HYi].
      rewrite HXi, HYi, !list_lookup_insert_ne by lia. split; reflexivity.
Qed.

Lemma result_mapM_spec {A B} (f : A -> result B) (P : nat -> A -> B -> Prop)
    (l : list A) (s : nat) :
  (forall i a, l !! i = Some a -> exists b, f a = Ok b /\ P (s + i)%nat a b) ->
  exists bs,
    result_mapM f l = Ok bs /\ length bs = length l
    /\ forall i b, bs !! i = Some b ->
         exists a, l !! i = Some a /\ P (s + i)%nat a b.
Proof.
  revert s. induction l as [|a l IH]; intros s Hf.
  - exists []. repeat split. intros i b Hi. rewrite lookup_nil in Hi. discriminate.
  - destruct (Hf 0%nat a eq_refl) as (b & Hb & HP).
    destruct (IH (S s)) as (bs & Hbs & Hlen & Hnth).
    { intros i a' Hi. destruct (Hf (S i) a' Hi) as (b' & Hb' & HP').
      exists b'. split; [exact Hb'|]. replace (S s + i)%nat with (s + S i)%nat by lia.
      exact HP'. }
    exists (b :: bs). cbn [result_mapM]. rewrite Hb, Hbs. cbn [rbind].
    split; [reflexivity|]. split; [cbn [length]; lia|].
    intros [|i] b' Hi; cbn in Hi.
    + injection Hi as <-. exists a. split; [reflexivity | exact HP].
    + destruct (Hnth i b' Hi) as (a' & Ha' & HP'). exists a'.
      split; [exact Ha'|]. replace (s + S i)%nat with (S s + i)%nat by lia. exact HP'.
Qed.

(** [_create_lags] when the lag set has as many lags as its largest lag (a
    lag set without gaps, as [lags=n] gives): a table of [n - m] rows and
    [|lags|] columns, row [i] built from the window [y[i : i + m]], the
    column of lag [k] holding [y[i + m - k]], and the targets
    [y_target[i] = y[i + m]]. *)
Lemma create_lags_contiguous self y :
  let m := max_lag self in
  let vals := s_values y in
  let n := Z.of_nat (length vals) in
  0 <= m <= n ->
  Z.of_nat (length (lags self)) = m ->
  Forall (fun k => 1 <= k <= m) (lags self) ->
  exists X yt W,
    _create_lags self y = Ok (X, yt)
    /\ lag_window_table self y = Ok W
    /\ length W = Z.to_nat (n - m)
    /\ (forall i, (i < Z.to_nat (n - m))%nat ->
          W !! i = Some (take (Z.to_nat m) (drop i vals)))
    /\ length (df_rows X) = Z.to_nat (n - m)
    /\ (forall i row, df_rows X !! i = Some row ->
          length row = length (lags self)
          /\ forall (j : nat) k, lags self !! j = Some k ->
               row !! j = vals !! (i + Z.to_nat m - Z.to_nat k)%nat)
    /\ length (s_values yt) = Z.to_nat (n - m)
    /\ (forall i, (i < Z.to_nat (n - m))%nat ->
          s_values yt !! i = vals !! (Z.to_nat m + i)%nat).
Proof.
  intros m vals n Hm Hlen Hlags.
  unfold _create_lags, lag_window_table, np_full2, np_full1.
  fold m vals n.
  destruct (Z.ltb_spec (n - m) 0); [lia|].
  destruct (Z.ltb_spec m 0); [lia|]. cbn [orb rbind].
  rewrite bool_decide_eq_true_2
    by (rewrite length_map, length_reverse; exact Hlen).
  cbn [rbind]. unfold range_list, range_to. cbn [start stop]. rewrite Z.sub_0_r.
  destruct (create_lags_loop_spec (Z.to_nat m) vals (Z.to_nat (n - m)) 0
              (repeat (repeat nan (Z.to_nat m)) (Z.to_nat (n - m)))
              (repeat nan (Z.to_nat (n - m))))
    as (X' & Y' & Hrun & HlX & HlY & Hin & _).
  { rewrite repeat_length. lia. }
  { rewrite repeat_length. lia. }
  { lia. }
  rewrite Z2Nat.id in Hrun by lia. rewrite Hrun. cbn [rbind fst snd].
  rewrite repeat_length in HlX, HlY.
  destruct (py_take_neg (map lag_ (reverse (lags self))) (lags self)) as (cols & Hcols & _).
  { rewrite length_map, length_reverse, Hlen. exact Hlags. }
  rewrite Hcols. cbn [rbind].
  destruct (result_mapM_spec (fun r => py_take r (map Z.opp (lags self)))
              (fun i r out =>
                 length out = length (lags self)
                 /\ forall (j : nat) k, lags self !! j = Some k ->
                      out !! j = vals !! (i + Z.to_nat m - Z.to_nat k)%nat)
              X' 0)
    as (rows & Hrows & Hlrows & Hnth).
  { intros i r Hi.
    assert (Hlt : (i < Z.to_nat (n - m))%nat)
      by (rewrite <- HlX; eapply lookup_lt_Some; exact Hi).
    destruct (Hin i ltac:(lia)) as [HXi _]. rewrite HXi in Hi. injection Hi as <-.
    assert (Hwl : length (take (Z.to_nat m) (drop i vals)) = Z.to_nat m)
      by (rewrite length_take, length_drop; lia).
    destruct (py_take_neg (take (Z.to_nat m) (drop i vals)) (lags self))
      as (out & Hout & Hlo & Hno).
    { rewrite Hwl, Z2Nat.id by lia. exact Hlags. }
    exists out. split; [exact Hout|]. split; [exact Hlo|].
    intros j k Hj. rewrite (Hno j k Hj), Hwl.
    rewrite List.Forall_forall in Hlags.
    assert (Hk : 1 <= k <= m)
      by (apply Hlags, list_elem_of_In; eapply list_elem_of_lookup_2; exact Hj).
    rewrite lookup_take_lt by lia. rewrite lookup_drop. f_equal. lia. }
  rewrite Hrows. cbn [rbind].
  eexists _, _, X'. split; [reflexivity|]. split; [reflexivity|].
  cbn [df_rows s_values].
  split; [exact HlX|]. split.
  { intros i Hi. apply (Hin i). lia. }
  split; [rewrite Hlrows; exact HlX|]. split.
  { intros i row Hi. destruct (Hnth i row Hi) as (r0 & _ & HP). exact HP. }
  split; [exact HlY|].
  intros i Hi. apply (Hin i). lia.
Qed.

(** With gaps in the lag set the DataFrame constructor refuses the table:
    [max_lag] columns of data, [|lags|] column names. *)
Lemma create_lags_gaps_raise self y :
  0 <= max_lag self <= Z.of_nat (length (s_values y)) ->
  Z.of_nat (length (lags self)) <> max_lag self ->
  _create_lags self y
  = Raise (ValueError "Shape of passed values differs from the shape the indices imply").
Proof.
  intros Hm Hne. unfold _create_lags, np_full2.
  destruct (Z.ltb_spec (Z.of_nat (length (s_values y)) - max_lag self) 0); [lia|].
  destruct (Z.ltb_spec (max_lag self) 0); [lia|]. cbn [orb rbind].
  rewrite bool_decide_eq_false_2
    by (rewrite length_map, length_reverse; exact Hne).
  reflexivity.
Qed.

End CreateLagsFacts.

(** C1 (code defect).  The specification promises the lag table for every
    lag set; the code builds it only for lag sets without gaps (lemma
    [create_lags_contiguous]).  For [lags=[1, 3]] and a series of five
    values, [_create_lags] raises: the table is allocated with [max_lag = 3]
    columns and the DataFrame constructor is given two column names. *)
Theorem create_lags_with_gap_raises :
  __init__ tt (LagsList [1; 3]) = Ok gap_forecaster
  /\ _create_lags gap_forecaster
       (mkSeries (RangeIndex 0 5) [Some 1; Some 2; Some 3; Some 4; Some 5])
     = Raise (ValueError "Shape of passed values differs from the shape the indices imply").
Proof. split; reflexivity. Qed.

Example create_lags_example :
  _create_lags example_forecaster example_y
  = Ok (mkDataFrame (RangeIndex 2 6) [lag_ 1; lag_ 2]
          [ [Some 2; Some 1]; [Some 3; Some 2]; [Some 5; Some 3]; [Some 8; Some 5] ],
        mkSeries (RangeIndex 2 6) [Some 3; Some 5; Some 8; Some 13]).
Proof. reflexivity. Qed.

(* ================================================================= *)
(** ** [predict]: what it returns and what it leaves alone *)

Section PredictFacts.
Context {V M : Type} `{Float V} `{Regressor V M}.
Implicit Types (w : World V M) (s : Forecaster V M) (h : list (list V)).

Lemma bind_store {B} (a : nat) (i : Z) (v : V) (k : unit -> Py V M B) s h e d :
  bind (store a i v) k (mkWorld s h e d)
  = match h !! a with
    | None => (mkWorld s h e d, Raise DanglingReference)
    | Some vs =>
        if (0 <=? i) && (i <? Z.of_nat (length vs)) then
          k tt (mkWorld s (<[a := <[Z.to_nat i := v]> vs]> h) e d)
        else (mkWorld s h e d, Raise IndexError)
    end.
Proof.
  unfold bind, store. cbn [heap self_ entropy drawn].
  destruct (h !! a) as [vs|]; [|reflexivity].
  destruct ((0 <=? i) && (i <? Z.of_nat (length vs))); reflexivity.
Qed.

Lemma recursive_forecast_length (m : M) (lags : list Z) (c : nat) :
  forall window vals,
    recursive_forecast m lags window c = Ok vals -> length vals = c.
Proof.
  induction c as [|c IH]; intros window vals; cbn [recursive_forecast].
  - intros [= <-]. reflexivity.
  - destruct (py_take window (map Z.opp lags)) as [X|]; [|discriminate].
    cbn [rbind].
    destruct (recursive_forecast m lags _ c) as [rest|] eqn:Hrest; [|discriminate].
    cbn [rbind]. intros [= <-]. cbn [length]. f_equal. eapply IH. exact Hrest.
Qed.

(** The loop of [predict] on a heap where the window is at [a] and the
    array of predictions at [p]: it writes at [p] only, allocates the slid
    windows behind the heap, and fills positions [i0 ..] of [p] with the
    values of [recursive_forecast]. *)
Lemma predict_loop_run (c : nat) :
  forall (i0 a p : nat) s h e d (vs buf : list V),
    h !! a = Some vs -> h !! p = Some buf -> a <> p ->
    (i0 + c <= length buf)%nat ->
    exists h' r,
      predict_loop (map (fun k => 0 + Z.of_nat k) (seq i0 c)) a p
        (mkWorld s h e d) = (mkWorld s h' e d, r)
      /\ (length h <= length h')%nat
      /\ (forall x, (x < length h)%nat -> x <> p -> h' !! x = h !! x)
      /\ match recursive_forecast (regressor s) (lags s) vs c with
         | Ok vals =>
             r = Ok tt
             /\ h' !! p = Some (take i0 buf ++ vals ++ drop (i0 + c) buf)
         | Raise err => r = Raise err
         end.
Proof.
  induction c as [|c IH]; intros i0 a p s h e d vs buf Ha Hp Hne Hlen.
  - exists h, (Ok tt). split; [reflexivity|]. split; [lia|]. split; [reflexivity|].
    cbn [recursive_forecast]. split; [reflexivity|].
    rewrite Nat.add_0_r. cbn [app]. rewrite take_drop. exact Hp.
  - cbn [seq map predict_loop recursive_forecast]. rewrite Z.add_0_l.
    rewrite bind_get_self. cbn [self_]. rewrite bind_load. cbn [heap]. rewrite Ha.
    rewrite bind_lift.
    destruct (py_take vs (map Z.opp (lags s))) as [X|err] eqn:HX; cbn [rbind].
    2:{ exists h, (Raise err). split; [reflexivity|]. split; [lia|].
        split; reflexivity. }
    rewrite bind_store, Hp.
    destruct (Z.leb_spec 0 (Z.of_nat i0)); [|lia].
    destruct (Z.ltb_spec (Z.of_nat i0) (Z.of_nat (length buf))); [|lia].
    cbn [andb]. rewrite Nat2Z.id. rewrite bind_alloc.
    set (pred := reg_predict (regressor s) X).
    set (h1 := <[p := <[i0 := pred]> buf]> h).
    assert (Hl1 : length h1 = length h) by apply length_insert.
    destruct (IH (S i0) (length h1) p s (h1 ++ [py_slice_from vs 1 ++ [pred]]) e d
                (py_slice_from vs 1 ++ [pred]) (<[i0 := pred]> buf))
      as (h' & r & Hrun & Hle & Hframe & Hres).
    { rewrite lookup_app_r by lia. rewrite Nat.sub_diag. reflexivity. }
    { rewrite lookup_app_l by (rewrite Hl1; eapply lookup_lt_Some; exact Hp).
      unfold h1. rewrite list_lookup_insert_eq by (eapply lookup_lt_Some; exact Hp).
      reflexivity. }
    { rewrite Hl1. apply lookup_lt_Some in Hp. lia. }
    { rewrite length_insert. lia. }
    exists h', r. split; [exact Hrun|].
    rewrite length_app, Hl1 in Hle. cbn [length] in Hle.
    split; [lia|]. split.
    + intros x Hx Hxp. rewrite Hframe.
      * rewrite lookup_app_l by lia. unfold h1.
        rewrite list_lookup_insert_ne by congruence. reflexivity.
      * rewrite length_app, Hl1. cbn [length]. lia.
      * exact Hxp.
    + fold pred.
      destruct (recursive_forecast (regressor s) (lags s)
                  (py_slice_from vs 1 ++ [pred]) c) as [rest|err];
        cbn [rbind]; [|exact Hres].
      destruct Hres as [-> Hhp]. split; [reflexivity|].
      rewrite Hhp. f_equal.
      rewrite (take_S_r _ i0 pred) by (apply list_lookup_insert_eq; lia).
      rewrite take_insert_ge by lia.
      rewrite drop_insert_lt by lia.
      rewrite <- app_assoc. cbn [app].
      replace (S i0 + c)%nat with (i0 + S c)%nat by lia. reflexivity.
Qed.

Lemma predict_loop_dangling (i : Z) (idxs : list Z) (a p : nat) s h e d :
  h !! a = None ->
  predict_loop (i :: idxs) a p (mkWorld s h e d)
  = (mkWorld s h e d, Raise DanglingReference).
Proof.
  intros Ha. cbn [predict_loop]. rewrite bind_get_self, bind_load.
  cbn [heap]. rewrite Ha. reflexivity.
Qed.

(** [predict] run on a world: the attributes and the random source are the
    same afterwards, the heap has only grown (every buffer that existed
    keeps its address and its values), and the result is
    [predict_result]. *)
Lemma predict_run (steps : Z) (last_window exog : option (pyobj V)) s h e d :
  world_ok (mkWorld s h e d) ->
  exists h',
    predict steps last_window exog (mkWorld s h e d)
    = (mkWorld s h' e d, predict_result s h steps last_window exog)
    /\ (length h <= length h')%nat
    /\ (forall a, (a < length h)%nat -> h' !! a = h !! a).
Proof.
  intros Hok.
  unfold predict, predict_result. rewrite bind_get_self. cbn [self_].
  destruct (fitted s); cbn [negb];
    [|exists h; split; [reflexivity | split; [lia | reflexivity]]].
  destruct (Z.ltb_spec steps 1) as [Hs|Hs];
    [exists h; split; [reflexivity | split; [lia | reflexivity]]|].
  destruct (bool_decide (exog = None) && included_exog s);
    [exists h; split; [reflexivity | split; [lia | reflexivity]]|].
  destruct (negb (bool_decide (exog = None)) && negb (included_exog s));
    [exists h; split; [reflexivity | split; [lia | reflexivity]]|].
  (* the exogenous block *)
  destruct exog as [xo|]; cbn [predict_exog].
  { rewrite bind_assoc, bind_lift.
    destruct (py_len xo) as [le|err]; cbn [rbind];
      [|exists h; split; [reflexivity | split; [lia | reflexivity]]].
    destruct (le <? steps); rewrite bind_raise;
      exists h; (split; [reflexivity | split; [lia | reflexivity]]). }
  rewrite bind_ret. cbn [rbind].
  (* the window *)
  unfold predict_window, predict_window_result.
  rewrite bind_assoc, bind_get_self. cbn [self_].
  assert (Hloop : forall (ix : Index) (a : nat) (vs0 : list V) h0,
            (length h <= length h0)%nat ->
            (forall x, (x < length h)%nat -> h0 !! x = h !! x) ->
            h0 !! a = Some vs0 ->
            exists h',
              bind (lift (_expand_index ix steps)) (fun index =>
                bind (lift (np_full1 steps)) (fun data =>
                  bind (alloc data) (fun predictions =>
                    bind (predict_loop (range_list (range_to steps)) a predictions)
                      (fun _ => bind (load predictions) (fun vals =>
                         ret (mkSeries index vals))))))
                (mkWorld s h0 e d)
              = (mkWorld s h' e d,
                 rbind (_expand_index ix steps) (fun index =>
                   rbind (Ok vs0) (fun window =>
                     rbind (recursive_forecast (regressor s) (lags s) window
                              (Z.to_nat steps))
                       (fun vals => Ok (mkSeries index vals)))))
              /\ (length h <= length h')%nat
              /\ (forall x, (x < length h)%nat -> h' !! x = h !! x)).
  { intros ix a vs0 h0 Hle Hfr Ha.
    rewrite bind_lift. destruct (_expand_index ix steps) as [index|err]; cbn [rbind];
      [|exists h0; split; [reflexivity | split; assumption]].
    unfold np_full1. destruct (Z.ltb_spec steps 0); [lia|].
    rewrite bind_lift_Ok, bind_alloc, bind_run.
    unfold range_list, range_to. cbn [start stop]. rewrite Z.sub_0_r.
    destruct (predict_loop_run (Z.to_nat steps) 0 a (length h0) s
                (h0 ++ [repeat nan (Z.to_nat steps)]) e d vs0
                (repeat nan (Z.to_nat steps)))
      as (h' & r & Hrun & Hle' & Hframe & Hres).
    { rewrite lookup_app_l by (eapply lookup_lt_Some; exact Ha). exact Ha. }
    { rewrite lookup_app_r by lia. rewrite Nat.sub_diag. reflexivity. }
    { apply lookup_lt_Some in Ha. lia. }
    { rewrite repeat_length. lia. }
    rewrite Hrun. cbn [fst snd].
    rewrite length_app in Hle'. cbn [length] in Hle'.
    assert (Hfr' : forall x, (x < length h)%nat -> h' !! x = h !! x).
    { intros x Hx. rewrite Hframe.
      - rewrite lookup_app_l by lia. apply Hfr. exact Hx.
      - rewrite length_app. cbn [length]. lia.
      - lia. }
    destruct (recursive_forecast (regressor s) (lags s) vs0 (Z.to_nat steps))
      as [vals|err] eqn:Hrec; cbn [rbind].
    - destruct Hres as [-> Hp]. rewrite bind_load. cbn [heap]. rewrite Hp.
      unfold ret. exists h'. split; [|split; [lia | exact Hfr']].
      cbn [take app]. rewrite drop_ge
        by (rewrite repeat_length; lia).
      rewrite app_nil_r. reflexivity.
    - rewrite Hres. exists h'. split; [reflexivity | split; [lia | exact Hfr']]. }
  destruct last_window as [o|].
  - rewrite bind_assoc, bind_lift.
    destruct (py_len o) as [n|err]; cbn [rbind];
      [|exists h; split; [reflexivity | split; [lia | reflexivity]]].
    destruct (n <? max_lag s);
      [rewrite bind_raise; exists h; split; [reflexivity | split; [lia | reflexivity]]|].
    rewrite !bind_assoc, bind_lift.
    destruct (_check_last_window o) as [ws|err]; cbn [rbind];
      [|exists h; split; [reflexivity | split; [lia | reflexivity]]].
    rewrite bind_assoc, bind_alloc, bind_ret. cbn [fst snd].
    destruct (Hloop (s_index (_preproces_y ws)) (length h)
                (s_values (_preproces_y ws)) (h ++ [s_values (_preproces_y ws)]))
      as (h' & Hrun & Hle & Hfr).
    { rewrite length_app. lia. }
    { intros x Hx. apply lookup_app_l. exact Hx. }
    { rewrite lookup_app_r by lia. rewrite Nat.sub_diag. reflexivity. }
    exists h'. split; [exact Hrun | split; assumption].
  - destruct (last_window s) as [[ix a]|] eqn:Hlw;
      [|rewrite bind_raise; exists h; split; [reflexivity | split; [lia | reflexivity]]].
    rewrite bind_ret. cbn [rbind fst snd].
    destruct (h !! a) as [vs0|] eqn:Ha.
    + destruct (Hloop ix a vs0 h) as (h' & Hrun & Hle & Hfr);
        [lia | reflexivity | exact Ha |].
      exists h'. split; [exact Hrun | split; assumption].
    + exfalso. destruct (Hok ix a Hlw) as (vs & Hvs & _).
      cbn [heap] in Hvs. congruence.
Qed.

(** C6.  A call of [predict] (valid or not, with or without a supplied
    window, for any [steps]) leaves the forecaster as it was: every
    attribute keeps its value (the stored last window, the in-sample and the
    out-of-sample residuals among them), every buffer that existed before
    the call keeps its values, in particular the buffer of the stored last
    window, which [predict] reads through [to_numpy()] without copying it.
    What the loop writes and rebinds are arrays it allocated itself. *)
Theorem predict_frame w (steps : Z) (last_window exog : option (pyobj V)) :
  world_ok w ->
  let w' := fst (predict steps last_window exog w) in
  self_ w' = self_ w
  /\ self_last_window (self_ w') = self_last_window (self_ w)
  /\ in_sample_residuals (self_ w') = in_sample_residuals (self_ w)
  /\ out_sample_residuals (self_ w') = out_sample_residuals (self_ w)
  /\ (forall a, (a < length (heap w))%nat -> heap w' !! a = heap w !! a)
  /\ (forall ix a, self_last_window (self_ w) = Some (ix, a) ->
        heap w' !! a = heap w !! a)
  /\ entropy w' = entropy w /\ drawn w' = drawn w.
Proof.
  intros Hok. destruct w as [s h e d].
  destruct (predict_run steps last_window exog s h e d Hok) as (h' & Hrun & Hle & Hfr).
  rewrite Hrun. cbn [fst self_ heap entropy drawn].
  repeat split; try reflexivity.
  - exact Hfr.
  - intros ix a Hlw. destruct (Hok ix a Hlw) as (vs & Hvs & _).
    apply Hfr. eapply lookup_lt_Some. exact Hvs.
Qed.

(** [predict] keeps the world well formed. *)
Lemma predict_world_ok w (steps : Z) (last_window exog : option (pyobj V)) :
  world_ok w -> world_ok (fst (predict steps last_window exog w)).
Proof.
  intros Hok. destruct w as [s h e d].
  destruct (predict_run steps last_window exog s h e d Hok) as (h' & Hrun & Hle & Hfr).
  rewrite Hrun. cbn [fst]. intros ix a Hlw. cbn [self_ heap] in *.
  destruct (Hok ix a Hlw) as (vs & Hvs & Hix). exists vs. split; [|exact Hix].
  cbn [heap] in Hvs. rewrite Hfr by (eapply lookup_lt_Some; exact Hvs). exact Hvs.
Qed.

(** The result of [predict] is [predict_result]. *)
Lemma predict_snd w (steps : Z) (last_window exog : option (pyobj V)) :
  world_ok w ->
  snd (predict steps last_window exog w)
  = predict_result (self_ w) (heap w) steps last_window exog.
Proof.
  intros Hok. destruct w as [s h e d].
  destruct (predict_run steps last_window exog s h e d Hok) as (h' & Hrun & _).
  rewrite Hrun. reflexivity.
Qed.

Lemma lags_ok_bounds s :
  lags_ok s ->
  1 <= max_lag s /\ In (max_lag s) (lags s)
  /\ Forall (fun k => 1 <= k <= max_lag s) (lags s).
Proof.
  intros [Hmax Hall]. apply py_max_spec in Hmax as [Hin Hle].
  rewrite List.Forall_forall in Hall, Hle. split; [apply Hall, Hin|].
  split; [exact Hin|]. apply List.Forall_forall. intros k Hk.
  split; [apply Hall, Hk | apply Hle, Hk].
Qed.

Lemma py_slice_from_1_length {A} (l : list A) (x : A) :
  (length l <= length (py_slice_from l 1 ++ [x]))%nat.
Proof.
  unfold py_slice_from. cbn. rewrite length_app, length_drop. cbn [length]. lia.
Qed.

(** The recursion goes through when every lag fits in the window. *)
Lemma recursive_forecast_ok (m : M) (lags : list Z) (c : nat) :
  forall window,
    Forall (fun k => 1 <= k <= Z.of_nat (length window)) lags ->
    exists vals, recursive_forecast m lags window c = Ok vals.
Proof.
  induction c as [|c IH]; intros window Hfit; cbn [recursive_forecast].
  - eexists; reflexivity.
  - destruct (py_take_neg window lags Hfit) as (X & HX & _). rewrite HX.
    cbn [rbind].
    destruct (IH (py_slice_from window 1 ++ [reg_predict m X])) as [rest Hrest].
    { eapply Forall_impl; [exact Hfit|]. cbn. intros k Hk.
      pose proof (py_slice_from_1_length window (reg_predict m X)). lia. }
    rewrite Hrest. cbn [rbind]. eexists; reflexivity.
Qed.

Lemma py_take_ok_inv {A} (l : list A) (idx : list Z) (out : list A) (j : Z) :
  py_take l idx = Ok out -> In j idx -> is_Some (py_index l j).
Proof.
  revert out. induction idx as [|i idx IH]; intros out Hok Hin; [destruct Hin|].
  cbn [py_take] in Hok. destruct (py_index l i) as [x|] eqn:Hi; [|discriminate].
  destruct (py_take l idx) as [xs|]; [|discriminate].
  destruct Hin as [<-|Hin]; [eexists; exact Hi | eapply IH; [reflexivity | exact Hin]].
Qed.

Lemma recursive_forecast_ok_inv (m : M) (lags : list Z) (c : nat) window vals k :
  recursive_forecast m lags window (S c) = Ok vals -> In k lags -> 1 <= k ->
  k <= Z.of_nat (length window).
Proof.
  cbn [recursive_forecast]. intros Hok Hin Hk.
  destruct (py_take window (map Z.opp lags)) as [X|] eqn:HX; [|discriminate].
  destruct (py_take_ok_inv window _ X (- k) HX) as [x Hx].
  { apply in_map. exact Hin. }
  destruct (Z.le_gt_cases k (Z.of_nat (length window))) as [Hle|Hgt]; [exact Hle|].
  rewrite py_index_neg_out in Hx by lia. discriminate.
Qed.

Lemma expand_index_ok (ix : Index) (n : nat) (steps : Z) :
  index_ok ix n -> (1 <= n)%nat -> 0 <= steps ->
  exists ix', _expand_index ix steps = Ok ix'.
Proof.
  intros [Hlen Hkind] Hn Hs. destruct ix as [a b|[f|] ts|ls]; try destruct Hkind.
  - cbn [_expand_index]. cbn [index_labels] in Hlen. rewrite length_map in Hlen.
    change (-1) with (- (1)). rewrite py_index_neg by lia.
    destruct (lookup_lt_is_Some_2 (range_list (Range a b))
                (length (range_list (Range a b)) - Z.to_nat 1)) as [t Ht]; [lia|].
    rewrite Ht. eexists; reflexivity.
  - cbn [_expand_index]. cbn [index_labels] in Hlen. rewrite length_map in Hlen.
    change (-1) with (- (1)). rewrite py_index_neg by lia.
    destruct (lookup_lt_is_Some_2 ts (length ts - Z.to_nat 1)) as [t Ht]; [lia|].
    rewrite Ht. destruct (Z.ltb_spec steps 0); [lia|]. eexists; reflexivity.
Qed.

Lemma preproces_y_index_ok (ser : Series V) :
  series_ok ser ->
  index_ok (s_index (_preproces_y ser)) (length (s_values ser)).
Proof.
  unfold series_ok, _preproces_y. intros Hok.
  destruct (s_index ser) as [a b|[f|] ts|ls] eqn:Hix; cbn [has_freq s_index];
    rewrite ?Hix; split; try exact I; try exact Hok.
  all: cbn [index_labels]; rewrite length_map, range_list_length; lia.
Qed.

Lemma check_last_window_inv (o : pyobj V) (ws : Series V) :
  _check_last_window o = Ok ws -> o = PySeries ws /\ has_null (s_values ws) = false.
Proof.
  destruct o as [ser| | | |]; cbn [_check_last_window]; try discriminate.
  destruct (has_null (s_values ser)) eqn:Hn; [discriminate|].
  intros [= <-]. split; [reflexivity | exact Hn].
Qed.

(** When [predict] returns for a forecaster trained without exogenous
    data, and conversely. *)
Lemma predict_result_ok_iff s h (steps : Z) (last_window exog : option (pyobj V)) e d :
  world_ok (mkWorld s h e d) -> lags_ok s ->
  (forall ser, last_window = Some (PySeries ser) -> series_ok ser) ->
  included_exog s = false ->
  is_ok (predict_result s h steps last_window exog) = true
  <-> fitted s = true /\ 1 <= steps /\ exog = None
      /\ window_usable (mkWorld s h e d) last_window.
Proof.
  intros Hok Hlags Hser Hie.
  destruct (lags_ok_bounds s Hlags) as (Hm1 & Hmin & Hall).
  unfold predict_result, window_usable. cbn [self_ heap]. rewrite Hie.
  destruct (fitted s); cbn [negb];
    [|split; [discriminate | intros (Hf & _); discriminate]].
  destruct (Z.ltb_spec steps 1) as [Hs|Hs];
    [split; [discriminate | intros (_ & Hs' & _); lia]|].
  rewrite andb_false_r. cbn [negb andb]. rewrite andb_true_r.
  destruct exog as [xo|].
  { rewrite bool_decide_eq_false_2 by discriminate. cbn [negb].
    split; [discriminate | intros (_ & _ & Hx & _); discriminate]. }
  rewrite bool_decide_eq_true_2 by reflexivity. cbn [negb rbind].
  unfold predict_window_result.
  destruct last_window as [o|].
  - destruct (py_len o) as [n|] eqn:Hlen; cbn [rbind].
    2:{ split; [discriminate|]. intros (_ & _ & _ & ser & -> & _). discriminate. }
    destruct (Z.ltb_spec n (max_lag s)) as [Hshort|Hlong].
    { split; [discriminate|]. intros (_ & _ & _ & ser & -> & _ & Hge).
      cbn in Hlen. injection Hlen as <-. lia. }
    destruct (_check_last_window o) as [ws|] eqn:Hchk; cbn [rbind].
    2:{ split; [discriminate|]. intros (_ & _ & _ & ser & -> & Hnull & _).
        cbn in Hchk. rewrite Hnull in Hchk. discriminate. }
    apply check_last_window_inv in Hchk as [-> Hnull].
    cbn in Hlen. injection Hlen as <-.
    destruct (expand_index_ok (s_index (_preproces_y ws)) (length (s_values ws)) steps)
      as [ix' Hix'].
    { apply preproces_y_index_ok, Hser. reflexivity. }
    { lia. }
    { lia. }
    cbn [fst snd]. rewrite Hix'. cbn [rbind]. rewrite preproces_y_values.
    destruct (recursive_forecast_ok (regressor s) (lags s) (Z.to_nat steps) (s_values ws))
      as [vals Hvals].
    { eapply Forall_impl; [exact Hall|]. cbn. intros; lia. }
    rewrite Hvals. cbn [rbind is_ok].
    split; [|reflexivity]. intros _. repeat split; try lia.
    exists ws. repeat split; [exact Hnull | lia].
  - destruct (last_window s) as [[ix a]|] eqn:Hlw; cbn [rbind].
    2:{ split; [discriminate|]. intros (_ & _ & _ & ix & a & vs & Hx & _). discriminate. }
    destruct (Hok ix a Hlw) as (vs & Hvs & Hixok). cbn [heap] in Hvs.
    cbn [fst snd]. rewrite Hvs.
    destruct (Z.le_gt_cases (max_lag s) (Z.of_nat (length vs))) as [Hge|Hlt].
    + destruct (expand_index_ok ix (length vs) steps Hixok ltac:(lia) ltac:(lia)) as [ix' Hix'].
      rewrite Hix'. cbn [rbind].
      destruct (recursive_forecast_ok (regressor s) (lags s) (Z.to_nat steps) vs)
        as [vals Hvals].
      { eapply Forall_impl; [exact Hall|]. cbn. intros; lia. }
      rewrite Hvals. cbn [rbind is_ok].
      split; [|reflexivity]. intros _. repeat split; try lia.
      exists ix, a, vs. repeat split; [exact Hvs | exact Hge].
    + split.
      * destruct (_expand_index ix steps) as [ix'|]; cbn [rbind]; [|discriminate].
        destruct (Z.to_nat steps) as [|c] eqn:Hc; [lia|].
        destruct (recursive_forecast (regressor s) (lags s) vs (S c)) as [vals|] eqn:Hrec;
          [|discriminate].
        pose proof (recursive_forecast_ok_inv _ _ _ _ _ _ Hrec Hmin Hm1). lia.
      * intros (_ & _ & _ & ix0 & a0 & vs0 & Hx & Hv0 & Hge).
        injection Hx as <- <-. rewrite Hvs in Hv0. injection Hv0 as <-. lia.
Qed.

Lemma predict_result_length s h (steps : Z) (last_window exog : option (pyobj V)) ser :
  predict_result s h steps last_window exog = Ok ser ->
  length (s_values ser) = Z.to_nat steps.
Proof.
  unfold predict_result.
  destruct (negb (fitted s)); [discriminate|].
  destruct (steps <? 1); [discriminate|].
  destruct (bool_decide (exog = None) && included_exog s); [discriminate|].
  destruct (negb (bool_decide (exog = None)) && negb (included_exog s)); [discriminate|].
  destruct exog as [xo|]; cbn [rbind].
  { destruct (py_len xo) as [le|]; cbn [rbind]; [|discriminate].
    destruct (le <? steps); discriminate. }
  destruct (predict_window_result s last_window) as [lw|]; cbn [rbind]; [|discriminate].
  destruct (_expand_index (fst lw) steps) as [ix|]; cbn [rbind]; [|discriminate].
  destruct (match snd lw with inl vs => Ok vs | inr a => _ end) as [window|];
    cbn [rbind]; [|discriminate].
  destruct (recursive_forecast _ _ window _) as [vals|] eqn:Hrec; cbn [rbind];
    [|discriminate].
  intros [= <-]. cbn [s_values]. eapply recursive_forecast_length. exact Hrec.
Qed.

(** C8, as the code has it.  [predict] raises in each case the
    specification lists: the forecaster is not fitted; [steps < 1]; it was
    trained with exogenous data and [exog] is None or has fewer than
    [steps] values; it was trained without and [exog] is not None.  It also
    raises when no usable window is there: a supplied [last_window] that is
    not a Series, has missing values or fewer than [max_lag] values, or,
    without a supplied one, a stored window of fewer than [max_lag] values.
    For a forecaster trained without exogenous data these are exactly the
    failing calls: in every other case [predict] returns [steps] values.
    Whether it raises or returns, the call leaves the attributes of the
    forecaster as they were. *)
Theorem predict_errors w (steps : Z) (last_window exog : option (pyobj V)) :
  world_ok w -> lags_ok (self_ w) ->
  (forall ser, last_window = Some (PySeries ser) -> series_ok ser) ->
  let s := self_ w in
  let r := snd (predict steps last_window exog w) in
  (fitted s = false ->
     r = Raise (Exception "This Forecaster instance is not fitted yet. Call `fit` with appropriate arguments before using this it."))
  /\ (fitted s = true -> steps < 1 ->
        r = Raise (Exception "`steps` must be integer greater than 0."))
  /\ (fitted s = true -> 1 <= steps -> included_exog s = true -> exog = None ->
        r = Raise (Exception "Forecaster trained with exogenous variable/s. Same variable/s must be provided in `predict()`."))
  /\ (fitted s = true -> 1 <= steps -> included_exog s = true ->
        forall xo n, exog = Some xo -> py_len xo = Ok n -> n < steps ->
        r = Raise (Exception "`exog` must have at least as many values as `steps` predicted."))
  /\ (fitted s = true -> 1 <= steps -> included_exog s = false -> exog <> None ->
        r = Raise (Exception "Forecaster trained without exogenous variable/s. `exog` must be `None` in `predict()`."))
  /\ (included_exog s = false ->
        (is_ok r = true
         <-> fitted s = true /\ 1 <= steps /\ exog = None
             /\ window_usable w last_window))
  /\ (forall ser, r = Ok ser -> length (s_values ser) = Z.to_nat steps)
  /\ self_ (fst (predict steps last_window exog w)) = self_ w.
Proof.
  intros Hok Hlags Hser s r.
  assert (Hr : r = predict_result s (heap w) steps last_window exog)
    by (apply predict_snd; exact Hok).
  split; [|split; [|split; [|split; [|split; [|split; [|split]]]]]].
  - intros Hf. rewrite Hr. unfold predict_result. rewrite Hf. reflexivity.
  - intros Hf Hs. rewrite Hr. unfold predict_result. rewrite Hf. cbn [negb].
    destruct (Z.ltb_spec steps 1); [reflexivity | lia].
  - intros Hf Hs Hie ->. rewrite Hr. unfold predict_result. rewrite Hf, Hie.
    cbn [negb]. destruct (Z.ltb_spec steps 1); [lia|]. reflexivity.
  - intros Hf Hs Hie xo n -> Hlen Hn. rewrite Hr. unfold predict_result.
    rewrite Hf, Hie. cbn [negb]. destruct (Z.ltb_spec steps 1); [lia|].
    rewrite bool_decide_eq_false_2 by discriminate. cbn [negb andb].
    rewrite Hlen. cbn [rbind]. destruct (Z.ltb_spec n steps); [reflexivity | lia].
  - intros Hf Hs Hie Hx. rewrite Hr. unfold predict_result. rewrite Hf, Hie.
    cbn [negb]. destruct (Z.ltb_spec steps 1); [lia|].
    rewrite andb_false_r. rewrite bool_decide_eq_false_2 by exact Hx. reflexivity.
  - intros Hie. rewrite Hr. destruct w as [s0 h e d].
    apply predict_result_ok_iff; assumption.
  - intros ser Hser'. rewrite Hr in Hser'. eapply predict_result_length. exact Hser'.
  - destruct w as [s0 h e d].
    destruct (predict_run steps last_window exog s0 h e d Hok) as (h' & Hrun & _).
    rewrite Hrun. reflexivity.
Qed.

End PredictFacts.

Lemma fitted_world_ok : world_ok fitted_world.
Proof.
  assert (Hlw' : self_last_window (self_ fitted_world) = Some (RangeIndex 4 6, O))
    by (vm_compute; reflexivity).
  assert (Hheap : heap fitted_world !! O = Some [Some 8; Some 13])
    by (vm_compute; reflexivity).
  intros ix a Hlw. rewrite Hlw' in Hlw. injection Hlw as <- <-.
  exists [Some 8; Some 13]. split; [exact Hheap|].
  split; [vm_compute; reflexivity | exact I].
Qed.

Lemma fitted_world_lags_ok : lags_ok (self_ fitted_world).
Proof.
  unfold lags_ok. vm_compute. split; [reflexivity|].
  repeat constructor; discriminate.
Qed.

Example predict_example :
  snd (predict 3 None None fitted_world)
  = Ok (mkSeries (RangeIndex 6 9) [Some 21; Some 34; Some 55])
  /\ heap (fst (predict 3 None None fitted_world))
     = [ [Some 8; Some 13]; [Some 21; Some 34; Some 55];
         [Some 13; Some 21]; [Some 21; Some 34]; [Some 34; Some 55] ].
Proof. vm_compute. split; reflexivity. Qed.

(** Witness of [predict_errors]: three steps from the stored window of the
    fitted example. *)
Lemma predict_errors_witness :
  world_ok fitted_world /\ lags_ok (self_ fitted_world)
  /\ (forall ser : Series (option Z),
        @None (pyobj (option Z)) = Some (PySeries ser) -> series_ok ser)
  /\ (included_exog (self_ fitted_world) = false ->
        (is_ok (snd (predict 3 None None fitted_world)) = true
         <-> fitted (self_ fitted_world) = true /\ 1 <= 3
             /\ @None (pyobj (option Z)) = None
             /\ window_usable fitted_world None)).
Proof.
  assert (Hser : forall ser : Series (option Z),
            @None (pyobj (option Z)) = Some (PySeries ser) -> series_ok ser)
    by (intros ser Hx; discriminate).
  pose proof (predict_errors fitted_world 3 None None fitted_world_ok
                fitted_world_lags_ok Hser) as Hp.
  split; [exact fitted_world_ok|]. split; [exact fitted_world_lags_ok|].
  split; [exact Hser|].
  exact (proj1 (proj2 (proj2 (proj2 (proj2 (proj2 Hp)))))).
Defined.

(** C8 as the specification words it fails: the forecaster is fitted,
    [steps = 1], it was trained without exogenous data and [exog] is None,
    so none of the listed cases applies; yet [predict] raises, because the
    supplied window has one value and [max_lag] is 2. *)
Lemma predict_raises_outside_listed_cases_counterexample :
  let short := PySeries (mkSeries (RangeIndex 0 1) [Some 13]) in
  let s := self_ fitted_world in
  ~ (is_ok (snd (predict 1 (Some short) None fitted_world)) = false
     <-> (fitted s = false \/ 1 < 1
          \/ (included_exog s = true
              /\ (@None (pyobj (option Z)) = None
                  \/ exists xo n, @None (pyobj (option Z)) = Some xo
                       /\ py_len xo = Ok n /\ n < 1))
          \/ (included_exog s = false /\ @None (pyobj (option Z)) <> None))).
Proof.
  intros short s [Hraise _].
  assert (Hr : is_ok (snd (predict 1 (Some short) None fitted_world)) = false)
    by (vm_compute; reflexivity).
  assert (Hfit : fitted s = true) by (vm_compute; reflexivity).
  assert (Hno : included_exog s = false) by (vm_compute; reflexivity).
  destruct (Hraise Hr) as [Hf|[Hs|[[Hie _]|[_ Hx]]]].
  - congruence.
  - lia.
  - congruence.
  - apply Hx. reflexivity.
Qed.

(* ================================================================= *)
(** ** [predict]: only the end of the window counts, one step at a time *)

Section WindowFacts.
Context {V M : Type} `{Float V} `{Regressor V M}.
Implicit Types (w : World V M) (s : Forecaster V M).

Lemma py_take_neg_trailing {A} (l1 l2 : list A) (ks : list Z) (k : nat) :
  Forall (fun j => 1 <= j <= Z.of_nat k) ks ->
  (k <= length l1)%nat -> (k <= length l2)%nat ->
  drop (length l1 - k) l1 = drop (length l2 - k) l2 ->
  py_take l1 (map Z.opp ks) = py_take l2 (map Z.opp ks).
Proof.
  intros Hks H1 H2 Hdrop.
  destruct (py_take_neg l1 ks) as (o1 & Ho1 & Hl1 & Hn1).
  { eapply Forall_impl; [exact Hks|]. cbn. intros; lia. }
  destruct (py_take_neg l2 ks) as (o2 & Ho2 & Hl2 & Hn2).
  { eapply Forall_impl; [exact Hks|]. cbn. intros; lia. }
  rewrite Ho1, Ho2. f_equal. apply list_eq. intros j.
  destruct (ks !! j) as [kj|] eqn:Hkj.
  - rewrite (Hn1 j kj Hkj), (Hn2 j kj Hkj).
    rewrite List.Forall_forall in Hks.
    assert (Hb : 1 <= kj <= Z.of_nat k)
      by (apply Hks, list_elem_of_In; eapply list_elem_of_lookup_2; exact Hkj).
    replace (length l1 - Z.to_nat kj)%nat
      with ((length l1 - k) + (k - Z.to_nat kj))%nat by lia.
    replace (length l2 - Z.to_nat kj)%nat
      with ((length l2 - k) + (k - Z.to_nat kj))%nat by lia.
    rewrite <- !lookup_drop, Hdrop. reflexivity.
  - apply lookup_ge_None in Hkj.
    rewrite (proj2 (lookup_ge_None o1 j)) by lia.
    rewrite (proj2 (lookup_ge_None o2 j)) by lia. reflexivity.
Qed.

(** The forecast is a function of the last [k] values of the window, [k]
    bounding the lags. *)
Lemma recursive_forecast_trailing (m : M) (lags : list Z) (k c : nat) :
  Forall (fun j => 1 <= j <= Z.of_nat k) lags ->
  forall w1 w2 : list V,
    (k <= length w1)%nat -> (k <= length w2)%nat ->
    drop (length w1 - k) w1 = drop (length w2 - k) w2 ->
    recursive_forecast m lags w1 c = recursive_forecast m lags w2 c.
Proof.
  intros Hks. induction c as [|c IH]; intros w1 w2 H1 H2 Hdrop; [reflexivity|].
  cbn [recursive_forecast].
  rewrite (py_take_neg_trailing w1 w2 lags k Hks H1 H2 Hdrop).
  destruct (py_take w2 (map Z.opp lags)) as [X|]; [|reflexivity]. cbn [rbind].
  rewrite (IH (py_slice_from w1 1 ++ [reg_predict m X])
              (py_slice_from w2 1 ++ [reg_predict m X])); [reflexivity| | |].
  - pose proof (py_slice_from_1_length w1 (reg_predict m X)). lia.
  - pose proof (py_slice_from_1_length w2 (reg_predict m X)). lia.
  - unfold py_slice_from. cbn [Z.ltb Z.compare Z.to_nat Pos.to_nat Pos.iter_op Nat.add].
    rewrite !length_app, !length_drop. cbn [length].
    destruct k as [|k].
    + rewrite !Nat.sub_0_r.
      rewrite !drop_ge by (rewrite length_app, length_drop; cbn [length]; lia).
      reflexivity.
    + rewrite !drop_app_le by (rewrite length_drop; lia).
      rewrite !drop_drop. change (Z.to_nat 1) with 1%nat.
      replace (1 + (length w1 - 1 + 1 - S k))%nat with (length w1 - S k + 1)%nat by lia.
      replace (1 + (length w2 - 1 + 1 - S k))%nat with (length w2 - S k + 1)%nat by lia.
      rewrite <- (drop_drop w1 1 (length w1 - S k)).
      rewrite <- (drop_drop w2 1 (length w2 - S k)).
      rewrite Hdrop. reflexivity.
Qed.

(** [predict] with a supplied window that passes the checks: the recursion
    on the values of the window, under some index. *)
Lemma predict_result_supplied s (h : list (list V)) (steps : Z) (ser : Series V) :
  fitted s = true -> included_exog s = false -> lags_ok s ->
  series_ok ser -> has_null (s_values ser) = false ->
  max_lag s <= Z.of_nat (length (s_values ser)) -> 1 <= steps ->
  exists ix,
    predict_result s h steps (Some (PySeries ser)) None
    = rbind (recursive_forecast (regressor s) (lags s) (s_values ser)
               (Z.to_nat steps))
        (fun vals => Ok (mkSeries ix vals)).
Proof.
  intros Hf Hie Hlags Hser Hnull Hlen Hs.
  destruct (lags_ok_bounds s Hlags) as (Hm1 & _ & _).
  unfold predict_result, predict_window_result. rewrite Hf, Hie.
  cbn [negb andb]. destruct (Z.ltb_spec steps 1); [lia|].
  rewrite andb_false_r. rewrite bool_decide_eq_true_2 by reflexivity.
  cbn [negb andb rbind py_len].
  destruct (Z.ltb_spec (Z.of_nat (length (s_values ser))) (max_lag s)); [lia|].
  cbn [_check_last_window]. rewrite Hnull. cbn [rbind fst snd].
  destruct (expand_index_ok (s_index (_preproces_y ser)) (length (s_values ser)) steps)
    as [ix Hix]; [apply preproces_y_index_ok, Hser | lia | lia |].
  rewrite Hix, preproces_y_values. cbn [rbind]. exists ix. reflexivity.
Qed.

Lemma py_slice_from_neg {A} (l : list A) (k : Z) :
  1 <= k <= Z.of_nat (length l) ->
  py_slice_from l (- k) = drop (length l - Z.to_nat k) l.
Proof.
  intros Hk. unfold py_slice_from. destruct (Z.ltb_spec (- k) 0); [|lia].
  f_equal. lia.
Qed.

Lemma result_values_rbind (r : result (list V)) (ix : Index) :
  result_values (rbind r (fun vals => Ok (mkSeries ix vals))) = r.
Proof. destruct r; reflexivity. Qed.

(** C10, as the code has it.  For two supplied windows free of missing
    values, each with at least [max_lag] values, whose last [max_lag]
    values agree, [predict] gives the same result under the same fitted
    state, [steps] and [exog]: the same predicted values, or the same
    exception.  (A window with a missing value anywhere, also before its
    last [max_lag] values, is refused by [_check_last_window].) *)
Theorem predict_trailing_window w (steps : Z) (ser1 ser2 : Series V)
    (exog : option (pyobj V)) :
  world_ok w -> lags_ok (self_ w) ->
  series_ok ser1 -> series_ok ser2 ->
  has_null (s_values ser1) = false -> has_null (s_values ser2) = false ->
  max_lag (self_ w) <= Z.of_nat (length (s_values ser1)) ->
  max_lag (self_ w) <= Z.of_nat (length (s_values ser2)) ->
  py_slice_from (s_values ser1) (- max_lag (self_ w))
  = py_slice_from (s_values ser2) (- max_lag (self_ w)) ->
  result_values (snd (predict steps (Some (PySeries ser1)) exog w))
  = result_values (snd (predict steps (Some (PySeries ser2)) exog w)).
Proof.
  intros Hok Hlags Hs1 Hs2 Hn1 Hn2 Hl1 Hl2 Htrail.
  rewrite !predict_snd by exact Hok.
  destruct (lags_ok_bounds _ Hlags) as (Hm1 & _ & Hall).
  destruct (fitted (self_ w)) eqn:Hf;
    [|unfold predict_result; rewrite Hf; reflexivity].
  destruct (Z.ltb_spec steps 1) as [Hs|Hs].
  { unfold predict_result. rewrite Hf. cbn [negb].
    destruct (Z.ltb_spec steps 1); [reflexivity | lia]. }
  destruct exog as [xo|].
  { unfold predict_result. rewrite Hf. cbn [negb].
    destruct (Z.ltb_spec steps 1); [lia|].
    rewrite bool_decide_eq_false_2 by discriminate. cbn [negb andb].
    destruct (included_exog (self_ w)); cbn [negb]; [|reflexivity].
    destruct (py_len xo) as [le|]; cbn [rbind]; [|reflexivity].
    destruct (le <? steps); reflexivity. }
  destruct (included_exog (self_ w)) eqn:Hie.
  { unfold predict_result. rewrite Hf, Hie. cbn [negb].
    destruct (Z.ltb_spec steps 1); [lia|].
    rewrite bool_decide_eq_true_2 by reflexivity. reflexivity. }
  destruct (predict_result_supplied (self_ w) (heap w) steps ser1
              Hf Hie Hlags Hs1 Hn1 Hl1 Hs) as [ix1 ->].
  destruct (predict_result_supplied (self_ w) (heap w) steps ser2
              Hf Hie Hlags Hs2 Hn2 Hl2 Hs) as [ix2 ->].
  rewrite !result_values_rbind.
  rewrite !py_slice_from_neg in Htrail by lia.
  apply (recursive_forecast_trailing _ _ (Z.to_nat (max_lag (self_ w)))).
  - eapply Forall_impl; [exact Hall|]. cbn. intros; lia.
  - lia.
  - lia.
  - exact Htrail.
Qed.

(** The caller's loop of one-step predictions, run. *)
Lemma predict_one_at_a_time_run (mk : list V -> Series V) (k : nat) :
  (forall vs, s_values (mk vs) = vs /\ series_ok (mk vs)) ->
  forall w (window vals : list V),
    world_ok w -> lags_ok (self_ w) ->
    fitted (self_ w) = true -> included_exog (self_ w) = false ->
    ((1 <= k)%nat -> has_null window = false) ->
    max_lag (self_ w) <= Z.of_nat (length window) ->
    recursive_forecast (regressor (self_ w)) (lags (self_ w)) window k = Ok vals ->
    has_null (take (k - 1) vals) = false ->
    exists w',
      predict_one_at_a_time mk k window w = (w', Ok vals)
      /\ world_ok w' /\ self_ w' = self_ w.
Proof.
  intros Hmk. induction k as [|k IH];
    intros w window vals Hok Hlags Hf Hie Hnull Hlen Hrec Hnv.
  - cbn in Hrec. injection Hrec as <-. exists w. repeat split; assumption.
  - cbn [predict_one_at_a_time]. rewrite bind_run.
    destruct (Hmk window) as [Hmv Hms].
    destruct w as [s h e d]. cbn [self_] in *.
    destruct (predict_run 1 (Some (PySeries (mk window))) None s h e d Hok)
      as (h' & Hrun & Hle & Hfr).
    destruct (predict_result_supplied s h 1 (mk window) Hf Hie Hlags Hms)
      as [ix Hres]; [rewrite Hmv; apply Hnull; lia | rewrite Hmv; exact Hlen | lia |].
    rewrite Hmv in Hres. change (Z.to_nat 1) with 1%nat in Hres.
    cbn [recursive_forecast] in Hrec, Hres.
    destruct (py_take window (map Z.opp (lags s))) as [X|]; [|discriminate].
    cbn [rbind] in Hrec, Hres.
    set (p := reg_predict (regressor s) X) in *.
    destruct (recursive_forecast (regressor s) (lags s)
                (py_slice_from window 1 ++ [p]) k) as [rest|] eqn:Hrest; [|discriminate].
    cbn [rbind] in Hrec. injection Hrec as <-.
    rewrite Hrun, Hres. cbn [fst snd s_values]. rewrite bind_run.
    assert (Hok' : world_ok (mkWorld s h' e d)).
    { pose proof (predict_world_ok (mkWorld s h e d) 1
                    (Some (PySeries (mk window))) None Hok) as Hw.
      rewrite Hrun in Hw. exact Hw. }
    destruct (IH (mkWorld s h' e d) (py_slice_from window 1 ++ [p]) rest)
      as (w' & Hrun' & Hok'' & Hself); try assumption.
    + intros Hk. unfold has_null in *. rewrite existsb_app.
      assert (Hp : isnull p = false).
      { replace (S k - 1)%nat with (S (k - 1)) in Hnv by lia.
        cbn [take existsb] in Hnv. apply orb_false_iff in Hnv. apply Hnv. }
      cbn [existsb]. rewrite Hp, orb_false_r.
      specialize (Hnull ltac:(lia)).
      unfold py_slice_from. cbn.
      destruct window as [|x window]; [reflexivity|].
      cbn [existsb drop] in *. apply orb_false_iff in Hnull. apply Hnull.
    + pose proof (py_slice_from_1_length window p). cbn [self_]. lia.
    + destruct k as [|k]; [reflexivity|].
      replace (S (S k) - 1)%nat with (S (S k - 1)) in Hnv by lia.
      cbn [take] in Hnv. unfold has_null in *. cbn [existsb] in Hnv.
      apply orb_false_iff in Hnv. apply Hnv.
    + rewrite Hrun'. cbn [fst snd]. exists w'.
      split; [reflexivity | split; assumption].
Qed.

(** C2, as the code has it.  For a fitted forecaster trained without
    exogenous data, [k >= 1] and an initial window without missing values
    and with at least [max_lag] values: when [predict(steps=k)] returns the
    values [vals] and none of the first [k - 1] of them is a missing value,
    [k] calls of [predict(steps=1)], each on the previous window without its
    oldest value and with the predicted value appended, return the same [k]
    values.  (A predicted NaN that is fed back makes the next call raise:
    [_check_last_window] refuses a window with a missing value, while the
    loop of a single call goes on.) *)
Theorem predict_sequential_equivalence w (mk : list V -> Series V) (k : nat)
    (window vals : list V) :
  world_ok w -> lags_ok (self_ w) ->
  fitted (self_ w) = true -> included_exog (self_ w) = false ->
  (forall vs, s_values (mk vs) = vs /\ series_ok (mk vs)) ->
  (1 <= k)%nat ->
  has_null window = false ->
  max_lag (self_ w) <= Z.of_nat (length window) ->
  result_values (snd (predict (Z.of_nat k) (Some (PySeries (mk window))) None w))
  = Ok vals ->
  has_null (take (k - 1) vals) = false ->
  snd (predict_one_at_a_time mk k window w) = Ok vals.
Proof.
  intros Hok Hlags Hf Hie Hmk Hk Hnull Hlen Hsingle Hnv.
  destruct (Hmk window) as [Hmv Hms].
  rewrite predict_snd in Hsingle by exact Hok.
  destruct (predict_result_supplied (self_ w) (heap w) (Z.of_nat k) (mk window)
              Hf Hie Hlags Hms) as [ix Hres];
    [rewrite Hmv; exact Hnull | rewrite Hmv; exact Hlen | lia |].
  rewrite Hres, result_values_rbind, Hmv, Nat2Z.id in Hsingle.
  destruct (predict_one_at_a_time_run mk k Hmk w window vals)
    as (w' & Hrun & _); try assumption.
  - intros _. exact Hnull.
  - rewrite Hrun. reflexivity.
Qed.

End WindowFacts.

Lemma range_series_ok {V} (vs : list V) :
  s_values (range_series vs) = vs /\ series_ok (range_series vs).
Proof.
  split; [reflexivity|]. unfold series_ok, range_series. cbn [s_index s_values index_labels].
  rewrite length_map, range_list_length. lia.
Qed.

(** Witness of [predict_frame]: three steps from the stored window; the
    buffer of the stored window still holds 8, 13. *)
Lemma predict_frame_witness :
  world_ok fitted_world
  /\ self_ (fst (predict 3 None None fitted_world)) = self_ fitted_world
  /\ (forall ix a, self_last_window (self_ fitted_world) = Some (ix, a) ->
        heap (fst (predict 3 None None fitted_world)) !! a
        = heap fitted_world !! a).
Proof.
  pose proof (predict_frame fitted_world 3 None None fitted_world_ok) as Hp.
  split; [exact fitted_world_ok|].
  split; [exact (proj1 Hp)|].
  exact (proj1 (proj2 (proj2 (proj2 (proj2 (proj2 Hp)))))).
Defined.

(** Witness of [predict_trailing_window]: the windows 1, 8, 13 and 8, 13
    with [max_lag = 2]. *)
Lemma predict_trailing_window_witness :
  let ser1 := range_series [Some 1; Some 8; Some 13] in
  let ser2 := range_series [Some 8; Some 13] in
  (world_ok fitted_world /\ lags_ok (self_ fitted_world)
   /\ series_ok ser1 /\ series_ok ser2
   /\ has_null (s_values ser1) = false /\ has_null (s_values ser2) = false
   /\ max_lag (self_ fitted_world) <= Z.of_nat (length (s_values ser1))
   /\ max_lag (self_ fitted_world) <= Z.of_nat (length (s_values ser2))
   /\ py_slice_from (s_values ser1) (- max_lag (self_ fitted_world))
      = py_slice_from (s_values ser2) (- max_lag (self_ fitted_world)))
  /\ result_values (snd (predict 2 (Some (PySeries ser1)) None fitted_world))
     = result_values (snd (predict 2 (Some (PySeries ser2)) None fitted_world)).
Proof.
  intros ser1 ser2.
  assert (H1 : series_ok ser1) by apply range_series_ok.
  assert (H2 : series_ok ser2) by apply range_series_ok.
  assert (H3 : has_null (s_values ser1) = false) by reflexivity.
  assert (H4 : has_null (s_values ser2) = false) by reflexivity.
  assert (H5 : max_lag (self_ fitted_world) <= Z.of_nat (length (s_values ser1)))
    by (vm_compute; discriminate).
  assert (H6 : max_lag (self_ fitted_world) <= Z.of_nat (length (s_values ser2)))
    by (vm_compute; discriminate).
  assert (H7 : py_slice_from (s_values ser1) (- max_lag (self_ fitted_world))
               = py_slice_from (s_values ser2) (- max_lag (self_ fitted_world)))
    by (vm_compute; reflexivity).
  split.
  - exact (conj fitted_world_ok (conj fitted_world_lags_ok
             (conj H1 (conj H2 (conj H3 (conj H4 (conj H5 (conj H6 H7)))))))).
  - exact (predict_trailing_window fitted_world 2 ser1 ser2 None fitted_world_ok
             fitted_world_lags_ok H1 H2 H3 H4 H5 H6 H7).
Defined.

(** C10 as the specification words it fails: two windows of three values
    with the same last two values ([max_lag = 2]); the first has a missing
    value in its oldest position and [predict] raises on it, on the second
    it returns 21. *)
Lemma predict_trailing_window_counterexample :
  let ser1 := range_series [None; Some 8; Some 13] in
  let ser2 := range_series [Some 0; Some 8; Some 13] in
  max_lag (self_ fitted_world) = 2
  /\ py_slice_from (s_values ser1) (-2) = py_slice_from (s_values ser2) (-2)
  /\ result_values (snd (predict 1 (Some (PySeries ser1)) None fitted_world))
     = Raise (Exception "`last_window` has missing values.")
  /\ result_values (snd (predict 1 (Some (PySeries ser2)) None fitted_world))
     = Ok [Some 21]
  /\ result_values (snd (predict 1 (Some (PySeries ser1)) None fitted_world))
     <> result_values (snd (predict 1 (Some (PySeries ser2)) None fitted_world)).
Proof.
  intros ser1 ser2. vm_compute. repeat split; discriminate.
Qed.

Example predict_one_at_a_time_example :
  snd (predict_one_at_a_time range_series 3 [Some 8; Some 13] fitted_world)
  = Ok [Some 21; Some 34; Some 55].
Proof. vm_compute. reflexivity. Qed.

(** Witness of [predict_sequential_equivalence]: three steps from 8, 13. *)
Lemma predict_sequential_equivalence_witness :
  (world_ok fitted_world /\ lags_ok (self_ fitted_world)
   /\ fitted (self_ fitted_world) = true
   /\ included_exog (self_ fitted_world) = false
   /\ (forall vs : list (option Z),
         s_values (range_series vs) = vs /\ series_ok (range_series vs))
   /\ (1 <= 3)%nat
   /\ has_null [Some 8; Some 13] = false
   /\ max_lag (self_ fitted_world) <= Z.of_nat (length [Some 8; Some 13])
   /\ result_values
        (snd (predict (Z.of_nat 3)
                (Some (PySeries (range_series [Some 8; Some 13]))) None
                fitted_world))
      = Ok [Some 21; Some 34; Some 55]
   /\ has_null (take (3 - 1) [Some 21; Some 34; Some 55]) = false)
  /\ snd (predict_one_at_a_time range_series 3 [Some 8; Some 13] fitted_world)
     = Ok [Some 21; Some 34; Some 55].
Proof.
  assert (H1 : fitted (self_ fitted_world) = true) by (vm_compute; reflexivity).
  assert (H2 : included_exog (self_ fitted_world) = false) by (vm_compute; reflexivity).
  assert (H3 : (1 <= 3)%nat) by lia.
  assert (H4 : has_null [Some 8; Some 13] = false) by reflexivity.
  assert (H5 : max_lag (self_ fitted_world) <= Z.of_nat (length [Some 8; Some 13]))
    by (vm_compute; discriminate).
  assert (H6 : result_values
                 (snd (predict (Z.of_nat 3)
                         (Some (PySeries (range_series [Some 8; Some 13]))) None
                         fitted_world))
               = Ok [Some 21; Some 34; Some 55]) by (vm_compute; reflexivity).
  assert (H7 : has_null (take (3 - 1) [Some 21; Some 34; Some 55]) = false)
    by reflexivity.
  split.
  - exact (conj fitted_world_ok (conj fitted_world_lags_ok
             (conj H1 (conj H2 (conj (fun vs => range_series_ok vs)
                (conj H3 (conj H4 (conj H5 (conj H6 H7))))))))).
  - exact (predict_sequential_equivalence fitted_world range_series 3
             [Some 8; Some 13] [Some 21; Some 34; Some 55]
             fitted_world_ok fitted_world_lags_ok H1 H2
             (fun vs => range_series_ok vs) H3 H4 H5 H6 H7).
Defined.

Example nan_world_fitted :
  fitted (self_ nan_world) = true
  /\ included_exog (self_ nan_world) = false
  /\ max_lag (self_ nan_world) = 1.
Proof. vm_compute. repeat split. Qed.

(** C2 as the specification words it fails: a fitted forecaster whose
    regressor predicts NaN.  [predict(steps=2)] from the window 3 returns
    two values (NaN, NaN); the second of two calls [predict(steps=1)] is
    given the window NaN and raises. *)
Lemma predict_sequential_equivalence_counterexample :
  ~ (forall vals,
       result_values
         (snd (predict 2 (Some (PySeries (range_series [Some 3]))) None nan_world))
       = Ok vals ->
       snd (predict_one_at_a_time range_series 2 [Some 3] nan_world) = Ok vals).
Proof.
  intros Hclaim. specialize (Hclaim [None; None]).
  assert (Hsingle : result_values
            (snd (predict 2 (Some (PySeries (range_series [Some 3]))) None nan_world))
          = Ok [None; None]) by (vm_compute; reflexivity).
  assert (Hiter : snd (predict_one_at_a_time range_series 2 [Some 3] nan_world)
                  = Raise (Exception "`last_window` has missing values."))
    by (vm_compute; reflexivity).
  specialize (Hclaim Hsingle). rewrite Hiter in Hclaim. discriminate Hclaim.
Qed.

(* ================================================================= *)
(** ** The stored window after [fit] *)

Section FitWindowFacts.
Context {V M : Type} `{Float V} `{Regressor V M}.
Implicit Types (w : World V M) (s : Forecaster V M) (h : list (list V)).

Lemma py_slice_from_length {A B} (l : list A) (l' : list B) (k : Z) :
  length l = length l' ->
  length (py_slice_from l k) = length (py_slice_from l' k).
Proof.
  intros Hl. unfold py_slice_from. rewrite !length_drop, Hl. reflexivity.
Qed.

Lemma py_slice_from_map {A B} (f : A -> B) (l : list A) (k : Z) :
  py_slice_from (map f l) k = map f (py_slice_from l k).
Proof. unfold py_slice_from. rewrite length_map. apply skipn_map. Qed.

(** The labels of a sliced index are the slice of the labels. *)
Lemma index_labels_slice_from (ix : Index) (k : Z) :
  index_labels (index_slice_from ix k) = py_slice_from (index_labels ix) k.
Proof.
  destruct ix as [a b|f ts|ls]; cbn [index_slice_from index_labels].
  - rewrite py_slice_from_map. f_equal.
    unfold py_slice_from. rewrite range_list_length.
    apply list_eq. intros i. rewrite lookup_drop, !range_list_lookup.
    unfold slice_start.
    destruct (Z.ltb_spec k 0);
      repeat (destruct (decide _)); try reflexivity; try (f_equal; lia); lia.
  - rewrite py_slice_from_map. reflexivity.
  - reflexivity.
Qed.

Lemma index_ok_slice_from (ix : Index) (vs : list V) (k : Z) :
  index_ok ix (length vs) ->
  index_ok (index_slice_from ix k) (length (py_slice_from vs k)).
Proof.
  intros [Hlen Hty]. split.
  - rewrite index_labels_slice_from. apply py_slice_from_length. exact Hlen.
  - destruct ix as [a b|[f|] ts|ls]; cbn [index_slice_from]; exact Hty.
Qed.

Lemma iloc_set_length {A} (l l' : list A) (i : Z) (x : A) :
  iloc_set l i x = Ok l' -> length l' = length l.
Proof.
  unfold iloc_set. destruct (_ && _); [intros [= <-]; apply length_insert|].
  destruct (_ && _); [intros [= <-]; apply length_insert | discriminate].
Qed.

Lemma create_lags_loop_length (m : Z) (vals : list V) (idxs : list Z) :
  forall X Y X' Y',
    create_lags_loop m vals idxs X Y = Ok (X', Y') ->
    length X' = length X /\ length Y' = length Y.
Proof.
  induction idxs as [|i idxs IH]; intros X Y X' Y'; cbn [create_lags_loop].
  - intros [= <- <-]. split; reflexivity.
  - destruct (py_take vals (range_list (Range i (m + i)))) as [row|];
      [|discriminate]. cbn [rbind].
    destruct (bool_decide _); [|discriminate]. cbn [rbind].
    destruct (iloc_set X i row) as [X1|] eqn:HX; [|discriminate]. cbn [rbind].
    destruct (py_take vals [m + i]) as [[|v [|v' tgt]]|]; try discriminate.
    cbn [rbind].
    destruct (iloc_set Y i v) as [Y1|] eqn:HY; [|discriminate]. cbn [rbind].
    intros Hloop. apply IH in Hloop as [HlX HlY].
    apply iloc_set_length in HX, HY. split; congruence.
Qed.

(** The targets [_create_lags] returns: the values after the first
    [max_lag], under the index of the series from [max_lag] on. *)
Lemma create_lags_target (self : Forecaster V M) (y : Series V)
    (X : DataFrame V) (yt : Series V) :
  _create_lags self y = Ok (X, yt) ->
  s_index yt = index_slice_from (s_index y) (max_lag self)
  /\ max_lag self <= Z.of_nat (length (s_values y))
  /\ length (s_values yt)
     = Z.to_nat (Z.of_nat (length (s_values y)) - max_lag self).
Proof.
  unfold _create_lags, np_full2, np_full1.
  set (n := Z.of_nat (length (s_values y))). set (m := max_lag self).
  destruct (Z.ltb_spec (n - m) 0) as [?|Hn]; [discriminate|].
  destruct (m <? 0); cbn [orb rbind]; [discriminate|].
  destruct (bool_decide _); cbn [rbind]; [|discriminate].
  destruct (create_lags_loop m (s_values y) _ _ _) as [[X' Y']|] eqn:Hloop;
    [|discriminate]. cbn [rbind fst snd].
  destruct (py_take _ _) as [cols|]; [|discriminate]. cbn [rbind].
  destruct (result_mapM _ _) as [rows|]; [|discriminate]. cbn [rbind].
  intros [= <- <-]. cbn [s_index s_values].
  apply create_lags_loop_length in Hloop as [_ HlY].
  rewrite repeat_length in HlY.
  split; [reflexivity|]. split; [lia | exact HlY].
Qed.

Lemma create_train_X_y_target (self : Forecaster V M) (y : Series V)
    (exog : option (Exog V)) (X : DataFrame V) (yt : Series V) :
  _create_train_X_y self y exog = Ok (X, yt) ->
  s_index yt = index_slice_from (s_index y) (max_lag self)
  /\ max_lag self <= Z.of_nat (length (s_values y))
  /\ length (s_values yt)
     = Z.to_nat (Z.of_nat (length (s_values y)) - max_lag self).
Proof.
  unfold _create_train_X_y.
  destruct (_create_lags self y) as [[X0 yt0]|] eqn:Hcl; [|discriminate].
  cbn [rbind]. destruct exog as [ex|]; intros [= <- <-];
    eapply create_lags_target; exact Hcl.
Qed.

Lemma check_y_inv (y : pyobj V) (ys : Series V) :
  _check_y y = Ok ys -> y = PySeries ys.
Proof.
  destruct y as [ser| | | |]; cbn [_check_y]; try discriminate.
  destruct (has_null (s_values ser)); [discriminate|].
  intros [= <-]. reflexivity.
Qed.

(** A successful [fit] leaves a world in which the stored last window
    refers to its own buffer, one label per value. *)
Lemma fit_world_ok w (y : pyobj V) (exog : option (pyobj V)) :
  0 <= max_lag (self_ w) ->
  (forall ys, y = PySeries ys -> series_ok ys) ->
  snd (fit y exog w) = Ok tt -> world_ok (fst (fit y exog w)).
Proof.
  destruct_world w. cbn [self_ max_lag]. intros Hm Hser.
  unfold fit. py_simp.
  rewrite bind_lift. destruct (_check_y y) as [ys|] eqn:Hy; [|discriminate].
  apply check_y_inv in Hy. specialize (Hser ys Hy).
  py_simp. rewrite bind_lift.
  destruct (index_first_last _) as [tr'|]; [|discriminate].
  py_simp. rewrite bind_lift.
  destruct (index_freq_info _) as [fr|]; [|discriminate].
  py_simp. rewrite bind_run.
  match goal with |- context [fit_exog ?n ?x (mkWorld (mkForecaster ?a1 ?a2 ?a3 ?a4 ?a5 ?a6 ?a7 ?a8 ?a9 ?a10 ?a11 ?a12 ?a13 ?a14) ?hh ?ee ?dd)] =>
    destruct (fit_exog_run n x a1 a2 a3 a4 a5 a6 a7 a8 a9 a10 a11 a12 a13 a14 hh ee dd)
      as (ie' & et' & ec' & res & ->)
  end.
  cbn [fst snd]. destruct res as [xo|]; [|discriminate].
  rewrite bind_lift.
  destruct (_check_aligment_y_exog _ xo) as [[]|]; [|discriminate].
  py_simp. rewrite bind_lift.
  destruct (_create_train_X_y _ _ xo) as [[X_train y_train]|] eqn:HXy;
    [|discriminate].
  apply create_train_X_y_target in HXy as (Hix & Hmn & Hlen).
  cbn [max_lag] in Hix, Hmn, Hlen. rewrite preproces_y_values in Hmn, Hlen.
  assert (Hyt : index_ok (s_index y_train) (length (s_values y_train))).
  { rewrite Hix, Hlen.
    replace (Z.to_nat (Z.of_nat (length (s_values ys)) - m))
      with (length (py_slice_from (s_values ys) m))
      by (unfold py_slice_from; destruct (Z.ltb_spec m 0); [lia|];
          rewrite length_drop; lia).
    apply index_ok_slice_from, preproces_y_index_ok, Hser. }
  py_simp. rewrite bind_lift.
  destruct (series_sub _ _) as [residuals|]; [|discriminate].
  assert (Hfinal : forall hh (ee : nat -> nat) (dd : nat) (ff : Forecaster V M),
             world_ok
               (mkWorld
                  (with_last_window
                     (Some (index_slice_from (s_index y_train) (- m), length hh))
                     ff)
                  (hh ++ [py_slice_from (s_values y_train) (- m)]) ee dd)).
  { intros hh ee dd ff ix a Hlw. destruct ff. cbn in Hlw.
    injection Hlw as <- <-. cbn [heap].
    exists (py_slice_from (s_values y_train) (- m)).
    split; [apply list_lookup_middle; reflexivity|].
    apply index_ok_slice_from, Hyt. }
  destruct (Z.ltb_spec 1000 (Z.of_nat (length residuals))) as [Hbig|Hsmall].
  - rewrite bind_run.
    match goal with |- context [np_random_choice ?a ?n false (mkWorld ?ss ?hh ?ee ?dd)] =>
      destruct (np_random_choice_no_replace_run a n ss hh ee dd)
        as (d' & res & -> & _ & _)
    end.
    cbn [fst snd]. destruct res as [sample|]; [|discriminate].
    py_simp. intros _. apply Hfinal.
  - py_simp. intros _. apply Hfinal.
Qed.

End FitWindowFacts.

(* ================================================================= *)
(** ** Percentiles and variance *)

Section PercentileFacts.
Local Open Scope Qc_scope.

Lemma this_Q2Qc (q : Q) : (this (Q2Qc q) == q)%Q.
Proof. apply Qred_correct. Qed.

Lemma Qcle_minus_nonneg (x y : Qc) : x <= y -> 0 <= y - x.
Proof. intros Hxy. apply Qcle_minus_iff in Hxy. exact Hxy. Qed.

Lemma Qcle_of_minus_nonneg (x y : Qc) : 0 <= y - x -> x <= y.
Proof. intros Hxy. apply Qcle_minus_iff. exact Hxy. Qed.

Lemma lerp_ge (x y t : Qc) : x <= y -> 0 <= t -> x <= lerp x y t.
Proof.
  intros Hxy Ht. apply Qcle_of_minus_nonneg.
  replace (lerp x y t - x) with ((y - x) * t) by (unfold lerp; ring).
  apply Qcmult_nonneg_nonneg; [apply Qcle_minus_nonneg, Hxy | exact Ht].
Qed.

Lemma lerp_le (x y t : Qc) : x <= y -> t <= 1 -> lerp x y t <= y.
Proof.
  intros Hxy Ht. apply Qcle_of_minus_nonneg.
  replace (y - lerp x y t) with ((y - x) * (1 - t)) by (unfold lerp; ring).
  apply Qcmult_nonneg_nonneg; apply Qcle_minus_nonneg; assumption.
Qed.

Lemma lerp_mono (x y t1 t2 : Qc) : x <= y -> t1 <= t2 -> lerp x y t1 <= lerp x y t2.
Proof.
  intros Hxy Ht. apply Qcle_of_minus_nonneg.
  replace (lerp x y t2 - lerp x y t1) with ((y - x) * (t2 - t1)) by (unfold lerp; ring).
  apply Qcmult_nonneg_nonneg; apply Qcle_minus_nonneg; assumption.
Qed.

Lemma lerp_same (x t : Qc) : lerp x x t = x.
Proof. unfold lerp. ring. Qed.

Lemma Qc_of_Z_le (a b : Z) : (a <= b)%Z -> Qc_of_Z a <= Qc_of_Z b.
Proof.
  intros Hab. unfold Qcle, Qc_of_Z. rewrite !this_Q2Qc.
  rewrite <- Zle_Qle. exact Hab.
Qed.

Lemma Qc_of_Z_floor_le (v : Qc) : Qc_of_Z (Qfloor v) <= v.
Proof. unfold Qcle, Qc_of_Z. rewrite this_Q2Qc. apply Qfloor_le. Qed.

Lemma Qc_floor_lt (v : Qc) : v < Qc_of_Z (Qfloor v + 1).
Proof. unfold Qclt, Qc_of_Z. rewrite this_Q2Qc. apply Qlt_floor. Qed.

Lemma Qc_of_Z_plus (a b : Z) : Qc_of_Z (a + b) = Qc_of_Z a + Qc_of_Z b.
Proof.
  apply Qc_is_canon. unfold Qc_of_Z, Qcplus. rewrite !this_Q2Qc.
  rewrite inject_Z_plus. reflexivity.
Qed.

Lemma Qfloor_Qc_of_Z_le (z : Z) (v : Qc) : Qc_of_Z z <= v -> (z <= Qfloor v)%Z.
Proof.
  intros Hz. unfold Qcle, Qc_of_Z in Hz. rewrite this_Q2Qc in Hz.
  apply Qfloor_resp_le in Hz. rewrite Qfloor_Z in Hz. exact Hz.
Qed.

Lemma Qfloor_le_Qc_of_Z (z : Z) (v : Qc) : v <= Qc_of_Z z -> (Qfloor v <= z)%Z.
Proof.
  intros Hz. unfold Qcle, Qc_of_Z in Hz. rewrite this_Q2Qc in Hz.
  apply Qfloor_resp_le in Hz. rewrite Qfloor_Z in Hz. exact Hz.
Qed.

Lemma Qfloor_mono (u v : Qc) : u <= v -> (Qfloor u <= Qfloor v)%Z.
Proof. intros Huv. apply Qfloor_resp_le. exact Huv. Qed.

Lemma StronglySorted_lookup_le (a : list Qc) (i j : nat) (x y : Qc) :
  StronglySorted Qcle a -> (i <= j)%nat ->
  a !! i = Some x -> a !! j = Some y -> x <= y.
Proof.
  intros Hs. revert i j. induction Hs as [|z a Hs IH Hz]; intros i j Hij Hi Hj.
  - rewrite lookup_nil in Hi. discriminate Hi.
  - destruct i as [|i], j as [|j]; cbn in Hi, Hj.
    + inversion Hi; inversion Hj; subst. apply Qcle_refl.
    + inversion Hi; subst.
      rewrite List.Forall_forall in Hz. apply Hz.
      apply list_elem_of_In. eapply list_elem_of_lookup_2. exact Hj.
    + lia.
    + apply (IH i j); [lia | assumption | assumption].
Qed.

Lemma virtual_index_mono (n : nat) (q1 q2 : Qc) :
  (1 <= n)%nat -> q1 <= q2 -> virtual_index n q1 <= virtual_index n q2.
Proof.
  intros Hn Hq. unfold virtual_index, Qcdiv.
  apply Qcmult_le_compat_r.
  - apply Qcmult_le_compat_r; [exact Hq|].
    apply (Qc_of_Z_le 0). lia.
  - apply Qclt_le_weak, Qcinv_pos. reflexivity.
Qed.

Lemma virtual_index_0 (n : nat) : virtual_index n (Qc_of_Z 0) = Qc_of_Z 0.
Proof.
  unfold virtual_index. change (Qc_of_Z 0) with 0.
  unfold Qcdiv. ring.
Qed.

Lemma virtual_index_100 (n : nat) :
  virtual_index n (Qc_of_Z 100) = Qc_of_Z (Z.of_nat n - 1).
Proof.
  unfold virtual_index. rewrite Qcmult_comm. apply Qcdiv_mult_l.
  discriminate.
Qed.

(** The two ranks a percentile is interpolated between, and the weight of
    the second. *)
Lemma percentile_ranks (n : nat) (q : Qc) :
  (1 <= n)%nat -> Qc_of_Z 0 <= q -> q <= Qc_of_Z 100 ->
  let vi := virtual_index n q in
  let lo := Qfloor vi in
  let hi := Z.min (lo + 1) (Z.of_nat n - 1) in
  (0 <= lo)%Z /\ (lo <= hi)%Z /\ (hi <= Z.of_nat n - 1)%Z
  /\ 0 <= vi - Qc_of_Z lo /\ vi - Qc_of_Z lo <= 1.
Proof.
  intros Hn H0 H100 vi lo hi.
  assert (Hlo0 : (0 <= lo)%Z).
  { apply Qfloor_Qc_of_Z_le. rewrite <- (virtual_index_0 n).
    apply virtual_index_mono; assumption. }
  assert (Hlon : (lo <= Z.of_nat n - 1)%Z).
  { apply Qfloor_le_Qc_of_Z. rewrite <- (virtual_index_100 n).
    apply virtual_index_mono; assumption. }
  split; [exact Hlo0|]. split; [subst hi; lia|]. split; [subst hi; lia|].
  split.
  - apply Qcle_minus_nonneg. apply Qc_of_Z_floor_le.
  - apply Qcle_of_minus_nonneg.
    replace (1 - (vi - Qc_of_Z lo)) with (Qc_of_Z (lo + 1) - vi).
    + apply Qcle_minus_nonneg, Qclt_le_weak, Qc_floor_lt.
    + rewrite Qc_of_Z_plus. change (Qc_of_Z 1) with 1. ring.
Qed.

Lemma percentile_sorted_mono (a : list Qc) (q1 q2 : Qc) :
  StronglySorted Qcle a -> a <> [] ->
  Qc_of_Z 0 <= q1 -> q1 <= q2 -> q2 <= Qc_of_Z 100 ->
  exists l u, percentile_sorted a q1 = Some l
    /\ percentile_sorted a q2 = Some u /\ l <= u.
Proof.
  intros Hs Hne H0 H12 H100.
  assert (Hn : (1 <= length a)%nat) by (destruct a; [congruence | cbn; lia]).
  destruct (percentile_ranks (length a) q1 Hn H0 (Qcle_trans _ _ _ H12 H100))
    as (Hl1 & Hlh1 & Hh1 & Ht1 & Hu1).
  destruct (percentile_ranks (length a) q2 Hn (Qcle_trans _ _ _ H0 H12) H100)
    as (Hl2 & Hlh2 & Hh2 & Ht2 & Hu2).
  pose proof (virtual_index_mono (length a) q1 q2 Hn H12) as Hvi.
  pose proof (Qfloor_mono _ _ Hvi) as Hlo.
  unfold percentile_sorted.
  set (vi1 := virtual_index (length a) q1) in *.
  set (vi2 := virtual_index (length a) q2) in *.
  set (lo1 := Qfloor vi1) in *. set (lo2 := Qfloor vi2) in *.
  set (hi1 := Z.min (lo1 + 1) (Z.of_nat (length a) - 1)) in *.
  set (hi2 := Z.min (lo2 + 1) (Z.of_nat (length a) - 1)) in *.
  destruct (lookup_lt_is_Some_2 a (Z.to_nat lo1)) as [x1 Hx1]; [lia|].
  destruct (lookup_lt_is_Some_2 a (Z.to_nat hi1)) as [y1 Hy1]; [lia|].
  destruct (lookup_lt_is_Some_2 a (Z.to_nat lo2)) as [x2 Hx2]; [lia|].
  destruct (lookup_lt_is_Some_2 a (Z.to_nat hi2)) as [y2 Hy2]; [lia|].
  rewrite Hx1, Hy1, Hx2, Hy2.
  exists (lerp x1 y1 (vi1 - Qc_of_Z lo1)), (lerp x2 y2 (vi2 - Qc_of_Z lo2)).
  split; [reflexivity|]. split; [reflexivity|].
  assert (Hxy1 : x1 <= y1).
  { apply (StronglySorted_lookup_le a (Z.to_nat lo1) (Z.to_nat hi1));
      [assumption | lia | assumption | assumption]. }
  assert (Hxy2 : x2 <= y2).
  { apply (StronglySorted_lookup_le a (Z.to_nat lo2) (Z.to_nat hi2));
      [assumption | lia | assumption | assumption]. }
  destruct (Z.eq_dec lo1 lo2) as [Heq|Hneq].
  - assert (Hhi : hi1 = hi2) by (subst hi1 hi2; rewrite Heq; reflexivity).
    assert (x1 = x2) by congruence. assert (y1 = y2) by congruence.
    subst x2 y2. rewrite <- Heq. apply lerp_mono; [exact Hxy1|].
    apply Qcplus_le_compat; [exact Hvi | apply Qcle_refl].
  - apply Qcle_trans with y1; [apply lerp_le; assumption|].
    apply Qcle_trans with x2; [|apply lerp_ge; assumption].
    apply (StronglySorted_lookup_le a (Z.to_nat hi1) (Z.to_nat lo2));
      [assumption | lia | assumption | assumption].
Qed.

Lemma percentile_sorted_constant (a : list Qc) (v q : Qc) :
  Forall (eq v) a -> a <> [] -> Qc_of_Z 0 <= q -> q <= Qc_of_Z 100 ->
  percentile_sorted a q = Some v.
Proof.
  intros Hall Hne H0 H100.
  assert (Hn : (1 <= length a)%nat) by (destruct a; [congruence | cbn; lia]).
  destruct (percentile_ranks (length a) q Hn H0 H100)
    as (Hl & Hlh & Hh & _ & _).
  unfold percentile_sorted.
  set (lo := Qfloor (virtual_index (length a) q)) in *.
  set (hi := Z.min (lo + 1) (Z.of_nat (length a) - 1)) in *.
  destruct (lookup_lt_is_Some_2 a (Z.to_nat lo)) as [x Hx]; [lia|].
  destruct (lookup_lt_is_Some_2 a (Z.to_nat hi)) as [y Hy]; [lia|].
  rewrite Hx, Hy.
  rewrite List.Forall_forall in Hall.
  assert (v = x) as <-.
  { apply Hall, list_elem_of_In. eapply list_elem_of_lookup_2; exact Hx. }
  assert (v = y) as <-.
  { apply Hall, list_elem_of_In. eapply list_elem_of_lookup_2; exact Hy. }
  rewrite lerp_same. reflexivity.
Qed.

Lemma np_percentile1_mono (data : list fl) (q1 q2 : Qc) :
  Qc_of_Z 0 <= q1 -> q1 <= q2 -> q2 <= Qc_of_Z 100 ->
  band_ordered (np_percentile1 data q1) (np_percentile1 data q2).
Proof.
  intros H0 H12 H100. unfold np_percentile1.
  destruct (all_numbers data) as [[|x xs]|]; [exact I| |exact I].
  destruct (percentile_sorted_mono (merge_sort Qcle (x :: xs)) q1 q2)
    as (l & u & -> & -> & Hlu); try assumption.
  - apply StronglySorted_merge_sort; apply _.
  - intros Hnil.
    pose proof (Permutation_length (merge_sort_Permutation Qcle (x :: xs))) as Hl.
    rewrite Hnil in Hl. discriminate Hl.
Qed.

Lemma all_numbers_repeat_Some (v : Qc) (n : nat) :
  all_numbers (repeat (Some v) n) = Some (repeat v n).
Proof. induction n as [|n IH]; cbn; [reflexivity|]. rewrite IH. reflexivity. Qed.

(** The percentile of a constant row is its value. *)
Lemma np_percentile1_repeat (x : fl) (n : nat) (q : Qc) :
  Qc_of_Z 0 <= q -> q <= Qc_of_Z 100 ->
  np_percentile1 (repeat x n) q = match n with O => None | S _ => x end.
Proof.
  intros H0 H100. unfold np_percentile1. destruct n as [|n]; [reflexivity|].
  destruct x as [v|]; [|reflexivity].
  rewrite all_numbers_repeat_Some. cbn [repeat].
  apply percentile_sorted_constant; try assumption.
  - rewrite (merge_sort_Permutation Qcle (v :: repeat v n)).
    constructor; [reflexivity|].
    apply List.Forall_forall. intros y Hy. apply repeat_spec in Hy. congruence.
  - intros Hnil.
    pose proof (Permutation_length (merge_sort_Permutation Qcle (v :: repeat v n))) as Hl.
    rewrite Hnil in Hl. discriminate Hl.
Qed.

Lemma Qc_sum_nonneg (l : list Qc) : Forall (Qcle 0) l -> 0 <= Qc_sum l.
Proof.
  induction 1 as [|x l Hx Hl IH]; cbn.
  - apply Qcle_refl.
  - replace 0 with (0 + 0) by ring. apply Qcplus_le_compat; assumption.
Qed.

Lemma Qc_sum_zero (l : list Qc) :
  Forall (Qcle 0) l -> Qc_sum l = 0 -> Forall (eq 0) l.
Proof.
  induction 1 as [|x l Hx Hl IH]; intros Hsum; [constructor|].
  change (x + Qc_sum l = 0) in Hsum.
  pose proof (Qc_sum_nonneg l Hl) as Hs.
  assert (Hsx : Qc_sum l = 0 - x).
  { replace (Qc_sum l) with (x + Qc_sum l - x) by ring.
    rewrite Hsum. reflexivity. }
  assert (Hx0 : 0 = x).
  { apply Qcle_antisym; [exact Hx|].
    apply Qcle_of_minus_nonneg. rewrite <- Hsx. exact Hs. }
  constructor; [exact Hx0|]. apply IH. rewrite Hsx, <- Hx0. ring.
Qed.

Lemma Qc_square_nonneg (x : Qc) : 0 <= x * x.
Proof.
  destruct (Qclt_le_dec x 0) as [Hneg|Hpos].
  - replace (x * x) with ((- x) * (- x)) by ring.
    assert (0 <= - x).
    { apply Qcle_of_minus_nonneg. replace (- x - 0) with (0 - x) by ring.
      apply Qcle_minus_nonneg, Qclt_le_weak, Hneg. }
    apply Qcmult_nonneg_nonneg; assumption.
  - apply Qcmult_nonneg_nonneg; assumption.
Qed.

(** Numbers of variance zero are all equal to their mean. *)
Lemma variance_zero (l : list Qc) :
  l <> [] -> variance l = 0 -> Forall (eq (mean l)) l.
Proof.
  intros Hne Hvar. unfold variance in Hvar. unfold mean at 1 in Hvar.
  rewrite length_map in Hvar.
  assert (Hn : Qc_of_Z (Z.of_nat (length l)) <> 0).
  { intros H0.
    assert (H1 : (1 <= Z.of_nat (length l))%Z)
      by (destruct l; [congruence | cbn; lia]).
    apply Qc_of_Z_le in H1. rewrite H0 in H1. revert H1.
    apply Qclt_not_le. reflexivity. }
  unfold Qcdiv in Hvar. apply Qcmult_integral in Hvar.
  destruct Hvar as [Hsum|Hinv].
  - apply Qc_sum_zero in Hsum.
    + apply List.Forall_forall. intros x Hx.
      rewrite List.Forall_forall in Hsum.
      specialize (Hsum ((x - mean l) * (x - mean l))).
      assert (Hsq : 0 = (x - mean l) * (x - mean l)).
      { apply Hsum. apply in_map_iff. exists x. split; [reflexivity|exact Hx]. }
      symmetry in Hsq. apply Qcmult_integral in Hsq.
      assert (Hd : x - mean l = 0) by (destruct Hsq; assumption).
      replace x with (x - mean l + mean l) by ring. rewrite Hd. ring.
    + apply List.Forall_forall. intros y Hy. apply in_map_iff in Hy.
      destruct Hy as (x & <- & _). apply Qc_square_nonneg.
  - exfalso. apply Hn.
    rewrite <- (Qcmult_1_l (Qc_of_Z (Z.of_nat (length l)))).
    rewrite <- (Qcmult_inv_l _ Hn) at 1. rewrite Hinv. ring.
Qed.

Lemma all_numbers_Some (data : list fl) (xs : list Qc) :
  all_numbers data = Some xs -> data = map Some xs.
Proof.
  revert xs. induction data as [|[x|] data IH]; cbn; intros xs Hxs.
  - inversion Hxs. reflexivity.
  - destruct (all_numbers data) as [ys|]; [|discriminate Hxs].
    inversion Hxs; subst. cbn. rewrite (IH ys eq_refl). reflexivity.
  - discriminate Hxs.
Qed.

(** Data of variance zero holds one number, repeated. *)
Lemma np_var_zero (data : list fl) :
  np_var data = Some (Qc_of_Z 0) -> exists c, Forall (eq (Some c)) data.
Proof.
  unfold np_var. destruct (all_numbers data) as [[|x xs]|] eqn:Hnum;
    [discriminate | | discriminate].
  intros Hvar. apply (inj Some) in Hvar.
  apply variance_zero in Hvar as Hv; [|discriminate].
  exists (mean (x :: xs)). rewrite (all_numbers_Some _ _ Hnum).
  apply List.Forall_forall. intros y Hy. apply in_map_iff in Hy.
  destruct Hy as (z & <- & Hz). rewrite List.Forall_forall in Hv.
  rewrite (Hv z Hz). reflexivity.
Qed.

End PercentileFacts.

(* ================================================================= *)
(** ** The bootstrap of [predict_interval] *)

Section RunInversion.
Context {V M : Type} `{Float V} `{Regressor V M}.
Implicit Types (w : World V M) (s : Forecaster V M) (h : list (list V)).

(** A sequence that returns: its first statement returned, and the rest
    ran from there. *)
Lemma bind_Ok_inv {A B} (c : Py V M A) (k : A -> Py V M B) w w' (b : B) :
  bind c k w = (w', Ok b) ->
  exists w1 a, c w = (w1, Ok a) /\ k a w1 = (w', Ok b).
Proof.
  unfold bind. destruct (c w) as [w1 [a|e]]; intros Hrun.
  - exists w1, a. split; [reflexivity | exact Hrun].
  - discriminate Hrun.
Qed.

Lemma lift_Ok_inv {A} (r : result A) w w' (a : A) :
  lift r w = (w', Ok a) -> w' = w /\ r = Ok a.
Proof. unfold lift. intros [= <- ->]. split; reflexivity. Qed.

(** What a returned [predict] on a supplied Series says: the window had no
    missing value, the predictions are indexed from the window
    [_preproces_y] makes, and their values are the recursion on the values
    of the window. *)
Lemma predict_result_supplied_inv s h (steps : Z) (ser pred : Series V) :
  predict_result s h steps (Some (PySeries ser)) None = Ok pred ->
  1 <= steps /\ has_null (s_values ser) = false
  /\ max_lag s <= Z.of_nat (length (s_values ser))
  /\ _expand_index (s_index (_preproces_y ser)) steps = Ok (s_index pred)
  /\ recursive_forecast (regressor s) (lags s) (s_values ser) (Z.to_nat steps)
     = Ok (s_values pred).
Proof.
  unfold predict_result, predict_window_result.
  destruct (fitted s); cbn [negb]; [|discriminate].
  destruct (Z.ltb_spec steps 1) as [Hs|Hs]; [discriminate|].
  rewrite bool_decide_eq_true_2 by reflexivity. cbn [negb andb].
  destruct (included_exog s); cbn [andb]; [discriminate|].
  cbn [rbind py_len].
  destruct (Z.ltb_spec (Z.of_nat (length (s_values ser))) (max_lag s)) as [Hl|Hl];
    [discriminate|].
  cbn [_check_last_window].
  destruct (has_null (s_values ser)) eqn:Hnull; [discriminate|].
  cbn [rbind fst snd].
  destruct (_expand_index (s_index (_preproces_y ser)) steps) as [ix|] eqn:Hix;
    [|discriminate].
  cbn [rbind]. rewrite preproces_y_values.
  destruct (recursive_forecast (regressor s) (lags s) (s_values ser)
              (Z.to_nat steps)) as [vals|] eqn:Hrec; [|discriminate].
  cbn [rbind]. intros [= <-]. cbn [s_index s_values].
  split; [lia|]. split; [reflexivity|]. split; [lia|].
  split; reflexivity.
Qed.

Lemma recursive_forecast_one (m : M) (lags : list Z) (window vals : list V) :
  recursive_forecast m lags window 1 = Ok vals ->
  exists X, py_take window (map Z.opp lags) = Ok X /\ vals = [reg_predict m X].
Proof.
  cbn [recursive_forecast].
  destruct (py_take window (map Z.opp lags)) as [X|]; [|discriminate].
  cbn [rbind]. intros [= <-]. exists X. split; reflexivity.
Qed.

End RunInversion.

Section ChoiceFacts.
Context {V M : Type}.

(** Draws with replacement touch only the random generator, and every
    drawn value is one of the population. *)
Lemma choice_with_replacement_run (a : list V) (size : nat) :
  forall (s : Forecaster V M) h e d w' sample,
    choice_with_replacement a size (mkWorld s h e d) = (w', Ok sample) ->
    exists d', w' = mkWorld s h e d' /\ length sample = size
      /\ Forall (fun x => In x a) sample.
Proof.
  induction size as [|size IH]; intros s h e d w' sample Hrun.
  - cbn in Hrun. injection Hrun as <- <-. exists d.
    split; [reflexivity|]. split; [reflexivity | constructor].
  - cbn [choice_with_replacement] in Hrun. rewrite bind_draw in Hrun.
    destruct (a !! (e d mod length a)%nat) as [v|] eqn:Hv; [|discriminate Hrun].
    apply bind_Ok_inv in Hrun as (w1 & rest & Hrest & Hret).
    apply IH in Hrest as (d' & -> & Hlen & Hall).
    cbn in Hret. injection Hret as <- <-. exists d'.
    split; [reflexivity|]. split; [cbn [length]; rewrite Hlen; reflexivity|].
    constructor; [|exact Hall].
    apply list_elem_of_In. eapply list_elem_of_lookup_2. exact Hv.
Qed.

Lemma np_random_choice_replace_run (a : list V) (size : Z)
    (s : Forecaster V M) h e d w' sample :
  np_random_choice a size true (mkWorld s h e d) = (w', Ok sample) ->
  exists d', w' = mkWorld s h e d' /\ length sample = Z.to_nat size
    /\ Forall (fun x => In x a) sample.
Proof.
  unfold np_random_choice. destruct (size <? 0); [discriminate|].
  apply choice_with_replacement_run.
Qed.

Lemma Forall_eq_repeat {A} (c : A) (l : list A) :
  Forall (eq c) l -> l = repeat c (length l).
Proof. induction 1 as [|x l <- _ IH]; cbn; [reflexivity | f_equal; exact IH]. Qed.

Lemma zip_with_zip_with_same {A B} (f g : A -> B -> A) (l : list A) (t : list B) :
  zip_with f (zip_with g l t) t = zip_with (fun x v => f (g x v) v) l t.
Proof.
  revert t. induction l as [|x l IH]; intros [|v t]; cbn; [reflexivity..|].
  rewrite IH. reflexivity.
Qed.

Lemma zip_with_repeat_l {A B C} (f : A -> B -> C) (x : A) (t : list B) :
  zip_with f (repeat x (length t)) t = map (f x) t.
Proof. induction t as [|v t IH]; cbn; [reflexivity | rewrite IH; reflexivity]. Qed.

Lemma Forall_zip_with_l {A B} (P : A -> Prop) (f : A -> B -> A)
    (l : list A) (t : list B) :
  (forall x v, P x -> P (f x v)) -> Forall P l -> Forall P (zip_with f l t).
Proof.
  intros Hf Hl. revert t. induction Hl as [|x l Hx Hl IH]; intros [|v t]; cbn;
    constructor; [apply Hf, Hx | apply IH].
Qed.

(** Writing [v] at the positions [k, k + len) of a row. *)
Lemma fold_left_insert_seq {A} (v : A) (len : nat) :
  forall (k : nat) (row : list A),
    (k + len <= length row)%nat ->
    fold_left (fun r j => <[j := v]> r) (seq k len) row
    = take k row ++ repeat v len ++ drop (k + len) row.
Proof.
  induction len as [|len IH]; intros k row Hlen.
  - cbn. rewrite Nat.add_0_r, take_drop. reflexivity.
  - cbn [seq fold_left]. rewrite IH by (rewrite length_insert; lia).
    rewrite (take_S_r _ k v)
      by (apply list_lookup_insert_eq; lia).
    rewrite take_insert_ge by lia. rewrite drop_insert_lt by lia.
    rewrite <- app_assoc. cbn [repeat app].
    replace (k + S len)%nat with (S k + len)%nat by lia. reflexivity.
Qed.

Lemma fold_left_insert_all {A} (v x : A) (n : nat) :
  fold_left (fun r j => <[j := v]> r) (seq 0 n) (repeat x n) = repeat v n.
Proof.
  rewrite fold_left_insert_seq by (rewrite repeat_length; lia).
  cbn [take app Nat.add].
  rewrite drop_ge by (rewrite repeat_length; lia). apply app_nil_r.
Qed.

Lemma range_to_list (n : Z) :
  range_list (range_to n) = map Z.of_nat (seq 0 (Z.to_nat n)).
Proof.
  unfold range_list, range_to. cbn [start stop]. rewrite Z.sub_0_r.
  apply map_ext. intros k. reflexivity.
Qed.

Lemma py_index_In {A} (l : list A) (j : Z) (x : A) :
  py_index l j = Some x -> In x l.
Proof.
  unfold py_index. intros Hx. apply list_elem_of_In.
  destruct (0 <=? j); [eapply list_elem_of_lookup_2; exact Hx|].
  destruct (0 <=? Z.of_nat (length l) + j); [|discriminate Hx].
  eapply list_elem_of_lookup_2; exact Hx.
Qed.

End ChoiceFacts.

Section BootstrapFacts.
Context {M : Type} `{Regressor fl M}.
Implicit Types (w : World fl M) (s : Forecaster fl M) (h : list (list fl)).

Lemma set_cell_in_range (B : list (list fl)) (a i : nat) (row : list fl)
    (ix : Index) (v : fl) :
  B !! a = Some row -> (i < length row)%nat ->
  set_cell B (Z.of_nat a) (Z.of_nat i) (mkSeries ix [v])
  = Ok (<[a := <[i := v]> row]> B).
Proof.
  intros Ha Hi. unfold set_cell. cbn [s_values].
  rewrite py_index_nonneg, Ha.
  rewrite iloc_set_in_range by exact Hi. cbn [rbind].
  apply iloc_set_in_range. eapply lookup_lt_Some. exact Ha.
Qed.

(** One bootstrap iteration that returns: the forecaster, the random
    generator and the existing buffers are as before, and column [i] of
    the rows [a, a + len) holds the trajectory of the iteration. *)
Lemma boot_steps_run (len : nat) :
  forall (a i : nat) (rs : list fl) (lw : Series fl) (B B' : list (list fl))
         s h e d w',
    world_ok (mkWorld s h e d) ->
    (a + len <= length B)%nat ->
    Forall (fun row => (i < length row)%nat) B ->
    boot_steps (map Z.of_nat (seq a len)) (Z.of_nat i) rs lw None B
      (mkWorld s h e d) = (w', Ok B') ->
    exists h' traj,
      w' = mkWorld s h' e d /\ world_ok w'
      /\ boot_trajectory (regressor s) (lags s) rs (s_values lw)
           (map Z.of_nat (seq a len)) = Ok traj
      /\ length traj = len
      /\ B' = take a B
              ++ zip_with (fun row v => <[i := v]> row) (take len (drop a B)) traj
              ++ drop (a + len) B.
Proof.
  induction len as [|len IH]; intros a i rs lw B B' s h e d w' Hok Hlen Hrows Hrun.
  - cbn in Hrun. injection Hrun as <- <-.
    exists h, []. split; [reflexivity|]. split; [exact Hok|].
    split; [reflexivity|]. split; [reflexivity|].
    rewrite zip_with_nil_r. cbn [app]. rewrite Nat.add_0_r, take_drop. reflexivity.
  - cbn [seq map boot_steps option_map] in Hrun.
    destruct (predict_run 1 (Some (PySeries lw)) None s h e d Hok)
      as (h1 & Hp & Hle & Hfr).
    pose proof (predict_world_ok _ 1 (Some (PySeries lw)) None Hok) as Hok1.
    rewrite Hp in Hok1. cbn [fst] in Hok1.
    rewrite bind_run, Hp in Hrun. cbn [fst snd] in Hrun.
    destruct (predict_result s h 1 (Some (PySeries lw)) None) as [pred|err] eqn:Hres;
      [|discriminate Hrun].
    apply predict_result_supplied_inv in Hres as (_ & _ & _ & _ & Hrec).
    change (Z.to_nat 1) with 1%nat in Hrec.
    apply recursive_forecast_one in Hrec as (X & HX & Hvals).
    rewrite bind_lift in Hrun.
    destruct (py_index rs (Z.of_nat a)) as [r|] eqn:Hr; [|discriminate Hrun].
    rewrite bind_lift in Hrun. rewrite Hvals in Hrun. cbn [map] in Hrun.
    destruct (lookup_lt_is_Some_2 B a) as [row Hrow]; [lia|].
    assert (Hi : (i < length row)%nat).
    { rewrite List.Forall_forall in Hrows. apply Hrows, list_elem_of_In.
      eapply list_elem_of_lookup_2. exact Hrow. }
    rewrite (set_cell_in_range B a i row _ _ Hrow Hi) in Hrun.
    set (v := fadd (reg_predict (regressor s) X) r) in *.
    set (B1 := <[a := <[i := v]> row]> B) in *.
    apply IH in Hrun; [|exact Hok1 | subst B1; rewrite length_insert; lia|].
    + destruct Hrun as (h' & traj & Hw' & Hok' & Htraj & Hlt & HB').
      exists h', (v :: traj). split; [exact Hw'|]. split; [exact Hok'|].
      cbn [series_concat series_tail s_values] in Htraj.
      split.
      { cbn [seq map boot_trajectory]. rewrite HX. cbn [rbind]. rewrite Hr.
        fold v. rewrite Htraj. reflexivity. }
      split; [cbn [length]; rewrite Hlt; reflexivity|].
      rewrite HB'. subst B1.
      rewrite (take_S_r _ a (<[i := v]> row))
        by (apply list_lookup_insert_eq; eapply lookup_lt_Some; exact Hrow).
      rewrite take_insert_ge by lia.
      rewrite !drop_insert_lt by lia.
      rewrite (drop_S B row a Hrow). cbn [take zip_with].
      rewrite <- app_assoc. cbn [app].
      replace (a + S len)%nat with (S a + len)%nat by lia. reflexivity.
    + subst B1. apply Forall_insert; [exact Hrows|].
      rewrite length_insert. exact Hi.
Qed.

(** The bootstrap iterations [k, k + len) that return: the forecaster is
    as before and the array keeps its rows; when all residuals are one
    value [c], every iteration writes the same trajectory. *)
Lemma boot_loop_run (len : nat) :
  forall (k : nat) (steps : Z) (lw : Series fl) (in_sample : bool)
         (B B' : list (list fl)) s h e d w',
    world_ok (mkWorld s h e d) ->
    length B = Z.to_nat steps ->
    Forall (fun row => (k + len <= length row)%nat) B ->
    boot_loop (map Z.of_nat (seq k len)) steps lw None in_sample B
      (mkWorld s h e d) = (w', Ok B') ->
    (exists h' d', w' = mkWorld s h' e d' /\ world_ok w')
    /\ length B' = length B
    /\ forall rs c,
         selected_residuals s in_sample = Ok rs -> Forall (eq c) rs ->
         (len = 0%nat /\ B' = B)
         \/ exists traj,
              boot_trajectory (regressor s) (lags s)
                (repeat c (Z.to_nat steps)) (s_values lw)
                (range_list (range_to steps)) = Ok traj
              /\ length traj = Z.to_nat steps
              /\ B' = zip_with
                        (fun row v =>
                           fold_left (fun r j => <[j := v]> r) (seq k len) row)
                        B traj.
Proof.
  induction len as [|len IH];
    intros k steps lw in_sample B B' s h e d w' Hok HB Hrows Hrun.
  - cbn in Hrun. injection Hrun as <- <-.
    split; [exists h, d; split; [reflexivity | exact Hok]|].
    split; [reflexivity|]. intros rs c _ _. left. split; reflexivity.
  - cbn [seq map boot_loop] in Hrun. rewrite bind_get_self in Hrun.
    cbn [self_] in Hrun. rewrite bind_lift in Hrun.
    destruct (selected_residuals s in_sample) as [rs|] eqn:Hsel;
      [|discriminate Hrun].
    apply bind_Ok_inv in Hrun as (w1 & sample & Hch & Hrun).
    apply np_random_choice_replace_run in Hch as (d1 & -> & Hsl & Hsin).
    apply bind_Ok_inv in Hrun as (w2 & B1 & Hst & Hrun).
    rewrite range_to_list in Hst.
    apply boot_steps_run in Hst; [|exact Hok | lia|].
    2:{ eapply Forall_impl; [exact Hrows|]. cbn beta. intros row Hr. lia. }
    destruct Hst as (h2 & traj1 & -> & Hok2 & Htraj1 & Hlt1 & HB1).
    rewrite drop_0, <- HB in HB1.
    change (0 + length B)%nat with (length B) in HB1.
    rewrite firstn_all, drop_all, app_nil_r, take_0 in HB1.
    cbn [app] in HB1.
    assert (HlB1 : length B1 = length B).
    { rewrite HB1. apply length_zip_with_l_eq. lia. }
    apply IH in Hrun; [|exact Hok2 | lia|].
    2:{ rewrite HB1. apply Forall_zip_with_l.
        - intros row v Hr. rewrite length_insert. lia.
        - eapply Forall_impl; [exact Hrows|]. cbn beta. intros row Hr. lia. }
    destruct Hrun as ((h' & d' & -> & Hok') & HlB' & Hconst).
    split; [exists h', d'; split; [reflexivity | exact Hok']|].
    split; [lia|].
    intros rs' c [= <-] Hc. right.
    assert (Hsample : sample = repeat c (Z.to_nat steps)).
    { rewrite <- Hsl. apply Forall_eq_repeat.
      rewrite List.Forall_forall in Hsin, Hc. apply List.Forall_forall.
      intros x Hx. apply Hc, Hsin, Hx. }
    rewrite Hsample, <- range_to_list in Htraj1.
    destruct (Hconst rs c Hsel Hc) as [[-> ->]|(traj & Htraj & Hlt & ->)].
    + exists traj1. split; [exact Htraj1|]. split; [exact Hlt1|].
      rewrite HB1. reflexivity.
    + assert (traj = traj1) as -> by congruence.
      exists traj1. split; [exact Htraj1|]. split; [exact Hlt1|].
      rewrite HB1, zip_with_zip_with_same. reflexivity.
Qed.

(** With residuals that are all zero, an iteration of the bootstrap walks
    the recursion of [predict]. *)
Lemma boot_trajectory_zero (m : M) (lags : list Z) (rs : list fl)
    (idxs : list Z) :
  Forall (eq (Some (Qc_of_Z 0))) rs ->
  forall (window traj : list fl),
    boot_trajectory m lags rs window idxs = Ok traj ->
    recursive_forecast m lags window (length idxs) = Ok traj.
Proof.
  intros Hrs. induction idxs as [|step idxs IH]; intros window traj;
    cbn [boot_trajectory recursive_forecast length].
  - intros Htraj. exact Htraj.
  - destruct (py_take window (map Z.opp lags)) as [X|]; [|discriminate].
    cbn [rbind].
    destruct (py_index rs step) as [r|] eqn:Hr; [|discriminate].
    assert (Hr0 : r = Some (Qc_of_Z 0)).
    { rewrite List.Forall_forall in Hrs. symmetry. apply Hrs.
      eapply py_index_In. exact Hr. }
    assert (Hv : fadd (reg_predict m X) r = reg_predict m X).
    { rewrite Hr0. destruct (reg_predict m X) as [x|]; cbn; [|reflexivity].
      f_equal. apply Qcplus_0_r. }
    rewrite Hv.
    destruct (boot_trajectory m lags rs
                (py_slice_from window 1 ++ [reg_predict m X]) idxs)
      as [rest|] eqn:Hrest; [|discriminate].
    rewrite (IH _ _ Hrest). cbn [rbind]. intros Htraj. exact Htraj.
Qed.

Lemma preproces_y_idem (y : Series fl) :
  _preproces_y (_preproces_y y) = _preproces_y y.
Proof.
  unfold _preproces_y. destruct (has_freq (s_index y)) eqn:Hf.
  - rewrite Hf. reflexivity.
  - reflexivity.
Qed.

(** The window [predict_interval] works on is read without any effect; a
    supplied one is what [_preproces_y] makes of the Series. *)
Lemma interval_window_run (last_window : option (pyobj fl)) w w' (lw : Series fl) :
  interval_window last_window w = (w', Ok lw) ->
  w' = w
  /\ (forall o, last_window = Some o ->
        exists ser0, o = PySeries ser0 /\ lw = _preproces_y ser0).
Proof.
  unfold interval_window. rewrite bind_get_self.
  destruct last_window as [o|].
  - rewrite bind_lift. destruct (py_len o) as [n|]; [|discriminate].
    destruct (n <? max_lag (self_ w)); [discriminate|].
    rewrite bind_lift.
    destruct (_check_last_window o) as [ser0|] eqn:Hchk; [|discriminate].
    intros [= <- <-]. split; [reflexivity|]. intros o' [= <-].
    apply check_last_window_inv in Hchk as [-> _].
    exists ser0. split; reflexivity.
  - destruct (self_last_window (self_ w)) as [[ix a]|]; [|discriminate].
    rewrite bind_load. cbn [snd fst].
    destruct (heap w !! a); [|discriminate].
    intros [= <- <-]. split; [reflexivity|]. intros o Ho. discriminate Ho.
Qed.

(** [predict] on a supplied Series and on what [_preproces_y] makes of it
    are the same. *)
Lemma predict_result_preproces s h (steps : Z) (y : Series fl)
    (exog : option (pyobj fl)) :
  predict_result s h steps (Some (PySeries (_preproces_y y))) exog
  = predict_result s h steps (Some (PySeries y)) exog.
Proof.
  unfold predict_result, predict_window_result.
  cbn [py_len _check_last_window rbind].
  rewrite !preproces_y_values.
  destruct (has_null (s_values y)); [reflexivity|].
  cbn [rbind]. rewrite preproces_y_idem. reflexivity.
Qed.

Lemma valid_percentile_true (q : Qc) :
  (Qc_of_Z 0 <= q)%Qc -> (q <= Qc_of_Z 100)%Qc -> valid_percentile q = true.
Proof.
  intros H0 H100. unfold valid_percentile.
  rewrite !bool_decide_eq_true_2 by assumption. reflexivity.
Qed.

(** What [_estimate_boot_interval] returns for two percentiles
    [lower <= upper]: there was at least one iteration, and there is one
    ordered band per step; with residuals that are all one value, the
    bands have no width and are the trajectory of any iteration. *)
Lemma estimate_boot_interval_run (steps n_boot : Z) (lw : Series fl)
    (lower upper : Qc) (in_sample : bool) s h e d w' (bands : DataFrame fl) :
  world_ok (mkWorld s h e d) ->
  (Qc_of_Z 0 <= lower)%Qc -> (lower <= upper)%Qc -> (upper <= Qc_of_Z 100)%Qc ->
  _estimate_boot_interval steps lw None [lower; upper] n_boot in_sample
    (mkWorld s h e d) = (w', Ok bands) ->
  1 <= n_boot
  /\ _expand_index (s_index lw) steps = Ok (df_index bands)
  /\ df_columns bands = [col "lower_bound"; col "upper_bound"]
  /\ length (df_rows bands) = Z.to_nat steps
  /\ Forall (fun band => exists l u, band = [l; u] /\ band_ordered l u)
       (df_rows bands)
  /\ forall rs c,
       selected_residuals s in_sample = Ok rs -> Forall (eq c) rs ->
       exists traj,
         boot_trajectory (regressor s) (lags s)
           (repeat c (Z.to_nat steps)) (s_values lw)
           (range_list (range_to steps)) = Ok traj
         /\ df_rows bands = map (fun v => [v; v]) traj.
Proof.
  intros Hok H0 Hlu H100 Hrun.
  assert (Hl100 : (lower <= Qc_of_Z 100)%Qc) by (eapply Qcle_trans; eassumption).
  assert (Hu0 : (Qc_of_Z 0 <= upper)%Qc) by (eapply Qcle_trans; eassumption).
  unfold _estimate_boot_interval in Hrun. rewrite bind_lift in Hrun.
  unfold np_full2 in Hrun.
  destruct (Z.ltb_spec steps 0) as [?|Hs0]; [discriminate Hrun|].
  destruct (Z.ltb_spec n_boot 0) as [?|Hn0]; [discriminate Hrun|].
  cbn [orb] in Hrun.
  apply bind_Ok_inv in Hrun as (w1 & B' & Hloop & Hrun).
  rewrite range_to_list in Hloop.
  apply boot_loop_run in Hloop; [|exact Hok | apply repeat_length|].
  2:{ apply List.Forall_forall. intros row Hrow. apply repeat_spec in Hrow.
      rewrite Hrow, repeat_length. lia. }
  destruct Hloop as ((h1 & d1 & -> & Hok1) & HlB & Hconst).
  rewrite repeat_length in HlB.
  rewrite bind_lift in Hrun. unfold np_percentile_rows in Hrun.
  cbn [forallb] in Hrun.
  rewrite !valid_percentile_true in Hrun by assumption.
  cbn [andb negb map length] in Hrun.
  destruct (decide (Z.to_nat n_boot = O)) as [Hn|Hn].
  { rewrite bool_decide_eq_true_2 in Hrun by exact Hn. discriminate Hrun. }
  rewrite bool_decide_eq_false_2 in Hrun by exact Hn.
  rewrite bind_lift in Hrun.
  destruct (_expand_index (s_index lw) steps) as [index|] eqn:Hix;
    [|discriminate Hrun].
  rewrite bind_lift in Hrun. rewrite bool_decide_eq_true_2 in Hrun by reflexivity.
  cbn in Hrun. injection Hrun as <- <-. cbn [df_index df_columns df_rows].
  split; [lia|]. split; [reflexivity|]. split; [reflexivity|].
  split; [rewrite length_map; exact HlB|].
  split.
  { apply List.Forall_forall. intros band Hband. apply in_map_iff in Hband.
    destruct Hband as (data & <- & _).
    exists (np_percentile1 data lower), (np_percentile1 data upper).
    split; [reflexivity|]. apply np_percentile1_mono; assumption. }
  intros rs c Hsel Hc.
  destruct (Hconst rs c Hsel Hc) as [[Hn' _]|(traj & Htraj & Hlt & ->)];
    [contradiction|].
  exists traj. split; [exact Htraj|].
  rewrite <- Hlt, zip_with_repeat_l, map_map.
  apply map_ext. intros v. rewrite fold_left_insert_all.
  rewrite !np_percentile1_repeat by assumption.
  destruct (Z.to_nat n_boot); [contradiction | reflexivity].
Qed.

Lemma reindex_at_cases {A} (labels : list label) (rows : list A) (fill : A)
    (l : label) :
  In (reindex_at labels rows fill l) rows \/ reindex_at labels rows fill l = fill.
Proof.
  unfold reindex_at.
  destruct (label_position l labels) as [k|]; [|right; reflexivity].
  destruct (rows !! k) as [row|] eqn:Hk; cbn [default]; [|right; reflexivity].
  left. apply list_elem_of_In. eapply list_elem_of_lookup_2. exact Hk.
Qed.

(** Every row of the joined frame is a point prediction in front of a band
    of the bootstrap, or in front of a band of NaN. *)
Lemma concat_axis1_rows (predictions : Series fl) (bands df : DataFrame fl) :
  concat_axis1 predictions bands = Ok df ->
  Forall (fun row => exists p band,
            row = p :: band
            /\ (In band (df_rows bands)
                \/ band = repeat None (length (df_columns bands))))
    (df_rows df).
Proof.
  unfold concat_axis1.
  destruct (bool_decide _).
  - intros [= <-]. cbn [df_rows]. apply List.Forall_forall. intros row Hrow.
    apply list_elem_of_In, elem_of_zip_with in Hrow.
    destruct Hrow as (p & band & -> & _ & Hband).
    exists p, band. split; [reflexivity|]. left. apply list_elem_of_In, Hband.
  - destruct (bool_decide _); [|discriminate].
    intros [= <-]. cbn [df_rows]. apply List.Forall_forall. intros row Hrow.
    apply in_map_iff in Hrow. destruct Hrow as (l & <- & _).
    eexists _, _. split; [reflexivity|]. apply reindex_at_cases.
Qed.

Lemma zip_with_cons_map {A} (g : A -> list A) (t : list A) :
  zip_with (fun p band => p :: band) t (map g t) = map (fun v => v :: g v) t.
Proof. induction t as [|v t IH]; cbn; [reflexivity | rewrite IH; reflexivity]. Qed.

Lemma map_head_zip_with_cons {A} (l : list A) (k : list (list A)) :
  length l = length k ->
  map head (zip_with (fun p band => p :: band) l k) = map Some l.
Proof.
  revert k. induction l as [|x l IH]; intros [|y k] Hlen; cbn in *;
    try discriminate; [reflexivity|].
  rewrite IH by lia. reflexivity.
Qed.

(** What a returned [predict_interval] ran through. *)
Lemma predict_interval_run (steps n_boot : Z) (last_window exog : option (pyobj fl))
    (interval : list Qc) (in_sample : bool) s h e d w' (df : DataFrame fl) :
  world_ok (mkWorld s h e d) ->
  predict_interval steps last_window exog interval n_boot in_sample
    (mkWorld s h e d) = (w', Ok df) ->
  exog = None
  /\ exists lw h1 predictions bands,
       interval_window last_window (mkWorld s h e d) = (mkWorld s h e d, Ok lw)
       /\ predict_result s h steps (Some (PySeries lw)) None = Ok predictions
       /\ world_ok (mkWorld s h1 e d)
       /\ _estimate_boot_interval steps lw None interval n_boot in_sample
            (mkWorld s h1 e d) = (w', Ok bands)
       /\ concat_axis1 predictions bands = Ok df.
Proof.
  intros Hok Hrun. unfold predict_interval in Hrun.
  rewrite bind_get_self in Hrun. cbn [self_] in Hrun.
  destruct (steps <? 1); [discriminate Hrun|].
  destruct (negb in_sample && bool_decide (out_sample_residuals s = None));
    [discriminate Hrun|].
  destruct exog as [ex|].
  - rewrite bool_decide_eq_false_2 in Hrun by discriminate.
    cbn [andb negb] in Hrun.
    destruct (included_exog s); cbn [negb] in Hrun; discriminate Hrun.
  - split; [reflexivity|].
    rewrite bool_decide_eq_true_2 in Hrun by reflexivity.
    cbn [andb negb] in Hrun.
    destruct (included_exog s); [discriminate Hrun|].
    rewrite bind_ret in Hrun.
    apply bind_Ok_inv in Hrun as (w1 & lw & Hwin & Hrun).
    pose proof (interval_window_run _ _ _ _ Hwin) as [-> _].
    apply bind_Ok_inv in Hrun as (w2 & predictions & Hpred & Hrun).
    destruct (predict_run steps (Some (PySeries lw)) None s h e d Hok)
      as (h1 & Hp & _).
    pose proof (predict_world_ok _ steps (Some (PySeries lw)) None Hok) as Hok1.
    rewrite Hp in Hok1, Hpred. cbn [fst] in Hok1.
    injection Hpred as <- Hres.
    apply bind_Ok_inv in Hrun as (w3 & bands & Hboot & Hrun).
    apply lift_Ok_inv in Hrun as [-> Hcat].
    exists lw, h1, predictions, bands.
    split; [exact Hwin|]. split; [exact Hres|]. split; [exact Hok1|].
    split; [exact Hboot | exact Hcat].
Qed.

End BootstrapFacts.

(** C7, as the code has it.  When [predict_interval] returns for two
    percentiles [0 <= lower <= upper <= 100]: every row of the frame is a
    point prediction and a band with [lower_bound <= upper_bound] (both
    bounds are NaN when a bootstrapped value of the step is), and the two
    bounds are the same value when the selected residuals have variance
    zero.  With a supplied [last_window] the frame has one row per step,
    its first column is what [predict] returns for the same arguments, and
    when the selected residuals are all zero both bounds are the point
    prediction.  (The bands are percentiles of the predictions with
    resampled residuals added: nothing places the point prediction between
    them.) *)
Theorem predict_interval_bands {M : Type} `{Regressor fl M}
    (w w' : World fl M) (steps n_boot : Z)
    (last_window exog : option (pyobj fl)) (lower upper : Qc)
    (in_sample : bool) (df : DataFrame fl) :
  world_ok w ->
  (Qc_of_Z 0 <= lower)%Qc -> (lower <= upper)%Qc -> (upper <= Qc_of_Z 100)%Qc ->
  predict_interval steps last_window exog [lower; upper] n_boot in_sample w
  = (w', Ok df) ->
  Forall (fun row =>
            exists p l u, row = [p; l; u] /\ band_ordered l u
              /\ forall rs,
                   selected_residuals (self_ w) in_sample = Ok rs ->
                   np_var rs = Some (Qc_of_Z 0) -> l = u)
    (df_rows df)
  /\ forall o, last_window = Some o ->
       exists predictions,
         snd (predict steps last_window exog w) = Ok predictions
         /\ map head (df_rows df) = map Some (s_values predictions)
         /\ length (df_rows df) = Z.to_nat steps
         /\ forall rs,
              selected_residuals (self_ w) in_sample = Ok rs ->
              Forall (eq (Some (Qc_of_Z 0))) rs ->
              Forall (fun row => exists p, row = [p; p; p]) (df_rows df).
Proof.
  intros Hok H0 Hlu H100 Hrun. destruct w as [s h e d].
  destruct (predict_interval_run _ _ _ _ _ _ _ _ _ _ _ _ Hok Hrun)
    as (-> & lw & h1 & predictions & bands & Hwin & Hres & Hok1 & Hboot & Hcat).
  destruct (estimate_boot_interval_run _ _ _ _ _ _ _ _ _ _ _ _
              Hok1 H0 Hlu H100 Hboot)
    as (_ & Hix & Hcols & Hlen & Hbands & Hconst).
  cbn [self_].
  split.
  - pose proof (concat_axis1_rows _ _ _ Hcat) as Hrows.
    rewrite Hcols in Hrows. cbn [length repeat] in Hrows.
    rewrite List.Forall_forall in Hrows, Hbands.
    apply List.Forall_forall. intros row Hrow.
    destruct (Hrows row Hrow) as (p & band & -> & [Hband| ->]).
    + destruct (Hbands band Hband) as (l & u & -> & Hord).
      exists p, l, u. split; [reflexivity|]. split; [exact Hord|].
      intros rs Hsel Hvar. apply np_var_zero in Hvar as [c Hc].
      destruct (Hconst rs (Some c) Hsel Hc) as (traj & _ & Hflat).
      rewrite Hflat in Hband. apply in_map_iff in Hband.
      destruct Hband as (v & [= -> ->] & _). reflexivity.
    + exists p, None, None. split; [reflexivity|]. split; [exact I|].
      intros _ _ _. reflexivity.
  - intros o Ho.
    destruct (interval_window_run _ _ _ _ Hwin) as [_ Hlw].
    destruct (Hlw o Ho) as (ser0 & -> & ->).
    rewrite predict_result_preproces in Hres.
    exists predictions. rewrite Ho.
    split; [rewrite predict_snd by exact Hok; exact Hres|].
    apply predict_result_supplied_inv in Hres as (Hs & _ & _ & Hpix & Hrec).
    rewrite preproces_y_values in Hconst.
    assert (Hsame : s_index predictions = df_index bands) by congruence.
    unfold concat_axis1 in Hcat.
    rewrite bool_decide_eq_true_2 in Hcat by (rewrite Hsame; reflexivity).
    injection Hcat as <-. cbn [df_rows].
    pose proof (recursive_forecast_length _ _ _ _ _ Hrec) as Hlp.
    split; [apply map_head_zip_with_cons; lia|].
    split; [rewrite length_zip_with_l_eq; lia|].
    intros rs Hsel Hzero.
    destruct (Hconst rs _ Hsel Hzero) as (traj & Htr & ->).
    rewrite <- (repeat_length (Some (Qc_of_Z 0)) (Z.to_nat steps)) in Htr at 1.
    apply boot_trajectory_zero in Htr;
      [|apply List.Forall_forall; intros x Hx; apply repeat_spec in Hx;
        symmetry; exact Hx].
    rewrite range_to_list, length_map, length_seq in Htr.
    assert (traj = s_values predictions) as -> by congruence.
    rewrite zip_with_cons_map. apply List.Forall_forall. intros row Hrow.
    apply in_map_iff in Hrow. destruct Hrow as (v & <- & _).
    exists v. reflexivity.
Qed.

Lemma dummy_world_ok (c : Z) : world_ok (dummy_world c [2; 2; 2]).
Proof.
  intros ix a Hlw. vm_compute in Hlw. injection Hlw as <- <-.
  eexists. split; [vm_compute; reflexivity|].
  split; [reflexivity | exact I].
Qed.

(** Witness of [predict_interval_bands]: a constant model 2 fitted on the
    series 2, 2, 2 (all residuals zero), two steps from the window 2 with
    three bootstrap iterations. *)
Lemma predict_interval_bands_witness :
  let w := dummy_world 2 [2; 2; 2] in
  let window := Some (PySeries (Qc_series [2])) in
  let run := predict_interval 2 window None [Qc_of_Z 5; Qc_of_Z 95] 3 true w in
  exists df,
    (world_ok w
     /\ (Qc_of_Z 0 <= Qc_of_Z 5)%Qc /\ (Qc_of_Z 5 <= Qc_of_Z 95)%Qc
     /\ (Qc_of_Z 95 <= Qc_of_Z 100)%Qc
     /\ run = (fst run, Ok df))
    /\ Forall (fun row =>
                 exists p l u, row = [p; l; u] /\ band_ordered l u
                   /\ forall rs,
                        selected_residuals (self_ w) true = Ok rs ->
                        np_var rs = Some (Qc_of_Z 0) -> l = u)
         (df_rows df)
    /\ forall o, window = Some o ->
         exists predictions,
           snd (predict 2 window None w) = Ok predictions
           /\ map head (df_rows df) = map Some (s_values predictions)
           /\ length (df_rows df) = Z.to_nat 2
           /\ forall rs,
                selected_residuals (self_ w) true = Ok rs ->
                Forall (eq (Some (Qc_of_Z 0))) rs ->
                Forall (fun row => exists p, row = [p; p; p]) (df_rows df).
Proof.
  intros w window run.
  assert (Hdf : exists df, snd run = Ok df)
    by (eexists; vm_compute; reflexivity).
  destruct Hdf as [df Hdf]. exists df.
  assert (Hrun : run = (fst run, Ok df))
    by (rewrite <- Hdf; apply surjective_pairing).
  assert (H0 : (Qc_of_Z 0 <= Qc_of_Z 5)%Qc) by (vm_compute; discriminate).
  assert (H1 : (Qc_of_Z 5 <= Qc_of_Z 95)%Qc) by (vm_compute; discriminate).
  assert (H2 : (Qc_of_Z 95 <= Qc_of_Z 100)%Qc) by (vm_compute; discriminate).
  split.
  - exact (conj (dummy_world_ok 2) (conj H0 (conj H1 (conj H2 Hrun)))).
  - exact (predict_interval_bands w (fst run) 2 3 window None (Qc_of_Z 5)
             (Qc_of_Z 95) true df (dummy_world_ok 2) H0 H1 H2 Hrun).
Defined.

(** The frame of the witness: every row is 2, 2, 2. *)
Example predict_interval_example :
  exists df,
    snd (predict_interval 2 (Some (PySeries (Qc_series [2]))) None
           [Qc_of_Z 5; Qc_of_Z 95] 3 true (dummy_world 2 [2; 2; 2])) = Ok df
    /\ map (map (option_map this)) (df_rows df)
       = [[Some (2 # 1); Some (2 # 1); Some (2 # 1)];
          [Some (2 # 1); Some (2 # 1); Some (2 # 1)]]%Q.
Proof.
  eexists. split; [vm_compute; reflexivity|]. vm_compute. reflexivity.
Qed.

(** C7 as the specification words it fails in both of its cases.  A
    constant model 0 fitted on 1, 2, 3 has the in-sample residuals 2, 3, of
    variance 1/4; one step from the window 3 with two bootstrap iterations
    predicts 0 between the bounds 41/20 and 59/20.  Fitted on 1, 1, 1 it
    has the residuals 1, 1, of variance zero, and predicts 0 with both
    bounds 1. *)
Lemma predict_interval_bands_counterexample :
  let window := Some (PySeries (Qc_series [3])) in
  let interval := [Qc_of_Z 5; Qc_of_Z 95] in
  (let w := dummy_world 0 [1; 2; 3] in
   exists rs v df p l u,
     fitted (self_ w) = true
     /\ selected_residuals (self_ w) true = Ok rs
     /\ np_var rs = Some v /\ v <> Qc_of_Z 0
     /\ snd (predict_interval 1 window None interval 2 true w) = Ok df
     /\ df_rows df = [[Some p; Some l; Some u]]
     /\ ~ (l <= p)%Qc)
  /\ (let w := dummy_world 0 [1; 1; 1] in
      exists rs df p l u,
        fitted (self_ w) = true
        /\ selected_residuals (self_ w) true = Ok rs
        /\ np_var rs = Some (Qc_of_Z 0)
        /\ snd (predict_interval 1 window None interval 2 true w) = Ok df
        /\ df_rows df = [[Some p; Some l; Some u]]
        /\ l = u /\ p <> l).
Proof.
  intros window interval. subst window interval. split.
  - intros w. subst w. eexists _, _, _, _, _, _.
    split; [vm_compute; reflexivity|].
    split; [vm_compute; reflexivity|].
    split; [vm_compute; reflexivity|].
    split; [intros Hv; apply (f_equal this) in Hv; vm_compute in Hv;
            discriminate Hv|].
    split; [vm_compute; reflexivity|].
    split; [reflexivity|].
    apply Qclt_not_le. vm_compute. reflexivity.
  - intros w. subst w. eexists _, _, _, _, _.
    split; [vm_compute; reflexivity|].
    split; [vm_compute; reflexivity|].
    split; [vm_compute; apply f_equal, Qc_is_canon; reflexivity|].
    split; [vm_compute; reflexivity|].
    split; [reflexivity|].
    split; [apply Qc_is_canon; vm_compute; reflexivity|].
    intros Hp. apply (f_equal this) in Hp. vm_compute in Hp. discriminate Hp.
Qed.

(* ================================================================= *)
(** * Further properties of the forecaster *)

(** ** Fitting without exogenous variables *)

Section FitRunFacts.
Context {V M : Type} `{Float V} `{Regressor V M}.
Implicit Types (w : World V M) (s : Forecaster V M) (h : list (list V)).

Lemma create_lags_ext s s' (y : Series V) :
  lags s = lags s' -> max_lag s = max_lag s' ->
  _create_lags s y = _create_lags s' y.
Proof. intros Hl Hm. unfold _create_lags. rewrite Hl, Hm. reflexivity. Qed.

(** What a successful [fit] without exogenous data ran through, and the
    world it leaves. *)
Lemma fit_no_exog_inv w (ys : Series V) :
  snd (fit (PySeries ys) None w) = Ok tt ->
  exists X yt tr fr res d',
    has_null (s_values ys) = false
    /\ index_first_last (s_index (_preproces_y ys)) = Ok tr
    /\ index_freq_info (s_index (_preproces_y ys)) = Ok fr
    /\ _create_lags (self_ w) (_preproces_y ys) = Ok (X, yt)
    /\ (let m := reg_fit (regressor (self_ w)) (df_rows X) (s_values yt) in
        let residuals := zip_with fsub (s_values yt)
                           (map (reg_predict m) (df_rows X)) in
        length (s_values yt) = length (df_rows X)
        /\ (if 1000 <? Z.of_nat (length residuals)
            then length res = 1000%nat /\ (forall v, In v res -> In v residuals)
            else res = residuals /\ d' = drawn w)
        /\ fst (fit (PySeries ys) None w)
           = mkWorld
               (mkForecaster m
                  (Some (type_of_index (s_index (_preproces_y ys))))
                  (Some fr) (Some tr)
                  (Some (index_slice_from (s_index yt) (- max_lag (self_ w)),
                         length (heap w)))
                  false None None (Some res) None true
                  (lags (self_ w)) (max_lag (self_ w)) (window_size (self_ w)))
               (heap w ++ [py_slice_from (s_values yt) (- max_lag (self_ w))])
               (entropy w) d').
Proof.
  destruct_world w. cbn [self_ heap entropy drawn regressor lags max_lag window_size].
  remember (_create_lags (mkForecaster r yt yf tr lw ie et ec isr osr f l m ws)
              (_preproces_y ys)) as CL eqn:HCL.
  unfold fit. py_simp.
  rewrite bind_lift. cbn [_check_y].
  destruct (has_null (s_values ys)) eqn:Hnull; [discriminate|].
  py_simp. rewrite bind_lift.
  destruct (index_first_last _) as [tr'|] eqn:Htr; [|discriminate].
  py_simp. rewrite bind_lift.
  destruct (index_freq_info _) as [fr|] eqn:Hfr; [|discriminate].
  py_simp. cbn [fit_exog]. py_simp.
  cbn [_check_aligment_y_exog]. py_simp.
  rewrite bind_lift. unfold _create_train_X_y.
  match goal with |- context [_create_lags ?s0 ?y0] =>
    rewrite (create_lags_ext s0
               (mkForecaster r yt yf tr lw ie et ec isr osr f l m ws) y0)
      by reflexivity
  end.
  rewrite <- HCL.
  destruct CL as [[X_train y_train]|]; cbn [rbind]; [|discriminate].
  py_simp. rewrite bind_lift. unfold series_sub.
  destruct (bool_decide (length (s_values y_train) = length _)) eqn:Hlen;
    [|discriminate].
  apply bool_decide_eq_true_1 in Hlen. rewrite length_map in Hlen.
  cbn [fst snd] in *.
  destruct (Z.ltb_spec 1000 (Z.of_nat (length (zip_with fsub (s_values y_train)
              (map (reg_predict (reg_fit r (df_rows X_train) (s_values y_train)))
                 (df_rows X_train)))))) as [Hbig|Hsmall].
  - rewrite bind_run.
    match goal with |- context [np_random_choice ?a ?n false (mkWorld ?ss ?hh ?ee ?dd)] =>
      destruct (np_random_choice_no_replace_run a n ss hh ee dd)
        as (d' & res & -> & Hl & _)
    end.
    cbn [fst snd]. destruct res as [sample|]; [|discriminate].
    destruct (Hl sample eq_refl) as [Hsl Hsin].
    py_simp. intros _.
    exists X_train, y_train, tr', fr, sample, d'.
    split; [reflexivity|]. split; [reflexivity|]. split; [reflexivity|].
    split; [reflexivity|]. cbn zeta.
    split; [exact Hlen|].
    destruct (Z.ltb_spec 1000 (Z.of_nat (length (zip_with fsub (s_values y_train)
              (map (reg_predict (reg_fit r (df_rows X_train) (s_values y_train)))
                 (df_rows X_train)))))); [|lia].
    split; [split; [lia | exact Hsin]|]. reflexivity.
  - py_simp. intros _.
    eexists X_train, y_train, tr', fr, _, d.
    split; [reflexivity|]. split; [reflexivity|]. split; [reflexivity|].
    split; [reflexivity|]. cbn zeta.
    split; [exact Hlen|].
    destruct (Z.ltb_spec 1000 (Z.of_nat (length (zip_with fsub (s_values y_train)
              (map (reg_predict (reg_fit r (df_rows X_train) (s_values y_train)))
                 (df_rows X_train)))))); [lia|].
    split; [split; reflexivity|]. reflexivity.
Qed.

Lemma create_lags_width s (y : Series V) (X : DataFrame V) (yt : Series V) :
  _create_lags s y = Ok (X, yt) ->
  0 <= max_lag s /\ Z.of_nat (length (lags s)) = max_lag s.
Proof.
  unfold _create_lags, np_full2.
  destruct (Z.ltb_spec (Z.of_nat (length (s_values y)) - max_lag s) 0);
    [discriminate|].
  destruct (Z.ltb_spec (max_lag s) 0); cbn [orb rbind]; [discriminate|].
  destruct (bool_decide _) eqn:Hw; cbn [rbind]; [|discriminate].
  apply bool_decide_eq_true_1 in Hw. rewrite length_map, length_reverse in Hw.
  intros _. split; [lia | exact Hw].
Qed.

(** The targets of a lag set without gaps are the values after the first
    [max_lag]. *)
Lemma create_lags_targets s (y : Series V) (X : DataFrame V) (yt : Series V) :
  Forall (fun k => 1 <= k <= max_lag s) (lags s) ->
  _create_lags s y = Ok (X, yt) ->
  s_values yt = drop (Z.to_nat (max_lag s)) (s_values y)
  /\ length (df_rows X) = length (s_values yt).
Proof.
  intros Hall Hcl.
  destruct (create_lags_width _ _ _ _ Hcl) as [Hm0 Hw].
  destruct (create_lags_target _ _ _ _ Hcl) as (_ & Hmn & Hlen).
  destruct (create_lags_contiguous s y (conj Hm0 Hmn) Hw Hall)
    as (X' & yt' & W & Hcl' & _ & _ & _ & HlX & _ & Hlyt & Hnth).
  rewrite Hcl in Hcl'. injection Hcl' as <- <-.
  split; [|lia].
  apply list_eq. intros i. rewrite lookup_drop.
  destruct (decide (i < Z.to_nat (Z.of_nat (length (s_values y)) - max_lag s))%nat)
    as [Hi|Hi].
  - apply Hnth. exact Hi.
  - rewrite !lookup_ge_None_2; [reflexivity | lia | lia].
Qed.

(** [fit] without exogenous data goes through when the series has no
    missing value and at least [max_lag] values and the lag set has no
    gap. *)
Lemma fit_no_exog_ok w (ys : Series V) :
  lags_ok (self_ w) -> series_ok ys ->
  has_null (s_values ys) = false ->
  max_lag (self_ w) <= Z.of_nat (length (s_values ys)) ->
  Z.of_nat (length (lags (self_ w))) = max_lag (self_ w) ->
  snd (fit (PySeries ys) None w) = Ok tt.
Proof.
  intros Hlags Hser Hnull Hmn Hw.
  destruct (lags_ok_bounds _ Hlags) as (Hm1 & _ & Hall).
  destruct (index_first_last_nonempty (s_index (_preproces_y ys))) as [tr' Htr].
  { pose proof (preproces_y_series_ok ys Hser) as Hok. unfold series_ok in Hok.
    rewrite preproces_y_values in Hok. intros Hnil. rewrite Hnil in Hok.
    cbn [length] in Hok. lia. }
  destruct (preproces_y_freq_info ys) as [fr Hfr].
  destruct (create_lags_contiguous (self_ w) (_preproces_y ys))
    as (X & yt & W & Hcl & _ & _ & _ & HlX & _ & Hlyt & _);
    [rewrite preproces_y_values; lia | exact Hw | exact Hall |].
  rewrite preproces_y_values in HlX, Hlyt.
  revert Hcl. destruct_world w.
  cbn [self_ lags max_lag] in *. intros Hcl.
  unfold fit. py_simp.
  rewrite bind_lift. cbn [_check_y]. rewrite Hnull.
  py_simp. rewrite bind_lift, Htr.
  py_simp. rewrite bind_lift, Hfr.
  py_simp. cbn [fit_exog]. py_simp.
  cbn [_check_aligment_y_exog]. py_simp.
  rewrite bind_lift. unfold _create_train_X_y.
  match goal with |- context [_create_lags ?s0 ?y0] =>
    rewrite (create_lags_ext s0
               (mkForecaster r yt0 yf tr lw ie et ec isr osr f l m ws) y0)
      by reflexivity
  end.
  rewrite Hcl. cbn [rbind]. py_simp. rewrite bind_lift. unfold series_sub.
  cbn [fst snd].
  rewrite bool_decide_eq_true_2 by (rewrite length_map; lia).
  destruct (Z.ltb_spec 1000 (Z.of_nat (length (zip_with fsub (s_values yt)
              (map (reg_predict (reg_fit r (df_rows X) (s_values yt)))
                 (df_rows X)))))) as [Hbig|Hsmall].
  - rewrite bind_run.
    match goal with |- context [np_random_choice ?a ?n false (mkWorld ?ss ?hh ?ee ?dd)] =>
      destruct (np_random_choice_no_replace_run a n ss hh ee dd)
        as (d' & res & -> & _ & Hex)
    end.
    cbn [fst snd]. destruct Hex as [sample ->]; [lia|].
    py_simp. reflexivity.
  - py_simp. reflexivity.
Qed.

Lemma py_take_raise {A} (l : list A) (idx : list Z) (e : exn) :
  py_take l idx = Raise e -> e = IndexError.
Proof.
  induction idx as [|j idx IH]; cbn [py_take]; [discriminate|].
  destruct (py_index l j); [|intros [= <-]; reflexivity].
  destruct (py_take l idx) as [xs|e']; cbn [rbind]; [discriminate|].
  intros [= <-]. apply IH. reflexivity.
Qed.

Lemma py_take_lag_out {A} (l : list A) (ks : list Z) (k : Z) :
  In k ks -> Z.of_nat (length l) < k ->
  py_take l (map Z.opp ks) = Raise IndexError.
Proof.
  intros Hin Hk.
  destruct (py_take l (map Z.opp ks)) as [out|e] eqn:Ht.
  - destruct (py_take_ok_inv l _ out (- k) Ht) as [x Hx]; [apply in_map, Hin|].
    rewrite py_index_neg_out in Hx by exact Hk. discriminate Hx.
  - apply py_take_raise in Ht. rewrite Ht. reflexivity.
Qed.

Lemma expand_index_empty (ix : Index) (steps : Z) :
  index_ok ix 0 -> _expand_index ix steps = Raise IndexError.
Proof.
  intros [Hlen Hkind]. destruct ix as [a b|[f|] ts|ls]; try destruct Hkind;
    cbn [_expand_index index_labels] in *; rewrite length_map in Hlen.
  - destruct (range_list (Range a b)); [reflexivity | discriminate Hlen].
  - destruct ts; [reflexivity | discriminate Hlen].
Qed.

End FitRunFacts.

(** X1.  For a forecaster whose lags are all at least 1 and a Series with
    one label per value, [fit] without exogenous data returns normally
    exactly when the series has no missing value and at least [max_lag]
    values and the lag set has no gap ([max_lag] lags). *)
Theorem fit_succeeds_iff {V M : Type} `{Float V} `{Regressor V M}
    (w : World V M) (ys : Series V) :
  lags_ok (self_ w) -> series_ok ys ->
  (snd (fit (PySeries ys) None w) = Ok tt
   <-> has_null (s_values ys) = false
       /\ max_lag (self_ w) <= Z.of_nat (length (s_values ys))
       /\ Z.of_nat (length (lags (self_ w))) = max_lag (self_ w)).
Proof.
  intros Hlags Hser. split.
  - intros Hfit.
    destruct (fit_no_exog_inv w ys Hfit)
      as (X & yt & tr & fr & res & d' & Hnull & _ & _ & Hcl & _).
    destruct (create_lags_width _ _ _ _ Hcl) as [_ Hw].
    destruct (create_lags_target _ _ _ _ Hcl) as (_ & Hmn & _).
    rewrite preproces_y_values in Hmn. split; [exact Hnull|].
    split; [exact Hmn | exact Hw].
  - intros (Hnull & Hmn & Hw). apply fit_no_exog_ok; assumption.
Qed.


(** X2.  After a successful [fit] without exogenous data the forecaster is
    fitted, has no out-of-sample residuals and keeps its lags; the
    regressor is the given one trained on the lag table; the in-sample
    residuals are the targets minus the predictions of the trained
    regressor on the lag table (a sample of 1000 of them when there are
    more); and the stored last window is a new buffer that holds the
    values of the series from position [max(max_lag, n - max_lag)] on,
    which are fewer than [max_lag] values when [n < 2 * max_lag]. *)
Theorem fit_state {V M : Type} `{Float V} `{Regressor V M}
    (w : World V M) (ys : Series V) :
  lags_ok (self_ w) ->
  snd (fit (PySeries ys) None w) = Ok tt ->
  let w' := fst (fit (PySeries ys) None w) in
  let n := Z.of_nat (length (s_values ys)) in
  let m := max_lag (self_ w) in
  fitted (self_ w') = true
  /\ included_exog (self_ w') = false
  /\ out_sample_residuals (self_ w') = None
  /\ lags (self_ w') = lags (self_ w) /\ max_lag (self_ w') = m
  /\ (exists X yt res,
        _create_lags (self_ w) (_preproces_y ys) = Ok (X, yt)
        /\ s_values yt = drop (Z.to_nat m) (s_values ys)
        /\ regressor (self_ w')
           = reg_fit (regressor (self_ w)) (df_rows X) (s_values yt)
        /\ in_sample_residuals (self_ w') = Some res
        /\ Z.of_nat (length res) = Z.min (n - m) 1000
        /\ (n - m <= 1000 ->
            res = zip_with fsub (s_values yt)
                    (map (reg_predict (regressor (self_ w'))) (df_rows X))))
  /\ (exists ix,
        last_window (self_ w') = Some (ix, length (heap w))
        /\ heap w'
           = heap w ++ [drop (Z.to_nat (Z.max m (n - m))) (s_values ys)]).
Proof.
  intros Hlags Hfit w' n m.
  destruct (lags_ok_bounds _ Hlags) as (Hm1 & _ & Hall).
  destruct (fit_no_exog_inv w ys Hfit)
    as (X & yt & tr & fr & res & d' & Hnull & _ & _ & Hcl & Hlen & Hres & Hw').
  destruct (create_lags_targets _ _ _ _ Hall Hcl) as [Hyt HlX].
  destruct (create_lags_target _ _ _ _ Hcl) as (_ & Hmn & Hlyt).
  rewrite preproces_y_values in *. fold n m in Hmn, Hlyt, Hyt.
  subst w'. rewrite Hw'. cbn [self_ heap fitted included_exog
    out_sample_residuals lags max_lag regressor in_sample_residuals last_window].
  split; [reflexivity|]. split; [reflexivity|]. split; [reflexivity|].
  split; [reflexivity|]. split; [reflexivity|].
  split.
  - exists X, yt, res. split; [exact Hcl|]. split; [exact Hyt|].
    split; [reflexivity|]. split; [reflexivity|].
    assert (Hlr : length (zip_with fsub (s_values yt)
                     (map (reg_predict
                             (reg_fit (regressor (self_ w)) (df_rows X) (s_values yt)))
                        (df_rows X))) = Z.to_nat (n - m)).
    { rewrite length_zip_with_l_eq by (rewrite length_map; lia). exact Hlyt. }
    rewrite Hlr in Hres.
    destruct (Z.ltb_spec 1000 (Z.of_nat (Z.to_nat (n - m)))) as [Hbig|Hsmall].
    + destruct Hres as [Hl _]. split; [lia | intros; lia].
    + destruct Hres as [-> _]. split; [rewrite Hlr; lia | intros _; reflexivity].
  - eexists. split; [reflexivity|]. f_equal. f_equal.
    rewrite Hyt. subst n m. unfold py_slice_from. rewrite length_drop.
    destruct (Z.ltb_spec (- max_lag (self_ w)) 0); [|lia].
    rewrite drop_drop. f_equal. lia.
Qed.

(** X3.  [predict] right after a successful [fit] (no exogenous data, no
    window supplied, [steps >= 1]): when the series had at least
    [2 * max_lag] values it returns [steps] predictions, the recursion
    started from the last [max_lag] values of the series; when it had
    fewer, the stored window is too short and [predict] raises
    IndexError. *)
Theorem fit_then_predict {V M : Type} `{Float V} `{Regressor V M}
    (w : World V M) (ys : Series V) (steps : Z) :
  lags_ok (self_ w) -> series_ok ys ->
  snd (fit (PySeries ys) None w) = Ok tt -> 1 <= steps ->
  let w' := fst (fit (PySeries ys) None w) in
  let n := Z.of_nat (length (s_values ys)) in
  let m := max_lag (self_ w) in
  (2 * m <= n ->
   exists pred,
     snd (predict steps None None w') = Ok pred
     /\ length (s_values pred) = Z.to_nat steps
     /\ recursive_forecast (regressor (self_ w')) (lags (self_ w))
          (drop (Z.to_nat (n - m)) (s_values ys)) (Z.to_nat steps)
        = Ok (s_values pred))
  /\ (n < 2 * m -> snd (predict steps None None w') = Raise IndexError).
Proof.
  intros Hlags Hser Hfit Hsteps w' n m.
  destruct (lags_ok_bounds _ Hlags) as (Hm1 & Hmin & Hall).
  pose proof (fit_world_ok w (PySeries ys) None ltac:(lia)
                ltac:(intros ys' [= <-]; exact Hser) Hfit) as Hok'.
  destruct (fit_no_exog_inv w ys Hfit)
    as (X & yt & tr & fr & res & d' & _ & _ & _ & Hcl & _ & _ & Hw').
  destruct (create_lags_target _ _ _ _ Hcl) as (_ & Hmn & _).
  destruct (create_lags_targets _ _ _ _ Hall Hcl) as [Hyt _].
  rewrite preproces_y_values in Hmn, Hyt.
  fold w' in Hw', Hok'. fold n m in Hmn, Hyt.
  assert (Hf : fitted (self_ w') = true) by (rewrite Hw'; reflexivity).
  assert (Hie : included_exog (self_ w') = false) by (rewrite Hw'; reflexivity).
  assert (Hl : lags (self_ w') = lags (self_ w)) by (rewrite Hw'; reflexivity).
  assert (Hlw : last_window (self_ w')
                = Some (index_slice_from (s_index yt) (- m), length (heap w)))
    by (rewrite Hw'; reflexivity).
  rewrite (predict_snd w' steps None None Hok').
  destruct (Hok' _ _ Hlw) as (vs & Hvs & Hix).
  assert (Hvs' : vs = drop (Z.to_nat (Z.max m (n - m))) (s_values ys)).
  { rewrite Hw' in Hvs. cbn [heap] in Hvs.
    rewrite list_lookup_middle in Hvs by reflexivity.
    injection Hvs as <-. rewrite Hyt. subst n m.
    unfold py_slice_from. rewrite length_drop.
    destruct (Z.ltb_spec (- max_lag (self_ w)) 0); [|lia].
    rewrite drop_drop. f_equal. lia. }
  assert (Hlvs : Z.of_nat (length vs) = Z.min m (n - m)).
  { rewrite Hvs', length_drop. subst n. lia. }
  clear Hw'.
  unfold predict_result, predict_window_result.
  rewrite Hf, Hie, Hlw. cbn [negb andb].
  destruct (Z.ltb_spec steps 1); [lia|].
  rewrite bool_decide_eq_true_2 by reflexivity. cbn [negb andb rbind fst snd].
  rewrite Hvs. rewrite Hl.
  split.
  - intros Hbig.
    destruct (expand_index_ok _ (length vs) steps Hix ltac:(lia) ltac:(lia)) as [ix' ->].
    cbn [rbind].
    destruct (recursive_forecast_ok (regressor (self_ w')) (lags (self_ w))
                (Z.to_nat steps) vs) as [vals Hvals].
    { eapply Forall_impl; [exact Hall|]. cbn beta. intros k Hk. lia. }
    rewrite Hvals. cbn [rbind]. eexists. split; [reflexivity|].
    cbn [s_values]. split.
    + eapply recursive_forecast_length. exact Hvals.
    + rewrite <- Hvals, Hvs'. do 2 f_equal. lia.
  - intros Hsmall.
    destruct (decide (length vs = 0%nat)) as [Hz|Hnz].
    + rewrite Hz in Hix. rewrite (expand_index_empty _ steps Hix). reflexivity.
    + destruct (expand_index_ok _ (length vs) steps Hix ltac:(lia) ltac:(lia)) as [ix' ->].
      cbn [rbind].
      destruct (Z.to_nat steps) as [|c] eqn:Hc; [lia|].
      cbn [recursive_forecast].
      rewrite (py_take_lag_out vs (lags (self_ w)) m Hmin) by lia.
      reflexivity.
Qed.

Lemma example_world_lags_ok : lags_ok (self_ example_world).
Proof.
  unfold lags_ok. vm_compute. split; [reflexivity|].
  repeat constructor; discriminate.
Qed.

Lemma example_y_ok : series_ok example_y.
Proof. reflexivity. Qed.

(** Witness of [fit_succeeds_iff]: the series 1, 2, 3, 5, 8, 13 and
    [lags=2]. *)
Lemma fit_succeeds_iff_witness :
  (lags_ok (self_ example_world) /\ series_ok example_y)
  /\ (snd (fit (PySeries example_y) None example_world) = Ok tt
      <-> has_null (s_values example_y) = false
          /\ max_lag (self_ example_world)
             <= Z.of_nat (length (s_values example_y))
          /\ Z.of_nat (length (lags (self_ example_world)))
             = max_lag (self_ example_world)).
Proof.
  split; [exact (conj example_world_lags_ok example_y_ok)|].
  exact (fit_succeeds_iff example_world example_y example_world_lags_ok
           example_y_ok).
Defined.

(** Witness of [fit_state]: the same fit. *)
Lemma fit_state_witness :
  (lags_ok (self_ example_world)
   /\ snd (fit (PySeries example_y) None example_world) = Ok tt)
  /\ fitted (self_ (fst (fit (PySeries example_y) None example_world))) = true
  /\ out_sample_residuals
       (self_ (fst (fit (PySeries example_y) None example_world))) = None.
Proof.
  assert (Hfit : snd (fit (PySeries example_y) None example_world) = Ok tt)
    by (vm_compute; reflexivity).
  pose proof (fit_state example_world example_y example_world_lags_ok Hfit) as Hs.
  split; [exact (conj example_world_lags_ok Hfit)|].
  split; [exact (proj1 Hs) | exact (proj1 (proj2 (proj2 Hs)))].
Defined.

(** Witness of [fit_then_predict]: three steps after that fit. *)
Lemma fit_then_predict_witness :
  (lags_ok (self_ example_world) /\ series_ok example_y
   /\ snd (fit (PySeries example_y) None example_world) = Ok tt /\ 1 <= 3)
  /\ (2 * max_lag (self_ example_world)
      <= Z.of_nat (length (s_values example_y)) ->
      exists pred,
        snd (predict 3 None None
               (fst (fit (PySeries example_y) None example_world))) = Ok pred
        /\ length (s_values pred) = Z.to_nat 3
        /\ recursive_forecast
             (regressor (self_ (fst (fit (PySeries example_y) None example_world))))
             (lags (self_ example_world))
             (drop (Z.to_nat (Z.of_nat (length (s_values example_y))
                              - max_lag (self_ example_world)))
                (s_values example_y))
             (Z.to_nat 3)
           = Ok (s_values pred)).
Proof.
  assert (Hfit : snd (fit (PySeries example_y) None example_world) = Ok tt)
    by (vm_compute; reflexivity).
  assert (H3 : 1 <= 3) by lia.
  pose proof (fit_then_predict example_world example_y 3 example_world_lags_ok
                example_y_ok Hfit H3) as Hp.
  split; [exact (conj example_world_lags_ok (conj example_y_ok (conj Hfit H3)))|].
  exact (proj1 Hp).
Defined.

(** ** Construction and [set_lags] *)

(** X4.  The constructor accepts exactly an int of at least 1 and a
    non-empty list, range or array of values of at least 1.  The forecaster
    it returns has these lags, [max_lag = window_size] their largest, is
    not fitted and stores no window and no residuals.  An int below 1 and
    a sequence with a value below 1 raise the Exception of the guards, an
    empty sequence the ValueError of [min]. *)
Theorem init_accepts {V M : Type} (r : M) (a : lags_arg) :
  (valid_lags a ->
   exists s : Forecaster V M,
     __init__ r a = Ok s
     /\ regressor s = r /\ lags s = lags_value a
     /\ py_max (lags s) = Some (max_lag s) /\ window_size s = max_lag s
     /\ Forall (fun k => 1 <= k <= max_lag s) (lags s)
     /\ fitted s = false /\ last_window s = None
     /\ in_sample_residuals s = None /\ out_sample_residuals s = None)
  /\ (~ valid_lags a ->
      exists e, __init__ (V:=V) r a = Raise e
        /\ (match a with
            | LagsInt _ => e = Exception "min value of lags allowed is 1"
            | LagsList l | LagsArray l =>
                if bool_decide (l = [])
                then e = ValueError "min() arg is an empty sequence"
                else e = Exception "min value of lags allowed is 1"
            | LagsOther =>
                e = Exception "`lags` argument must be `int`, `1D np.ndarray`, `range` or `list`."
            end)).
Proof.
  split.
  - intros Hv. destruct (valid_lags_max a Hv) as [m Hm].
    unfold __init__, py_max_lags. rewrite (lags_of_arg_valid a Hv).
    cbn [rbind]. rewrite Hm. cbn [rbind]. eexists. split; [reflexivity|].
    cbn [regressor lags max_lag window_size fitted last_window
         in_sample_residuals out_sample_residuals].
    repeat split; try assumption; try reflexivity.
    pose proof (lags_of_arg_valid a Hv) as Hok.
    apply lags_of_arg_inv in Hok as (_ & _ & Hall).
    apply py_max_spec in Hm as [_ Hle].
    rewrite List.Forall_forall in Hall, Hle. apply List.Forall_forall.
    intros k Hk. split; [apply Hall, Hk | apply Hle, Hk].
  - intros Hnv. unfold __init__.
    assert (Hlist : forall l, ~ (l <> [] /\ Forall (fun k => 1 <= k) l) ->
              exists e, lags_of_arg (LagsList l) = Raise e
                /\ if bool_decide (l = [])
                   then e = ValueError "min() arg is an empty sequence"
                   else e = Exception "min value of lags allowed is 1").
    { intros l Hl. cbn [lags_of_arg]. destruct l as [|x l].
      - eexists. split; reflexivity.
      - rewrite bool_decide_eq_false_2 by discriminate.
        destruct (py_min (x :: l)) as [m|] eqn:Hm; [|discriminate Hm].
        destruct (Z.ltb_spec m 1) as [Hlt|Hge]; [eexists; split; reflexivity|].
        exfalso. apply Hl. split; [discriminate|].
        apply py_min_spec in Hm as [_ Hall].
        eapply Forall_impl; [exact Hall|]. cbn beta. intros k Hk. lia. }
    destruct a as [n|l|l|]; cbn [valid_lags] in Hnv.
    + cbn [lags_of_arg]. destruct (Z.ltb_spec n 1); [|lia].
      eexists. split; reflexivity.
    + destruct (Hlist l Hnv) as (e & He & Hcase). rewrite He.
      exists e. split; [reflexivity | exact Hcase].
    + destruct (Hlist l Hnv) as (e & He & Hcase).
      change (lags_of_arg (LagsArray l)) with (lags_of_arg (LagsList l)).
      rewrite He. exists e. split; [reflexivity | exact Hcase].
    + eexists. split; reflexivity.
Qed.

(** X5.  [set_lags] overwrites: with an argument the guards accept, the
    lags, [max_lag] and [window_size] it leaves are those the constructor
    gives for the same argument, whatever [set_lags] call (accepted or
    refused) came before; so the call is idempotent and the last call
    wins. *)
Theorem set_lags_last_wins {V M : Type} (w : World V M) (a b : lags_arg) :
  valid_lags a ->
  fst (set_lags a (fst (set_lags b w))) = fst (set_lags a w)
  /\ fst (set_lags a (fst (set_lags a w))) = fst (set_lags a w)
  /\ forall (r : M) (s : Forecaster V M),
       __init__ r a = Ok s ->
       lags (self_ (fst (set_lags a w))) = lags s
       /\ max_lag (self_ (fst (set_lags a w))) = max_lag s
       /\ window_size (self_ (fst (set_lags a w))) = window_size s.
Proof.
  intros Hv. destruct (valid_lags_max a Hv) as [m Hm].
  pose proof (lags_of_arg_valid a Hv) as Ha.
  assert (Hover : forall c, fst (set_lags a (fst (set_lags c w)))
                            = fst (set_lags a w)).
  { intros c. rewrite !(set_lags_run _ a _ m Ha Hm).
    destruct (lags_of_arg c) as [l|e] eqn:Hc.
    - destruct (lags_of_arg_inv c l Hc) as (_ & Hne & _).
      destruct (py_max l) as [mc|] eqn:Hmc;
        [|destruct l; [congruence | discriminate Hmc]].
      rewrite (set_lags_run w c l mc Hc Hmc). destruct_world w. reflexivity.
    - rewrite (set_lags_invalid w c e Hc). reflexivity. }
  split; [apply Hover|]. split; [apply Hover|].
  intros r s Hs. rewrite (set_lags_run w a _ m Ha Hm).
  unfold __init__, py_max_lags in Hs. rewrite Ha in Hs. cbn [rbind] in Hs.
  rewrite Hm in Hs. cbn [rbind] in Hs. injection Hs as <-.
  destruct_world w. repeat split.
Qed.

(** Witness of [set_lags_last_wins]: [set_lags(5)] after [set_lags(0)]. *)
Lemma set_lags_last_wins_witness :
  let w := mkWorld (mkForecaster tt None None None None false None None None
                      None false [1; 2; 3] 3 3)
             ([] : list (list (option Z))) (fun _ => O) O in
  valid_lags (LagsInt 5)
  /\ fst (set_lags (LagsInt 5) (fst (set_lags (LagsInt 0) w)))
     = fst (set_lags (LagsInt 5) w).
Proof.
  intros w. assert (Hv : valid_lags (LagsInt 5)) by (cbn; lia).
  split; [exact Hv|].
  exact (proj1 (set_lags_last_wins w (LagsInt 5) (LagsInt 0) Hv)).
Defined.

(** ** [_expand_index] *)

Section ExpandIndexFacts.

Lemma py_index_map {A B} (f : A -> B) (l : list A) (j : Z) :
  py_index (map f l) j = option_map f (py_index l j).
Proof.
  unfold py_index. rewrite length_map.
  destruct (0 <=? j); [apply list_lookup_fmap|].
  destruct (0 <=? Z.of_nat (length l) + j); [apply list_lookup_fmap | reflexivity].
Qed.

Lemma range_list_last (a b : Z) :
  a < b -> py_index (range_list (Range a b)) (-1) = Some (b - 1).
Proof.
  intros Hab. change (-1) with (- (1)).
  rewrite py_index_neg by (rewrite range_list_length; lia).
  rewrite range_list_length, range_list_lookup.
  destruct (decide _); [f_equal; lia | lia].
Qed.

Lemma range_list_empty (a b : Z) : b <= a -> range_list (Range a b) = [].
Proof.
  intros Hab. unfold range_list. cbn [start stop].
  replace (Z.to_nat (b - a)) with 0%nat by lia. reflexivity.
Qed.

Lemma range_list_shift (a n : Z) :
  range_list (Range a (a + n)) = map (fun k => a + k) (range_list (range_to n)).
Proof.
  unfold range_list, range_to. cbn [start stop]. rewrite map_map.
  replace (a + n - a) with (n - 0) by lia. apply map_ext. intros k. lia.
Qed.

Lemma range_to_app (a b : Z) :
  0 <= a -> 0 <= b ->
  range_list (range_to (a + b))
  = range_list (range_to a) ++ map (fun k => a + k) (range_list (range_to b)).
Proof.
  intros Ha Hb. apply list_eq. intros i. unfold range_to.
  rewrite range_list_lookup.
  destruct (decide (i < Z.to_nat a)%nat) as [Hi|Hi].
  - rewrite lookup_app_l by (rewrite range_list_length; lia).
    rewrite range_list_lookup.
    repeat (destruct (decide _)); try reflexivity; lia.
  - rewrite lookup_app_r by (rewrite range_list_length; lia).
    rewrite range_list_length, list_lookup_fmap, range_list_lookup.
    repeat (destruct (decide _)); cbn [fmap option_fmap option_map];
      try reflexivity; try lia.
    f_equal. lia.
Qed.

(** The labels [_expand_index] gives to the steps after an index whose
    last label is [t]: for a RangeIndex whatever [steps] is, for a
    DatetimeIndex when [steps] is not negative. *)
Lemma expand_index_labels (ix : Index) (steps : Z) (first t : label) :
  index_first_last ix = Ok (first, t) -> regular_index ix ->
  0 <= steps \/ type_of_index ix = RangeIndexT ->
  exists ix',
    _expand_index ix steps = Ok ix'
    /\ index_labels ix'
       = map (fun k => label_shift t ((k + 1) * index_step ix))
           (range_list (range_to steps))
    /\ index_step ix' = index_step ix /\ regular_index ix'
    /\ type_of_index ix' = type_of_index ix.
Proof.
  unfold index_first_last. intros Hfl Hreg Hs.
  destruct (py_index (index_labels ix) 0) as [x0|]; [|discriminate Hfl].
  destruct (py_index (index_labels ix) (-1)) as [x1|] eqn:Hlast;
    [|discriminate Hfl].
  injection Hfl as _ ->.
  destruct ix as [a b|[f|] ts|ls]; try destruct Hreg;
    cbn [index_labels] in Hlast; rewrite py_index_map in Hlast;
    cbn [_expand_index index_step].
  - destruct (py_index (range_list (Range a b)) (-1)) as [z|]; [|discriminate Hlast].
    injection Hlast as <-. eexists. split; [reflexivity|].
    cbn [index_labels index_step regular_index type_of_index].
    split; [|repeat split].
    rewrite range_list_shift, map_map. apply map_ext. intros k.
    cbn [label_shift]. f_equal. lia.
  - destruct (py_index ts (-1)) as [z|]; [|discriminate Hlast].
    injection Hlast as <-.
    destruct (Z.ltb_spec steps 0) as [Hneg|_];
      [destruct Hs as [Hs|Hs]; [lia | discriminate Hs]|].
    eexists. split; [reflexivity|].
    cbn [index_labels index_step regular_index type_of_index].
    split; [|repeat split].
    rewrite map_map. apply map_ext. intros k. cbn [label_shift]. f_equal. lia.
Qed.

(** [pd.date_range] with a negative number of periods. *)
Lemma expand_index_negative (f : Z) (ts : list Z) (steps : Z) :
  ts <> [] -> steps < 0 ->
  _expand_index (DatetimeIndex (Some f) ts) steps
  = Raise (ValueError "Cannot generate range with start and periods").
Proof.
  intros Hne Hs. cbn [_expand_index].
  destruct ts as [|x ts]; [congruence|].
  change (-1) with (- (1)). rewrite py_index_neg by (cbn [length]; lia).
  destruct (lookup_lt_is_Some_2 (x :: ts) (length (x :: ts) - Z.to_nat 1))
    as [z ->]; [cbn [length]; lia|].
  destruct (Z.ltb_spec steps 0); [reflexivity | lia].
Qed.

Lemma py_index_last_map_range {A} (g : Z -> A) (n : Z) :
  1 <= n ->
  py_index (map g (range_list (range_to n))) (-1) = Some (g (n - 1)).
Proof.
  intros Hn. rewrite py_index_map. unfold range_to.
  rewrite range_list_last by lia. reflexivity.
Qed.

Lemma py_index_first_map_range {A} (g : Z -> A) (n : Z) :
  1 <= n ->
  py_index (map g (range_list (range_to n))) 0 = Some (g 0).
Proof.
  intros Hn. rewrite py_index_map. unfold range_to.
  rewrite py_index_first, range_list_lookup.
  destruct (decide _); [reflexivity | lia].
Qed.

End ExpandIndexFacts.

(** X6.  [_expand_index] on an index whose last label is [t].  A
    RangeIndex (of step 1, the only one [_preproces_y] builds and the only
    one of the embedding) gives [RangeIndex(t + 1, t + 1 + steps)], again
    of step 1: the labels [t + 1], ..., [t + steps], none when
    [steps <= 0].  A DatetimeIndex with the frequency [f] gives, for
    [steps >= 0], the DatetimeIndex of the same frequency with the labels
    [t + f], ..., [t + steps * f], and raises ValueError for [steps < 0].
    Expanding by [a >= 1] steps and then the result by [b >= 0] more gives
    the labels of expanding by [a + b] steps at once.  An index without
    labels raises IndexError, a DatetimeIndex without frequency TypeError,
    any other index UnboundLocalError. *)
Theorem expand_index_spec (ix : Index) (first t : label) :
  (index_first_last ix = Ok (first, t) -> regular_index ix ->
   (forall steps, 0 <= steps \/ type_of_index ix = RangeIndexT ->
      exists ix',
        _expand_index ix steps = Ok ix' /\ regular_index ix'
        /\ type_of_index ix' = type_of_index ix
        /\ index_step ix' = index_step ix
        /\ index_labels ix'
           = map (fun k => label_shift t ((k + 1) * index_step ix))
               (range_list (range_to steps)))
   /\ (forall steps, steps < 0 -> type_of_index ix = DatetimeIndexT ->
         _expand_index ix steps
         = Raise (ValueError "Cannot generate range with start and periods"))
   /\ (forall a b, 1 <= a -> 0 <= b ->
         exists ixa ixb ixab,
           _expand_index ix a = Ok ixa /\ _expand_index ixa b = Ok ixb
           /\ _expand_index ix (a + b) = Ok ixab
           /\ index_labels ixab = index_labels ixa ++ index_labels ixb))
  /\ (forall a b steps, ix = RangeIndex a b -> a < b ->
        _expand_index ix steps = Ok (RangeIndex b (b + steps)))
  /\ (index_labels ix = [] -> regular_index ix ->
      forall steps, _expand_index ix steps = Raise IndexError)
  /\ (forall ts steps, ix = DatetimeIndex None ts -> ts <> [] ->
        _expand_index ix steps
        = Raise (TypeError "unsupported operand: Timestamp + None"))
  /\ (forall ls steps, ix = OtherIndex ls ->
        _expand_index ix steps = Raise UnboundLocalError).
Proof.
  split; [|split; [|split; [|split]]].
  - intros Hfl Hreg. split; [|split].
    + intros steps Hs.
      destruct (expand_index_labels ix steps first t Hfl Hreg Hs)
        as (ix' & Hx & Hl & Hst & Hr & Hty).
      exists ix'. repeat split; assumption.
    + intros steps Hs Hty.
      destruct ix as [a b|[f|] ts|ls]; try destruct Hreg; try discriminate Hty.
      apply expand_index_negative; [|exact Hs].
      intros ->. discriminate Hfl.
    + intros a b Ha Hb.
      destruct (expand_index_labels ix a first t Hfl Hreg ltac:(left; lia))
        as (ixa & Hxa & Hla & Hsa & Hra & _).
      assert (Hfla : index_first_last ixa
                     = Ok (label_shift t ((0 + 1) * index_step ix),
                           label_shift t ((a - 1 + 1) * index_step ix))).
      { unfold index_first_last. rewrite Hla.
        rewrite py_index_first_map_range, py_index_last_map_range by lia.
        reflexivity. }
      destruct (expand_index_labels ixa b _ _ Hfla Hra ltac:(left; lia))
        as (ixb & Hxb & Hlb & _ & _).
      destruct (expand_index_labels ix (a + b) first t Hfl Hreg ltac:(left; lia))
        as (ixab & Hxab & Hlab & _ & _).
      exists ixa, ixb, ixab. repeat split; try assumption.
      rewrite Hlab, Hla, Hlb, Hsa, range_to_app, map_app, map_map by lia.
      f_equal. apply map_ext. intros k.
      destruct t; cbn [label_shift]; f_equal; lia.
  - intros a b steps -> Hab. cbn [_expand_index].
    rewrite range_list_last by exact Hab. do 2 f_equal; lia.
  - intros Hnil Hreg steps.
    destruct ix as [a b|[f|] ts|ls]; try destruct Hreg;
      cbn [index_labels _expand_index] in *.
    + destruct (range_list (Range a b)); [reflexivity | discriminate Hnil].
    + destruct ts; [reflexivity | discriminate Hnil].
  - intros ts steps -> Hne. cbn [_expand_index].
    destruct ts as [|x ts]; [congruence|].
    change (-1) with (- (1)). rewrite py_index_neg by (cbn [length]; lia).
    destruct (lookup_lt_is_Some_2 (x :: ts) (length (x :: ts) - Z.to_nat 1))
      as [z ->]; [cbn [length]; lia | reflexivity].
  - intros ls steps ->. reflexivity.
Qed.

(** A weekly index ending at 17 is continued by 24 and 31; no index is
    made for [steps = -1]; after the RangeIndex 0, 1, 2 the index for
    [steps = -1] is the empty [RangeIndex(3, 2)]. *)
Example expand_index_example :
  _expand_index (DatetimeIndex (Some 7) [10; 17]) 2
  = Ok (DatetimeIndex (Some 7) [24; 31])
  /\ _expand_index (DatetimeIndex (Some 7) [10; 17]) (-1)
     = Raise (ValueError "Cannot generate range with start and periods")
  /\ _expand_index (RangeIndex 0 3) (-1) = Ok (RangeIndex 3 2)
  /\ index_labels (RangeIndex 3 2) = [].
Proof. repeat split. Qed.

(** ** [set_out_sample_residuals] *)

(** X7.  [set_out_sample_residuals] with a 1-D array of at most 1000
    values, on a forecaster that stores no out-of-sample residuals or 1-D
    ones, returns normally and changes only [out_sample_residuals]: the
    array replaces what was stored when [append] is False or nothing was
    stored; appended to the stored residuals it adds its first
    [1000 - len(stored)] values (all of it below the cap, nothing once
    1000 are stored), the stored values keeping their place.  An argument
    that is not an array raises and changes nothing. *)
Theorem set_out_sample_residuals_store {V M : Type}
    (w : World V M) (d : list V) (append : bool) :
  (length d <= 1000)%nat ->
  (forall sh, out_sample_residuals (self_ w) <> Some (ArrND sh)) ->
  let w' := fst (set_out_sample_residuals (PyNdarray d) append w) in
  snd (set_out_sample_residuals (PyNdarray d) append w) = Ok tt
  /\ w' = mkWorld (with_out_sample_residuals (out_sample_residuals (self_ w'))
                     (self_ w))
            (heap w) (entropy w) (drawn w)
  /\ (append = false \/ out_sample_residuals (self_ w) = None ->
      out_sample_residuals (self_ w') = Some (Arr1 d))
  /\ (forall old, append = true ->
        out_sample_residuals (self_ w) = Some (Arr1 old) ->
        out_sample_residuals (self_ w')
        = Some (Arr1 (old ++ take (1000 - length old) d)))
  /\ (forall o, (forall a, o <> PyNdarray a) -> (forall sh, o <> PyNdarrayND sh) ->
        set_out_sample_residuals o append w
        = (w, Raise (Exception "`residuals` argument must be `1D np.ndarray`."))).
Proof.
  intros Hd Hosr w'.
  assert (Hlast : forall o, (forall a, o <> PyNdarray a) ->
            (forall sh, o <> PyNdarrayND sh) ->
            set_out_sample_residuals o append w
            = (w, Raise (Exception "`residuals` argument must be `1D np.ndarray`."))).
  { intros o Ha Hsh. unfold set_out_sample_residuals.
    destruct o as [sr|df|a|sh|o]; try (rewrite bind_raise; reflexivity).
    - exfalso. eapply Ha. reflexivity.
    - exfalso. eapply Hsh. reflexivity. }
  assert (Hrun : exists stored,
            set_out_sample_residuals (PyNdarray d) append w
            = (mkWorld (with_out_sample_residuals (Some (Arr1 stored)) (self_ w))
                 (heap w) (entropy w) (drawn w), Ok tt)
            /\ (append = false \/ out_sample_residuals (self_ w) = None ->
                stored = d)
            /\ (forall old, append = true ->
                  out_sample_residuals (self_ w) = Some (Arr1 old) ->
                  stored = old ++ take (1000 - length old) d)).
  { clear Hlast. destruct_world w. cbn [self_ out_sample_residuals heap entropy drawn] in *.
    unfold set_out_sample_residuals. py_simp. cbn [nd_len]. py_simp.
    destruct (Z.ltb_spec 1000 (Z.of_nat (length d))); [lia|]. py_simp.
    destruct osr as [[old|sh]|].
    - destruct append; cbn [negb].
      + cbn [nd_len]. py_simp. cbv zeta.
        destruct (Z.ltb_spec (Z.of_nat (length d))
                    (Z.max 0 (1000 - Z.of_nat (length old)))) as [Hlt|Hge];
          cbn [np_hstack nd_slice_to]; py_simp.
        * exists (old ++ d). split; [reflexivity|].
          split; [intros [Hc|Hc]; discriminate Hc|].
          intros old' _ [= <-]. f_equal. rewrite take_ge by lia. reflexivity.
        * exists (old ++ take (Z.to_nat (Z.max 0 (1000 - Z.of_nat (length old)))) d).
          split; [reflexivity|].
          split; [intros [Hc|Hc]; discriminate Hc|].
          intros old' _ [= <-]. do 2 f_equal. lia.
      + exists d. split; [reflexivity|]. split; [reflexivity|].
        intros old' Hc. discriminate Hc.
    - exfalso. eapply Hosr. reflexivity.
    - exists d. split; [reflexivity|]. split; [reflexivity|].
      intros old' _ Hc. discriminate Hc. }
  destruct Hrun as (stored & Hrun & Hrepl & Happ).
  subst w'. rewrite Hrun. cbn [fst snd self_].
  destruct_world w. cbn [out_sample_residuals with_out_sample_residuals self_
    heap entropy drawn] in *.
  split; [reflexivity|]. split; [reflexivity|].
  split; [intros Hc; rewrite (Hrepl Hc); reflexivity|].
  split; [intros old Ha Ho; rewrite (Happ old Ha Ho); reflexivity|].
  exact Hlast.
Qed.

(** Witness of [set_out_sample_residuals_store]: two values appended to the
    forecaster of the examples, which stores no out-of-sample residuals. *)
Lemma set_out_sample_residuals_store_witness :
  let d := [Some 1; Some 2] in
  ((length d <= 1000)%nat
   /\ (forall sh, out_sample_residuals (self_ fitted_world) <> Some (ArrND sh)))
  /\ snd (set_out_sample_residuals (PyNdarray d) true fitted_world) = Ok tt.
Proof.
  intros d.
  assert (Hd : (length d <= 1000)%nat) by (cbn; lia).
  assert (Ho : forall sh, out_sample_residuals (self_ fitted_world)
                          <> Some (ArrND sh))
    by (intros sh Hc; vm_compute in Hc; discriminate Hc).
  split; [exact (conj Hd Ho)|].
  exact (proj1 (set_out_sample_residuals_store fitted_world d true Hd Ho)).
Defined.

(* ================================================================= *)
(** * Properties of backtesting *)

(** ** Backtesting *)

Section BacktestingFacts.
Context {V M : Type} `{Float V} `{Regressor V M} `{Metrics V}.
Implicit Types (w : World V M) (s : Forecaster V M) (y : Series V).

Lemma predict_steps_below_1 (steps : Z) (lw exog : option (pyobj V)) w :
  steps < 1 -> exists e, predict steps lw exog w = (w, Raise e).
Proof.
  intros Hs. unfold predict. rewrite bind_get_self.
  destruct (fitted (self_ w)); cbn [negb]; [|eexists; reflexivity].
  destruct (Z.ltb_spec steps 1); [eexists; reflexivity | lia].
Qed.

(** [predict] with an [exog] argument raises whatever the forecaster. *)
Lemma predict_exog_raises (steps : Z) (lw : option (pyobj V)) (x : pyobj V) w :
  exists e, predict steps lw (Some x) w = (w, Raise e).
Proof.
  unfold predict. rewrite bind_get_self.
  destruct (fitted (self_ w)); cbn [negb]; [|eexists; reflexivity].
  destruct (steps <? 1); [eexists; reflexivity|].
  destruct (bool_decide _ && included_exog (self_ w)); [eexists; reflexivity|].
  destruct (negb _ && negb _); [eexists; reflexivity|].
  cbn [predict_exog]. rewrite bind_assoc, bind_lift.
  destruct (py_len x) as [le|err]; cbn [rbind]; [|eexists; reflexivity].
  destruct (le <? steps); rewrite bind_raise; eexists; reflexivity.
Qed.

(** A loop none of whose calls of [predict] can return adds nothing. *)
Lemma backtesting_loop_idle (idxs : list Z) y (exog : option (Exog V))
    (its ws folds rem steps : Z) acc w w' preds :
  exog <> None \/ (steps < 1 /\ rem < 1) ->
  backtesting_loop idxs y exog its ws folds rem steps acc w = (w', Ok preds) ->
  preds = acc.
Proof.
  intros Hidle. revert steps acc w Hidle.
  induction idxs as [|i idxs IH]; intros steps acc w Hidle; cbn [backtesting_loop].
  - intros [= _ ->]. reflexivity.
  - assert (Hraise : forall st, st = steps \/ st = rem ->
              exists e,
                predict st
                  (Some (PySeries (series_slice y (its + i * steps - ws)
                                     (its + i * steps))))
                  (option_map
                     (fun e => exog_slice e (its + i * steps)
                                 (its + i * steps + steps)) exog) w
                = (w, Raise e)).
    { intros st Hst. destruct exog as [x|]; cbn [option_map].
      - apply predict_exog_raises.
      - apply predict_steps_below_1.
        destruct Hidle as [Hx|[Hs Hr]]; [congruence|]. destruct Hst; lia. }
    destruct (i <? folds - 1).
    + destruct (Hraise steps (or_introl eq_refl)) as [e He].
      unfold bind at 1. rewrite He. discriminate.
    + destruct (negb (rem =? 0)).
      * destruct (Hraise rem (or_intror eq_refl)) as [e He].
        unfold bind at 1. rewrite He. discriminate.
      * apply IH. exact Hidle.
Qed.

(** No fold at all when nothing is left after the initial window. *)
Lemma backtesting_loop_nothing_left y (exog : option (Exog V))
    (its ws d steps : Z) acc w :
  1 <= steps -> d <= 0 ->
  backtesting_loop (range_list (range_to (d / steps + 1))) y exog its ws
    (d / steps + 1) (d mod steps) steps acc w
  = (w, Ok acc).
Proof.
  intros Hs Hd. destruct (Z.eq_dec d 0) as [->|Hne].
  - rewrite Z.div_0_l, Z.mod_0_l by lia. reflexivity.
  - assert (d / steps < 0) by (apply Z.div_lt_upper_bound; lia).
    unfold range_list, range_to. cbn [start stop].
    replace (Z.to_nat (d / steps + 1 - 0)) with 0%nat by lia. reflexivity.
Qed.

End BacktestingFacts.

(** X8.  [backtesting_forecaster] returns normally only when it is called
    with [set_out_sample_residuals=False], without [exog], with
    [steps >= 1], a known metric and a Series without missing values that
    is longer than the initial train size (which is at least the window
    size) or, without initial train size, longer than the window size of a
    fitted forecaster.  With the default [set_out_sample_residuals=True]
    every call raises: the residuals passed on are a Series, which
    [set_out_sample_residuals] refuses. *)
Theorem backtesting_forecaster_returns_only {V M : Type} `{Float V}
    `{Regressor V M} `{Metrics V} (w w' : World V M) (y : pyobj V)
    (steps : Z) (metric : string) (initial_train_size : option Z)
    (exog : option (pyobj V)) (store_residuals : bool) (r : list V * list V) :
  backtesting_forecaster y steps metric initial_train_size exog store_residuals w
  = (w', Ok r) ->
  store_residuals = false /\ exog = None /\ 1 <= steps
  /\ is_ok (get_metric metric) = true
  /\ exists ys,
       y = PySeries ys /\ has_null (s_values ys) = false
       /\ match initial_train_size with
          | Some k => window_size (self_ w) <= k < Z.of_nat (length (s_values ys))
          | None =>
              fitted (self_ w) = true
              /\ window_size (self_ w) < Z.of_nat (length (s_values ys))
          end.
Proof.
  unfold backtesting_forecaster. intros Hrun.
  apply bind_Ok_inv in Hrun as (w1 & ys & Hy & Hrun).
  apply lift_Ok_inv in Hy as [-> Hy].
  assert (Hnull : y = PySeries ys /\ has_null (s_values ys) = false).
  { pose proof (check_y_inv _ _ Hy) as ->. split; [reflexivity|].
    cbn [_check_y] in Hy. destruct (has_null (s_values ys)); [discriminate Hy|].
    reflexivity. }
  destruct Hnull as [-> Hnull]. clear Hy.
  apply bind_Ok_inv in Hrun as (w1 & ex & Hex & Hrun).
  apply lift_Ok_inv in Hex as [-> Hex].
  rewrite bind_get_self in Hrun. rewrite preproces_y_values in Hrun.
  set (n := Z.of_nat (length (s_values ys))) in *.
  (* the effective initial train size and the world the loop starts in *)
  assert (Hloop : exists w2 k mf preds w3,
            match initial_train_size with
            | Some k' => k' = k /\ window_size (self_ w) <= k <= n
            | None => k = window_size (self_ w) /\ fitted (self_ w) = true
            end
            /\ get_metric metric = Ok mf
            /\ steps <> 0
            /\ backtesting_loop (range_list (range_to ((n - k) / steps + 1)))
                 (_preproces_y ys) ex k (window_size (self_ w2))
                 ((n - k) / steps + 1) ((n - k) mod steps) steps [] w2
               = (w3, Ok preds)
            /\ preds <> []
            /\ (store_residuals = true -> False)).
  { destruct initial_train_size as [k|].
    - destruct (Z.ltb_spec n k) as [Hk|Hk]; [discriminate Hrun|].
      destruct (Z.ltb_spec k (window_size (self_ w))) as [Hkw|Hkw];
        [discriminate Hrun|].
      rewrite bind_ret in Hrun.
      apply bind_Ok_inv in Hrun as (w1 & mf & Hmf & Hrun).
      apply lift_Ok_inv in Hmf as [-> Hmf].
      apply bind_Ok_inv in Hrun as (w2 & k' & Hfit & Hrun).
      apply bind_Ok_inv in Hfit as (w2' & [] & Hfit & Hret).
      injection Hret as <- <-.
      rewrite bind_get_self in Hrun.
      destruct (Z.eqb_spec steps 0) as [Hs0|Hs0]; [discriminate Hrun|].
      apply bind_Ok_inv in Hrun as (w3 & preds & Hl & Hrun).
      apply bind_Ok_inv in Hrun as (w4 & bp & Hcat & Hrun).
      apply lift_Ok_inv in Hcat as [-> Hcat].
      apply bind_Ok_inv in Hrun as (w4 & mv & Hmv & Hrun).
      apply lift_Ok_inv in Hmv as [-> Hmv].
      apply bind_Ok_inv in Hrun as (w4 & [] & Hst & Hrun).
      exists w2', k, mf, preds, w3. repeat split; try assumption; try lia.
      + intros ->. discriminate Hcat.
      + intros ->. apply bind_Ok_inv in Hst as (w5 & res & _ & Hset).
        unfold set_out_sample_residuals in Hset. rewrite bind_raise in Hset.
        discriminate Hset.
    - destruct (fitted (self_ w)) eqn:Hf; cbn [negb] in Hrun; [|discriminate Hrun].
      apply bind_Ok_inv in Hrun as (w1 & [] & Hlw & Hrun).
      assert (w1 = w) as ->.
      { destruct (self_last_window (self_ w)); [|discriminate Hlw].
        injection Hlw as <-. reflexivity. }
      apply bind_Ok_inv in Hrun as (w1 & mf & Hmf & Hrun).
      apply lift_Ok_inv in Hmf as [-> Hmf].
      rewrite bind_assoc, bind_get_self, bind_ret, bind_get_self in Hrun.
      destruct (Z.eqb_spec steps 0) as [Hs0|Hs0]; [discriminate Hrun|].
      apply bind_Ok_inv in Hrun as (w3 & preds & Hl & Hrun).
      apply bind_Ok_inv in Hrun as (w4 & bp & Hcat & Hrun).
      apply lift_Ok_inv in Hcat as [-> Hcat].
      apply bind_Ok_inv in Hrun as (w4 & mv & Hmv & Hrun).
      apply lift_Ok_inv in Hmv as [-> Hmv].
      apply bind_Ok_inv in Hrun as (w4 & [] & Hst & Hrun).
      exists w, (window_size (self_ w)), mf, preds, w3.
      repeat split; try assumption.
      + intros ->. discriminate Hcat.
      + intros ->. apply bind_Ok_inv in Hst as (w5 & res & _ & Hset).
        unfold set_out_sample_residuals in Hset. rewrite bind_raise in Hset.
        discriminate Hset. }
  destruct Hloop as (w2 & k & mf & preds & w3 & Hk & Hmf & Hs0 & Hl & Hne & Hst).
  assert (Hex' : ex = None).
  { destruct ex as [x|]; [|reflexivity]. exfalso. apply Hne.
    eapply backtesting_loop_idle; [|exact Hl]. left. discriminate. }
  assert (Hsteps : 1 <= steps).
  { destruct (Z_lt_le_dec steps 1) as [Hlt|Hge]; [|exact Hge]. exfalso. apply Hne.
    eapply backtesting_loop_idle; [|exact Hl]. right. split; [lia|].
    pose proof (Z.mod_neg_bound (n - k) steps). lia. }
  assert (Hkn : k < n).
  { destruct (Z_lt_le_dec k n) as [Hlt|Hge]; [exact Hlt|]. exfalso. apply Hne.
    rewrite backtesting_loop_nothing_left in Hl by lia.
    injection Hl as _ <-. reflexivity. }
  split; [destruct store_residuals; [destruct (Hst eq_refl) | reflexivity]|].
  split.
  { destruct exog as [x|]; [|reflexivity]. exfalso.
    destruct (_check_exog x None None); cbn [rbind] in Hex; [|discriminate Hex].
    injection Hex as <-. discriminate Hex'. }
  split; [exact Hsteps|]. split; [rewrite Hmf; reflexivity|].
  exists ys. split; [reflexivity|]. split; [exact Hnull|].
  destruct initial_train_size as [k'|].
  - destruct Hk as [-> Hk]. fold n. lia.
  - destruct Hk as [-> Hf]. split; [exact Hf | fold n; lia].
Qed.

Section SliceFacts.
Context {V : Type} `{Float V}.

Lemma slice_start_bounds (n k : Z) : 0 <= n -> 0 <= slice_start n k <= n.
Proof. unfold slice_start. destruct (Z.ltb_spec k 0); lia. Qed.

Lemma slice_start_in_range (n k : Z) : 0 <= k <= n -> slice_start n k = k.
Proof. unfold slice_start. destruct (Z.ltb_spec k 0); lia. Qed.

Lemma py_slice_in_range {A} (l : list A) (a b : Z) :
  0 <= a <= b -> b <= Z.of_nat (length l) ->
  py_slice l a b = take (Z.to_nat (b - a)) (drop (Z.to_nat a) l).
Proof.
  intros Ha Hb. unfold py_slice. rewrite !slice_start_in_range by lia.
  reflexivity.
Qed.

Lemma py_slice_length_in_range {A} (l : list A) (a b : Z) :
  0 <= a <= b -> b <= Z.of_nat (length l) ->
  Z.of_nat (length (py_slice l a b)) = b - a.
Proof.
  intros Ha Hb. rewrite py_slice_in_range by lia.
  rewrite length_take, length_drop. lia.
Qed.

Lemma py_slice_length {A B} (l : list A) (l' : list B) (a b : Z) :
  length l = length l' -> length (py_slice l a b) = length (py_slice l' a b).
Proof.
  intros Hl. unfold py_slice. rewrite !length_take, !length_drop, Hl. reflexivity.
Qed.

Lemma py_slice_map {A B} (f : A -> B) (l : list A) (a b : Z) :
  py_slice (map f l) a b = map f (py_slice l a b).
Proof.
  unfold py_slice. rewrite length_map, <- firstn_map, <- skipn_map. reflexivity.
Qed.

Lemma py_slice_to_end {A} (l : list A) (a : Z) :
  0 <= a <= Z.of_nat (length l) ->
  py_slice l a (Z.of_nat (length l)) = drop (Z.to_nat a) l.
Proof.
  intros Ha. rewrite py_slice_in_range by lia.
  apply take_ge. rewrite length_drop. lia.
Qed.

Lemma has_null_py_slice (vs : list V) (a b : Z) :
  has_null vs = false -> has_null (py_slice vs a b) = false.
Proof.
  unfold has_null, py_slice. intros Hn.
  set (i := Z.to_nat (slice_start (Z.of_nat (length vs)) a)).
  set (c := Z.to_nat (slice_start (Z.of_nat (length vs)) b
                      - slice_start (Z.of_nat (length vs)) a)).
  rewrite <- (take_drop i vs), existsb_app in Hn.
  apply orb_false_elim in Hn as [_ Hn].
  rewrite <- (take_drop c (drop i vs)), existsb_app in Hn.
  apply orb_false_elim in Hn as [Hn _]. exact Hn.
Qed.

(** The labels of a sliced index are the slice of the labels. *)
Lemma index_labels_slice (ix : Index) (a b : Z) :
  index_labels (index_slice ix a b) = py_slice (index_labels ix) a b.
Proof.
  destruct ix as [f l|fr ts|ls]; cbn [index_slice index_labels].
  - rewrite py_slice_map. f_equal.
    unfold py_slice. rewrite range_list_length.
    pose proof (slice_start_bounds (Z.max 0 (l - f)) a ltac:(lia)).
    pose proof (slice_start_bounds (Z.max 0 (l - f)) b ltac:(lia)).
    replace (Z.of_nat (Z.to_nat (l - f))) with (Z.max 0 (l - f)) by lia.
    apply list_eq. intros i.
    rewrite range_list_lookup.
    destruct (decide (i < Z.to_nat (slice_start (Z.max 0 (l - f)) b
                                    - slice_start (Z.max 0 (l - f)) a))%nat)
      as [Hi|Hi].
    + rewrite lookup_take by exact Hi.
      rewrite lookup_drop, range_list_lookup.
      repeat (destruct (decide _)); try reflexivity; try (f_equal; lia); lia.
    + rewrite lookup_take_ge by lia.
      destruct (decide _); [lia | reflexivity].
  - rewrite py_slice_map. reflexivity.
  - reflexivity.
Qed.

Lemma series_ok_py_slice (ix : Index) (vs : list V) (a b : Z) :
  series_ok (mkSeries ix vs) ->
  series_ok (mkSeries (index_slice ix a b) (py_slice vs a b)).
Proof.
  unfold series_ok. cbn [s_index s_values]. intros Hok.
  rewrite index_labels_slice. apply py_slice_length. exact Hok.
Qed.

End SliceFacts.

Section BacktestingRun.
Context {V M : Type} `{Float V} `{Regressor V M} `{Metrics V}.
Implicit Types (w : World V M) (s : Forecaster V M) (y : Series V)
  (h : list (list V)).

(** [predict] from a window cut out of a series. *)
Lemma predict_on_window s h e d y (a b st : Z) :
  world_ok (mkWorld s h e d) ->
  fitted s = true -> included_exog s = false -> lags_ok s ->
  series_ok y -> has_null (s_values y) = false ->
  0 <= a <= b -> b <= Z.of_nat (length (s_values y)) ->
  max_lag s <= b - a -> 1 <= st ->
  exists h' pred,
    predict st (Some (PySeries (series_slice y a b))) None (mkWorld s h e d)
    = (mkWorld s h' e d, Ok pred)
    /\ world_ok (mkWorld s h' e d)
    /\ recursive_forecast (regressor s) (lags s) (py_slice (s_values y) a b)
         (Z.to_nat st)
       = Ok (s_values pred).
Proof.
  intros Hok Hf Hie Hlags Hser Hnull Ha Hb Hm Hst.
  destruct (predict_run st (Some (PySeries (series_slice y a b))) None s h e d Hok)
    as (h' & Hrun & _).
  pose proof (predict_world_ok (mkWorld s h e d) st
                (Some (PySeries (series_slice y a b))) None Hok) as Hok'.
  rewrite Hrun in Hok'. cbn [fst] in Hok'.
  pose proof (py_slice_length_in_range (s_values y) a b Ha Hb) as Hlen.
  destruct (predict_result_supplied s h st (series_slice y a b))
    as [ix Hres]; try assumption.
  { destruct y as [ix vs]. apply series_ok_py_slice, Hser. }
  { apply has_null_py_slice, Hnull. }
  { cbn [series_slice s_values]. lia. }
  cbn [series_slice s_values] in Hres.
  destruct (lags_ok_bounds s Hlags) as (_ & _ & Hall).
  destruct (recursive_forecast_ok (regressor s) (lags s) (Z.to_nat st)
              (py_slice (s_values y) a b)) as [vals Hvals].
  { eapply Forall_impl; [exact Hall|]. cbn. intros k Hk. lia. }
  rewrite Hvals in Hres. cbn [rbind] in Hres.
  exists h', (mkSeries ix vals). rewrite Hrun, Hres.
  split; [reflexivity|]. split; [exact Hok'|]. exact Hvals.
Qed.

(** The folds of the loop: fold [i] predicts from the [ws] observed values
    before position [k + i * steps], as many steps as are left, at most
    [steps]. *)
Lemma backtesting_loop_run s y (k ws D steps : Z) e d :
  fitted s = true -> included_exog s = false -> lags_ok s ->
  max_lag s <= ws <= k ->
  series_ok y -> has_null (s_values y) = false ->
  1 <= steps -> 0 < D -> D = Z.of_nat (length (s_values y)) - k ->
  forall (c a : nat) acc h,
    Z.of_nat (a + c) = D / steps + 1 ->
    world_ok (mkWorld s h e d) ->
    exists new h',
      backtesting_loop (map (fun j => 0 + Z.of_nat j) (seq a c)) y None k ws
        (D / steps + 1) (D mod steps) steps acc (mkWorld s h e d)
      = (mkWorld s h' e d, Ok (acc ++ new))
      /\ world_ok (mkWorld s h' e d)
      /\ Forall2
           (fun (i : nat) pred =>
              recursive_forecast (regressor s) (lags s)
                (py_slice (s_values y) (k + Z.of_nat i * steps - ws)
                   (k + Z.of_nat i * steps))
                (Z.to_nat (Z.min steps (D - Z.of_nat i * steps)))
              = Ok (s_values pred))
           (seq a (Z.to_nat ((D + steps - 1) / steps) - a)) new.
Proof.
  intros Hf Hie Hlags Hws Hser Hnull Hsteps HD HDn.
  destruct (lags_ok_bounds s Hlags) as (Hm1 & _ & _).
  pose proof (Z.div_mod D steps ltac:(lia)) as Hdm.
  pose proof (Z.mod_pos_bound D steps ltac:(lia)) as Hmod.
  assert (Hq : 0 <= D / steps) by (apply Z.div_pos; lia).
  assert (Hnf : (D + steps - 1) / steps
                = D / steps + (if D mod steps =? 0 then 0 else 1)).
  { destruct (Z.eqb_spec (D mod steps) 0) as [Hr|Hr].
    - symmetry. apply (Z.div_unique _ _ _ (steps - 1)); lia.
    - symmetry. apply (Z.div_unique _ _ _ (D mod steps - 1)); lia. }
  induction c as [|c IH]; intros a acc h Hac Hok.
  - exists [], h. cbn [seq map backtesting_loop]. rewrite app_nil_r.
    split; [reflexivity|]. split; [exact Hok|].
    replace (Z.to_nat ((D + steps - 1) / steps) - a)%nat with 0%nat
      by (rewrite Hnf; destruct (D mod steps =? 0); lia).
    constructor.
  - cbn [seq map backtesting_loop]. rewrite Z.add_0_l.
    destruct (Z.ltb_spec (Z.of_nat a) (D / steps + 1 - 1)) as [Hlt|Hge].
    + (* a complete fold *)
      assert (Hend : (Z.of_nat a + 1) * steps <= D) by nia.
      destruct (predict_on_window s h e d y
                  (k + Z.of_nat a * steps - ws) (k + Z.of_nat a * steps) steps)
        as (h1 & pred & Hrun & Hok1 & Hvals); try assumption; try lia; try nia.
      cbn [option_map]. unfold bind at 1. rewrite Hrun.
      destruct (IH (S a) (acc ++ [pred]) h1) as (new & h' & Hloop & Hok' & Hall);
        [lia | exact Hok1 |].
      exists (pred :: new), h'. rewrite Hloop, <- app_assoc.
      split; [reflexivity|]. split; [exact Hok'|].
      replace (Z.to_nat ((D + steps - 1) / steps) - a)%nat
        with (S (Z.to_nat ((D + steps - 1) / steps) - S a))
        by (rewrite Hnf; destruct (D mod steps =? 0); lia).
      cbn [seq]. constructor; [|exact Hall].
      rewrite Z.min_l by nia. exact Hvals.
    + (* the last index *)
      assert (Ha : Z.of_nat a = D / steps) by lia.
      assert (c = 0%nat) as -> by lia. cbn [seq map backtesting_loop].
      destruct (Z.eqb_spec (D mod steps) 0) as [Hr|Hr]; cbn [negb].
      * exists [], h. rewrite app_nil_r. split; [reflexivity|].
        split; [exact Hok|].
        replace (Z.to_nat ((D + steps - 1) / steps) - a)%nat with 0%nat
          by (rewrite Hnf; lia).
        constructor.
      * destruct (predict_on_window s h e d y
                    (k + Z.of_nat a * steps - ws) (k + Z.of_nat a * steps)
                    (D mod steps))
          as (h1 & pred & Hrun & Hok1 & Hvals); try assumption; try lia; try nia.
        cbn [option_map]. unfold bind at 1. rewrite Hrun.
        exists [pred], h1. split; [reflexivity|]. split; [exact Hok1|].
        replace (Z.to_nat ((D + steps - 1) / steps) - a)%nat with 1%nat
          by (rewrite Hnf; lia).
        cbn [seq]. constructor; [|constructor].
        replace (Z.min steps (D - Z.of_nat a * steps)) with (D mod steps) by nia.
        exact Hvals.
Qed.

End BacktestingRun.

Section BacktestingResult.
Context {V M : Type} `{Float V} `{Regressor V M} `{Metrics V}.
Implicit Types (w : World V M) (s : Forecaster V M) (y : Series V)
  (h : list (list V)).

(** Folds of [steps] values, the last one of what is left, add up to the
    [D] positions after the initial window. *)
Lemma fold_lengths_sum {A} (D steps : Z) (c a : nat) (chunks : list (list A)) :
  1 <= steps ->
  (a + c)%nat = Z.to_nat ((D + steps - 1) / steps) ->
  Forall2 (fun (i : nat) chunk =>
             length chunk = Z.to_nat (Z.min steps (D - Z.of_nat i * steps)))
    (seq a c) chunks ->
  Z.of_nat (length (concat chunks)) = Z.max 0 (D - Z.of_nat a * steps).
Proof.
  intros Hs. revert a chunks.
  induction c as [|c IH]; intros a chunks Hac Hall; cbn [seq] in Hall.
  - apply Forall2_nil_inv_l in Hall as ->. cbn [concat length].
    destruct (Z_lt_le_dec 0 D) as [HD|HD]; [|nia].
    pose proof (Z.div_mod (D + steps - 1) steps ltac:(lia)) as Hdm.
    pose proof (Z.mod_pos_bound (D + steps - 1) steps ltac:(lia)) as Hmod.
    assert (0 <= (D + steps - 1) / steps) by (apply Z.div_pos; lia).
    nia.
  - apply Forall2_cons_inv_l in Hall as (chunk & rest & Hlen & Hall & ->).
    cbn [concat]. rewrite length_app, Nat2Z.inj_add, (IH (S a) rest) by
      (first [lia | exact Hall]).
    rewrite Hlen.
    assert (Hlt : Z.of_nat a * steps < D).
    { destruct (Z_lt_le_dec (Z.of_nat a * steps) D) as [Hl|Hl]; [exact Hl|].
      exfalso.
      assert (Hle : (D + steps - 1) / steps <= Z.of_nat a).
      { apply Z.lt_succ_r. apply Z.div_lt_upper_bound; nia. }
      lia. }
    lia.
Qed.

Lemma range_to_seq (n : Z) :
  range_list (range_to n) = map (fun j => 0 + Z.of_nat j) (seq 0 (Z.to_nat n)).
Proof. unfold range_list, range_to. cbn [start stop]. rewrite Z.sub_0_r. reflexivity. Qed.

(** The part of [backtesting_forecaster] after the initial fit, for a call
    without [exog] and without storing residuals. *)
Lemma backtesting_tail_run s y (k steps : Z) (mf : list V -> list V -> result V)
    h e d :
  fitted s = true -> included_exog s = false -> lags_ok s ->
  max_lag s <= window_size s <= k ->
  series_ok y -> has_null (s_values y) = false ->
  1 <= steps -> k < Z.of_nat (length (s_values y)) ->
  world_ok (mkWorld s h e d) ->
  let n := Z.of_nat (length (s_values y)) in
  let D := n - k in
  exists chunks h',
    length chunks = Z.to_nat ((D + steps - 1) / steps)
    /\ (forall (i : nat) chunk, chunks !! i = Some chunk ->
          recursive_forecast (regressor s) (lags s)
            (py_slice (s_values y) (k + Z.of_nat i * steps - window_size s)
               (k + Z.of_nat i * steps))
            (Z.to_nat (Z.min steps (D - Z.of_nat i * steps)))
          = Ok chunk)
    /\ Z.of_nat (length (concat chunks)) = D
    /\ bind (backtesting_loop (range_list (range_to (D / steps + 1))) y None k
               (window_size s) (D / steps + 1) (D mod steps) steps [])
         (fun preds =>
            bind (lift (np_concatenate (map s_values preds)))
              (fun backtest_predictions =>
                 let y_true :=
                   series_slice y k (k + Z.of_nat (length backtest_predictions)) in
                 bind (lift (mf (s_values y_true) backtest_predictions))
                   (fun metric_value =>
                      bind (ret tt)
                        (fun _ => ret ([metric_value], backtest_predictions)))))
         (mkWorld s h e d)
       = (mkWorld s h' e d,
          rbind (mf (drop (Z.to_nat k) (s_values y)) (concat chunks))
            (fun v => Ok ([v], concat chunks))).
Proof.
  intros Hf Hie Hlags Hws Hser Hnull Hsteps Hk Hok n D.
  destruct (lags_ok_bounds s Hlags) as (Hm1 & _ & _).
  assert (Hq : 0 <= D / steps) by (apply Z.div_pos; subst D n; lia).
  destruct (backtesting_loop_run s y k (window_size s) D steps e d Hf Hie Hlags
              Hws Hser Hnull Hsteps ltac:(subst D n; lia) eq_refl
              (Z.to_nat (D / steps + 1)) 0%nat [] h ltac:(lia) Hok)
    as (new & h' & Hloop & Hok' & Hall).
  rewrite Nat.sub_0_r in Hall.
  exists (map s_values new), h'.
  assert (Hlen : length (map s_values new)
                 = Z.to_nat ((D + steps - 1) / steps)).
  { rewrite length_map, <- (Forall2_length _ _ _ Hall), length_seq. reflexivity. }
  assert (Hsum : Z.of_nat (length (concat (map s_values new))) = D).
  { rewrite (fold_lengths_sum D steps (Z.to_nat ((D + steps - 1) / steps)) 0)
      by (first [ lia
                | apply Forall2_fmap_r; eapply Forall2_impl; [exact Hall|];
                  cbn; intros i pred Hi;
                  apply recursive_forecast_length in Hi; exact Hi ]).
    subst D n. lia. }
  split; [exact Hlen|]. split.
  { intros i chunk Hi. rewrite list_lookup_fmap in Hi.
    destruct (new !! i) as [pred|] eqn:Hnew; [|discriminate Hi].
    injection Hi as <-.
    destruct (Forall2_lookup_r _ _ _ _ _ Hall Hnew) as (j & Hj & Hrec).
    apply lookup_seq in Hj as [-> _]. exact Hrec. }
  split; [exact Hsum|].
  rewrite range_to_seq. unfold bind at 1. rewrite Hloop. cbn [app].
  assert (Hne : map s_values new <> []).
  { intros Hnil. rewrite Hnil in Hsum. cbn in Hsum. subst D n. lia. }
  unfold np_concatenate.
  destruct (map s_values new) as [|c0 cs] eqn:Hmap; [congruence|].
  rewrite bind_lift_Ok. cbv zeta. cbn [series_slice s_values].
  rewrite Hsum. subst D.
  replace (k + (n - k)) with n by lia. subst n.
  rewrite py_slice_to_end by lia.
  rewrite bind_lift.
  destruct (mf (drop (Z.to_nat k) (s_values y)) (concat (c0 :: cs)));
    cbn [rbind]; [|reflexivity].
  rewrite !bind_ret. reflexivity.
Qed.

End BacktestingResult.

(** X9.  Backtesting without [exog] and without storing residuals.  With
    an initial train size [k] (at least [max_lag], below [len(y)]) the
    forecaster is fitted once, on the first [k] values; without one, a
    fitted forecaster is used as it is and [k] is its window size.  The
    predictions are then made fold by fold: fold [i] is the recursive
    forecast from the [max_lag] observed values before position
    [k + i * steps], for [steps] steps or for what is left of the series,
    so every position from [k] on gets one prediction.  The call returns
    the metric of the observed values from [k] on against the predictions,
    and the predictions; the forecaster is left as the fit (or the caller)
    made it. *)
Theorem backtesting_forecaster_predictions {V M : Type} `{Float V}
    `{Regressor V M} `{Metrics V} (w : World V M) (ys : Series V)
    (steps : Z) (metric : string) (mf : list V -> list V -> result V)
    (initial_train_size : option Z) :
  lags_ok (self_ w) -> window_size (self_ w) = max_lag (self_ w) ->
  series_ok ys -> has_null (s_values ys) = false ->
  1 <= steps -> get_metric metric = Ok mf ->
  let vals := s_values ys in
  let n := Z.of_nat (length vals) in
  let m := max_lag (self_ w) in
  match initial_train_size with
  | Some k => Z.of_nat (length (lags (self_ w))) = m /\ m <= k < n
  | None =>
      world_ok w /\ fitted (self_ w) = true /\ included_exog (self_ w) = false
      /\ last_window (self_ w) <> None /\ m < n
  end ->
  let k := default m initial_train_size in
  let w1 :=
    match initial_train_size with
    | Some k => fst (fit (PySeries (series_slice (_preproces_y ys) 0 k)) None w)
    | None => w
    end in
  let D := n - k in
  exists (chunks : list (list V)) (w' : World V M),
    length chunks = Z.to_nat ((D + steps - 1) / steps)
    /\ (forall (i : nat) chunk, chunks !! i = Some chunk ->
          recursive_forecast (regressor (self_ w1)) (lags (self_ w))
            (py_slice vals (k + Z.of_nat i * steps - m) (k + Z.of_nat i * steps))
            (Z.to_nat (Z.min steps (D - Z.of_nat i * steps)))
          = Ok chunk)
    /\ Z.of_nat (length (concat chunks)) = D
    /\ backtesting_forecaster (PySeries ys) steps metric initial_train_size
         None false w
       = (w', rbind (mf (drop (Z.to_nat k) vals) (concat chunks))
                (fun v => Ok ([v], concat chunks)))
    /\ self_ w' = self_ w1.
Proof.
  intros Hlags Hws Hser Hnull Hsteps Hmf vals n m Hits k w1 D.
  destruct (lags_ok_bounds _ Hlags) as (Hm1 & _ & Hall).
  pose proof (preproces_y_series_ok ys Hser) as Hser'.
  pose proof (preproces_y_values ys) as Hvals.
  assert (Hnull' : has_null (s_values (_preproces_y ys)) = false)
    by (rewrite Hvals; exact Hnull).
  unfold backtesting_forecaster.
  rewrite bind_lift. cbn [_check_y]. rewrite Hnull. cbn [rbind].
  rewrite bind_lift_Ok, bind_get_self. rewrite Hvals. fold vals n.
  destruct initial_train_size as [k0|]; cbn [default] in k; subst k.
  - destruct Hits as [Hw Hk].
    destruct (Z.ltb_spec n k0); [lia|].
    destruct (Z.ltb_spec k0 (window_size (self_ w))); [lia|].
    rewrite bind_ret, bind_lift, Hmf. cbn [rbind option_map].
    (* the fit on the first [k0] values *)
    set (y0 := series_slice (_preproces_y ys) 0 k0) in *.
    assert (Hlen0 : Z.of_nat (length (s_values y0)) = k0).
    { subst y0. cbn [series_slice s_values].
      rewrite py_slice_length_in_range; rewrite ?Hvals; fold vals n; lia. }
    assert (Hser0 : series_ok y0).
    { subst y0. destruct (_preproces_y ys) as [ix vs].
      apply series_ok_py_slice, Hser'. }
    assert (Hnull0 : has_null (s_values y0) = false)
      by (apply has_null_py_slice, Hnull').
    pose proof (fit_no_exog_ok w y0 Hlags Hser0 Hnull0 ltac:(lia) Hw) as Hfit.
    destruct (fit_no_exog_inv w y0 Hfit)
      as (X & yt & tr & fr & res & d' & _ & _ & _ & _ & _ & _ & Hw1).
    pose proof (fit_world_ok w (PySeries y0) None ltac:(lia)
                  ltac:(intros ? [= <-]; exact Hser0) Hfit) as Hok1.
    fold w1 in Hw1, Hok1.
    rewrite bind_assoc. unfold bind at 1.
    destruct (fit (PySeries y0) None w) as [wf rf] eqn:Hrun.
    cbn [fst snd] in Hfit, w1. subst rf. subst w1.
    rewrite bind_ret, bind_get_self.
    destruct (Z.eqb_spec steps 0); [lia|].
    rewrite Hw1 in Hok1 |- *. cbn [self_ window_size regressor lags].
    match type of Hok1 with world_ok (mkWorld ?s ?h ?e ?d) =>
      assert (Hlags1 : lags_ok s) by exact Hlags;
      assert (Hws1 : max_lag s <= window_size s <= k0)
        by (cbn [max_lag window_size]; lia);
      assert (Hk1 : k0 < Z.of_nat (length (s_values (_preproces_y ys))))
        by (rewrite Hvals; fold vals n; lia);
      destruct (backtesting_tail_run s (_preproces_y ys) k0 steps mf h e d
                  eq_refl eq_refl Hlags1 Hws1 Hser' Hnull' Hsteps Hk1 Hok1)
        as (chunks & h' & Hlen & Hch & Hsum & Htail)
    end.
    cbn [regressor lags max_lag window_size] in Hlen, Hch, Hsum, Htail.
    rewrite Hvals in Hlen, Hch, Hsum, Htail. fold vals n in Hlen, Hch, Hsum, Htail.
    exists chunks. eexists.
    split; [exact Hlen|]. split.
    { intros i chunk Hi. rewrite <- (Hch i chunk Hi), Hws. reflexivity. }
    split; [exact Hsum|]. split; [exact Htail | reflexivity].
  - destruct Hits as (Hok & Hf & Hie & Hlw & Hmn).
    rewrite Hf. cbn [negb].
    destruct (self_last_window (self_ w)) as [lw|] eqn:Hlast; [|congruence].
    rewrite bind_ret, bind_lift, Hmf. cbn [rbind].
    rewrite bind_assoc, bind_get_self, bind_ret, bind_get_self.
    destruct (Z.eqb_spec steps 0); [lia|].
    subst w1. destruct w as [s h e d]. cbn [self_] in *.
    assert (Hws1 : max_lag s <= window_size s <= window_size s) by lia.
    assert (Hk1 : window_size s < Z.of_nat (length (s_values (_preproces_y ys))))
      by (rewrite Hvals; fold vals n; lia).
    destruct (backtesting_tail_run s (_preproces_y ys) (window_size s) steps mf
                h e d Hf Hie Hlags Hws1 Hser' Hnull' Hsteps Hk1 Hok)
      as (chunks & h' & Hlen & Hch & Hsum & Htail).
    rewrite Hvals in Hlen, Hch, Hsum, Htail. fold vals n in Hlen, Hch, Hsum, Htail.
    subst m D. rewrite <- Hws.
    exists chunks. eexists.
    split; [exact Hlen|]. split; [exact Hch|].
    split; [exact Hsum|]. split; [exact Htail | reflexivity].
Qed.

(** Witness of [backtesting_forecaster_returns_only]: a constant model 4,
    seven observations, the first three for the fit, folds of two steps. *)
Lemma backtesting_forecaster_returns_only_witness :
  let run :=
    backtesting_forecaster (PySeries (Qc_series [1; 2; 3; 4; 5; 6; 7])) 2
      "mean_absolute_error" (Some 3) None false (dummy_unfitted 4) in
  exists r,
    run = (fst run, Ok r)
    /\ is_ok (get_metric (V := fl) "mean_absolute_error") = true
    /\ window_size (self_ (dummy_unfitted 4)) <= 3 < 7.
Proof.
  intros run.
  assert (Hr : exists r, snd run = Ok r) by (eexists; vm_compute; reflexivity).
  destruct Hr as [r Hr]. exists r.
  assert (Hrun : run = (fst run, Ok r))
    by (rewrite <- Hr; apply surjective_pairing).
  split; [exact Hrun|].
  destruct (backtesting_forecaster_returns_only (dummy_unfitted 4) (fst run)
              (PySeries (Qc_series [1; 2; 3; 4; 5; 6; 7])) 2
              "mean_absolute_error" (Some 3) None false r Hrun)
    as (_ & _ & _ & Hm & ys & Hy & _ & Hk).
  split; [exact Hm|].
  injection Hy as <-. exact Hk.
Defined.

Lemma dummy_unfitted_lags_ok (c : Z) : lags_ok (self_ (dummy_unfitted c)).
Proof.
  split; [reflexivity|]. cbn [self_ dummy_unfitted lags].
  repeat constructor; lia.
Qed.

(** Witness of [backtesting_forecaster_predictions]: the same call; the
    folds are two of two steps, every prediction is the constant, and the
    mean absolute error against 4, 5, 6, 7 is 3/2. *)
Lemma backtesting_forecaster_predictions_witness :
  let w := dummy_unfitted 4 in
  let ys := Qc_series [1; 2; 3; 4; 5; 6; 7] in
  (lags_ok (self_ w) /\ window_size (self_ w) = max_lag (self_ w)
   /\ series_ok ys /\ has_null (s_values ys) = false /\ 1 <= 2
   /\ get_metric "mean_absolute_error" = Ok mean_absolute_error
   /\ Z.of_nat (length (lags (self_ w))) = max_lag (self_ w)
   /\ max_lag (self_ w) <= 3 < Z.of_nat (length (s_values ys)))
  /\ exists chunks w',
       length chunks = 2%nat
       /\ Z.of_nat (length (concat chunks)) = 4
       /\ backtesting_forecaster (PySeries ys) 2 "mean_absolute_error" (Some 3)
            None false w
          = (w', rbind (mean_absolute_error (drop 3 (s_values ys)) (concat chunks))
                   (fun v => Ok ([v], concat chunks))).
Proof.
  intros w ys.
  assert (H1 : lags_ok (self_ w)) by apply dummy_unfitted_lags_ok.
  assert (H2 : window_size (self_ w) = max_lag (self_ w)) by reflexivity.
  assert (H3 : series_ok ys) by (vm_compute; reflexivity).
  assert (H4 : has_null (s_values ys) = false) by (vm_compute; reflexivity).
  assert (H5 : 1 <= 2) by lia.
  assert (H6 : get_metric "mean_absolute_error" = Ok mean_absolute_error)
    by reflexivity.
  assert (H7 : Z.of_nat (length (lags (self_ w))) = max_lag (self_ w))
    by reflexivity.
  assert (H8 : max_lag (self_ w) <= 3 < Z.of_nat (length (s_values ys))).
  { replace (length (s_values ys)) with 7%nat by (vm_compute; reflexivity).
    change (max_lag (self_ w)) with 2. lia. }
  split; [exact (conj H1 (conj H2 (conj H3 (conj H4 (conj H5 (conj H6
                   (conj H7 H8)))))))|].
  destruct (backtesting_forecaster_predictions w ys 2 "mean_absolute_error"
              mean_absolute_error (Some 3) H1 H2 H3 H4 H5 H6 (conj H7 H8))
    as (chunks & w' & Hlen & _ & Hsum & Hrun & _).
  exists chunks, w'. split; [exact Hlen|]. split; [exact Hsum|]. exact Hrun.
Defined.


(** The call of the witnesses returns the metric 3/2 and four times the
    constant. *)
Example backtesting_forecaster_example :
  exists metric_value backtest_predictions,
    snd (backtesting_forecaster (PySeries (Qc_series [1; 2; 3; 4; 5; 6; 7])) 2
           "mean_absolute_error" (Some 3) None false (dummy_unfitted 4))
    = Ok (metric_value, backtest_predictions)
    /\ map (option_map this) metric_value = [Some (3 # 2)]%Q
    /\ map (option_map this) backtest_predictions
       = [Some (4 # 1); Some (4 # 1); Some (4 # 1); Some (4 # 1)]%Q.
Proof.
  eexists _, _. split; [vm_compute; reflexivity|].
  split; vm_compute; reflexivity.
Qed.

(* ================================================================= *)
(** * Further properties: exogenous data, the lag table, the splitter *)

Section FitExogFacts.
Context {V M : Type} `{Float V} `{Regressor V M}.
Implicit Types (w : World V M) (s : Forecaster V M) (h : list (list V)).

(** A successful [fit] leaves the forecaster fitted, and recorded as
    trained with exogenous data exactly when [exog] was given. *)
Lemma fit_flags w (y : pyobj V) (exog : option (pyobj V)) :
  snd (fit y exog w) = Ok tt ->
  fitted (self_ (fst (fit y exog w))) = true
  /\ included_exog (self_ (fst (fit y exog w)))
     = match exog with Some _ => true | None => false end.
Proof.
  destruct_world w. unfold fit. py_simp.
  rewrite bind_lift. destruct (_check_y y) as [ys|]; [|discriminate].
  py_simp. rewrite bind_lift.
  destruct (index_first_last _) as [tr'|]; [|discriminate].
  py_simp. rewrite bind_lift.
  destruct (index_freq_info _) as [fr|]; [|discriminate].
  py_simp.
  assert (Hex : exists et' ec' res,
            fit_exog (Z.of_nat (length (s_values (_preproces_y ys)))) exog
              (mkWorld (mkForecaster r (Some (type_of_index (s_index (_preproces_y ys))))
                          (Some fr) (Some tr') None false None None None None
                          false l m ws) h e d)
            = (mkWorld (mkForecaster r (Some (type_of_index (s_index (_preproces_y ys))))
                          (Some fr) (Some tr') None
                          (match exog with Some _ => true | None => false end)
                          et' ec' None None false l m ws) h e d, res)
              \/ (exists err,
                    snd (fit_exog (Z.of_nat (length (s_values (_preproces_y ys))))
                           exog
                           (mkWorld (mkForecaster r
                                       (Some (type_of_index (s_index (_preproces_y ys))))
                                       (Some fr) (Some tr') None false None None
                                       None None false l m ws) h e d))
                    = Raise err)).
  { unfold fit_exog. destruct exog as [xo|]; [|do 3 eexists; left; reflexivity].
    rewrite bind_lift.
    destruct (py_len xo) as [le|];
      [|exists None, None, (Ok None); right; eexists; reflexivity].
    destruct (negb (le =? _));
      [exists None, None, (Ok None); right; eexists; reflexivity|].
    rewrite bind_lift. destruct (_check_exog xo None None) as [xo'|];
      [|exists None, None, (Ok None); right; eexists; reflexivity].
    py_simp. destruct (_preproces_exog xo'); py_simp;
      do 3 eexists; left; reflexivity. }
  destruct Hex as (et' & ec' & res & [Hex|[err Hex]]).
  2:{ rewrite bind_run.
      destruct (fit_exog _ _ _) as [wx [ex|err']]; cbn [fst snd] in *;
        [discriminate Hex | discriminate]. }
  rewrite bind_run, Hex. cbn [fst snd].
  destruct res as [ex|]; [|discriminate].
  rewrite bind_lift.
  destruct (_check_aligment_y_exog _ ex); cbn [rbind]; [|discriminate].
  py_simp. rewrite bind_lift.
  destruct (_create_train_X_y _ _ ex) as [[X_train y_train]|]; cbn [rbind];
    [|discriminate].
  py_simp. rewrite bind_lift.
  destruct (series_sub _ _) as [residuals|]; cbn [rbind]; [|discriminate].
  destruct (1000 <? Z.of_nat (length residuals)).
  - rewrite bind_run.
    match goal with |- context [np_random_choice ?a ?n false (mkWorld ?ss ?hh ?ee ?dd)] =>
      destruct (np_random_choice_no_replace_run a n ss hh ee dd)
        as (d' & rs & -> & _ & _)
    end.
    cbn [fst snd]. destruct rs as [sample|]; [|discriminate].
    py_simp. intros _. split; reflexivity.
  - py_simp. intros _. split; reflexivity.
Qed.

End FitExogFacts.

(** X10.  A forecaster fitted with [exog] cannot predict: after a
    successful [fit(y, exog)] every call of [predict] raises and leaves the
    forecaster as it is.  Without [exog] (and [steps >= 1]) it is the
    Exception that asks for the exogenous variables; with [exog] the call
    stops in the guards or in the call of [_check_exog] with a keyword the
    function does not have. *)
Theorem fit_with_exog_blocks_predict {V M : Type} `{Float V} `{Regressor V M}
    (w : World V M) (y x : pyobj V) :
  snd (fit y (Some x) w) = Ok tt ->
  forall (steps : Z) (last_window exog : option (pyobj V)),
    exists err,
      predict steps last_window exog (fst (fit y (Some x) w))
      = (fst (fit y (Some x) w), Raise err)
      /\ (exog = None -> 1 <= steps ->
          err = Exception "Forecaster trained with exogenous variable/s. Same variable/s must be provided in `predict()`.")
      /\ (forall e le, exog = Some e -> 1 <= steps -> py_len e = Ok le ->
          err = if le <? steps
                then Exception "`exog` must have at least as many values as `steps` predicted."
                else TypeError "_check_exog() got an unexpected keyword argument 'ref_shape'").
Proof.
  intros Hfit steps last_window exog.
  destruct (fit_flags w y (Some x) Hfit) as [Hf Hie].
  set (w1 := fst (fit y (Some x) w)) in *.
  unfold predict. rewrite bind_get_self, Hf, Hie. cbn [negb].
  destruct (Z.ltb_spec steps 1) as [Hs|Hs].
  { eexists. split; [reflexivity|]. split; [intros; lia | intros; lia]. }
  destruct exog as [e|].
  - rewrite bool_decide_eq_false_2 by discriminate. cbn [negb andb].
    cbn [predict_exog]. rewrite bind_assoc, bind_lift.
    destruct (py_len e) as [le|err] eqn:Hlen; cbn [rbind].
    + destruct (le <? steps) eqn:Hle; rewrite bind_raise;
        (eexists; split; [reflexivity|]; split; [discriminate|]);
        intros e' le' [= <-] _ Hl'; rewrite Hlen in Hl';
        injection Hl' as <-; rewrite Hle; reflexivity.
    + eexists. split; [reflexivity|]. split; [discriminate|].
      intros e' le' [= <-] _ Hl'. rewrite Hlen in Hl'. discriminate Hl'.
  - rewrite bool_decide_eq_true_2 by reflexivity. cbn [andb].
    eexists. split; [reflexivity|]. split; [reflexivity | discriminate].
Qed.

(** Witness of [fit_with_exog_blocks_predict]: the series of the examples
    fitted together with an exogenous Series on the same index. *)
Lemma fit_with_exog_blocks_predict_witness :
  let x := PySeries (mkSeries (RangeIndex 0 6)
                       [Some 0; Some 1; Some 0; Some 1; Some 0; Some 1]) in
  snd (fit (PySeries example_y) (Some x) example_world) = Ok tt
  /\ exists err,
       predict 2 None None (fst (fit (PySeries example_y) (Some x) example_world))
       = (fst (fit (PySeries example_y) (Some x) example_world), Raise err).
Proof.
  intros x.
  assert (Hfit : snd (fit (PySeries example_y) (Some x) example_world) = Ok tt)
    by (vm_compute; reflexivity).
  split; [exact Hfit|].
  destruct (fit_with_exog_blocks_predict example_world (PySeries example_y) x
              Hfit 2 None None) as (err & Hrun & _).
  exists err. exact Hrun.
Defined.

Section LagTableFacts.
Context {V M : Type} `{Float V} `{Regressor V M}.
Implicit Types (s : Forecaster V M).

(** The index and the column names of the table [_create_lags] returns. *)
Lemma create_lags_frame s (y : Series V) (X : DataFrame V) (yt : Series V) :
  _create_lags s y = Ok (X, yt) ->
  df_index X = index_slice_from (s_index y) (max_lag s)
  /\ py_take (map lag_ (reverse (lags s))) (map Z.opp (lags s))
     = Ok (df_columns X).
Proof.
  unfold _create_lags, np_full2, np_full1.
  destruct (_ <? 0); [discriminate|].
  destruct (_ <? 0); cbn [orb rbind]; [discriminate|].
  destruct (bool_decide _); cbn [rbind]; [|discriminate].
  destruct (create_lags_loop _ _ _ _ _) as [[X' Y']|]; [|discriminate].
  cbn [rbind fst snd].
  destruct (py_take _ _) as [cols|]; [|discriminate]. cbn [rbind].
  destruct (result_mapM _ _) as [rows|]; [|discriminate]. cbn [rbind].
  intros [= <- <-]. cbn [df_index df_columns]. split; reflexivity.
Qed.

End LagTableFacts.

(** X11.  The training table of [_create_lags], for lags between 1 and
    [max_lag] and a series of [n] values.  The call returns exactly when
    [0 <= max_lag <= n] and there are as many lags as [max_lag].  It then
    returns [n - max_lag] rows and targets under the index of the series
    from position [max_lag] on: target [i] is [y[max_lag + i]], and column
    [j] of row [i] is the value [lags[j]] positions before that target.
    Column [j] is named after the lag at position [lags[j] - 1] of the lag
    array, which is [lags[j]] itself when the lags are 1, 2, ..., [max_lag]
    in this order. *)
Theorem create_lags_table {V M : Type} `{Float V} `{Regressor V M}
    (s : Forecaster V M) (y : Series V) :
  Forall (fun k => 1 <= k <= max_lag s) (lags s) ->
  let m := max_lag s in
  let vals := s_values y in
  let n := Z.of_nat (length vals) in
  (is_ok (_create_lags s y) = true
   <-> 0 <= m <= n /\ Z.of_nat (length (lags s)) = m)
  /\ forall X yt, _create_lags s y = Ok (X, yt) ->
       df_index X = index_slice_from (s_index y) m
       /\ s_index yt = index_slice_from (s_index y) m
       /\ s_values yt = drop (Z.to_nat m) vals
       /\ length (df_rows X) = Z.to_nat (n - m)
       /\ length (df_columns X) = length (lags s)
       /\ (forall (i : nat) row, df_rows X !! i = Some row ->
             length row = length (lags s)
             /\ forall (j : nat) k, lags s !! j = Some k ->
                  row !! j = vals !! (i + Z.to_nat m - Z.to_nat k)%nat)
       /\ (forall (j : nat) k, lags s !! j = Some k ->
             df_columns X !! j = lag_ <$> lags s !! (Z.to_nat k - 1)%nat)
       /\ (lags s = map (fun k => k + 1) (range_list (range_to m)) ->
           df_columns X = map lag_ (lags s)).
Proof.
  intros Hall m vals n.
  assert (Hinv : forall X yt, _create_lags s y = Ok (X, yt) ->
            0 <= m <= n /\ Z.of_nat (length (lags s)) = m).
  { intros X yt Hcl.
    destruct (create_lags_width _ _ _ _ Hcl) as [Hm0 Hw].
    destruct (create_lags_target _ _ _ _ Hcl) as (_ & Hmn & _).
    subst m n vals. lia. }
  split.
  { split.
    - destruct (_create_lags s y) as [[X yt]|] eqn:Hcl; [|discriminate].
      intros _. exact (Hinv X yt eq_refl).
    - intros [Hm Hw].
      destruct (create_lags_contiguous s y Hm Hw Hall) as (X & yt & W & -> & _).
      reflexivity. }
  intros X yt Hcl. destruct (Hinv X yt Hcl) as [Hm Hw].
  destruct (create_lags_frame s y X yt Hcl) as [Hix Hcols].
  destruct (create_lags_target _ _ _ _ Hcl) as (Hiy & _ & _).
  destruct (create_lags_targets s y X yt Hall Hcl) as [Hyt _].
  destruct (create_lags_contiguous s y Hm Hw Hall)
    as (X' & yt' & W & Hcl' & _ & _ & _ & HlX & Hrows & _ & _).
  rewrite Hcl in Hcl'. injection Hcl' as <- <-.
  destruct (py_take_neg (map lag_ (reverse (lags s))) (lags s))
    as (out & Hout & Hlen & Hnth).
  { rewrite length_map, length_reverse. eapply Forall_impl; [exact Hall|].
    cbn. intros k Hk. fold m in Hk. lia. }
  rewrite Hcols in Hout. injection Hout as <-.
  assert (Hname : forall (j : nat) k, lags s !! j = Some k ->
            df_columns X !! j = lag_ <$> lags s !! (Z.to_nat k - 1)%nat).
  { intros j k Hj. rewrite (Hnth j k Hj), length_map, length_reverse.
    rewrite list_lookup_fmap.
    assert (Hk : 1 <= k <= m).
    { exact (Forall_lookup_1 _ _ _ _ Hall Hj). }
    rewrite reverse_lookup by lia. do 2 f_equal. lia. }
  split; [exact Hix|]. split; [exact Hiy|]. split; [exact Hyt|].
  split; [exact HlX|]. split; [exact Hlen|]. split; [exact Hrows|].
  split; [exact Hname|].
  intros Hasc. apply list_eq. intros j.
  rewrite list_lookup_fmap.
  destruct (lags s !! j) as [k|] eqn:Hj.
  - rewrite (Hname j k Hj). cbn [fmap option_fmap option_map].
    assert (Hkj : k = Z.of_nat j + 1).
    { rewrite Hasc, list_lookup_fmap in Hj. unfold range_to in Hj.
      rewrite range_list_lookup in Hj.
      destruct (decide _); [|discriminate Hj]. injection Hj as <-. lia. }
    replace (Z.to_nat k - 1)%nat with j by lia. rewrite Hj. reflexivity.
  - apply lookup_ge_None_2. apply lookup_ge_None_1 in Hj. lia.
Qed.

(** Witness of [create_lags_table]: the forecaster and the series of the
    examples. *)
Lemma create_lags_table_witness :
  Forall (fun k => 1 <= k <= max_lag example_forecaster)
    (lags example_forecaster)
  /\ is_ok (_create_lags example_forecaster example_y) = true.
Proof.
  assert (Hall : Forall (fun k => 1 <= k <= max_lag example_forecaster)
                   (lags example_forecaster))
    by (repeat constructor; cbn; lia).
  split; [exact Hall|].
  apply (proj1 (create_lags_table example_forecaster example_y Hall)).
  cbn. lia.
Defined.

(** Lags given in descending order: the column named [lag_1] holds the
    values two positions before the targets. *)
Example create_lags_descending :
  _create_lags (mkForecaster tt None None None None false None None None None
                  false [2; 1] 2 2)
    (mkSeries (RangeIndex 0 4) [Some 10; Some 20; Some 30; Some 40])
  = Ok (mkDataFrame (RangeIndex 2 4) [lag_ 1; lag_ 2]
          [[Some 10; Some 20]; [Some 20; Some 30]],
        mkSeries (RangeIndex 2 4) [Some 30; Some 40]).
Proof. reflexivity. Qed.

Section SpliterCover.
Context {V : Type}.

Lemma range_list_app (a b c : Z) :
  a <= b <= c ->
  range_list (Range a b) ++ range_list (Range b c) = range_list (Range a c).
Proof.
  intros Habc. apply list_eq. intros i.
  destruct (decide (i < Z.to_nat (b - a))%nat) as [Hi|Hi].
  - rewrite lookup_app_l by (rewrite range_list_length; cbn [start stop]; lia).
    rewrite !range_list_lookup.
    repeat (destruct (decide _)); try reflexivity; lia.
  - rewrite lookup_app_r by (rewrite range_list_length; cbn [start stop]; lia).
    rewrite range_list_length, !range_list_lookup. cbn [start stop].
    repeat (destruct (decide _)); try reflexivity; try lia.
    f_equal. lia.
Qed.

(** The test ranges of the complete folds tile the positions after the
    initial train set. *)
Lemma complete_folds_cover (its steps : Z) (q : nat) :
  0 <= steps ->
  concat (map (fun f : split => range_list (snd f))
            (map (complete_fold its steps) (map Z.of_nat (seq 0 q))))
  = range_list (Range its (its + Z.of_nat q * steps)).
Proof.
  intros Hs. induction q as [|q IH].
  - cbn [seq map concat]. unfold range_list. cbn [start stop].
    replace (Z.to_nat (its + Z.of_nat 0 * steps - its)) with 0%nat by lia.
    reflexivity.
  - rewrite seq_S, !map_app, concat_app, IH. cbn [map concat complete_fold snd].
    rewrite app_nil_r, Nat.add_0_l.
    replace (its + Z.of_nat (S q) * steps)
      with (its + Z.of_nat q * steps + steps) by lia.
    apply range_list_app. nia.
Qed.

End SpliterCover.

(** X12.  The test ranges [time_series_spliter] yields tile the series
    after the initial train set, in order, without gap or overlap: put end
    to end they are the positions from [initial_train_size] up to the end
    of the series when incomplete folds are allowed (and at least [steps]
    positions are left), and up to the last multiple of [steps] otherwise;
    with fewer than [steps] positions left no position is tested.  A
    negative [steps] yields nothing, [steps = 0] raises ZeroDivisionError
    and an initial train size above [len(y)] the Exception of the guard. *)
Theorem time_series_spliter_cover {V : Type} (y : pyobj V)
    (initial_train_size steps : Z) (allow_incomplete_fold : bool) (leny : Z) :
  is_series_or_1d y = true -> py_len y = Ok leny ->
  let left := leny - initial_train_size in
  (initial_train_size <= leny -> 1 <= steps ->
   exists folds,
     time_series_spliter y initial_train_size steps allow_incomplete_fold
     = Ok folds
     /\ concat (map (fun f : split => range_list (snd f)) folds)
        = range_list
            (Range initial_train_size
               (initial_train_size
                + (if left <? steps then 0
                   else if allow_incomplete_fold then left
                   else left / steps * steps))))
  /\ (initial_train_size <= leny -> steps < 0 ->
      time_series_spliter y initial_train_size steps allow_incomplete_fold
      = Ok [])
  /\ (initial_train_size <= leny -> steps = 0 ->
      time_series_spliter y initial_train_size steps allow_incomplete_fold
      = Raise ZeroDivisionError)
  /\ (leny < initial_train_size ->
      time_series_spliter y initial_train_size steps allow_incomplete_fold
      = Raise (Exception "`initial_train_size` must be smaller than lenght of `y`.")).
Proof.
  intros Hy Hlen left. split; [|split; [|split]].
  - intros Hits Hsteps. eexists. split; [apply spliter_closed; eassumption|].
    fold left.
    destruct (Z.ltb_spec left steps) as [Hshort|Hlong].
    { cbn [map concat]. unfold range_list. cbn [start stop].
      replace (Z.to_nat (initial_train_size + 0 - initial_train_size))
        with 0%nat by lia.
      reflexivity. }
    pose proof (Z.div_mod left steps ltac:(lia)) as Hdm.
    pose proof (Z.mod_pos_bound left steps ltac:(lia)) as Hmod.
    assert (Hq : 0 <= left / steps) by (apply Z.div_pos; lia).
    rewrite map_app, concat_app, complete_folds_cover by lia.
    rewrite Z2Nat.id by lia.
    destruct (Z.eqb_spec (left mod steps) 0) as [Hr|Hr]; cbn [negb andb].
    + rewrite app_nil_r.
      destruct allow_incomplete_fold; [|reflexivity].
      f_equal. f_equal. lia.
    + destruct allow_incomplete_fold; cbn [map concat last_fold snd].
      * rewrite app_nil_r. rewrite range_list_app by (subst left; nia).
        f_equal. f_equal. subst left. lia.
      * rewrite app_nil_r. reflexivity.
  - intros Hits Hsteps.
    assert (Hneg : left / steps <= 0).
    { pose proof (Z.div_mod left steps ltac:(lia)) as Hdm.
      pose proof (Z.mod_neg_bound left steps ltac:(lia)) as Hmod.
      destruct (Z_le_gt_dec (left / steps) 0) as [Hle|Hgt]; [exact Hle|].
      assert (steps * (left / steps) <= steps * 1)
        by (apply Z.mul_le_mono_nonpos_l; lia).
      subst left. lia. }
    unfold time_series_spliter.
    destruct y; try discriminate Hy; rewrite Hlen; cbn [rbind];
      (destruct (Z.ltb_spec leny initial_train_size); [lia|]);
      (destruct (Z.eqb_spec steps 0); [lia|]);
      fold left;
      (destruct (Z.eqb_spec (left / steps + 1) 1); [reflexivity|]);
      unfold range_list, range_to; cbn [start stop];
      replace (Z.to_nat (left / steps + 1 - 0)) with 0%nat by lia;
      reflexivity.
  - intros Hits ->. unfold time_series_spliter.
    destruct y; try discriminate Hy; rewrite Hlen; cbn [rbind];
      (destruct (Z.ltb_spec leny initial_train_size); [lia|]); reflexivity.
  - intros Hits. unfold time_series_spliter.
    destruct y; try discriminate Hy; rewrite Hlen; cbn [rbind];
      (destruct (Z.ltb_spec leny initial_train_size); [|lia]); reflexivity.
Qed.

(** Witness of [time_series_spliter_cover]: ten values, five of them for
    the initial train set, folds of two steps; the test ranges are the
    positions 5 to 9. *)
Lemma time_series_spliter_cover_witness :
  let y := PyNdarray (repeat tt 10) in
  (is_series_or_1d y = true /\ py_len y = Ok 10)
  /\ exists folds,
       time_series_spliter y 5 2 true = Ok folds
       /\ concat (map (fun f : split => range_list (snd f)) folds)
          = [5; 6; 7; 8; 9].
Proof.
  intros y.
  assert (Hy : is_series_or_1d y = true) by reflexivity.
  assert (Hlen : py_len y = Ok 10) by reflexivity.
  split; [exact (conj Hy Hlen)|].
  destruct (proj1 (time_series_spliter_cover y 5 2 true 10 Hy Hlen)
              ltac:(lia) ltac:(lia)) as (folds & Hrun & Hcover).
  exists folds. split; [exact Hrun | exact Hcover].
Defined.

(* ================================================================= *)
(** * Properties of cross-validation *)

Section CrossValidationFacts.
Context {V M : Type} `{Float V} `{Regressor V M} `{Metrics V} `{SeriesArith V}.
Variable KeyError : exn.
Implicit Types (w : World V M) (s : Forecaster V M) (y : Series V).

(** A loop that returns has run every fold: one prediction and one metric
    per fold; and it cannot return from a fold with [exog] or one that
    stores residuals. *)
Lemma cv_loop_returns (splits : list split) y (exog : option (Exog V))
    (mf : list V -> list V -> result V) (store : bool) :
  forall acc_p acc_m w w' ps ms,
    cv_loop KeyError splits y exog mf store acc_p acc_m w = (w', Ok (ps, ms)) ->
    length ps = (length acc_p + length splits)%nat
    /\ length ms = (length acc_m + length splits)%nat
    /\ (splits = [] -> w' = w)
    /\ (splits <> [] -> store = false /\ exog = None).
Proof.
  induction splits as [|[train test] splits IH];
    intros acc_p acc_m w w' ps ms Hrun.
  - cbn [cv_loop] in Hrun. unfold ret in Hrun. injection Hrun as <- <- <-.
    cbn [length]. repeat split; try lia; congruence.
  - cbn [cv_loop] in Hrun.
    apply bind_Ok_inv in Hrun as (w1 & pred & Hpred & Hrun).
    apply bind_Ok_inv in Hrun as (w2 & y_test & Hyt & Hrun).
    apply bind_Ok_inv in Hrun as (w3 & mv & Hmv & Hrun).
    apply bind_Ok_inv in Hrun as (w4 & [] & Hst & Hrun).
    apply IH in Hrun as (Hlp & Hlm & _ & _).
    rewrite length_app in Hlp, Hlm. cbn [length] in *.
    split; [lia|]. split; [lia|]. split; [discriminate|]. intros _. split.
    + destruct store; [|reflexivity]. exfalso.
      apply bind_Ok_inv in Hst as (w5 & y_test' & _ & Hst).
      apply bind_Ok_inv in Hst as (w6 & res & _ & Hst).
      unfold set_out_sample_residuals in Hst. rewrite bind_raise in Hst.
      discriminate Hst.
    + destruct exog as [e|]; [|reflexivity]. exfalso.
      apply bind_Ok_inv in Hpred as (w5 & y_train & _ & Hpred).
      apply bind_Ok_inv in Hpred as (w6 & e_train & _ & Hpred).
      apply bind_Ok_inv in Hpred as (w7 & [] & _ & Hpred).
      apply bind_Ok_inv in Hpred as (w8 & e_test & _ & Hpred).
      destruct (predict_exog_raises (range_len test) None e_test w8) as [err He].
      rewrite He in Hpred. discriminate Hpred.
Qed.

End CrossValidationFacts.

(** X13.  [cv_forecaster] returns normally only for a Series without
    missing values, a known metric and an initial train size between the
    window size and [len(y)].  If the splitter yields no fold it returns
    two empty arrays and leaves the forecaster untouched.  If there is a
    fold, it returns only when called with [set_out_sample_residuals=False]
    and without [exog], with one metric per fold: with the default
    [set_out_sample_residuals=True] the first fold ends in the Exception of
    [set_out_sample_residuals], which is given a Series. *)
Theorem cv_forecaster_returns_only {V M : Type} `{Float V} `{Regressor V M}
    `{Metrics V} `{SeriesArith V} (KeyError : exn) (w w' : World V M)
    (y : pyobj V) (initial_train_size steps : Z) (metric : string)
    (exog : option (pyobj V)) (allow_incomplete_fold store_residuals : bool)
    (r : list V * list V) :
  cv_forecaster KeyError y initial_train_size steps metric exog
    allow_incomplete_fold store_residuals w = (w', Ok r) ->
  exists ys folds,
    y = PySeries ys /\ has_null (s_values ys) = false
    /\ window_size (self_ w) <= initial_train_size
       <= Z.of_nat (length (s_values ys))
    /\ is_ok (get_metric metric) = true
    /\ time_series_spliter (PySeries ys) initial_train_size steps
         allow_incomplete_fold = Ok folds
    /\ length (fst r) = length folds
    /\ (folds = [] -> r = ([], []) /\ w' = w)
    /\ (folds <> [] -> store_residuals = false /\ exog = None).
Proof.
  unfold cv_forecaster. intros Hrun.
  apply bind_Ok_inv in Hrun as (w1 & ys & Hy & Hrun).
  apply lift_Ok_inv in Hy as [-> Hy].
  assert (Hnull : y = PySeries ys /\ has_null (s_values ys) = false).
  { pose proof (check_y_inv _ _ Hy) as ->. split; [reflexivity|].
    cbn [_check_y] in Hy. destruct (has_null (s_values ys)); [discriminate Hy|].
    reflexivity. }
  destruct Hnull as [-> Hnull]. clear Hy.
  apply bind_Ok_inv in Hrun as (w1 & ex & Hex & Hrun).
  apply lift_Ok_inv in Hex as [-> Hex].
  rewrite bind_get_self in Hrun. rewrite preproces_y_values in Hrun.
  destruct (Z.ltb_spec (Z.of_nat (length (s_values ys))) initial_train_size);
    [discriminate Hrun|].
  destruct (Z.ltb_spec initial_train_size (window_size (self_ w)));
    [discriminate Hrun|].
  apply bind_Ok_inv in Hrun as (w1 & mf & Hmf & Hrun).
  apply lift_Ok_inv in Hmf as [-> Hmf].
  apply bind_Ok_inv in Hrun as (w1 & folds & Hsp & Hrun).
  apply lift_Ok_inv in Hsp as [-> Hsp].
  apply bind_Ok_inv in Hrun as (w2 & [ps ms] & Hloop & Hrun).
  apply cv_loop_returns in Hloop as (Hlp & Hlm & Hnil & Hne).
  cbn [fst snd length] in *.
  exists ys, folds. split; [reflexivity|]. split; [exact Hnull|].
  split; [lia|]. split; [rewrite Hmf; reflexivity|].
  split.
  { unfold time_series_spliter in *. cbn [py_len] in *.
    rewrite preproces_y_values in Hsp. exact Hsp. }
  assert (Hex' : folds <> [] -> exog = None).
  { intros Hf. destruct (Hne Hf) as [_ ->].
    destruct exog as [x|]; [|reflexivity].
    destruct (_check_exog x None None); cbn [rbind] in Hex; discriminate Hex. }
  destruct folds as [|fold folds].
  - destruct ps; [|discriminate Hlp]. destruct ms; [|discriminate Hlm].
    injection Hrun as <- <-. rewrite (Hnil eq_refl).
    split; [reflexivity|]. split; [split; reflexivity|]. congruence.
  - destruct ps as [|p ps]; [discriminate Hlp|].
    destruct ms as [|mv ms]; [discriminate Hlm|].
    apply bind_Ok_inv in Hrun as (w3 & cat & Hcat & Hrun).
    injection Hrun as <- <-. cbn [fst length] in *.
    split; [lia|]. split; [discriminate|].
    intros Hf. split; [apply Hne, Hf | apply Hex', Hf].
Qed.

Section GetitemFacts.
Context {V : Type} `{Float V}.
Variable KeyError : exn.

Lemma range_list_shifted_seq (a b : Z) :
  range_list (Range a b) = map (fun k => a + Z.of_nat k) (seq 0 (Z.to_nat (b - a))).
Proof. reflexivity. Qed.

(** Taking the positions of a range that lies in a list is slicing. *)
Lemma py_take_range_list {A} (l : list A) (a b : Z) :
  0 <= a <= b -> b <= Z.of_nat (length l) ->
  py_take l (range_list (Range a b)) = Ok (py_slice l a b).
Proof.
  intros Ha Hb.
  rewrite range_list_shifted_seq, py_take_range by lia.
  rewrite py_slice_in_range by lia. rewrite Nat.add_0_r. reflexivity.
Qed.

(** In the labels of a RangeIndex every label is at one position. *)
Lemma positions_of_label_range (i a : Z) (c s : nat) (k : Z) :
  positions_of_label i
    (map IntLabel (map (fun j => a + Z.of_nat j) (seq s c))) k
  = if decide (a + Z.of_nat s <= k < a + Z.of_nat s + Z.of_nat c)
    then [i + (k - (a + Z.of_nat s))] else [].
Proof.
  revert i s. induction c as [|c IH]; intros i s; cbn [seq map positions_of_label].
  - destruct (decide _); [lia | reflexivity].
  - rewrite IH. destruct (bool_decide_reflect (IntLabel (a + Z.of_nat s) = IntLabel k))
      as [Heq|Hne].
    + injection Heq as <-.
      destruct (decide _); [lia|]. destruct (decide _); [|lia].
      cbn [app]. f_equal. lia.
    + assert (a + Z.of_nat s <> k) by congruence.
      cbn [app]. repeat (destruct (decide _)); try reflexivity; try lia.
      f_equal. lia.
Qed.

(** [y[range(a, b)]] on a Series [_preproces_y] returned, for a range that
    is empty or lies in the series: the values [y[a:b]], one label each. *)
Lemma series_getitem_range_run (ys : Series V) (a b : Z) :
  series_ok ys ->
  b <= a \/ (0 <= a /\ b <= Z.of_nat (length (s_values ys))) ->
  exists s',
    series_getitem_range KeyError (_preproces_y ys) (Range a b) = Ok s'
    /\ s_values s' = (if b <=? a then [] else py_slice (s_values ys) a b)
    /\ series_ok s'.
Proof.
  intros Hser Hab. unfold _preproces_y, series_getitem_range.
  destruct ys as [ix vals]. cbn [s_index s_values] in *.
  unfold series_ok in Hser. cbn [s_index s_values] in Hser.
  destruct (Z.leb_spec b a) as [Hba|Hlt].
  - (* an empty range *)
    assert (Hkey : range_list (Range a b) = []).
    { unfold range_list. cbn [start stop].
      replace (Z.to_nat (b - a)) with 0%nat by lia. reflexivity. }
    destruct (has_freq ix) eqn:Hfreq; cbn [s_index s_values].
    + destruct ix as [?|[f|] ts|?]; try discriminate Hfreq.
      rewrite Hkey. eexists. split; [reflexivity|]. split; reflexivity.
    + unfold series_loc_list. rewrite Hkey. cbn [result_mapM rbind concat py_take].
      eexists. split; [reflexivity|]. split; reflexivity.
  - destruct Hab as [?|[Ha Hb]]; [lia|].
    destruct (has_freq ix) eqn:Hfreq; cbn [s_index s_values].
    + destruct ix as [?|[f|] ts|?]; try discriminate Hfreq.
      cbn [index_labels] in Hser. rewrite length_map in Hser.
      destruct (range_list (Range a b)) as [|k0 key] eqn:Hkey.
      { apply (f_equal length) in Hkey. rewrite range_list_length in Hkey.
        cbn [start stop length] in Hkey. lia. }
      rewrite <- Hkey, !py_take_range_list by lia. cbn [rbind].
      eexists. split; [reflexivity|]. split; [reflexivity|].
      unfold series_ok. cbn [s_index s_values index_labels].
      rewrite length_map. apply py_slice_length. exact Hser.
    + unfold series_loc_list. cbn [index_labels].
      set (n := Z.of_nat (length vals)) in *.
      assert (Hpos : result_mapM
                (fun k => match positions_of_label 0
                                  (map IntLabel (range_list (Range 0 n))) k with
                          | [] => Raise KeyError
                          | ps => Ok ps
                          end) (range_list (Range a b))
              = Ok (map (fun k => [k]) (range_list (Range a b)))).
      { assert (Hin : Forall (fun k => 0 <= k < n) (range_list (Range a b))).
        { apply List.Forall_forall. intros k Hk. apply range_list_In in Hk.
          cbn [start stop] in Hk. lia. }
        rewrite (range_list_shifted_seq 0 n).
        induction (range_list (Range a b)) as [|k key IH]; [reflexivity|].
        apply Forall_cons in Hin as [Hk Hin]. cbn [result_mapM map].
        rewrite positions_of_label_range.
        destruct (decide _) as [_|Hout]; [|lia]. cbn [rbind].
        rewrite (IH Hin). cbn [rbind]. do 3 f_equal. lia. }
      rewrite Hpos. cbn [rbind].
      assert (Hcat : forall l : list Z, concat (map (fun k => [k]) l) = l).
      { induction l as [|x l IHl]; [reflexivity|]. cbn. rewrite IHl. reflexivity. }
      rewrite Hcat, !py_take_range_list
        by (rewrite ?length_map, ?range_list_length; cbn [start stop]; lia).
      cbn [rbind]. eexists. split; [reflexivity|]. split; [reflexivity|].
      unfold series_ok. cbn [s_index s_values index_labels].
      apply py_slice_length. rewrite length_map, range_list_length.
      cbn [start stop]. lia.
Qed.

End GetitemFacts.

Section FitPredictFacts.
Context {V M : Type} `{Float V} `{Regressor V M}.
Implicit Types (w : World V M) (s : Forecaster V M).

(** What a [fit] without [exog] followed by a [predict] from the stored
    window says when both return: the series had at least [2 * max_lag]
    values, the model was trained on its lag table, and the predictions
    are the recursive forecast from its last [max_lag] values. *)
Lemma fit_predict_inv w w1 w2 (ys pred : Series V) (steps : Z) :
  lags_ok (self_ w) -> series_ok ys ->
  fit (PySeries ys) None w = (w1, Ok tt) ->
  predict steps None None w1 = (w2, Ok pred) ->
  let n := Z.of_nat (length (s_values ys)) in
  let m := max_lag (self_ w) in
  1 <= steps /\ 2 * m <= n /\ Z.of_nat (length (lags (self_ w))) = m
  /\ self_ w2 = self_ w1
  /\ lags (self_ w1) = lags (self_ w) /\ max_lag (self_ w1) = m
  /\ (exists X yt,
        _create_lags (self_ w) (_preproces_y ys) = Ok (X, yt)
        /\ regressor (self_ w1)
           = reg_fit (regressor (self_ w)) (df_rows X) (s_values yt))
  /\ recursive_forecast (regressor (self_ w1)) (lags (self_ w))
       (drop (Z.to_nat (n - m)) (s_values ys)) (Z.to_nat steps)
     = Ok (s_values pred).
Proof.
  intros Hlags Hser Hrun Hpred n m.
  destruct (lags_ok_bounds _ Hlags) as (Hm1 & Hmin & Hall).
  assert (Hfit : snd (fit (PySeries ys) None w) = Ok tt) by (rewrite Hrun; reflexivity).
  assert (Hw1 : w1 = fst (fit (PySeries ys) None w)) by (rewrite Hrun; reflexivity).
  pose proof (fit_world_ok w (PySeries ys) None ltac:(lia)
                ltac:(intros ys' [= <-]; exact Hser) Hfit) as Hok'.
  destruct (fit_no_exog_inv w ys Hfit)
    as (X & yt & tr & fr & res & d' & _ & _ & _ & Hcl & _ & _ & Hw').
  rewrite <- Hw1 in Hok', Hw'.
  destruct (create_lags_width _ _ _ _ Hcl) as [_ Hwidth].
  destruct (create_lags_target _ _ _ _ Hcl) as (_ & Hmn & _).
  destruct (create_lags_targets _ _ _ _ Hall Hcl) as [Hyt _].
  rewrite preproces_y_values in Hmn, Hyt. fold n m in Hmn, Hyt.
  assert (Hf : fitted (self_ w1) = true) by (rewrite Hw'; reflexivity).
  assert (Hie : included_exog (self_ w1) = false) by (rewrite Hw'; reflexivity).
  assert (Hl : lags (self_ w1) = lags (self_ w)) by (rewrite Hw'; reflexivity).
  assert (Hml : max_lag (self_ w1) = m) by (rewrite Hw'; reflexivity).
  assert (Hreg : regressor (self_ w1)
                 = reg_fit (regressor (self_ w)) (df_rows X) (s_values yt))
    by (rewrite Hw'; reflexivity).
  assert (Hlw : last_window (self_ w1)
                = Some (index_slice_from (s_index yt) (- m), length (heap w)))
    by (rewrite Hw'; reflexivity).
  assert (Hsteps : 1 <= steps).
  { destruct (Z_lt_le_dec steps 1) as [Hlt|Hge]; [|exact Hge].
    unfold predict in Hpred. rewrite bind_get_self, Hf in Hpred.
    cbn [negb] in Hpred. destruct (Z.ltb_spec steps 1); [|lia].
    discriminate Hpred. }
  assert (Hself : self_ w2 = self_ w1 /\ snd (predict steps None None w1) = Ok pred).
  { destruct w1 as [s1 h1 e1 d1].
    destruct (predict_run steps None None s1 h1 e1 d1 Hok') as (h' & Hp & _).
    rewrite Hp in Hpred. injection Hpred as <- Hres.
    rewrite Hp. split; [reflexivity | exact Hres]. }
  destruct Hself as [Hself Hres].
  rewrite (predict_snd w1 steps None None Hok') in Hres.
  destruct (Hok' _ _ Hlw) as (vs & Hvs & Hix).
  assert (Hvs' : vs = drop (Z.to_nat (Z.max m (n - m))) (s_values ys)).
  { rewrite Hw' in Hvs. cbn [heap] in Hvs.
    rewrite list_lookup_middle in Hvs by reflexivity.
    injection Hvs as <-. rewrite Hyt. subst n m.
    unfold py_slice_from. rewrite length_drop.
    destruct (Z.ltb_spec (- max_lag (self_ w)) 0); [|lia].
    rewrite drop_drop. f_equal. lia. }
  assert (Hlvs : Z.of_nat (length vs) = Z.min m (n - m)).
  { rewrite Hvs', length_drop. subst n. lia. }
  clear Hw'.
  unfold predict_result, predict_window_result in Hres.
  rewrite Hf, Hie, Hlw in Hres. cbn [negb andb] in Hres.
  destruct (Z.ltb_spec steps 1); [lia|].
  rewrite bool_decide_eq_true_2 in Hres by reflexivity.
  cbn [negb andb rbind fst snd] in Hres.
  rewrite Hvs, Hl in Hres.
  assert (Hbig : 2 * m <= n).
  { destruct (Z_le_gt_dec (2 * m) n) as [Hle|Hgt]; [exact Hle|]. exfalso.
    destruct (decide (length vs = 0%nat)) as [Hz|Hnz].
    - rewrite Hz in Hix. rewrite (expand_index_empty _ steps Hix) in Hres.
      discriminate Hres.
    - destruct (expand_index_ok _ (length vs) steps Hix ltac:(lia) ltac:(lia)) as [ix' Hex].
      rewrite Hex in Hres. cbn [rbind] in Hres.
      destruct (Z.to_nat steps) as [|c] eqn:Hc; [lia|].
      cbn [recursive_forecast] in Hres.
      rewrite (py_take_lag_out vs (lags (self_ w)) m Hmin) in Hres by lia.
      discriminate Hres. }
  split; [exact Hsteps|]. split; [exact Hbig|]. split; [exact Hwidth|].
  split; [exact Hself|]. split; [exact Hl|]. split; [exact Hml|].
  split; [exists X, yt; split; [exact Hcl | exact Hreg]|].
  destruct (_expand_index _ steps) as [ix'|]; [|discriminate Hres].
  cbn [rbind] in Hres.
  replace (drop (Z.to_nat (n - m)) (s_values ys)) with vs
    by (rewrite Hvs'; f_equal; lia).
  destruct (recursive_forecast _ _ vs _) as [vals|]; [|discriminate Hres].
  cbn [rbind] in Hres. injection Hres as <-. reflexivity.
Qed.

End FitPredictFacts.

Section CrossValidationFolds.
Context {V M : Type} `{Float V} `{Regressor V M} `{Metrics V} `{SeriesArith V}.
Variable KeyError : exn.
Implicit Types (w : World V M) (s : Forecaster V M).

Lemma spliter_fold_shapes (y : pyobj V) (its steps n : Z) (allow : bool) folds :
  is_series_or_1d y = true -> py_len y = Ok n -> its <= n -> 1 <= steps ->
  time_series_spliter y its steps allow = Ok folds ->
  Forall (fold_shape its n) folds.
Proof.
  intros Hy Hlen Hits Hsteps Hsp.
  rewrite (spliter_closed y its steps allow n Hy Hlen Hits Hsteps) in Hsp.
  injection Hsp as <-.
  pose proof (Z.div_mod (n - its) steps ltac:(lia)) as Hdm.
  pose proof (Z.mod_pos_bound (n - its) steps ltac:(lia)) as Hmod.
  assert (Hq : 0 <= (n - its) / steps) by (apply Z.div_pos; lia).
  destruct (n - its <? steps); [constructor|].
  apply Forall_app. split.
  - apply List.Forall_forall. intros f Hf.
    apply in_map_iff in Hf as (i & <- & Hi).
    apply in_map_iff in Hi as (j & <- & Hj). apply in_seq in Hj.
    unfold fold_shape, complete_fold. cbn [fst snd start stop range_to].
    repeat split; nia.
  - destruct (Z.eqb_spec ((n - its) mod steps) 0); cbn [negb andb];
      [constructor|].
    destruct allow; [|constructor].
    unfold last_fold. constructor; [|constructor].
    unfold fold_shape. cbn [fst snd start stop range_to].
    repeat split; nia.
Qed.

Lemma spliter_first_fold (y : pyobj V) (its steps n : Z) (allow : bool)
    train test folds :
  is_series_or_1d y = true -> py_len y = Ok n -> its <= n -> 1 <= steps ->
  time_series_spliter y its steps allow = Ok ((train, test) :: folds) ->
  stop train = its.
Proof.
  intros Hy Hlen Hits Hsteps Hsp.
  rewrite (spliter_closed y its steps allow n Hy Hlen Hits Hsteps) in Hsp.
  injection Hsp as Hsp.
  destruct (Z.ltb_spec (n - its) steps) as [|Hge]; [discriminate Hsp|].
  assert (Hq : 1 <= (n - its) / steps)
    by (apply Z.div_le_lower_bound; lia).
  destruct (Z.to_nat ((n - its) / steps)) as [|q] eqn:Hqn; [lia|].
  cbn [seq map app] in Hsp. injection Hsp as <- _ _.
  cbn [stop range_to]. lia.
Qed.

Lemma take_py_slice {A} (l : list A) (e m : Z) :
  0 <= m <= e -> e <= Z.of_nat (length l) ->
  drop (Z.to_nat (e - m)) (py_slice l 0 e) = py_slice l (e - m) e.
Proof.
  intros Hm He. rewrite !py_slice_in_range by lia.
  rewrite Z.sub_0_r. change (Z.to_nat 0) with 0%nat. rewrite drop_0.
  rewrite take_drop_commute. do 2 f_equal. lia.
Qed.

(** The folds of a returned loop, without [exog] and without storing
    residuals. *)
Lemma cv_loop_folds (ys : Series V) (its : Z)
    (mf : list V -> list V -> result V) s0 :
  series_ok ys -> lags_ok s0 ->
  let vals := s_values ys in
  let n := Z.of_nat (length vals) in
  let m := max_lag s0 in
  forall folds acc_p acc_m w w' ps ms,
    lags (self_ w) = lags s0 -> max_lag (self_ w) = m ->
    Forall (fold_shape its n) folds ->
    cv_loop KeyError folds (_preproces_y ys) None mf false acc_p acc_m w
    = (w', Ok (ps, ms)) ->
    exists new_p new_m,
      ps = acc_p ++ new_p /\ ms = acc_m ++ new_m
      /\ length new_p = length folds /\ length new_m = length folds
      /\ (folds <> [] -> Z.of_nat (length (lags s0)) = m)
      /\ forall (i : nat) train test, folds !! i = Some (train, test) ->
           exists pred mv model,
             new_p !! i = Some pred /\ new_m !! i = Some mv
             /\ 2 * m <= stop train
             /\ (exists prev train_y X yt,
                   s_values train_y = py_slice vals 0 (stop train)
                   /\ _create_lags s0 train_y = Ok (X, yt)
                   /\ model = reg_fit prev (df_rows X) (s_values yt))
             /\ recursive_forecast model (lags s0)
                  (py_slice vals (stop train - m) (stop train))
                  (Z.to_nat (stop test - start test))
                = Ok (s_values pred)
             /\ mf (py_slice vals (start test) (stop test)) (s_values pred)
                = Ok mv.
Proof.
  intros Hser Hlags0 vals n m.
  destruct (lags_ok_bounds _ Hlags0) as (Hm1 & _ & _). fold m in Hm1.
  induction folds as [|[train test] folds IH];
    intros acc_p acc_m w w' ps ms Hl Hm Hshape Hrun.
  - cbn [cv_loop] in Hrun. unfold ret in Hrun. injection Hrun as _ <- <-.
    exists [], []. rewrite !app_nil_r. repeat split; try congruence.
    intros i train test Hi. rewrite lookup_nil in Hi. discriminate Hi.
  - apply Forall_cons in Hshape as [Hf Hshape].
    destruct Hf as (Htr & Hst & Hits & Hte). cbn [fst snd] in Htr, Hst, Hits, Hte.
    destruct test as [test_start test_stop].
    assert (Hlagsw : lags_ok (self_ w)).
    { destruct Hlags0 as [Hmax Hall]. split; rewrite ?Hl, ?Hm; assumption. }
    cbn [cv_loop] in Hrun.
    apply bind_Ok_inv in Hrun as (w2 & pred & Hpred & Hrun).
    apply bind_Ok_inv in Hpred as (w0 & y_train & Hget & Hpred).
    apply lift_Ok_inv in Hget as [-> Hget].
    apply bind_Ok_inv in Hpred as (w1 & [] & Hfit & Hpred).
    apply bind_Ok_inv in Hrun as (w3 & y_test & Hgt & Hrun).
    apply lift_Ok_inv in Hgt as [-> Hgt].
    apply bind_Ok_inv in Hrun as (w3 & mv & Hmv & Hrun).
    apply lift_Ok_inv in Hmv as [-> Hmv].
    rewrite bind_ret in Hrun.
    (* the train set *)
    rewrite Htr in Hget. unfold range_to in Hget.
    destruct (series_getitem_range_run KeyError ys 0 (stop train) Hser)
      as (y_train' & Hget' & Hvtr & Hsertr); [fold vals n; right; lia|].
    rewrite Hget in Hget'. injection Hget' as <-.
    destruct (fit_predict_inv w w1 w2 y_train pred
                (range_len (Range test_start test_stop)) Hlagsw
                Hsertr Hfit Hpred)
      as (_ & Hbig & Hwidth & Hself & Hl1 & Hm1' & (X & yt & Hcl & Hreg) & Hrec).
    rewrite Hm in Hbig, Hwidth, Hm1', Hrec. rewrite Hl in Hwidth, Hl1, Hrec.
    fold vals in Hvtr.
    destruct (Z.leb_spec (stop train) 0) as [Hempty|Hpos].
    { rewrite Hvtr in Hbig. cbn [length] in Hbig. lia. }
    assert (Hlen_tr : Z.of_nat (length (s_values y_train)) = stop train).
    { rewrite Hvtr, py_slice_length_in_range; fold n; lia. }
    rewrite Hlen_tr in Hbig, Hrec.
    rewrite Hvtr, take_py_slice in Hrec by (fold n; lia).
    (* the test set *)
    destruct (series_getitem_range_run KeyError ys test_start test_stop Hser)
      as (y_test' & Hgt' & Hvte & _); [fold vals n; cbn [start stop] in *; right; lia|].
    cbn [start stop] in *.
    rewrite Hgt in Hgt'. injection Hgt' as <-.
    destruct (Z.leb_spec test_stop test_start); [lia|].
    fold vals in Hvte. rewrite Hvte in Hmv.
    assert (Hsteps : Z.to_nat (range_len (Range test_start test_stop))
                     = Z.to_nat (test_stop - test_start)).
    { unfold range_len. rewrite range_list_length. cbn [start stop]. lia. }
    rewrite Hsteps in Hrec.
    (* the other folds *)
    apply IH in Hrun as (new_p & new_m & -> & -> & Hlp & Hlm & _ & Hfolds);
      [| rewrite Hself; congruence | rewrite Hself; congruence | exact Hshape].
    exists (pred :: new_p), (mv :: new_m).
    rewrite <- !app_assoc. cbn [app length].
    split; [reflexivity|]. split; [reflexivity|].
    split; [lia|]. split; [lia|]. split; [intros _; exact Hwidth|].
    intros [|i] train' test' Hi; cbn [lookup list_lookup] in Hi |- *.
    + injection Hi as <- <-.
      exists pred, mv, (regressor (self_ w1)).
      split; [reflexivity|]. split; [reflexivity|]. split; [exact Hbig|].
      split; [|split; [exact Hrec | exact Hmv]].
      exists (regressor (self_ w)), (_preproces_y y_train), X, yt.
      split; [rewrite preproces_y_values; exact Hvtr|].
      split; [|exact Hreg].
      rewrite <- Hcl. apply create_lags_ext; symmetry; assumption.
    + apply Hfolds, Hi.
Qed.

End CrossValidationFolds.

(** X14.  Cross-validation without [exog] and without storing residuals,
    when it returns: there is one metric and one block of predictions per
    fold of the splitter; for the fold with train range [range(e)] and
    test range [range(e, e')] the model was refitted on the lag table of
    the first [e] values only, the predictions are its recursive forecast
    from the [max_lag] values before position [e], one per test position,
    and the metric compares them with the observed values [y[e:e']].  A
    call that runs a fold returns only if the lag set has no gap and the
    initial train size is at least [2 * max_lag]: the window [fit] stores
    is cut from the targets, which are [max_lag] fewer than the values. *)
Theorem cv_forecaster_folds {V M : Type} `{Float V} `{Regressor V M}
    `{Metrics V} `{SeriesArith V} (KeyError : exn) (w w' : World V M)
    (ys : Series V) (initial_train_size steps : Z) (metric : string)
    (mf : list V -> list V -> result V) (allow_incomplete_fold : bool)
    (cv_metrics cv_predictions : list V) :
  lags_ok (self_ w) -> series_ok ys -> 1 <= steps ->
  get_metric metric = Ok mf ->
  cv_forecaster KeyError (PySeries ys) initial_train_size steps metric None
    allow_incomplete_fold false w = (w', Ok (cv_metrics, cv_predictions)) ->
  let vals := s_values ys in
  let m := max_lag (self_ w) in
  exists folds chunks,
    time_series_spliter (PySeries ys) initial_train_size steps
      allow_incomplete_fold = Ok folds
    /\ length chunks = length folds /\ length cv_metrics = length folds
    /\ cv_predictions = concat chunks
    /\ (folds <> [] ->
        2 * m <= initial_train_size /\ Z.of_nat (length (lags (self_ w))) = m)
    /\ forall (i : nat) train test, folds !! i = Some (train, test) ->
         exists chunk mv model,
           chunks !! i = Some chunk /\ cv_metrics !! i = Some mv
           /\ (exists prev train_y X yt,
                 s_values train_y = py_slice vals 0 (stop train)
                 /\ _create_lags (self_ w) train_y = Ok (X, yt)
                 /\ model = reg_fit prev (df_rows X) (s_values yt))
           /\ recursive_forecast model (lags (self_ w))
                (py_slice vals (stop train - m) (stop train))
                (Z.to_nat (stop test - start test))
              = Ok chunk
           /\ mf (py_slice vals (start test) (stop test)) chunk = Ok mv.
Proof.
  intros Hlags Hser Hsteps Hmf Hrun vals m.
  unfold cv_forecaster in Hrun.
  apply bind_Ok_inv in Hrun as (w1 & ys' & Hy & Hrun).
  apply lift_Ok_inv in Hy as [-> Hy].
  pose proof (check_y_inv _ _ Hy) as [= <-]. clear Hy.
  rewrite bind_lift_Ok, bind_get_self in Hrun.
  rewrite preproces_y_values in Hrun. fold vals in Hrun.
  destruct (Z.ltb_spec (Z.of_nat (length vals)) initial_train_size) as [|Hits];
    [discriminate Hrun|].
  destruct (Z.ltb_spec initial_train_size (window_size (self_ w)));
    [discriminate Hrun|].
  rewrite bind_lift, Hmf in Hrun. cbn [rbind] in Hrun.
  apply bind_Ok_inv in Hrun as (w1 & folds & Hsp & Hrun).
  apply lift_Ok_inv in Hsp as [-> Hsp].
  assert (Hsp' : time_series_spliter (PySeries ys) initial_train_size steps
                   allow_incomplete_fold = Ok folds).
  { unfold time_series_spliter in *. cbn [py_len] in *.
    rewrite preproces_y_values in Hsp. exact Hsp. }
  pose proof (spliter_fold_shapes (PySeries ys) initial_train_size steps
                (Z.of_nat (length vals)) allow_incomplete_fold folds
                eq_refl eq_refl Hits Hsteps Hsp') as Hshape.
  apply bind_Ok_inv in Hrun as (w2 & [ps ms] & Hloop & Hrun).
  destruct (cv_loop_folds KeyError ys initial_train_size mf (self_ w) Hser Hlags
              folds [] [] w w2 ps ms eq_refl eq_refl Hshape Hloop)
    as (new_p & new_m & Hps & Hms & Hlp & Hlm & Hgap & Hfolds).
  cbn [app] in Hps, Hms. subst ps ms. cbn [fst snd] in Hrun.
  exists folds, (map s_values new_p).
  split; [exact Hsp'|]. rewrite length_map.
  assert (Hres : cv_metrics = new_m /\ cv_predictions = concat (map s_values new_p)).
  { destruct new_p as [|p new_p], new_m as [|mv new_m];
      cbn [length] in Hlp, Hlm; try (rewrite <- Hlp in Hlm; discriminate Hlm).
    - unfold ret in Hrun. injection Hrun as _ <- <-. split; reflexivity.
    - rewrite bind_lift in Hrun. cbn [np_concatenate map rbind] in Hrun.
      unfold ret in Hrun. injection Hrun as _ <- <-. split; reflexivity. }
  destruct Hres as [-> ->].
  split; [exact Hlp|]. split; [exact Hlm|]. split; [reflexivity|].
  split.
  { intros Hne. split; [|apply Hgap, Hne].
    destruct folds as [|[train test] folds]; [congruence|].
    destruct (Hfolds 0%nat train test eq_refl)
      as (pred & mv & model & _ & _ & Hbig & _).
    apply Forall_cons in Hshape as [(Htr & _ & Hle & _) _].
    cbn [fst snd] in Htr, Hle.
    rewrite <- (spliter_first_fold (PySeries ys) initial_train_size steps
                  (Z.of_nat (length vals)) allow_incomplete_fold train test folds
                  eq_refl eq_refl Hits Hsteps Hsp').
    exact Hbig. }
  intros i train test Hi.
  destruct (Hfolds i train test Hi)
    as (pred & mv & model & Hp & Hmv & _ & Hmodel & Hrec & Hmetric).
  exists (s_values pred), mv, model.
  rewrite list_lookup_fmap, Hp. split; [reflexivity|].
  split; [exact Hmv|]. split; [exact Hmodel|]. split; [exact Hrec | exact Hmetric].
Qed.

(** Witness of [cv_forecaster_returns_only]: a constant model 4, seven
    observations, four of them for the first train set, folds of two
    steps, the last one incomplete. *)
Lemma cv_forecaster_returns_only_witness :
  let run :=
    cv_forecaster (Exception "KeyError")
      (PySeries (Qc_series [1; 2; 3; 4; 5; 6; 7])) 4 2 "mean_absolute_error"
      None true false (dummy_unfitted 4) in
  exists r folds,
    run = (fst run, Ok r)
    /\ time_series_spliter (PySeries (Qc_series [1; 2; 3; 4; 5; 6; 7])) 4 2 true
       = Ok folds
    /\ length (fst r) = length folds.
Proof.
  intros run.
  assert (Hr : exists r, snd run = Ok r) by (eexists; vm_compute; reflexivity).
  destruct Hr as [r Hr].
  assert (Hrun : run = (fst run, Ok r))
    by (rewrite <- Hr; apply surjective_pairing).
  destruct (cv_forecaster_returns_only (Exception "KeyError") (dummy_unfitted 4)
              (fst run) (PySeries (Qc_series [1; 2; 3; 4; 5; 6; 7])) 4 2
              "mean_absolute_error" None true false r Hrun)
    as (ys & folds & Hy & _ & _ & _ & Hsp & Hlen & _).
  injection Hy as <-.
  exists r, folds. split; [exact Hrun|]. split; [exact Hsp | exact Hlen].
Defined.

(** Witness of [cv_forecaster_folds]: the same call. *)
Lemma cv_forecaster_folds_witness :
  let w := dummy_unfitted 4 in
  let ys := Qc_series [1; 2; 3; 4; 5; 6; 7] in
  let run :=
    cv_forecaster (Exception "KeyError") (PySeries ys) 4 2 "mean_absolute_error"
      None true false w in
  exists cv_metrics cv_predictions folds chunks,
    (lags_ok (self_ w) /\ series_ok ys /\ 1 <= 2
     /\ get_metric "mean_absolute_error" = Ok mean_absolute_error
     /\ run = (fst run, Ok (cv_metrics, cv_predictions)))
    /\ time_series_spliter (PySeries ys) 4 2 true = Ok folds
    /\ length chunks = length folds /\ length cv_metrics = length folds
    /\ cv_predictions = concat chunks.
Proof.
  intros w ys run.
  assert (Hr : exists r, snd run = Ok r) by (eexists; vm_compute; reflexivity).
  destruct Hr as [[cv_metrics cv_predictions] Hr].
  assert (Hrun : run = (fst run, Ok (cv_metrics, cv_predictions)))
    by (rewrite <- Hr; apply surjective_pairing).
  assert (H1 : lags_ok (self_ w)) by apply dummy_unfitted_lags_ok.
  assert (H2 : series_ok ys) by (vm_compute; reflexivity).
  assert (H3 : 1 <= 2) by lia.
  assert (H4 : get_metric "mean_absolute_error" = Ok mean_absolute_error)
    by reflexivity.
  destruct (cv_forecaster_folds (Exception "KeyError") w (fst run) ys 4 2
              "mean_absolute_error" mean_absolute_error true cv_metrics
              cv_predictions H1 H2 H3 H4 Hrun)
    as (folds & chunks & Hsp & Hlc & Hlm & Hcat & _).
  exists cv_metrics, cv_predictions, folds, chunks.
  split; [exact (conj H1 (conj H2 (conj H3 (conj H4 Hrun))))|].
  split; [exact Hsp|]. split; [exact Hlc|]. split; [exact Hlm | exact Hcat].
Defined.

(** The call of the witnesses: the folds test the positions 4, 5 and 6; the
    metrics are 3/2 and 3, every prediction is the constant. *)
Example cv_forecaster_example :
  exists cv_metrics cv_predictions,
    snd (cv_forecaster (Exception "KeyError")
           (PySeries (Qc_series [1; 2; 3; 4; 5; 6; 7])) 4 2
           "mean_absolute_error" None true false (dummy_unfitted 4))
    = Ok (cv_metrics, cv_predictions)
    /\ map (option_map this) cv_metrics = [Some (3 # 2); Some (3 # 1)]%Q
    /\ map (option_map this) cv_predictions
       = [Some (4 # 1); Some (4 # 1); Some (4 # 1)]%Q.
Proof.
  eexists _, _. split; [vm_compute; reflexivity|].
  split; vm_compute; reflexivity.
Qed.

(** With the default [set_out_sample_residuals=True] the same call stops
    at the end of the first fold, the forecaster being fitted on the first
    four values. *)
Example cv_forecaster_default_raises :
  snd (cv_forecaster (Exception "KeyError")
         (PySeries (Qc_series [1; 2; 3; 4; 5; 6; 7])) 4 2
         "mean_absolute_error" None true true (dummy_unfitted 4))
  = Raise (Exception "`residuals` argument must be `1D np.ndarray`.").
Proof. vm_compute. reflexivity. Qed.

(** With the default [set_out_sample_residuals=True] the call of the
    backtesting witnesses raises after the predictions were made. *)
Example backtesting_forecaster_default_raises :
  snd (backtesting_forecaster (PySeries (Qc_series [1; 2; 3; 4; 5; 6; 7])) 2
         "mean_absolute_error" (Some 3) None true (dummy_unfitted 4))
  = Raise (Exception "`residuals` argument must be `1D np.ndarray`.").
Proof. vm_compute. reflexivity. Qed.

(* ================================================================= *)
(** * Properties of backtesting with prediction intervals *)

Section IntervalsBacktestFacts.
Context {M : Type} `{Regressor fl M} `{Metrics fl}.
Implicit Types (w : World fl M) (s : Forecaster fl M) (y : Series fl)
  (h : list (list fl)).

Lemma predict_interval_steps_below_1 (steps n_boot : Z)
    (lw exog : option (pyobj fl)) (interval : list Qc) (in_sample : bool) w :
  steps < 1 ->
  exists e, predict_interval steps lw exog interval n_boot in_sample w
            = (w, Raise e).
Proof.
  intros Hs. unfold predict_interval. rewrite bind_get_self.
  destruct (Z.ltb_spec steps 1); [eexists; reflexivity | lia].
Qed.

Lemma predict_interval_exog_raises (steps n_boot : Z) (lw : option (pyobj fl))
    (x : pyobj fl) (interval : list Qc) (in_sample : bool) w :
  exists e, predict_interval steps lw (Some x) interval n_boot in_sample w
            = (w, Raise e).
Proof.
  unfold predict_interval. rewrite bind_get_self.
  destruct (steps <? 1); [eexists; reflexivity|].
  destruct (negb in_sample && _); [eexists; reflexivity|].
  destruct (bool_decide _ && included_exog (self_ w)); [eexists; reflexivity|].
  destruct (negb _ && negb _); [eexists; reflexivity|].
  rewrite bind_raise. eexists; reflexivity.
Qed.

Lemma backtesting_intervals_loop_idle (idxs : list Z) y (exog : option (Exog fl))
    (its ws folds rem steps n_boot : Z) (interval : list Qc) (in_sample : bool)
    acc w w' frames :
  exog <> None \/ (steps < 1 /\ rem < 1) ->
  backtesting_intervals_loop idxs y exog its ws folds rem steps interval n_boot
    in_sample acc w = (w', Ok frames) ->
  frames = acc.
Proof.
  intros Hidle. revert steps acc w Hidle.
  induction idxs as [|i idxs IH]; intros steps acc w Hidle;
    cbn [backtesting_intervals_loop].
  - intros [= _ ->]. reflexivity.
  - assert (Hraise : forall st, st = steps \/ st = rem ->
              exists e,
                predict_interval st
                  (Some (PySeries (series_slice y (its + i * steps - ws)
                                     (its + i * steps))))
                  (option_map
                     (fun e => exog_slice e (its + i * steps)
                                 (its + i * steps + steps)) exog)
                  interval n_boot in_sample w
                = (w, Raise e)).
    { intros st Hst. destruct exog as [x|]; cbn [option_map].
      - apply predict_interval_exog_raises.
      - apply predict_interval_steps_below_1.
        destruct Hidle as [Hx|[Hs Hr]]; [congruence|]. destruct Hst; lia. }
    destruct (i <? folds - 1).
    + destruct (Hraise steps (or_introl eq_refl)) as [e He].
      unfold bind at 1. rewrite He. discriminate.
    + destruct (negb (rem =? 0)).
      * destruct (Hraise rem (or_intror eq_refl)) as [e He].
        unfold bind at 1. rewrite He. discriminate.
      * apply IH. exact Hidle.
Qed.

Lemma backtesting_intervals_loop_nothing_left y (exog : option (Exog fl))
    (its ws d steps n_boot : Z) (interval : list Qc) (in_sample : bool) acc w :
  1 <= steps -> d <= 0 ->
  backtesting_intervals_loop (range_list (range_to (d / steps + 1))) y exog its
    ws (d / steps + 1) (d mod steps) steps interval n_boot in_sample acc w
  = (w, Ok acc).
Proof.
  intros Hs Hd. destruct (Z.eq_dec d 0) as [->|Hne].
  - rewrite Z.div_0_l, Z.mod_0_l by lia. reflexivity.
  - assert (d / steps < 0) by (apply Z.div_lt_upper_bound; lia).
    unfold range_list, range_to. cbn [start stop].
    replace (Z.to_nat (d / steps + 1 - 0)) with 0%nat by lia. reflexivity.
Qed.

(** The bootstrap leaves the forecaster as it is. *)
Lemma estimate_boot_interval_world (steps n_boot : Z) (lw : Series fl)
    (interval : list Qc) (in_sample : bool) s h e d w' (bands : DataFrame fl) :
  world_ok (mkWorld s h e d) ->
  _estimate_boot_interval steps lw None interval n_boot in_sample
    (mkWorld s h e d) = (w', Ok bands) ->
  exists h' d', w' = mkWorld s h' e d' /\ world_ok w'.
Proof.
  intros Hok Hrun.
  unfold _estimate_boot_interval in Hrun. rewrite bind_lift in Hrun.
  unfold np_full2 in Hrun.
  destruct (Z.ltb_spec steps 0) as [?|Hs0]; [discriminate Hrun|].
  destruct (Z.ltb_spec n_boot 0) as [?|Hn0]; [discriminate Hrun|].
  cbn [orb] in Hrun.
  apply bind_Ok_inv in Hrun as (w1 & B' & Hloop & Hrun).
  rewrite range_to_list in Hloop.
  apply boot_loop_run in Hloop; [|exact Hok | apply repeat_length|].
  2:{ apply List.Forall_forall. intros row Hrow. apply repeat_spec in Hrow.
      rewrite Hrow, repeat_length. lia. }
  destruct Hloop as ((h1 & d1 & -> & Hok1) & _ & _).
  apply bind_Ok_inv in Hrun as (w2 & pi & Hpi & Hrun).
  apply lift_Ok_inv in Hpi as [-> _].
  apply bind_Ok_inv in Hrun as (w2 & ix & Hix & Hrun).
  apply lift_Ok_inv in Hix as [-> _].
  apply bind_Ok_inv in Hrun as (w2 & [] & Hsh & Hrun).
  apply lift_Ok_inv in Hsh as [-> _].
  unfold ret in Hrun. injection Hrun as <- _.
  exists h1, d1. split; [reflexivity | exact Hok1].
Qed.

(** What a returned [predict_interval] from a supplied window says: the
    first column is the recursive forecast from the values of the window,
    the other two are an ordered band, and the forecaster is as before. *)
Lemma predict_interval_supplied_inv (steps n_boot : Z) (win : Series fl)
    (exog : option (pyobj fl)) (lower upper : Qc) (in_sample : bool)
    s h e d w' (df : DataFrame fl) :
  world_ok (mkWorld s h e d) ->
  (Qc_of_Z 0 <= lower)%Qc -> (lower <= upper)%Qc -> (upper <= Qc_of_Z 100)%Qc ->
  predict_interval steps (Some (PySeries win)) exog [lower; upper] n_boot
    in_sample (mkWorld s h e d) = (w', Ok df) ->
  (exists h' d', w' = mkWorld s h' e d' /\ world_ok w')
  /\ 1 <= n_boot
  /\ length (df_columns df) = 3%nat
  /\ exists chunk,
       recursive_forecast (regressor s) (lags s) (s_values win) (Z.to_nat steps)
       = Ok chunk
       /\ map head (df_rows df) = map Some chunk
       /\ Forall (fun row => exists p l u, row = [p; l; u] /\ band_ordered l u)
            (df_rows df).
Proof.
  intros Hok Hq0 Hlu Hq100 Hrun.
  destruct (predict_interval_run _ _ _ _ _ _ _ _ _ _ _ _ Hok Hrun)
    as (-> & lw & h1 & predictions & bands & Hwin & Hres & Hok1 & Hboot & Hcat).
  destruct (estimate_boot_interval_world _ _ _ _ _ _ _ _ _ _ _ Hok1 Hboot)
    as (h' & d' & -> & Hok').
  destruct (estimate_boot_interval_run _ _ _ _ _ _ _ _ _ _ _ _
              Hok1 Hq0 Hlu Hq100 Hboot)
    as (Hn & Hix & Hcols & Hlen & Hbands & _).
  destruct (interval_window_run _ _ _ _ Hwin) as [_ Hlw].
  destruct (Hlw _ eq_refl) as (ser0 & [= <-] & ->).
  rewrite predict_result_preproces in Hres.
  apply predict_result_supplied_inv in Hres as (Hs & _ & _ & Hpix & Hrec).
  assert (Hsame : s_index predictions = df_index bands).
  { congruence. }
  unfold concat_axis1 in Hcat.
  rewrite bool_decide_eq_true_2 in Hcat by (rewrite Hsame; reflexivity).
  injection Hcat as <-. cbn [df_rows df_columns].
  pose proof (recursive_forecast_length _ _ _ _ _ Hrec) as Hlp.
  split; [exists h', d'; split; [reflexivity | exact Hok']|].
  split; [exact Hn|]. split; [rewrite Hcols; reflexivity|].
  exists (s_values predictions). split; [exact Hrec|].
  split; [apply map_head_zip_with_cons; lia|].
  apply List.Forall_forall. intros row Hrow.
  apply list_elem_of_In, elem_of_zip_with in Hrow.
  destruct Hrow as (p & band & -> & _ & Hband).
  rewrite List.Forall_forall in Hbands.
  destruct (Hbands band (proj1 (list_elem_of_In _ _) Hband)) as (l & u & -> & Hord).
  exists p, l, u. split; [reflexivity | exact Hord].
Qed.

End IntervalsBacktestFacts.

Section IntervalsBacktestRun.
Context {M : Type} `{Regressor fl M} `{Metrics fl}.
Implicit Types (w : World fl M) (s : Forecaster fl M) (y : Series fl)
  (h : list (list fl)).

Lemma backtesting_intervals_loop_inv s y (k ws D steps n_boot : Z)
    (lower upper : Qc) (in_sample : bool) e :
  (Qc_of_Z 0 <= lower)%Qc -> (lower <= upper)%Qc -> (upper <= Qc_of_Z 100)%Qc ->
  1 <= steps -> 0 < D ->
  forall (c a : nat) acc h d w' frames,
    Z.of_nat (a + c) = D / steps + 1 ->
    world_ok (mkWorld s h e d) ->
    backtesting_intervals_loop (map (fun j => 0 + Z.of_nat j) (seq a c)) y None
      k ws (D / steps + 1) (D mod steps) steps [lower; upper] n_boot in_sample
      acc (mkWorld s h e d)
    = (w', Ok frames) ->
    exists new chunks h' d',
      frames = acc ++ new /\ w' = mkWorld s h' e d' /\ world_ok w'
      /\ (new <> [] -> 1 <= n_boot)
      /\ Forall2
           (fun (i : nat) chunk =>
              recursive_forecast (regressor s) (lags s)
                (py_slice (s_values y) (k + Z.of_nat i * steps - ws)
                   (k + Z.of_nat i * steps))
                (Z.to_nat (Z.min steps (D - Z.of_nat i * steps)))
              = Ok chunk)
           (seq a (Z.to_nat ((D + steps - 1) / steps) - a)) chunks
      /\ Forall2
           (fun chunk (frame : DataFrame fl) =>
              length (df_columns frame) = 3%nat
              /\ map head (df_rows frame) = map Some chunk
              /\ Forall (fun row => exists p l u,
                            row = [p; l; u] /\ band_ordered l u)
                   (df_rows frame))
           chunks new.
Proof.
  intros Hq0 Hlu Hq100 Hsteps HD.
  pose proof (Z.div_mod D steps ltac:(lia)) as Hdm.
  pose proof (Z.mod_pos_bound D steps ltac:(lia)) as Hmod.
  assert (Hq : 0 <= D / steps) by (apply Z.div_pos; lia).
  assert (Hnf : (D + steps - 1) / steps
                = D / steps + (if D mod steps =? 0 then 0 else 1)).
  { destruct (Z.eqb_spec (D mod steps) 0) as [Hr|Hr].
    - symmetry. apply (Z.div_unique _ _ _ (steps - 1)); lia.
    - symmetry. apply (Z.div_unique _ _ _ (D mod steps - 1)); lia. }
  induction c as [|c IH]; intros a acc h d w' frames Hac Hok Hrun.
  - cbn [seq map backtesting_intervals_loop] in Hrun. unfold ret in Hrun.
    injection Hrun as <- <-.
    exists [], [], h, d. rewrite app_nil_r.
    split; [reflexivity|]. split; [reflexivity|]. split; [exact Hok|].
    split; [congruence|].
    replace (Z.to_nat ((D + steps - 1) / steps) - a)%nat with 0%nat
      by (rewrite Hnf; destruct (D mod steps =? 0); lia).
    split; constructor.
  - cbn [seq map backtesting_intervals_loop option_map] in Hrun.
    rewrite Z.add_0_l in Hrun.
    destruct (Z.ltb_spec (Z.of_nat a) (D / steps + 1 - 1)) as [Hlt|Hge].
    + (* a complete fold *)
      assert (Hend : (Z.of_nat a + 1) * steps <= D) by nia.
      apply bind_Ok_inv in Hrun as (w1 & frame & Hpi & Hrun).
      destruct (predict_interval_supplied_inv _ _ _ _ _ _ _ _ _ _ _ _ _
                  Hok Hq0 Hlu Hq100 Hpi)
        as ((h1 & d1 & -> & Hok1) & Hn & Hcols & chunk & Hrec & Hhead & Hrows).
      apply IH in Hrun
        as (new & chunks & h' & d' & -> & -> & Hok' & _ & Hall & Hfr);
        [|lia | exact Hok1].
      exists (frame :: new), (chunk :: chunks), h', d'. rewrite <- app_assoc.
      split; [reflexivity|]. split; [reflexivity|]. split; [exact Hok'|].
      split; [intros _; exact Hn|].
      replace (Z.to_nat ((D + steps - 1) / steps) - a)%nat
        with (S (Z.to_nat ((D + steps - 1) / steps) - S a))
        by (rewrite Hnf; destruct (D mod steps =? 0); lia).
      cbn [seq]. split; (constructor; [|assumption]).
      * rewrite Z.min_l by nia. cbn [series_slice s_values] in Hrec. exact Hrec.
      * split; [exact Hcols|]. split; [exact Hhead | exact Hrows].
    + (* the last index *)
      assert (Ha : Z.of_nat a = D / steps) by lia.
      assert (c = 0%nat) as -> by lia.
      cbn [seq map backtesting_intervals_loop] in Hrun.
      destruct (Z.eqb_spec (D mod steps) 0) as [Hr|Hr]; cbn [negb] in Hrun.
      * unfold ret in Hrun. injection Hrun as <- <-.
        exists [], [], h, d. rewrite app_nil_r.
        split; [reflexivity|]. split; [reflexivity|]. split; [exact Hok|].
        split; [congruence|].
        replace (Z.to_nat ((D + steps - 1) / steps) - a)%nat with 0%nat
          by (rewrite Hnf; lia).
        split; constructor.
      * apply bind_Ok_inv in Hrun as (w1 & frame & Hpi & Hrun).
        destruct (predict_interval_supplied_inv _ _ _ _ _ _ _ _ _ _ _ _ _
                    Hok Hq0 Hlu Hq100 Hpi)
          as ((h1 & d1 & -> & Hok1) & Hn & Hcols & chunk & Hrec & Hhead & Hrows).
        unfold ret in Hrun. injection Hrun as <- <-.
        exists [frame], [chunk], h1, d1.
        split; [reflexivity|]. split; [reflexivity|]. split; [exact Hok1|].
        split; [intros _; exact Hn|].
        replace (Z.to_nat ((D + steps - 1) / steps) - a)%nat with 1%nat
          by (rewrite Hnf; lia).
        cbn [seq]. split; (constructor; [|constructor]).
        -- replace (Z.min steps (D - Z.of_nat a * steps)) with (D mod steps)
             by nia.
           cbn [series_slice s_values] in Hrec. exact Hrec.
        -- split; [exact Hcols|]. split; [exact Hhead | exact Hrows].
Qed.

End IntervalsBacktestRun.

Section IntervalsBacktestResult.
Context {M : Type} `{Regressor fl M} `{Metrics fl}.

Lemma concat_frames_columns (chunks : list (list fl)) (frames : list (DataFrame fl)) :
  Forall2 (fun chunk (frame : DataFrame fl) =>
             length (df_columns frame) = 3%nat
             /\ map head (df_rows frame) = map Some chunk
             /\ Forall (fun row => exists p l u,
                          row = [p; l; u] /\ band_ordered l u)
                  (df_rows frame))
    chunks frames ->
  frames <> [] ->
  np_concatenate_frames frames = Ok (3%nat, concat (map df_rows frames))
  /\ map (fun row => default nan (head row)) (concat (map df_rows frames))
     = concat chunks
  /\ Forall (fun row => exists p l u, row = [p; l; u] /\ band_ordered l u)
       (concat (map df_rows frames)).
Proof.
  intros Hall Hne. split; [|split].
  - assert (Hcols : Forall (fun g : DataFrame fl => length (df_columns g) = 3%nat)
                      frames).
    { clear Hne. induction Hall as [|chunk frame chunks frames (Hc & _) Hall IH];
        constructor; assumption. }
    destruct Hcols as [|frame frames Hc Hcols]; [congruence|].
    unfold np_concatenate_frames. rewrite Hc.
    replace (forallb _ frames) with true; [reflexivity|].
    symmetry. apply forallb_forall. intros g Hg. apply Nat.eqb_eq.
    rewrite List.Forall_forall in Hcols. apply Hcols, Hg.
  - induction Hall as [|chunk frame chunks frames (_ & Hh & _) Hall IH];
      [reflexivity|].
    cbn [map concat]. rewrite map_app. f_equal.
    + clear -Hh. revert chunk Hh.
      induction (df_rows frame) as [|row rows IHr]; intros [|v chunk] Hh;
        cbn [map] in *; try discriminate; [reflexivity|].
      injection Hh as Hrow Hh. rewrite Hrow. cbn [default]. f_equal.
      apply IHr, Hh.
    + destruct frames as [|f fs]; [|apply IH; discriminate].
      apply Forall2_nil_inv_r in Hall as ->. reflexivity.
  - clear Hne. induction Hall as [|chunk frame chunks frames (_ & _ & Hr) Hall IH];
      [constructor|].
    cbn [map concat]. apply Forall_app. split; [exact Hr | exact IH].
Qed.

End IntervalsBacktestResult.

(** X15.  Backtesting with prediction intervals, when it returns, for two
    percentiles [lower <= upper]: the call was made without [exog] and with
    [set_out_sample_residuals=False] (with the default [True] it raises as
    [backtesting_forecaster] does), with [steps >= 1], at least one
    bootstrap iteration and a series longer than the initial train size
    [k] (the window size if none is given).  The 2-D array returned has one
    row [pred, lower, upper] per position from [k] on, with
    [lower <= upper] (or both NaN); its first column is made fold by fold
    of the recursive forecasts from the [window_size] observed values
    before position [k + i * steps], the predictions [backtesting_forecaster]
    makes; the metric compares [y[k:]] with this column; the forecaster is
    left as the fit (or the caller) made it. *)
Theorem backtesting_forecaster_intervals_rows {M : Type} `{Regressor fl M}
    `{Metrics fl} (w w' : World fl M) (ys : Series fl) (steps : Z)
    (metric : string) (mf : list fl -> list fl -> result fl)
    (initial_train_size : option Z) (exog : option (pyobj fl))
    (lower upper : Qc) (n_boot : Z) (in_sample_residuals store_residuals : bool)
    (metric_value : list fl) (rows : list (list fl)) :
  world_ok w -> lags_ok (self_ w) ->
  window_size (self_ w) = max_lag (self_ w) -> series_ok ys ->
  (Qc_of_Z 0 <= lower)%Qc -> (lower <= upper)%Qc -> (upper <= Qc_of_Z 100)%Qc ->
  get_metric metric = Ok mf ->
  backtesting_forecaster_intervals (PySeries ys) steps metric initial_train_size
    exog [lower; upper] n_boot in_sample_residuals store_residuals w
  = (w', Ok (metric_value, rows)) ->
  let vals := s_values ys in
  let n := Z.of_nat (length vals) in
  let m := max_lag (self_ w) in
  let k := default m initial_train_size in
  let w1 :=
    match initial_train_size with
    | Some k => fst (fit (PySeries (series_slice (_preproces_y ys) 0 k)) None w)
    | None => w
    end in
  let D := n - k in
  store_residuals = false /\ exog = None /\ 1 <= steps /\ 1 <= n_boot
  /\ m <= k < n
  /\ self_ w' = self_ w1
  /\ exists chunks,
       length chunks = Z.to_nat ((D + steps - 1) / steps)
       /\ (forall (i : nat) chunk, chunks !! i = Some chunk ->
             recursive_forecast (regressor (self_ w1)) (lags (self_ w))
               (py_slice vals (k + Z.of_nat i * steps - m)
                  (k + Z.of_nat i * steps))
               (Z.to_nat (Z.min steps (D - Z.of_nat i * steps)))
             = Ok chunk)
       /\ map (fun row => default nan (head row)) rows = concat chunks
       /\ Z.of_nat (length rows) = D
       /\ Forall (fun row => exists p l u, row = [p; l; u] /\ band_ordered l u)
            rows
       /\ exists v, mf (drop (Z.to_nat k) vals) (concat chunks) = Ok v
                    /\ metric_value = [v].
Proof.
  intros Hok Hlags Hws Hser Hq0 Hlu Hq100 Hmf Hrun vals n m k w1 D.
  assert (Hk_def : k = match initial_train_size with
                       | Some k0 => k0
                       | None => m
                       end) by (destruct initial_train_size; reflexivity).
  clearbody k. subst D.
  destruct (lags_ok_bounds _ Hlags) as (Hm1 & _ & Hall). fold m in Hm1.
  pose proof (preproces_y_series_ok ys Hser) as Hser'.
  pose proof (preproces_y_values ys) as Hvals.
  unfold backtesting_forecaster_intervals in Hrun.
  apply bind_Ok_inv in Hrun as (w0 & ys' & Hy & Hrun).
  apply lift_Ok_inv in Hy as [-> Hy].
  pose proof (check_y_inv _ _ Hy) as [= <-].
  assert (Hnull : has_null vals = false).
  { cbn [_check_y] in Hy. fold vals in Hy.
    destruct (has_null vals); [discriminate Hy | reflexivity]. }
  clear Hy.
  apply bind_Ok_inv in Hrun as (w0 & ex & Hex & Hrun).
  apply lift_Ok_inv in Hex as [-> Hex].
  rewrite bind_get_self in Hrun. rewrite Hvals in Hrun. fold vals n in Hrun.
  (* up to the loop *)
  assert (Hloop : exists w2 frames w3 bp y_pred v,
            match initial_train_size with
            | Some k' =>
                k' = k /\ m <= k <= n
                /\ fit (PySeries (series_slice (_preproces_y ys) 0 k))
                     (option_map (fun e => exog_slice e 0 k) ex) w = (w2, Ok tt)
            | None => w2 = w
            end
            /\ backtesting_intervals_loop
                 (range_list (range_to ((n - k) / steps + 1)))
                 (_preproces_y ys) ex k (window_size (self_ w2))
                 ((n - k) / steps + 1) ((n - k) mod steps) steps
                 [lower; upper] n_boot in_sample_residuals [] w2
               = (w3, Ok frames)
            /\ steps <> 0
            /\ np_concatenate_frames frames = Ok bp
            /\ column_0 bp = Ok y_pred
            /\ mf (s_values (series_slice (_preproces_y ys) k n)) y_pred = Ok v
            /\ store_residuals = false
            /\ w' = w3 /\ metric_value = [v] /\ rows = snd bp).
  { assert (Htail : forall k0 w2,
              (if steps =? 0 then raise ZeroDivisionError
               else
                 bind (backtesting_intervals_loop
                         (range_list (range_to ((n - k0) / steps + 1)))
                         (_preproces_y ys) ex k0 (window_size (self_ w2))
                         ((n - k0) / steps + 1) ((n - k0) mod steps) steps
                         [lower; upper] n_boot in_sample_residuals [])
                   (fun frames =>
                      bind (lift (np_concatenate_frames frames))
                        (fun bp =>
                           bind (lift (column_0 bp))
                             (fun y_pred =>
                                bind (lift (mf (s_values
                                                  (series_slice (_preproces_y ys) k0 n))
                                              y_pred))
                                  (fun v =>
                                     bind (if store_residuals then
                                             bind (lift (column_0 bp))
                                               (fun y_pred =>
                                                  bind (lift (series_sub_array
                                                                (series_slice (_preproces_y ys) k0
                                                                   (k0 + Z.of_nat (length (snd bp))))
                                                                y_pred))
                                                    (fun residuals =>
                                                       set_out_sample_residuals
                                                         (PySeries residuals) true))
                                           else ret tt)
                                       (fun _ => ret ([v], snd bp)))))))
                w2 = (w', Ok (metric_value, rows)) ->
              exists frames w3 bp y_pred v,
                backtesting_intervals_loop
                  (range_list (range_to ((n - k0) / steps + 1)))
                  (_preproces_y ys) ex k0 (window_size (self_ w2))
                  ((n - k0) / steps + 1) ((n - k0) mod steps) steps
                  [lower; upper] n_boot in_sample_residuals [] w2
                = (w3, Ok frames)
                /\ steps <> 0
                /\ np_concatenate_frames frames = Ok bp
                /\ column_0 bp = Ok y_pred
                /\ mf (s_values (series_slice (_preproces_y ys) k0 n)) y_pred = Ok v
                /\ store_residuals = false
                /\ w' = w3 /\ metric_value = [v] /\ rows = snd bp).
    { intros k0 w2 Ht.
      destruct (Z.eqb_spec steps 0) as [Hs0|Hs0]; [discriminate Ht|].
      apply bind_Ok_inv in Ht as (w3 & frames & Hl & Ht).
      apply bind_Ok_inv in Ht as (w4 & bp & Hcat & Ht).
      apply lift_Ok_inv in Hcat as [-> Hcat].
      apply bind_Ok_inv in Ht as (w4 & y_pred & Hcol & Ht).
      apply lift_Ok_inv in Hcol as [-> Hcol].
      apply bind_Ok_inv in Ht as (w4 & v & Hv & Ht).
      apply lift_Ok_inv in Hv as [-> Hv].
      apply bind_Ok_inv in Ht as (w4 & [] & Hst & Ht).
      unfold ret in Ht. injection Ht as <- <- <-.
      assert (Hstore : store_residuals = false /\ w4 = w3).
      { destruct store_residuals.
        - exfalso. apply bind_Ok_inv in Hst as (w5 & yp & _ & Hst).
          apply bind_Ok_inv in Hst as (w6 & res & _ & Hset).
          unfold set_out_sample_residuals in Hset. rewrite bind_raise in Hset.
          discriminate Hset.
        - unfold ret in Hst. injection Hst as <-. split; reflexivity. }
      destruct Hstore as [-> ->].
      exists frames, w3, bp, y_pred, v. repeat split; assumption. }
    destruct initial_train_size as [k0|]; subst k.
    - destruct (Z.ltb_spec n k0) as [Hk|Hk]; [discriminate Hrun|].
      destruct (Z.ltb_spec k0 (window_size (self_ w))) as [Hkw|Hkw];
        [discriminate Hrun|].
      rewrite bind_ret, bind_lift, Hmf in Hrun. cbn [rbind] in Hrun.
      apply bind_Ok_inv in Hrun as (w2 & k' & Hfit & Hrun).
      apply bind_Ok_inv in Hfit as (w2' & [] & Hfit & Hret).
      unfold ret in Hret. injection Hret as <- <-.
      rewrite bind_get_self in Hrun.
      destruct (Htail k0 w2' Hrun) as (frames & w3 & bp & y_pred & v & Ht).
      exists w2', frames, w3, bp, y_pred, v.
      split; [split; [reflexivity|]; split; [unfold m; lia | exact Hfit]|]. exact Ht.
    - destruct (fitted (self_ w)) eqn:Hf; cbn [negb] in Hrun; [|discriminate Hrun].
      apply bind_Ok_inv in Hrun as (w1' & [] & Hlw & Hrun).
      assert (w1' = w) as ->.
      { destruct (self_last_window (self_ w)); [|discriminate Hlw].
        unfold ret in Hlw. injection Hlw as <-. reflexivity. }
      rewrite bind_lift, Hmf in Hrun. cbn [rbind] in Hrun.
      rewrite bind_assoc, bind_get_self, bind_ret, bind_get_self in Hrun.
      destruct (Htail (window_size (self_ w)) w Hrun)
        as (frames & w3 & bp & y_pred & v & Ht).
      exists w, frames, w3, bp, y_pred, v. split; [reflexivity|].
      rewrite Hws in Ht |- *. exact Ht. }
  destruct Hloop as (w2 & frames & w3 & bp & y_pred & v & Hk & Hl & Hs0 & Hcat
                     & Hcol & Hv & -> & -> & -> & ->).
  assert (Hne : frames <> []).
  { intros ->. discriminate Hcat. }
  assert (Hex' : ex = None).
  { destruct ex as [x|]; [|reflexivity]. exfalso. apply Hne.
    eapply backtesting_intervals_loop_idle; [|exact Hl]. left. discriminate. }
  assert (Hexog : exog = None).
  { destruct exog as [x|]; [|reflexivity]. exfalso.
    destruct (_check_exog x None None); cbn [rbind] in Hex; [|discriminate Hex].
    injection Hex as <-. discriminate Hex'. }
  subst ex. cbn [option_map] in Hk.
  assert (Hsteps : 1 <= steps).
  { destruct (Z_lt_le_dec steps 1) as [Hlt|Hge]; [|exact Hge]. exfalso. apply Hne.
    eapply backtesting_intervals_loop_idle; [|exact Hl]. right. split; [lia|].
    pose proof (Z.mod_neg_bound (n - k) steps). lia. }
  assert (Hkn : k < n).
  { destruct (Z_lt_le_dec k n) as [Hlt|Hge]; [exact Hlt|]. exfalso. apply Hne.
    rewrite backtesting_intervals_loop_nothing_left in Hl by lia.
    injection Hl as _ <-. reflexivity. }
  (* the world the loop starts in *)
  assert (Hw2 : w2 = w1 /\ world_ok w2 /\ lags (self_ w2) = lags (self_ w)
                /\ window_size (self_ w2) = m /\ m <= k).
  { destruct initial_train_size as [k0|]; subst k.
    - destruct Hk as (_ & Hk & Hfit).
      assert (Hfit' : snd (fit (PySeries (series_slice (_preproces_y ys) 0 k0))
                             None w) = Ok tt) by (rewrite Hfit; reflexivity).
      assert (Hser0 : series_ok (series_slice (_preproces_y ys) 0 k0)).
      { destruct (_preproces_y ys) as [ix vs]. apply series_ok_py_slice, Hser'. }
      pose proof (fit_world_ok w
                    (PySeries (series_slice (_preproces_y ys) 0 k0)) None
                    ltac:(lia) ltac:(intros ? [= <-]; exact Hser0) Hfit') as Hok1.
      destruct (fit_no_exog_inv w _ Hfit')
        as (X & yt & tr & fr & res & d' & _ & _ & _ & _ & _ & _ & Hw1).
      subst w1. rewrite Hfit in Hok1, Hw1 |- *. cbn [fst] in *.
      split; [reflexivity|]. split; [exact Hok1|].
      rewrite Hw1. cbn [self_ lags window_size].
      split; [reflexivity|]. split; [exact Hws | lia].
    - subst w2 w1. split; [reflexivity|]. split; [exact Hok|].
      split; [reflexivity|]. split; [exact Hws | lia]. }
  destruct Hw2 as (-> & Hok1 & Hl1 & Hws1 & Hmk).
  rewrite Hws1 in Hl. rewrite range_to_seq in Hl.
  destruct w1 as [s1 h1 e1 d1] eqn:Hw1.
  destruct (backtesting_intervals_loop_inv s1 (_preproces_y ys) k m (n - k) steps
              n_boot lower upper in_sample_residuals e1 Hq0 Hlu Hq100 Hsteps
              ltac:(lia) (Z.to_nat ((n - k) / steps + 1)) 0%nat [] h1 d1 w3
              frames)
    as (new & chunks & h' & d' & Hfr & -> & Hok3 & Hnb & Hch & Hfolds);
    [ assert (0 <= (n - k) / steps) by (apply Z.div_pos; lia); lia
    | exact Hok1 | exact Hl |].
  cbn [app] in Hfr. subst new. rewrite Nat.sub_0_r in Hch.
  destruct (concat_frames_columns chunks frames Hfolds Hne)
    as (Hcat' & Hcol' & Hrows).
  rewrite Hcat in Hcat'. injection Hcat' as ->.
  change (Ok (map (fun row : list fl => default nan (head row))
                (concat (map df_rows frames))) = Ok y_pred) in Hcol.
  rewrite Hcol' in Hcol. cbn [snd]. assert (y_pred = concat chunks) as -> by congruence.
  clear Hcol.
  cbn [series_slice s_values] in Hv. rewrite Hvals in Hv, Hch. fold vals in Hv, Hch.
  unfold n in Hv. rewrite py_slice_to_end in Hv by (fold n; lia).
  cbn [self_ regressor lags] in *.
  assert (Hlen : length chunks = Z.to_nat ((n - k + steps - 1) / steps)).
  { rewrite <- (Forall2_length _ _ _ Hch), length_seq. reflexivity. }
  assert (Hsum : Z.of_nat (length (concat chunks)) = n - k).
  { rewrite (fold_lengths_sum (n - k) steps
               (Z.to_nat ((n - k + steps - 1) / steps)) 0)
      by (first [ lia
                | eapply Forall2_impl; [exact Hch|];
                  cbn; intros i chunk Hi;
                  apply recursive_forecast_length in Hi; exact Hi ]).
    lia. }
  split; [reflexivity|]. split; [exact Hexog|]. split; [exact Hsteps|].
  split; [apply Hnb, Hne|]. split; [lia|]. split; [reflexivity|].
  exists chunks. split; [exact Hlen|]. split.
  { intros i chunk Hi.
    destruct (Forall2_lookup_r _ _ _ _ _ Hch Hi) as (j & Hj & Hrec).
    apply lookup_seq in Hj as [-> _]. rewrite <- Hl1. exact Hrec. }
  split; [exact Hcol'|]. split.
  { rewrite <- Hsum, <- Hcol', length_map. reflexivity. }
  split; [exact Hrows|]. exists v. split; [exact Hv | reflexivity].
Qed.

(** Witness of [backtesting_forecaster_intervals_rows]: a constant model 4
    with the lags 1, 2, fitted by the call on the first three of seven
    values, two steps, the percentiles 5 and 95 of three bootstrap
    iterations. *)
Lemma backtesting_forecaster_intervals_rows_witness :
  let w := dummy_unfitted 4 in
  let ys := Qc_series [1; 2; 3; 4; 5; 6; 7] in
  let run :=
    backtesting_forecaster_intervals (PySeries ys) 2 "mean_absolute_error"
      (Some 3) None [Qc_of_Z 5; Qc_of_Z 95] 3 true false w in
  exists metric_value rows,
    (world_ok w /\ lags_ok (self_ w)
     /\ window_size (self_ w) = max_lag (self_ w) /\ series_ok ys
     /\ (Qc_of_Z 0 <= Qc_of_Z 5)%Qc /\ (Qc_of_Z 5 <= Qc_of_Z 95)%Qc
     /\ (Qc_of_Z 95 <= Qc_of_Z 100)%Qc
     /\ get_metric "mean_absolute_error" = Ok mean_absolute_error
     /\ run = (fst run, Ok (metric_value, rows)))
    /\ Z.of_nat (length rows) = Z.of_nat (length (s_values ys)) - 3
    /\ Forall (fun row => exists p l u, row = [p; l; u] /\ band_ordered l u)
         rows.
Proof.
  intros w ys run.
  assert (Hres : exists metric_value rows, snd run = Ok (metric_value, rows))
    by (eexists _, _; vm_compute; reflexivity).
  destruct Hres as (metric_value & rows & Hres). exists metric_value, rows.
  assert (Hrun : run = (fst run, Ok (metric_value, rows)))
    by (rewrite <- Hres; apply surjective_pairing).
  assert (Hw : world_ok w) by (intros ix a Hlw; discriminate Hlw).
  assert (H1 : lags_ok (self_ w)) by apply dummy_unfitted_lags_ok.
  assert (H2 : window_size (self_ w) = max_lag (self_ w)) by reflexivity.
  assert (H3 : series_ok ys) by (vm_compute; reflexivity).
  assert (Hq0 : (Qc_of_Z 0 <= Qc_of_Z 5)%Qc) by (vm_compute; discriminate).
  assert (Hq1 : (Qc_of_Z 5 <= Qc_of_Z 95)%Qc) by (vm_compute; discriminate).
  assert (Hq2 : (Qc_of_Z 95 <= Qc_of_Z 100)%Qc) by (vm_compute; discriminate).
  assert (H4 : get_metric "mean_absolute_error" = Ok mean_absolute_error)
    by reflexivity.
  split.
  - exact (conj Hw (conj H1 (conj H2 (conj H3 (conj Hq0 (conj Hq1 (conj Hq2
             (conj H4 Hrun)))))))).
  - pose proof (backtesting_forecaster_intervals_rows w (fst run) ys 2
                  "mean_absolute_error" mean_absolute_error (Some 3) None
                  (Qc_of_Z 5) (Qc_of_Z 95) 3 true false metric_value rows
                  Hw H1 H2 H3 Hq0 Hq1 Hq2 H4) as Hrows.
    specialize (Hrows Hrun). cbv zeta in Hrows.
    destruct Hrows
      as (_ & _ & _ & _ & _ & _ & chunks & _ & _ & _ & Hlen & Hrows & _).
    split; [exact Hlen | exact Hrows].
Defined.

(** The call of the witness: the constant 4 is predicted four times; the
    only in-sample residual is 3 - 4, so every bound is 3; the mean
    absolute error against 4, 5, 6, 7 is 3/2. *)
Example backtesting_forecaster_intervals_example :
  exists metric_value rows,
    snd (backtesting_forecaster_intervals
           (PySeries (Qc_series [1; 2; 3; 4; 5; 6; 7])) 2 "mean_absolute_error"
           (Some 3) None [Qc_of_Z 5; Qc_of_Z 95] 3 true false
           (dummy_unfitted 4))
    = Ok (metric_value, rows)
    /\ map (option_map this) metric_value = [Some (3 # 2)]%Q
    /\ map (map (option_map this)) rows
       = [[Some (4 # 1); Some (3 # 1); Some (3 # 1)];
          [Some (4 # 1); Some (3 # 1); Some (3 # 1)];
          [Some (4 # 1); Some (3 # 1); Some (3 # 1)];
          [Some (4 # 1); Some (3 # 1); Some (3 # 1)]]%Q.
Proof.
  eexists _, _. split; [vm_compute; reflexivity|].
  split; vm_compute; reflexivity.
Qed.

(* ================================================================= *)
(** * Alignment of [y] and [exog] after preprocessing *)

Section AlignmentFacts.
Context {V : Type}.

Lemma labels_of_two_kinds (zs ts : list Z) :
  map IntLabel zs = map Timestamp ts -> zs = [] /\ ts = [].
Proof.
  destruct zs as [|z zs], ts as [|t ts]; cbn; intros Heq;
    try discriminate Heq; split; reflexivity.
Qed.

Lemma preproces_exog_index (e : Exog V) :
  exog_index (_preproces_exog e)
  = if has_freq (exog_index e) then exog_index e
    else RangeIndex 0 (Z.of_nat (exog_len e)).
Proof.
  unfold _preproces_exog. destruct (has_freq (exog_index e)); [reflexivity|].
  destruct e; reflexivity.
Qed.

Lemma range_index_labels_length (n : nat) :
  length (index_labels (RangeIndex 0 (Z.of_nat n))) = n.
Proof.
  cbn [index_labels]. rewrite length_map, range_list_length. lia.
Qed.

End AlignmentFacts.

(** X16.  The alignment check of [fit] sees [y] and [exog] after
    [_preproces_y] and [_preproces_exog], for an [exog] of the length of
    [y].  When neither index is a DatetimeIndex with a frequency both have
    been replaced by [RangeIndex(0, len(y))] and the check passes whatever
    the labels were; when exactly one is, the check fails (unless [y] is
    empty); only when both are, the labels are compared. *)
Theorem alignment_after_preprocessing {V : Type} (y : Series V) (e : Exog V) :
  series_ok y ->
  length (index_labels (exog_index e)) = exog_len e ->
  exog_len e = length (s_values y) ->
  _check_aligment_y_exog (_preproces_y y) (Some (_preproces_exog e))
  = match has_freq (s_index y), has_freq (exog_index e) with
    | false, false => Ok tt
    | true, true =>
        if bool_decide (index_labels (exog_index e) = index_labels (s_index y))
        then Ok tt
        else Raise (Exception "`y` and `exog` must have same index.")
    | _, _ =>
        match s_values y with
        | [] => Ok tt
        | _ :: _ => Raise (Exception "`y` and `exog` must have same index.")
        end
    end.
Proof.
  intros Hy He Hlen. unfold series_ok in Hy.
  unfold _check_aligment_y_exog. rewrite preproces_exog_index.
  rewrite (preproces_y_values y).
  assert (Hix : s_index (_preproces_y y)
                = if has_freq (s_index y) then s_index y
                  else RangeIndex 0 (Z.of_nat (length (s_values y)))).
  { unfold _preproces_y. destruct (has_freq (s_index y)); reflexivity. }
  rewrite Hix. clear Hix. rewrite Hlen in He |- *.
  set (n := length (s_values y)) in *.
  pose proof (range_index_labels_length n) as Hr.
  destruct (has_freq (s_index y)) eqn:Hfy, (has_freq (exog_index e)) eqn:Hfe.
  - rewrite take_ge by lia. rewrite He, Hy, Nat.eqb_refl. reflexivity.
  - rewrite take_ge by lia. rewrite Hr, Hy, Nat.eqb_refl. cbn [negb].
    destruct (s_index y) as [| [f|] ts |]; try discriminate Hfy.
    cbn [index_labels] in *.
    destruct (s_values y) as [|v vs] eqn:Hv.
    + subst n. cbn in Hy. apply nil_length_inv in Hy.
      apply map_eq_nil in Hy as ->. reflexivity.
    + rewrite bool_decide_eq_false_2; [reflexivity|].
      intros Heq. apply labels_of_two_kinds in Heq as [_ ->].
      subst n. cbn in Hy. discriminate Hy.
  - rewrite take_ge by lia. rewrite He, Hr, Nat.eqb_refl. cbn [negb].
    destruct (exog_index e) as [| [f|] ts |]; try discriminate Hfe.
    cbn [index_labels] in *.
    destruct (s_values y) as [|v vs] eqn:Hv.
    + subst n. cbn in He. apply nil_length_inv in He.
      apply map_eq_nil in He as ->. reflexivity.
    + rewrite bool_decide_eq_false_2; [reflexivity|].
      intros Heq. symmetry in Heq. apply labels_of_two_kinds in Heq as [_ ->].
      subst n. cbn in He. discriminate He.
  - rewrite take_ge by lia. rewrite Hr, Nat.eqb_refl. cbn [negb].
    rewrite bool_decide_eq_true_2 by reflexivity. reflexivity.
Qed.

(** Witness of [alignment_after_preprocessing]: a series labelled 5, 6, 7
    and an [exog] labelled 10, 11, 12 pass the check once preprocessed,
    which they would not as they are. *)
Lemma alignment_after_preprocessing_witness :
  let y := mkSeries (OtherIndex [IntLabel 5; IntLabel 6; IntLabel 7])
             [1; 2; 3] in
  let e := ExogSeries (mkSeries (RangeIndex 10 13) [0; 0; 0]) in
  (series_ok y /\ length (index_labels (exog_index e)) = exog_len e
   /\ exog_len e = length (s_values y))
  /\ _check_aligment_y_exog (_preproces_y y) (Some (_preproces_exog e)) = Ok tt
  /\ _check_aligment_y_exog y (Some e)
     = Raise (Exception "`y` and `exog` must have same index.").
Proof.
  intros y e.
  assert (H1 : series_ok y) by reflexivity.
  assert (H2 : length (index_labels (exog_index e)) = exog_len e) by reflexivity.
  assert (H3 : exog_len e = length (s_values y)) by reflexivity.
  split; [exact (conj H1 (conj H2 H3))|].
  split; [exact (alignment_after_preprocessing y e H1 H2 H3) | reflexivity].
Defined.

(* ================================================================= *)
(** * The training matrix with exogenous variables *)

Section TrainMatrixFacts.
Context {V M : Type} `{Float V} `{Regressor V M}.
Implicit Types (s : Forecaster V M).

(** A label that occurs once is found where it is. *)
Lemma lookup_row_unique (E : DataFrame V) (i : nat) (l : label) :
  NoDup (index_labels (df_index E)) ->
  index_labels (df_index E) !! i = Some l ->
  lookup_row E l = df_rows E !! i.
Proof.
  intros Hnd Hl. unfold lookup_row.
  destruct (list_find (fun x => x = l) (index_labels (df_index E)))
    as [[j x]|] eqn:Hfind.
  - apply list_find_Some in Hfind as (Hj & -> & _).
    rewrite (NoDup_lookup _ i j l Hnd Hl Hj). reflexivity.
  - apply list_find_None in Hfind. exfalso.
    rewrite List.Forall_forall in Hfind. apply (Hfind l); [|reflexivity].
    apply list_elem_of_In. eapply list_elem_of_lookup_2. exact Hl.
Qed.

Lemma omap_total {A B C} (f : A -> option B) (h : C -> A) (g : C -> B)
    (l : list C) :
  Forall (fun c => f (h c) = Some (g c)) l -> omap f (map h l) = map g l.
Proof.
  induction 1 as [|c l Hc _ IH]; [reflexivity|].
  cbn. rewrite Hc. cbn. f_equal. exact IH.
Qed.

Lemma zip3_rows {A B} (ls : list A) :
  forall (xs es : list (list B)),
    length xs = length ls -> length es = length ls ->
    map (fun t : A * list B * list B => snd (fst t) ++ snd t)
      (zip (zip ls xs) es) = zip_with app xs es
    /\ map (fun t : A * list B * list B => fst (fst t)) (zip (zip ls xs) es)
       = ls.
Proof.
  induction ls as [|l ls IH]; intros [|x xs] [|e es] Hx He;
    try discriminate; [split; reflexivity|].
  cbn in Hx, He. destruct (IH xs es) as [IH1 IH2]; [lia | lia |].
  cbn. rewrite IH1, IH2. split; reflexivity.
Qed.

(** The inner join of two tables with the same unique labels, one per
    row, puts the rows side by side. *)
Lemma pd_concat_inner_aligned (X E : DataFrame V) :
  NoDup (index_labels (df_index X)) ->
  index_labels (df_index E) = index_labels (df_index X) ->
  length (df_rows X) = length (index_labels (df_index X)) ->
  length (df_rows E) = length (index_labels (df_index X)) ->
  df_rows (pd_concat_inner X E) = zip_with app (df_rows X) (df_rows E)
  /\ index_labels (df_index (pd_concat_inner X E)) = index_labels (df_index X).
Proof.
  intros Hnd Hlab HX HE. unfold pd_concat_inner. cbn [df_rows df_index index_labels].
  set (labels := index_labels (df_index X)) in *.
  set (triples := zip (zip labels (df_rows X)) (df_rows E)).
  assert (Hz : zip labels (df_rows X) = triples.*1).
  { unfold triples. rewrite fst_zip; [reflexivity|].
    rewrite length_zip_with. lia. }
  rewrite Hz.
  rewrite (omap_total _ fst (fun t : label * list V * list V =>
                               (fst (fst t), snd (fst t) ++ snd t)) triples).
  2:{ apply Forall_lookup_2. intros i [[l xr] er] Ht.
      unfold triples in Ht. apply lookup_zip_with_Some in Ht
        as (p & er' & [= <- <-] & Hp & Her).
      apply lookup_zip_with_Some in Hp as (l' & xr' & [= <- <-] & Hl & _).
      cbn. rewrite (lookup_row_unique E i l), Her; [reflexivity| |];
        rewrite Hlab; assumption. }
  rewrite !map_map. cbn [fst snd].
  apply zip3_rows; assumption.
Qed.

End TrainMatrixFacts.

(** X17.  The training matrix with exogenous variables.  For lags between
    1 and [max_lag], a series whose labels are all different and an [exog]
    with the same labels (what the alignment check of [fit] establishes),
    whenever [_create_lags] returns the lag table [L] and the targets,
    [_create_train_X_y] returns the same targets and a matrix with the
    columns of [L] followed by those of [exog]: the inner join loses no
    row, and row [j] is row [j] of [L] followed by row [max_lag + j] of
    [exog], the one at the position of target [j]. *)
Theorem create_train_X_y_exog_rows {V M : Type} `{Float V} `{Regressor V M}
    (s : Forecaster V M) (y : Series V) (e : Exog V) (L : DataFrame V)
    (yt : Series V) :
  Forall (fun k => 1 <= k <= max_lag s) (lags s) ->
  series_ok y ->
  NoDup (index_labels (s_index y)) ->
  index_labels (exog_index e) = index_labels (s_index y) ->
  exog_len e = length (s_values y) ->
  _create_lags s y = Ok (L, yt) ->
  let m := Z.to_nat (max_lag s) in
  exists X,
    _create_train_X_y s y (Some e) = Ok (X, yt)
    /\ df_columns X = df_columns L ++ exog_columns e
    /\ df_rows X = zip_with app (df_rows L) (drop m (exog_rows e))
    /\ length (df_rows X) = length (s_values yt)
    /\ index_labels (df_index X) = drop m (index_labels (s_index y))
    /\ s_values yt = drop m (s_values y).
Proof.
  intros Hall Hy Hnd Hlab Hlen Hcl m. unfold series_ok in Hy.
  destruct (create_lags_width _ _ _ _ Hcl) as [Hm0 _].
  destruct (create_lags_targets _ _ _ _ Hall Hcl) as [Hyt HL].
  destruct (create_lags_frame _ _ _ _ Hcl) as [Hix _].
  assert (Hfrom : forall A (l : list A), py_slice_from l (max_lag s) = drop m l).
  { intros A l. unfold py_slice_from.
    destruct (Z.ltb_spec (max_lag s) 0); [lia | reflexivity]. }
  assert (Hrows : length (exog_rows e) = exog_len e).
  { destruct e; cbn [exog_rows exog_len]; [apply length_map | reflexivity]. }
  set (E := exog_iloc_from e (max_lag s)).
  assert (HlabL : index_labels (df_index L) = drop m (index_labels (s_index y))).
  { rewrite Hix, index_labels_slice_from. apply Hfrom. }
  assert (HlabE : index_labels (df_index E) = index_labels (df_index L)).
  { unfold E, exog_iloc_from. cbn [df_index].
    rewrite index_labels_slice_from, Hfrom, Hlab, HlabL. reflexivity. }
  assert (HrowsE : df_rows E = drop m (exog_rows e)).
  { unfold E, exog_iloc_from. cbn [df_rows]. apply Hfrom. }
  destruct (pd_concat_inner_aligned L E) as [Hr Hl].
  - rewrite HlabL. rewrite <- (take_drop m (index_labels (s_index y))) in Hnd.
    apply NoDup_app in Hnd as (_ & _ & Hnd). exact Hnd.
  - exact HlabE.
  - rewrite HL, Hyt, HlabL, !length_drop, Hy. reflexivity.
  - rewrite HrowsE, HlabL, !length_drop, Hrows, Hlen, Hy. reflexivity.
  - exists (pd_concat_inner L E).
    unfold _create_train_X_y. rewrite Hcl. cbn [rbind fst snd]. fold E.
    split; [reflexivity|]. split; [reflexivity|].
    split; [rewrite Hr, HrowsE; reflexivity|].
    split.
    { rewrite Hr, length_zip_with, HrowsE, HL, Hyt, !length_drop, Hrows, Hlen.
      lia. }
    split; [rewrite Hl; exact HlabL | exact Hyt].
Qed.

(** Witness of [create_train_X_y_exog_rows]: the lags 1 and 2 on six
    values, with an [exog] Series under the same RangeIndex. *)
Lemma create_train_X_y_exog_rows_witness :
  let s := example_forecaster in
  let y := example_y in
  let e := ExogSeries (mkSeries (RangeIndex 0 6)
                         [Some 10; Some 20; Some 30; Some 40; Some 50; Some 60]) in
  exists L yt,
    (Forall (fun k => 1 <= k <= max_lag s) (lags s)
     /\ series_ok y
     /\ NoDup (index_labels (s_index y))
     /\ index_labels (exog_index e) = index_labels (s_index y)
     /\ exog_len e = length (s_values y)
     /\ _create_lags s y = Ok (L, yt))
    /\ exists X,
         _create_train_X_y s y (Some e) = Ok (X, yt)
         /\ df_rows X = zip_with app (df_rows L) (drop 2 (exog_rows e))
         /\ length (df_rows X) = length (s_values yt).
Proof.
  intros s y e.
  assert (Hcl : exists L yt, _create_lags s y = Ok (L, yt))
    by (eexists _, _; vm_compute; reflexivity).
  destruct Hcl as (L & yt & Hcl). exists L, yt.
  assert (H1 : Forall (fun k => 1 <= k <= max_lag s) (lags s))
    by (repeat constructor; cbn; lia).
  assert (H2 : series_ok y) by reflexivity.
  assert (H3 : NoDup (index_labels (s_index y)))
    by (apply (bool_decide_unpack _); vm_compute; exact I).
  assert (H4 : index_labels (exog_index e) = index_labels (s_index y))
    by reflexivity.
  assert (H5 : exog_len e = length (s_values y)) by reflexivity.
  split; [exact (conj H1 (conj H2 (conj H3 (conj H4 (conj H5 Hcl)))))|].
  destruct (create_train_X_y_exog_rows s y e L yt H1 H2 H3 H4 H5 Hcl)
    as (X & HX & _ & Hrows & Hlen & _).
  exists X. split; [exact HX|]. split; [exact Hrows | exact Hlen].
Defined.

(** The matrix of the witness: the two lags of each target, the nearest
    first, then the value of [exog] at the position of the target. *)
Example create_train_X_y_exog_example :
  exists X yt,
    _create_train_X_y example_forecaster example_y
      (Some (ExogSeries (mkSeries (RangeIndex 0 6)
                           [Some 10; Some 20; Some 30; Some 40; Some 50; Some 60])))
    = Ok (X, yt)
    /\ df_rows X = [[Some 2; Some 1; Some 30]; [Some 3; Some 2; Some 40];
                    [Some 5; Some 3; Some 50]; [Some 8; Some 5; Some 60]]
    /\ s_values yt = [Some 3; Some 5; Some 8; Some 13].
Proof.
  eexists _, _. split; [vm_compute; reflexivity|]. split; reflexivity.
Qed.
